(** * Sender-Receiver signaling game: the round/role coordination core

    A shallow embedding of the server side of the Sender-Receiver stage:
    the seeded generator of balanced defaults ([SeededRandom],
    [generateBalancedDefaults], [getRoundDefault]), the payoff rules
    ([calculatePayoffs]) and the callable endpoint
    [submitSenderReceiverAction] with its Firestore transaction; and, of
    the participant's browser, the countdown and the handlers of the
    participant view that decide what is sent to the endpoint. *)

From Stdlib Require Import ZArith QArith Qround Qabs Qpower Lia Lqa Ascii String.
From stdpp Require Import base option list gmap strings pretty.

Local Open Scope Z_scope.

(** ** JavaScript numbers

    A finite JavaScript number is an IEEE-754 binary64 value, hence a
    rational.  Numbers are modelled by that rational, and every arithmetic
    operation whose exact result may fall outside the 53-bit significand
    is followed by [fl], rounding to nearest with ties to even.  The
    exponent range of binary64 (overflow above 2^1024, gradual underflow
    below 2^-1022) is not modelled: the quantities of this program stay
    between 2^-31 and 2^62. *)
Module Double.

Definition pow2 (e : Z) : Q := (2 ^ e)%Q.

(** [ilog2 q] is the binary exponent of a positive [q]:
    2^(ilog2 q) <= q < 2^(ilog2 q + 1). *)
Definition ilog2 (q : Q) : Z :=
  let e0 := Z.log2 (Qnum q) - Z.log2 (Zpos (Qden q)) in
  if Qle_bool (pow2 e0) q then e0 else e0 - 1.

(** nearest integer, ties to the even one *)
Definition round_half_even (q : Q) : Z :=
  let f := Qfloor q in
  match Qcompare (q - inject_Z f) (1 # 2) with
  | Lt => f
  | Gt => f + 1
  | Eq => if Z.even f then f else f + 1
  end.

Definition fl_pos (q : Q) : Q :=
  let e := ilog2 q in
  (inject_Z (round_half_even (q * pow2 (52 - e))) * pow2 (e - 52))%Q.

Definition fl (q : Q) : Q :=
  match Qcompare q 0 with
  | Eq => 0%Q
  | Gt => fl_pos q
  | Lt => (- fl_pos (- q))%Q
  end.

Definition mul (x y : Q) : Q := fl (x * y).
Definition add (x y : Q) : Q := fl (x + y).
Definition sub (x y : Q) : Q := fl (x - y).
Definition div (x y : Q) : Q := fl (x / y).

(** truncation toward zero, the first step of ToInt32 *)
Definition trunc (x : Q) : Z :=
  if Qle_bool 0 x then Qfloor x else Qceiling x.

(** ToInt32: the integer part modulo 2^32, read as a signed 32-bit value *)
Definition wrap32 (z : Z) : Z :=
  let m := z mod 2 ^ 32 in
  if m <? 2 ^ 31 then m else m - 2 ^ 32.

Definition ToInt32 (x : Q) : Z := wrap32 (trunc x).

(** Math.floor and Math.round (halves go up) *)
Definition floor (x : Q) : Z := Qfloor x.
Definition round (x : Q) : Z := Qfloor (x + (1 # 2)).

End Double.

(** ** Arrays

    A JavaScript array is a list of slots; [None] is a slot holding
    [undefined].  Reading past the end yields [undefined], writing past
    the end extends the array.  An array has at most 2^32 - 1 elements. *)
Module JsArray.
Abbreviation array T := (list (option T)).

Section Ops.
Context {T : Type}.

(** [Array(n).fill(x)]: a RangeError unless 0 <= n < 2^32 *)
Definition fill (n : Z) (x : T) : option (array T) :=
  if (0 <=? n) && (n <? 2 ^ 32) then Some (replicate (Z.to_nat n) (Some x))
  else None.

Definition get (a : array T) (i : Z) : option T :=
  if i <? 0 then None else mjoin (a !! Z.to_nat i).

Definition store (a : array T) (i : Z) (v : option T) : array T :=
  if i <? 0 then a
  else if (Z.to_nat i <? length a)%nat then <[Z.to_nat i := v]> a
  else a ++ replicate (Z.to_nat i - length a) None ++ [v].

(** [[a[i], a[j]] = [a[j], a[i]]] *)
Definition swap (a : array T) (i j : Z) : array T :=
  let vj := get a j in
  let vi := get a i in
  store (store a i vj) j vi.

(** The first [n] of the values [vs]. *)
Fixpoint upTo (n : Z) (vs : list T) : list T :=
  match vs with
  | [] => []
  | v :: vs' => if 0 <? n then v :: upTo (n - 1) vs' else []
  end.
End Ops.

(** [[...a, ...b]]: every spread value is stored under the next index.
    From index 2^32 - 1 on that key is no array index: the value
    becomes an ordinary property, the length stays at 2^32 - 1, and
    the copy [[...arr]] that [shuffle] makes does not contain it. *)
Definition spread {T} (a b : array T) : array T :=
  upTo (2 ^ 32 - 1) (a ++ b).

(** [a.push(v)] on an array without holes: a RangeError when the
    length would pass 2^32 - 1 *)
Definition push {T} (a : list T) (v : T) : option (list T) :=
  if Z.of_nat (length a) <? 2 ^ 32 - 1 then Some (a ++ [v]) else None.
End JsArray.

(** ** SeededRandom *)
Module SeededRandom.
Import Double JsArray.

(** [str.charCodeAt(i)]; the seeds are built from participant and stage
    ids, strings of one-byte characters *)
Definition charCodeAt (c : ascii) : Z := Z.of_nat (nat_of_ascii c).

(** [hash = (hash << 5) - hash + str.charCodeAt(i); hash |= 0] *)
Fixpoint hashLoop (str : string) (hash : Z) : Z :=
  match str with
  | EmptyString => hash
  | String c rest =>
      hashLoop rest (wrap32 (wrap32 (hash * 32) - hash + charCodeAt c))
  end.

Definition hashString (str : string) : Z := Z.abs (hashLoop str 0).

(** [new SeededRandom(seed)] with a string seed *)
Definition create (seed : string) : Z := hashString seed.

(** [this.seed = (this.seed * 1103515245 + 12345) & 0x7fffffff] *)
Definition step (seed : Z) : Z :=
  Z.land (ToInt32 (add (mul (inject_Z seed) 1103515245) 12345)) 0x7fffffff.

(** [next()]: the new seed and the returned number
    [this.seed / 0x7fffffff] *)
Definition next (seed : Z) : Z * Q :=
  let seed' := step seed in
  (seed', div (inject_Z seed') (inject_Z 0x7fffffff)).

(** [shuffle]: the loop [for (i = result.length - 1; i > 0; i--)],
    by recursion on [i] *)
Fixpoint shuffleFrom {T} (i : nat) (seed : Z) (result : array T)
  : Z * array T :=
  match i with
  | O => (seed, result)
  | S i' =>
      let '(seed', r) := next seed in
      let j := floor (mul r (inject_Z (Z.of_nat i + 1))) in
      shuffleFrom i' seed' (swap result (Z.of_nat i) j)
  end.

Definition shuffle {T} (arr : array T) (seed : Z) : Z * array T :=
  shuffleFrom (length arr - 1)%nat seed arr.

End SeededRandom.

(** ** Exceptions

    A call either returns or throws; [HttpsError] carries the code of
    [functions.https.HttpsError]. *)
Inductive ErrorCode :=
| unauthenticated | not_found | permission_denied | failed_precondition
| invalid_argument.

Inductive Exn :=
| RangeError
| TypeError
| HttpsError (code : ErrorCode) (message : string).

Inductive Result (X : Type) :=
| Ok (x : X)
| Throw (e : Exn).
Arguments Ok {X} x.
Arguments Throw {X} e.

Global Instance Result_ret : MRet Result := fun X x => Ok x.
Global Instance Result_bind : MBind Result := fun X Y k r =>
  match r with
  | Ok x => k x
  | Throw e => Throw e
  end.

Definition orThrow {X} (e : Exn) (o : option X) : Result X :=
  match o with
  | Some x => Ok x
  | None => Throw e
  end.

(** ** Balanced defaults *)
Inductive Choice := A | B.

Global Instance Choice_eq_dec : EqDecision Choice.
Proof. solve_decision. Defined.

Module RoundDefaults.
Record t := mk {
  round : Z;
  trueState : Z;
  senderDefault : option Choice;   (* [None]: an undefined array slot *)
  receiverDefault : option Choice;
}.
End RoundDefaults.

Module Generator.
Import Double JsArray SeededRandom.

(** [[...Array(a).fill(x), ...Array(b).fill(y)]] *)
Definition filled {T} (a : Z) (x : T) (b : Z) (y : T) : Result (array T) :=
  xs ← orThrow RangeError (fill a x);
  ys ← orThrow RangeError (fill b y);
  Ok (spread xs ys).

(** The loop [for (let i = 0; i < numRounds; i++)] with its counters
    [idx1], [idx2] and the accumulated [results]; [n] counts the
    iterations left. *)
Fixpoint zipRounds (shuffledStates : array Z)
    (senderDefaultsState1 senderDefaultsState2
     receiverDefaultsState1 receiverDefaultsState2 : array Choice)
    (n : nat) (i idx1 idx2 : Z) (results : list RoundDefaults.t)
  : Result (list RoundDefaults.t) :=
  match n with
  | O => Ok results
  | S n' =>
      if decide (get shuffledStates i = Some 1) then
        results ←
          orThrow RangeError
            (push results
               (RoundDefaults.mk (i + 1) 1
                  (get senderDefaultsState1 idx1)
                  (get receiverDefaultsState1 idx1)));
        zipRounds shuffledStates senderDefaultsState1 senderDefaultsState2
          receiverDefaultsState1 receiverDefaultsState2 n' (i + 1)
          (idx1 + 1) idx2 results
      else
        results ←
          orThrow RangeError
            (push results
               (RoundDefaults.mk (i + 1) 2
                  (get senderDefaultsState2 idx2)
                  (get receiverDefaultsState2 idx2)));
        zipRounds shuffledStates senderDefaultsState1 senderDefaultsState2
          receiverDefaultsState1 receiverDefaultsState2 n' (i + 1)
          idx1 (idx2 + 1) results
  end.

Definition generateBalancedDefaults
    (numRounds : Z) (state1Probability : Q) (seed : string)
  : Result (list RoundDefaults.t) :=
  let rng := create seed in
  let numState1 := round (mul (inject_Z numRounds) state1Probability) in
  let numState2 := numRounds - numState1 in
  states ← filled numState1 1 numState2 2;
  let '(rng, shuffledStates) := shuffle states rng in
  let state1ACount := numState1 / 2 in
  let state1BCount := numState1 - state1ACount in
  let state2ACount := numState2 / 2 in
  let state2BCount := numState2 - state2ACount in
  s1 ← filled state1ACount A state1BCount B;
  let '(rng, senderDefaultsState1) := shuffle s1 rng in
  s2 ← filled state2ACount A state2BCount B;
  let '(rng, senderDefaultsState2) := shuffle s2 rng in
  r1 ← filled state1ACount A state1BCount B;
  let '(rng, receiverDefaultsState1) := shuffle r1 rng in
  r2 ← filled state2ACount A state2BCount B;
  let '(rng, receiverDefaultsState2) := shuffle r2 rng in
  zipRounds shuffledStates senderDefaultsState1 senderDefaultsState2
    receiverDefaultsState1 receiverDefaultsState2
    (Z.to_nat numRounds) 0 0 0 [].

(** [allDefaults[roundNumber - 1]]; [None] is [undefined] *)
Definition getRoundDefault
    (roundNumber numRounds : Z) (state1Probability : Q)
    (participantPairSeed : string)
  : Result (option RoundDefaults.t) :=
  allDefaults ←
    generateBalancedDefaults numRounds state1Probability participantPairSeed;
  Ok (if roundNumber - 1 <? 0 then None
      else allDefaults !! Z.to_nat (roundNumber - 1)).

End Generator.

(** ** The stored documents *)

(** A property of a stored object: absent ([undefined]), [null], or a
    value. *)
Inductive field (T : Type) :=
| undefined
| null
| val (t : T).
Arguments undefined {T}.
Arguments null {T}.
Arguments val {T} t.

(** JavaScript truthiness of a flag and of an object-valued property *)
Definition isTrue (f : field bool) : bool :=
  match f with
  | val true => true
  | _ => false
  end.

Definition isSet {T} (f : field T) : bool :=
  match f with
  | val _ => true
  | _ => false
  end.

(** [x ?? d] and [x || null] on optional request fields *)
Definition orNull {T} (o : option T) : field T :=
  match o with
  | Some t => val t
  | None => null
  end.

Inductive Status :=
| WAITING_BOTH_START
| WAITING_SENDER_DECIDE
| WAITING_RECEIVER_DECIDE
| SHOW_FEEDBACK.

Global Instance Status_eq_dec : EqDecision Status.
Proof. solve_decision. Defined.

(** A Firestore [Timestamp], kept as its millisecond count [toMillis()]. *)
Definition Timestamp := Z.
Definition toMillis (t : Timestamp) : Z := t.

(** [SenderReceiverRoundData], with the two properties [senderLabel] and
    [defaultSenderLabel] that [createNewRound] still writes. *)
Module RoundData.
#[projections(primitive)]
Record t := mk {
  roundNumber : Z;
  trueState : Z;
  status : Status;
  senderReadyStart : field bool;
  receiverReadyStart : field bool;
  senderChoice : field Choice;
  senderLabel : field Choice;
  senderMessage : field string;
  receiverChoice : field Choice;
  defaultSenderChoice : field Choice;
  defaultSenderLabel : field Choice;
  defaultReceiverChoice : field Choice;
  senderTimedOut : bool;
  receiverTimedOut : bool;
  senderPayoff : field Q;
  receiverPayoff : field Q;
  senderReadyNext : field bool;
  receiverReadyNext : field bool;
  startTime : field Timestamp;
  senderUnlockedTime : field Timestamp;
  senderSubmittedTime : field Timestamp;
  receiverSawMessageTime : field Timestamp;
  receiverUnlockedTime : field Timestamp;
  receiverSubmittedTime : field Timestamp;
  senderReactionTimeSeconds : field Q;
  receiverReactionTimeSeconds : field Q;
  senderActiveTimeSeconds : field Q;
  receiverActiveTimeSeconds : field Q;
}.

(** One write [roundMap.<n>.<property> = v] of an update. *)
Inductive write :=
| w_roundNumber (v : Z)
| w_trueState (v : Z)
| w_status (v : Status)
| w_senderReadyStart (v : field bool)
| w_receiverReadyStart (v : field bool)
| w_senderChoice (v : field Choice)
| w_senderLabel (v : field Choice)
| w_senderMessage (v : field string)
| w_receiverChoice (v : field Choice)
| w_defaultSenderChoice (v : field Choice)
| w_defaultSenderLabel (v : field Choice)
| w_defaultReceiverChoice (v : field Choice)
| w_senderTimedOut (v : bool)
| w_receiverTimedOut (v : bool)
| w_senderPayoff (v : field Q)
| w_receiverPayoff (v : field Q)
| w_senderReadyNext (v : field bool)
| w_receiverReadyNext (v : field bool)
| w_startTime (v : field Timestamp)
| w_senderUnlockedTime (v : field Timestamp)
| w_senderSubmittedTime (v : field Timestamp)
| w_receiverSawMessageTime (v : field Timestamp)
| w_receiverUnlockedTime (v : field Timestamp)
| w_receiverSubmittedTime (v : field Timestamp)
| w_senderReactionTimeSeconds (v : field Q)
| w_receiverReactionTimeSeconds (v : field Q)
| w_senderActiveTimeSeconds (v : field Q)
| w_receiverActiveTimeSeconds (v : field Q).

Definition apply (w : write) (r : t) : t :=
  let 'mk x0 x1 x2 x3 x4 x5 x6 x7 x8 x9 x10 x11 x12 x13 x14 x15 x16 x17
         x18 x19 x20 x21 x22 x23 x24 x25 x26 x27 := r in
  match w with
  | w_roundNumber v =>
      mk v x1 x2 x3 x4 x5 x6 x7 x8 x9 x10 x11 x12 x13 x14 x15 x16 x17 x18
        x19 x20 x21 x22 x23 x24 x25 x26 x27
  | w_trueState v =>
      mk x0 v x2 x3 x4 x5 x6 x7 x8 x9 x10 x11 x12 x13 x14 x15 x16 x17 x18
        x19 x20 x21 x22 x23 x24 x25 x26 x27
  | w_status v =>
      mk x0 x1 v x3 x4 x5 x6 x7 x8 x9 x10 x11 x12 x13 x14 x15 x16 x17 x18
        x19 x20 x21 x22 x23 x24 x25 x26 x27
  | w_senderReadyStart v =>
      mk x0 x1 x2 v x4 x5 x6 x7 x8 x9 x10 x11 x12 x13 x14 x15 x16 x17 x18
        x19 x20 x21 x22 x23 x24 x25 x26 x27
  | w_receiverReadyStart v =>
      mk x0 x1 x2 x3 v x5 x6 x7 x8 x9 x10 x11 x12 x13 x14 x15 x16 x17 x18
        x19 x20 x21 x22 x23 x24 x25 x26 x27
  | w_senderChoice v =>
      mk x0 x1 x2 x3 x4 v x6 x7 x8 x9 x10 x11 x12 x13 x14 x15 x16 x17 x18
        x19 x20 x21 x22 x23 x24 x25 x26 x27
  | w_senderLabel v =>
      mk x0 x1 x2 x3 x4 x5 v x7 x8 x9 x10 x11 x12 x13 x14 x15 x16 x17 x18
        x19 x20 x21 x22 x23 x24 x25 x26 x27
  | w_senderMessage v =>
      mk x0 x1 x2 x3 x4 x5 x6 v x8 x9 x10 x11 x12 x13 x14 x15 x16 x17 x18
        x19 x20 x21 x22 x23 x24 x25 x26 x27
  | w_receiverChoice v =>
      mk x0 x1 x2 x3 x4 x5 x6 x7 v x9 x10 x11 x12 x13 x14 x15 x16 x17 x18
        x19 x20 x21 x22 x23 x24 x25 x26 x27
  | w_defaultSenderChoice v =>
      mk x0 x1 x2 x3 x4 x5 x6 x7 x8 v x10 x11 x12 x13 x14 x15 x16 x17 x18
        x19 x20 x21 x22 x23 x24 x25 x26 x27
  | w_defaultSenderLabel v =>
      mk x0 x1 x2 x3 x4 x5 x6 x7 x8 x9 v x11 x12 x13 x14 x15 x16 x17 x18
        x19 x20 x21 x22 x23 x24 x25 x26 x27
  | w_defaultReceiverChoice v =>
      mk x0 x1 x2 x3 x4 x5 x6 x7 x8 x9 x10 v x12 x13 x14 x15 x16 x17 x18
        x19 x20 x21 x22 x23 x24 x25 x26 x27
  | w_senderTimedOut v =>
      mk x0 x1 x2 x3 x4 x5 x6 x7 x8 x9 x10 x11 v x13 x14 x15 x16 x17 x18
        x19 x20 x21 x22 x23 x24 x25 x26 x27
  | w_receiverTimedOut v =>
      mk x0 x1 x2 x3 x4 x5 x6 x7 x8 x9 x10 x11 x12 v x14 x15 x16 x17 x18
        x19 x20 x21 x22 x23 x24 x25 x26 x27
  | w_senderPayoff v =>
      mk x0 x1 x2 x3 x4 x5 x6 x7 x8 x9 x10 x11 x12 x13 v x15 x16 x17 x18
        x19 x20 x21 x22 x23 x24 x25 x26 x27
  | w_receiverPayoff v =>
      mk x0 x1 x2 x3 x4 x5 x6 x7 x8 x9 x10 x11 x12 x13 x14 v x16 x17 x18
        x19 x20 x21 x22 x23 x24 x25 x26 x27
  | w_senderReadyNext v =>
      mk x0 x1 x2 x3 x4 x5 x6 x7 x8 x9 x10 x11 x12 x13 x14 x15 v x17 x18
        x19 x20 x21 x22 x23 x24 x25 x26 x27
  | w_receiverReadyNext v =>
      mk x0 x1 x2 x3 x4 x5 x6 x7 x8 x9 x10 x11 x12 x13 x14 x15 x16 v x18
        x19 x20 x21 x22 x23 x24 x25 x26 x27
  | w_startTime v =>
      mk x0 x1 x2 x3 x4 x5 x6 x7 x8 x9 x10 x11 x12 x13 x14 x15 x16 x17 v
        x19 x20 x21 x22 x23 x24 x25 x26 x27
  | w_senderUnlockedTime v =>
      mk x0 x1 x2 x3 x4 x5 x6 x7 x8 x9 x10 x11 x12 x13 x14 x15 x16 x17 x18
        v x20 x21 x22 x23 x24 x25 x26 x27
  | w_senderSubmittedTime v =>
      mk x0 x1 x2 x3 x4 x5 x6 x7 x8 x9 x10 x11 x12 x13 x14 x15 x16 x17 x18
        x19 v x21 x22 x23 x24 x25 x26 x27
  | w_receiverSawMessageTime v =>
      mk x0 x1 x2 x3 x4 x5 x6 x7 x8 x9 x10 x11 x12 x13 x14 x15 x16 x17 x18
        x19 x20 v x22 x23 x24 x25 x26 x27
  | w_receiverUnlockedTime v =>
      mk x0 x1 x2 x3 x4 x5 x6 x7 x8 x9 x10 x11 x12 x13 x14 x15 x16 x17 x18
        x19 x20 x21 v x23 x24 x25 x26 x27
  | w_receiverSubmittedTime v =>
      mk x0 x1 x2 x3 x4 x5 x6 x7 x8 x9 x10 x11 x12 x13 x14 x15 x16 x17 x18
        x19 x20 x21 x22 v x24 x25 x26 x27
  | w_senderReactionTimeSeconds v =>
      mk x0 x1 x2 x3 x4 x5 x6 x7 x8 x9 x10 x11 x12 x13 x14 x15 x16 x17 x18
        x19 x20 x21 x22 x23 v x25 x26 x27
  | w_receiverReactionTimeSeconds v =>
      mk x0 x1 x2 x3 x4 x5 x6 x7 x8 x9 x10 x11 x12 x13 x14 x15 x16 x17 x18
        x19 x20 x21 x22 x23 x24 v x26 x27
  | w_senderActiveTimeSeconds v =>
      mk x0 x1 x2 x3 x4 x5 x6 x7 x8 x9 x10 x11 x12 x13 x14 x15 x16 x17 x18
        x19 x20 x21 x22 x23 x24 x25 v x27
  | w_receiverActiveTimeSeconds v =>
      mk x0 x1 x2 x3 x4 x5 x6 x7 x8 x9 x10 x11 x12 x13 x14 x15 x16 x17 x18
        x19 x20 x21 x22 x23 x24 x25 x26 v
  end.
End RoundData.

Inductive StageKind :=
| SENDER_RECEIVER
| OTHER_STAGE.

Inductive Role := sender | receiver.

Global Instance Role_eq_dec : EqDecision Role.
Proof. solve_decision. Defined.

(** The part of [SenderReceiverStageConfig] the server reads. *)
Module Config.
Record t := mk {
  kind : StageKind;
  numRounds : Z;
  state1Probability : option Q;   (* read through [?? 0.5] *)
  requireParticipantClick : bool;
  enableBalancedDefaults : bool;
  payoffSenderChoiceA : Q;
  payoffSenderChoiceB1 : Q;
  payoffSenderChoiceB2 : Q;
  payoffReceiverChoiceA : Q;
  payoffReceiverChoiceB1 : Q;
  payoffReceiverChoiceB2 : Q;
}.
End Config.

(** [SenderReceiverStagePublicData]: the GameInstance document. *)
Module PublicData.
Record t := mk {
  id : string;
  kind : StageKind;
  senderId : option string;
  receiverId : option string;
  currentRound : Z;
  roundMap : gmap Z RoundData.t;
}.

(** One path of a [transaction.update] call. *)
Inductive write :=
| w_senderId (userId : string)
| w_receiverId (userId : string)
| w_currentRound (n : Z)
| w_round (n : Z) (r : RoundData.t)               (* [roundMap.<n>] *)
| w_roundField (n : Z) (w : RoundData.write).     (* [roundMap.<n>.<p>] *)

(** The handlers write round properties only into the round they have
    read, so a path into a missing round does not occur; [alter] leaves
    the map alone there. *)
Definition apply (d : t) (w : write) : t :=
  match w with
  | w_senderId u =>
      mk (id d) (kind d) (Some u) (receiverId d) (currentRound d) (roundMap d)
  | w_receiverId u =>
      mk (id d) (kind d) (senderId d) (Some u) (currentRound d) (roundMap d)
  | w_currentRound n =>
      mk (id d) (kind d) (senderId d) (receiverId d) n (roundMap d)
  | w_round n r =>
      mk (id d) (kind d) (senderId d) (receiverId d) (currentRound d)
        (<[n := r]> (roundMap d))
  | w_roundField n w =>
      mk (id d) (kind d) (senderId d) (receiverId d) (currentRound d)
        (alter (RoundData.apply w) n (roundMap d))
  end.

Definition applyAll (d : t) (ws : list write) : t := foldl apply d ws.
End PublicData.

(** [createSenderReceiverStagePublicData] *)
Definition createSenderReceiverStagePublicData (id : string) : PublicData.t :=
  PublicData.mk id SENDER_RECEIVER None None 1 ∅.

(** [SenderReceiverActionData] *)
Inductive Action :=
| assign_role
| start_game
| sender_signal
| receiver_saw_message
| receiver_choice
| next_round.

Global Instance Action_eq_dec : EqDecision Action.
Proof. solve_decision. Defined.

Module Payload.
Record t := mk {
  senderChoice : field Choice;
  senderMessage : option string;
  receiverChoice : option Choice;
  participantId : option string;
  requestedRole : option Role;
  activeTimeSeconds : option Q;
  isTimedOut : option bool;
}.

(** a request without [payload]: every [payload?.x] is [undefined] *)
Definition absent : t := mk undefined None None None None None None.
End Payload.

Module Request.
Record t := mk {
  experimentId : string;
  cohortId : string;
  stageId : string;
  action : Action;
  payload : option Payload.t;
  auth_uid : option string;         (* [request.auth?.uid] *)
}.
End Request.

(** What a call reads from outside the request and the instance
    document: the emulator flag, the successive readings of
    [Timestamp.now()], the stage configuration and the cohort's other
    public documents. *)
Module Env.
Record t := mk {
  FUNCTIONS_EMULATOR : bool;
  now : nat -> Timestamp;
  stage : option Config.t;                        (* [getFirestoreStage] *)
  cohortPublicData : list (string * PublicData.t) (* the cohort's snapshot *)
}.
End Env.

(** Truthiness of strings and of nullable ids *)
Definition truthy (s : string) : bool := negb (String.eqb s "").

Definition truthyId (o : option string) : bool :=
  match o with
  | Some s => truthy s
  | None => false
  end.

Definition isUser (o : option string) (userId : string) : bool :=
  match o with
  | Some s => String.eqb s userId
  | None => false
  end.

(** [`${senderId}-${receiverId}-${stageId}`] *)
Definition showId (o : option string) : string := default "null" o.

Definition pairSeedOf (senderId receiverId : option string) (stageId : string)
  : string :=
  showId senderId +:+ "-" +:+ showId receiverId +:+ "-" +:+ stageId.

Definition httpsError {X} (code : ErrorCode) (message : string) : Result X :=
  Throw (HttpsError code message).

(** [config.state1Probability ?? 0.5] *)
Definition probabilityOf (config : Config.t) : Q :=
  default (1 # 2)%Q (Config.state1Probability config).

(** ** sender_receiver.utils *)
Module Utils.
Import Generator.

(** The object returned by [createNewRound]; [now] gives the readings
    of [Timestamp.now()]. *)
Definition roundObject (now : nat -> Timestamp) (roundNumber trueState : Z)
    (isFirstRound : bool) : RoundData.t :=
  let initialStatus :=
    if isFirstRound then WAITING_BOTH_START else WAITING_SENDER_DECIDE in
  {| RoundData.roundNumber := roundNumber;
     RoundData.trueState := trueState;
     RoundData.status := initialStatus;
     RoundData.senderLabel := null;
     RoundData.senderMessage := null;
     RoundData.receiverChoice := null;
     RoundData.senderPayoff := null;
     RoundData.receiverPayoff := null;
     RoundData.defaultSenderLabel := null;
     RoundData.defaultReceiverChoice := null;
     RoundData.senderTimedOut := false;
     RoundData.receiverTimedOut := false;
     RoundData.senderReadyStart := val false;
     RoundData.receiverReadyStart := val false;
     RoundData.startTime := if isFirstRound then null else val (now 0%nat);
     RoundData.senderUnlockedTime :=
       if isFirstRound then null else val (now 1%nat);
     RoundData.senderSubmittedTime := null;
     RoundData.receiverSawMessageTime := null;
     RoundData.receiverUnlockedTime := null;
     RoundData.receiverSubmittedTime := null;
     RoundData.senderReactionTimeSeconds := null;
     RoundData.receiverReactionTimeSeconds := null;
     RoundData.senderActiveTimeSeconds := null;
     RoundData.receiverActiveTimeSeconds := null;
     (* properties the object literal does not have *)
     RoundData.senderChoice := undefined;
     RoundData.defaultSenderChoice := undefined;
     RoundData.senderReadyNext := undefined;
     RoundData.receiverReadyNext := undefined |}.

(** [createNewRound] *)
Definition createNewRound (now : nat -> Timestamp)
    (roundNumber : Z) (config : Config.t) (pairSeed : string)
    (isFirstRound : bool) : Result RoundData.t :=
  roundDefaults ←
    getRoundDefault roundNumber (Config.numRounds config)
      (probabilityOf config) pairSeed;
  (* [roundDefaults.trueState] of [undefined] is a TypeError *)
  defaults ← orThrow TypeError roundDefaults;
  let trueState := RoundDefaults.trueState defaults in
  Ok (roundObject now roundNumber trueState isFirstRound).

(** [startGameIfReady]: [Ok None] is the [null] result. *)
Definition startGameIfReady (now : nat -> Timestamp)
    (publicData : PublicData.t) (config : Config.t) (stageId : string)
  : Result (option (list PublicData.write)) :=
  if negb (truthyId (PublicData.senderId publicData))
     || negb (truthyId (PublicData.receiverId publicData))
  then Ok None
  else if bool_decide (is_Some (PublicData.roundMap publicData !! 1))
  then Ok None
  else
    let pairSeed :=
      pairSeedOf (PublicData.senderId publicData)
        (PublicData.receiverId publicData) stageId in
    firstRound ← createNewRound now 1 config pairSeed true;
    Ok (Some [PublicData.w_round 1 firstRound; PublicData.w_currentRound 1]).

(** [calculatePayoffs]: the pair (senderPayoff, receiverPayoff) *)
Definition calculatePayoffs (choice : Choice) (trueState : Z)
    (config : Config.t) : Q * Q :=
  match choice with
  | A =>
      (Config.payoffSenderChoiceA config, Config.payoffReceiverChoiceA config)
  | B =>
      if trueState =? 1 then
        (Config.payoffSenderChoiceB1 config,
         Config.payoffReceiverChoiceB1 config)
      else
        (Config.payoffSenderChoiceB2 config,
         Config.payoffReceiverChoiceB2 config)
  end.
End Utils.

(** ** sender_receiver.endpoints *)
Module Endpoints.
Import Generator Utils.

Definition statusName (s : Status) : string :=
  match s with
  | WAITING_BOTH_START => "WAITING_BOTH_START"
  | WAITING_SENDER_DECIDE => "WAITING_SENDER_DECIDE"
  | WAITING_RECEIVER_DECIDE => "WAITING_RECEIVER_DECIDE"
  | SHOW_FEEDBACK => "SHOW_FEEDBACK"
  end.

Definition roleName (r : Role) : string :=
  match r with
  | sender => "sender"
  | receiver => "receiver"
  end.

Definition payloadOf (req : Request.t) : Payload.t :=
  default Payload.absent (Request.payload req).

(** The [snapshot.forEach] of the history check: the last matching
    document decides, and within one document receiver wins. *)
Definition historicalRoleOf (stageId userId : string)
    (snapshot : list (string * PublicData.t)) : option Role :=
  foldl (fun historicalRole doc =>
           if String.eqb (fst doc) stageId then historicalRole
           else
             match PublicData.kind (snd doc) with
             | SENDER_RECEIVER =>
                 let h1 :=
                   if isUser (PublicData.senderId (snd doc)) userId
                   then Some sender else historicalRole in
                 if isUser (PublicData.receiverId (snd doc)) userId
                 then Some receiver else h1
             | OTHER_STAGE => historicalRole
             end)
        None snapshot.

Definition isRole (o : option Role) (r : Role) : bool :=
  match o, r with
  | Some sender, sender | Some receiver, receiver => true
  | _, _ => false
  end.

(** A. assign_role, after the idempotency check: the [updates] object
    built by the priority logic, the history check and the
    first-come-first-served fallback. *)
Definition assignUpdates (env : Env.t) (stageId userId : string)
    (reqRole : option Role) (currentPublicData : PublicData.t)
  : Result (list PublicData.write) :=
  let senderFree := negb (truthyId (PublicData.senderId currentPublicData)) in
  let receiverFree :=
    negb (truthyId (PublicData.receiverId currentPublicData)) in
  let '(updates, assigned) :=
    if isRole reqRole sender && senderFree
    then ([PublicData.w_senderId userId], true)
    else if isRole reqRole receiver && receiverFree
    then ([PublicData.w_receiverId userId], true)
    else ([], false) in
  let '(updates, assigned) :=
    if negb assigned && negb (bool_decide (is_Some reqRole)) then
      let historicalRole :=
        historicalRoleOf stageId userId (Env.cohortPublicData env) in
      if isRole historicalRole sender && senderFree
      then (updates ++ [PublicData.w_senderId userId], true)
      else if isRole historicalRole receiver && receiverFree
      then (updates ++ [PublicData.w_receiverId userId], true)
      else (updates, assigned)
    else (updates, assigned) in
  if negb assigned && negb (bool_decide (is_Some reqRole)) then
    if senderFree then Ok (updates ++ [PublicData.w_senderId userId])
    else if receiverFree then Ok (updates ++ [PublicData.w_receiverId userId])
    else httpsError failed_precondition "Roles are full"
  else if negb assigned then
    httpsError failed_precondition
      ("Requested role " +:+ from_option roleName "" reqRole
       +:+ " is not available.")
  else Ok updates.

Definition assignRole (env : Env.t) (req : Request.t) (config : Config.t)
    (userId : string) (currentPublicData : PublicData.t)
  : Result (list PublicData.write) :=
  if isUser (PublicData.senderId currentPublicData) userId
     || isUser (PublicData.receiverId currentPublicData) userId
  then Ok []
  else
    updates ←
      assignUpdates env (Request.stageId req) userId
        (Payload.requestedRole (payloadOf req)) currentPublicData;
    let simulatedData := PublicData.applyAll currentPublicData updates in
    startUpdates ←
      startGameIfReady (Env.now env) simulatedData config (Request.stageId req);
    Ok (updates ++ default [] startUpdates).

(** [(nowMs - unlockedMs) / 1000] when the unlock time is set *)
Definition reactionTime (unlocked : field Timestamp) (now : Timestamp)
  : field Q :=
  match unlocked with
  | val t => val (Double.div (inject_Z (toMillis now - toMillis t)) 1000)
  | _ => null
  end.

(** The default choice computed on the backend, [null] unless
    [enableBalancedDefaults]. *)
Definition backendDefault (proj : RoundDefaults.t -> option Choice)
    (config : Config.t) (stageId : string)
    (currentPublicData : PublicData.t) (roundIndex : Z)
  : Result (field Choice) :=
  if Config.enableBalancedDefaults config then
    let pairSeed :=
      pairSeedOf (PublicData.senderId currentPublicData)
        (PublicData.receiverId currentPublicData) stageId in
    roundDefaults ←
      getRoundDefault roundIndex (Config.numRounds config)
        (probabilityOf config) pairSeed;
    defaults ← orThrow TypeError roundDefaults;
    Ok (match proj defaults with
        | Some c => val c
        | None => undefined
        end)
  else Ok null.

(** A2. start_game *)
Definition startGame (env : Env.t) (isSender isReceiver : bool)
    (roundIndex : Z) (roundData : RoundData.t)
  : Result (list PublicData.write) :=
  if negb (bool_decide (RoundData.status roundData = WAITING_BOTH_START))
  then Ok []
  else
    let '(updates, shouldStart) :=
      if isSender then
        ([PublicData.w_roundField roundIndex
            (RoundData.w_senderReadyStart (val true))],
         isTrue (RoundData.receiverReadyStart roundData))
      else if isReceiver then
        ([PublicData.w_roundField roundIndex
            (RoundData.w_receiverReadyStart (val true))],
         isTrue (RoundData.senderReadyStart roundData))
      else ([], false) in
    if shouldStart then
      let now := Env.now env 0%nat in
      Ok (updates ++
          (PublicData.w_roundField roundIndex <$>
             [RoundData.w_status WAITING_SENDER_DECIDE;
              RoundData.w_startTime (val now);
              RoundData.w_senderUnlockedTime (val now)]))
    else Ok updates.

(** [payload?.senderChoice || null] *)
Definition choiceOrNull (f : field Choice) : field Choice :=
  match f with
  | val c => val c
  | _ => null
  end.

(** [payload?.senderMessage || null]: the empty string is falsy *)
Definition messageOrNull (o : option string) : field string :=
  match o with
  | Some m => if truthy m then val m else null
  | None => null
  end.

(** B2. sender_signal *)
Definition senderSignal (env : Env.t) (req : Request.t) (config : Config.t)
    (isSender : bool) (currentPublicData : PublicData.t)
    (roundIndex : Z) (roundData : RoundData.t)
  : Result (list PublicData.write) :=
  let payload := payloadOf req in
  if negb isSender then
    httpsError permission_denied "Only sender can signal"
  else if negb (bool_decide
                  (RoundData.status roundData = WAITING_SENDER_DECIDE)) then
    httpsError failed_precondition
      ("Not sender turn. Current status: "
       +:+ statusName (RoundData.status roundData))
  else
    let now := Env.now env 0%nat in
    let senderReactionTimeSeconds :=
      reactionTime (RoundData.senderUnlockedTime roundData) now in
    defaultSenderChoice ←
      backendDefault RoundDefaults.senderDefault config
        (Request.stageId req) currentPublicData roundIndex;
    let payoffs : list RoundData.write :=
      if Config.requireParticipantClick config
         && bool_decide (Payload.isTimedOut payload = Some true)
      then [RoundData.w_senderPayoff (val 0%Q);
            RoundData.w_receiverPayoff (val 0%Q)]
      else [] in
    Ok (PublicData.w_roundField roundIndex <$>
          ([RoundData.w_senderChoice
              (choiceOrNull (Payload.senderChoice payload));
            RoundData.w_senderMessage
              (messageOrNull (Payload.senderMessage payload));
            RoundData.w_senderSubmittedTime (val now);
            RoundData.w_senderReactionTimeSeconds senderReactionTimeSeconds;
            RoundData.w_senderActiveTimeSeconds
              (orNull (Payload.activeTimeSeconds payload));
            RoundData.w_senderTimedOut
              (default false (Payload.isTimedOut payload));
            RoundData.w_defaultSenderChoice defaultSenderChoice]
           ++ payoffs ++
           [RoundData.w_status WAITING_RECEIVER_DECIDE;
            RoundData.w_receiverUnlockedTime (val now)])).

(** B2. receiver_saw_message *)
Definition receiverSawMessage (env : Env.t) (isReceiver : bool)
    (roundIndex : Z) (roundData : RoundData.t)
  : Result (list PublicData.write) :=
  if negb isReceiver then Ok []
  else if negb (bool_decide
                  (RoundData.status roundData = WAITING_RECEIVER_DECIDE))
  then Ok []
  else if isSet (RoundData.receiverSawMessageTime roundData) then Ok []
  else
    Ok [PublicData.w_roundField roundIndex
          (RoundData.w_receiverSawMessageTime (val (Env.now env 0%nat)))].

(** The payoff logic of receiver_choice: (senderPayoff, receiverPayoff) *)
Definition payoffLogic (config : Config.t) (roundData : RoundData.t)
    (choice : Choice) : Q * Q :=
  let state := RoundData.trueState roundData in
  match RoundData.senderChoice roundData with
  | null => (0, 0)%Q
  | _ =>
      match choice with
      | A =>
          (Config.payoffSenderChoiceA config,
           Config.payoffReceiverChoiceA config)
      | B =>
          if state =? 1 then
            (Config.payoffSenderChoiceB1 config,
             Config.payoffReceiverChoiceB1 config)
          else
            (Config.payoffSenderChoiceB2 config,
             Config.payoffReceiverChoiceB2 config)
      end
  end.

(** C. receiver_choice *)
Definition receiverChoice (env : Env.t) (req : Request.t) (config : Config.t)
    (isReceiver : bool) (currentPublicData : PublicData.t)
    (roundIndex : Z) (roundData : RoundData.t)
  : Result (list PublicData.write) :=
  let payload := payloadOf req in
  if negb isReceiver then
    httpsError permission_denied "Only receiver can choose"
  else if negb (bool_decide
                  (RoundData.status roundData = WAITING_RECEIVER_DECIDE)) then
    httpsError failed_precondition "Not receiver turn"
  else
    match Payload.receiverChoice payload with
    | None => httpsError invalid_argument "Missing choice"
    | Some choice =>
        let '(senderPayoff, receiverPayoff) :=
          payoffLogic config roundData choice in
        let now := Env.now env 0%nat in
        let receiverReactionTimeSeconds :=
          reactionTime (RoundData.receiverUnlockedTime roundData) now in
        defaultReceiverChoice ←
          backendDefault RoundDefaults.receiverDefault config
            (Request.stageId req) currentPublicData roundIndex;
        Ok (PublicData.w_roundField roundIndex <$>
              [RoundData.w_receiverChoice (val choice);
               RoundData.w_receiverSubmittedTime (val now);
               RoundData.w_receiverReactionTimeSeconds
                 receiverReactionTimeSeconds;
               RoundData.w_receiverActiveTimeSeconds
                 (orNull (Payload.activeTimeSeconds payload));
               RoundData.w_receiverTimedOut
                 (default false (Payload.isTimedOut payload));
               RoundData.w_defaultReceiverChoice defaultReceiverChoice;
               RoundData.w_senderPayoff (val senderPayoff);
               RoundData.w_receiverPayoff (val receiverPayoff);
               RoundData.w_status SHOW_FEEDBACK])
    end.

(** The [newRoundData] object of next_round *)
Definition newRoundData (env : Env.t) (nextRoundIndex nextState : Z)
  : RoundData.t :=
  {| RoundData.roundNumber := nextRoundIndex;
     RoundData.trueState := nextState;
     RoundData.status := WAITING_SENDER_DECIDE;
     RoundData.senderChoice := null;
     RoundData.senderMessage := null;
     RoundData.receiverChoice := null;
     RoundData.senderPayoff := null;
     RoundData.receiverPayoff := null;
     RoundData.defaultSenderChoice := null;
     RoundData.defaultReceiverChoice := null;
     RoundData.senderTimedOut := false;
     RoundData.receiverTimedOut := false;
     RoundData.startTime := val (Env.now env 0%nat);
     RoundData.senderUnlockedTime := val (Env.now env 1%nat);
     RoundData.senderSubmittedTime := null;
     RoundData.receiverSawMessageTime := null;
     RoundData.receiverUnlockedTime := null;
     RoundData.receiverSubmittedTime := null;
     RoundData.senderReactionTimeSeconds := null;
     RoundData.receiverReactionTimeSeconds := null;
     RoundData.senderActiveTimeSeconds := null;
     RoundData.receiverActiveTimeSeconds := null;
     (* properties the object literal does not have *)
     RoundData.senderReadyStart := undefined;
     RoundData.receiverReadyStart := undefined;
     RoundData.senderLabel := undefined;
     RoundData.defaultSenderLabel := undefined;
     RoundData.senderReadyNext := undefined;
     RoundData.receiverReadyNext := undefined |}.

(** D. next_round *)
Definition nextRound (env : Env.t) (req : Request.t) (config : Config.t)
    (isSender isReceiver : bool) (currentPublicData : PublicData.t)
    (roundIndex : Z) (roundData : RoundData.t)
  : Result (list PublicData.write) :=
  if negb (bool_decide (RoundData.status roundData = SHOW_FEEDBACK))
  then Ok []
  else
    let '(ready, shouldAdvance) :=
      if isSender then
        ([PublicData.w_roundField roundIndex
            (RoundData.w_senderReadyNext (val true))],
         isTrue (RoundData.receiverReadyNext roundData))
      else if isReceiver then
        ([PublicData.w_roundField roundIndex
            (RoundData.w_receiverReadyNext (val true))],
         isTrue (RoundData.senderReadyNext roundData))
      else ([], false) in
    if negb shouldAdvance then Ok ready
    else
      let nextRoundIndex := roundIndex + 1 in
      if Config.numRounds config <? nextRoundIndex then
        Ok (ready ++ [PublicData.w_currentRound nextRoundIndex])
      else if bool_decide
                (is_Some (PublicData.roundMap currentPublicData
                            !! nextRoundIndex))
      then Ok ready
      else
        let pairSeed :=
          pairSeedOf (PublicData.senderId currentPublicData)
            (PublicData.receiverId currentPublicData)
            (Request.stageId req) in
        roundDefaults ←
          getRoundDefault nextRoundIndex (Config.numRounds config)
            (probabilityOf config) pairSeed;
        defaults ← orThrow TypeError roundDefaults;
        let nextState := RoundDefaults.trueState defaults in
        Ok (ready ++ [PublicData.w_currentRound nextRoundIndex;
                      PublicData.w_round nextRoundIndex
                        (newRoundData env nextRoundIndex nextState)]).

(** The handlers B to D, behind the role and round checks. *)
Definition handle (env : Env.t) (req : Request.t) (config : Config.t)
    (userId : string) (currentPublicData : PublicData.t)
    (roundData : RoundData.t) : Result (list PublicData.write) :=
  let roundIndex := PublicData.currentRound currentPublicData in
  let isSender := isUser (PublicData.senderId currentPublicData) userId in
  let isReceiver :=
    isUser (PublicData.receiverId currentPublicData) userId in
  match Request.action req with
  | assign_role => Ok []          (* handled before the checks *)
  | start_game => startGame env isSender isReceiver roundIndex roundData
  | sender_signal =>
      senderSignal env req config isSender currentPublicData roundIndex
        roundData
  | receiver_saw_message =>
      receiverSawMessage env isReceiver roundIndex roundData
  | receiver_choice =>
      receiverChoice env req config isReceiver currentPublicData roundIndex
        roundData
  | next_round =>
      nextRound env req config isSender isReceiver currentPublicData
        roundIndex roundData
  end.

(** The body of [runTransaction]: the writes it hands to
    [transaction.update], in order, or the exception that aborts it. *)
Definition transaction (env : Env.t) (req : Request.t) (config : Config.t)
    (userId : string) (publicDoc : option PublicData.t)
  : Result (list PublicData.write) :=
  match publicDoc with
  | None => httpsError not_found "Public data doc does not exist"
  | Some currentPublicData =>
      let roundIndex := PublicData.currentRound currentPublicData in
      let roundData := PublicData.roundMap currentPublicData !! roundIndex in
      if bool_decide (Request.action req = assign_role) then
        assignRole env req config userId currentPublicData
      else
        let isSender :=
          isUser (PublicData.senderId currentPublicData) userId in
        let isReceiver :=
          isUser (PublicData.receiverId currentPublicData) userId in
        if negb isSender && negb isReceiver then
          httpsError permission_denied "User is not a player in this game"
        else
          match roundData with
          | None =>
              httpsError failed_precondition "Round data not initialized"
          | Some roundData =>
              handle env req config userId currentPublicData roundData
          end
  end.

(** [request.auth?.uid], replaced by [payload.participantId] under the
    emulator *)
Definition userIdOf (env : Env.t) (req : Request.t) : option string :=
  let participantId := Payload.participantId (payloadOf req) in
  if Env.FUNCTIONS_EMULATOR env && truthyId participantId
  then participantId
  else Request.auth_uid req.

(** [submitSenderReceiverAction]: the writes committed to the instance
    document when the call returns [{success: true}], or the error. *)
Definition submitSenderReceiverAction (env : Env.t) (req : Request.t)
    (publicDoc : option PublicData.t) : Result (list PublicData.write) :=
  match userIdOf env req with
  | None => httpsError unauthenticated "User must be logged in."
  | Some userId =>
      if negb (truthy userId) then
        httpsError unauthenticated "User must be logged in."
      else
        match Env.stage env with
        | None => httpsError not_found "Stage not found or invalid kind"
        | Some config =>
            match Config.kind config with
            | OTHER_STAGE =>
                httpsError not_found "Stage not found or invalid kind"
            | SENDER_RECEIVER =>
                transaction env req config userId publicDoc
            end
        end
  end.

(** The instance document after a call: the writes of a committed
    transaction applied in order, nothing when it aborted. *)
Definition stored (d : PublicData.t) (r : Result (list PublicData.write))
  : PublicData.t :=
  match r with
  | Ok ws => PublicData.applyAll d ws
  | Throw _ => d
  end.

Definition run (env : Env.t) (req : Request.t) (d : PublicData.t)
  : PublicData.t :=
  stored d (submitSenderReceiverAction env req (Some d)).

End Endpoints.

(** ** Reachable instances

    The instance documents of a stage with configuration [config]: the
    freshly created document and whatever successive calls leave in the
    store. *)
Inductive reachable (config : Config.t) (stageId : string)
  : PublicData.t -> Prop :=
| reachable_init :
    reachable config stageId (createSenderReceiverStagePublicData stageId)
| reachable_run d env req :
    reachable config stageId d ->
    Env.stage env = Some config ->
    Request.stageId req = stageId ->
    reachable config stageId (Endpoints.run env req d).

(** ** Observations on a generated sequence *)

(** the number of rounds whose hidden state is [s] *)
Definition countState (s : Z) (l : list RoundDefaults.t) : nat :=
  length (filter (fun r => RoundDefaults.trueState r = s) l).

(** the defaults of one role ([proj]) in the rounds whose hidden state is
    [s], in round order *)
Definition defaultsIn (proj : RoundDefaults.t -> option Choice) (s : Z)
    (l : list RoundDefaults.t) : list (option Choice) :=
  proj <$> filter (fun r => RoundDefaults.trueState r = s) l.

Definition countChoice (c : Choice) (xs : list (option Choice)) : nat :=
  length (filter (fun x => x = Some c) xs).

(** the A/B counts of a list of defaults differ by at most one *)
Definition evenlySplit (xs : list (option Choice)) : Prop :=
  Z.abs (Z.of_nat (countChoice A xs) - Z.of_nat (countChoice B xs)) <= 1.

(** the seed of a [SeededRandom] built from a string after [n] calls of
    [next] *)
Definition seedAfter (seed : string) (n : nat) : Z :=
  Nat.iter n SeededRandom.step (SeededRandom.create seed).

(** ** Calls and runs *)

(** The call is authenticated as [userId], finds the stage configuration
    [config] of a Sender-Receiver stage, and asks for [action]. *)
Definition calledBy (env : Env.t) (req : Request.t) (config : Config.t)
    (userId : string) (action : Action) : Prop :=
  Endpoints.userIdOf env req = Some userId
  /\ truthy userId = true
  /\ Env.stage env = Some config
  /\ Config.kind config = SENDER_RECEIVER
  /\ Request.action req = action.

(** successive calls on one instance document *)
Definition runAll (calls : list (Env.t * Request.t)) (d : PublicData.t)
  : PublicData.t :=
  foldl (fun d c => Endpoints.run c.1 c.2 d) d calls.

(** the fixed order of the round statuses *)
Definition rank (s : Status) : nat :=
  match s with
  | WAITING_BOTH_START => 0
  | WAITING_SENDER_DECIDE => 1
  | WAITING_RECEIVER_DECIDE => 2
  | SHOW_FEEDBACK => 3
  end.

(** a round may only move forward, and is frozen once in SHOW_FEEDBACK *)
Definition forward (r r' : RoundData.t) : Prop :=
  (rank (RoundData.status r) <= rank (RoundData.status r'))%nat
  /\ (RoundData.status r = SHOW_FEEDBACK ->
      RoundData.senderChoice r' = RoundData.senderChoice r
      /\ RoundData.receiverChoice r' = RoundData.receiverChoice r
      /\ RoundData.senderPayoff r' = RoundData.senderPayoff r
      /\ RoundData.receiverPayoff r' = RoundData.receiverPayoff r).

Definition forwardAll (d d' : PublicData.t) : Prop :=
  forall n r, PublicData.roundMap d !! n = Some r ->
    exists r', PublicData.roundMap d' !! n = Some r' /\ forward r r'.

(** the round at [currentRound] *)
Definition currentRoundData (d : PublicData.t) : option RoundData.t :=
  PublicData.roundMap d !! PublicData.currentRound d.

(** the instance with its round [n] replaced *)
Definition withRound (d : PublicData.t) (n : Z) (r : RoundData.t)
  : PublicData.t :=
  PublicData.mk (PublicData.id d) (PublicData.kind d) (PublicData.senderId d)
    (PublicData.receiverId d) (PublicData.currentRound d)
    (<[n := r]> (PublicData.roundMap d)).

(** a round after a list of property writes *)
Definition writeAll (r : RoundData.t) (ws : list RoundData.write)
  : RoundData.t :=
  foldl (fun r w => RoundData.apply w r) r ws.

(** a transaction writes [senderPayoff] of round [n] *)
Definition writesSenderPayoff (n : Z) (ws : list PublicData.write) : Prop :=
  exists v, PublicData.w_roundField n (RoundData.w_senderPayoff v) ∈ ws.

Definition writesReceiverPayoff (n : Z) (ws : list PublicData.write) : Prop :=
  exists v, PublicData.w_roundField n (RoundData.w_receiverPayoff v) ∈ ws.

(** ** The invariant of reachable instances *)
Record Inv (config : Config.t) (stageId : string) (d : PublicData.t) : Prop := {
  (* ids are null or non-empty, and the two roles are different users *)
  inv_sender : forall u, PublicData.senderId d = Some u -> truthy u = true;
  inv_receiver : forall u, PublicData.receiverId d = Some u -> truthy u = true;
  inv_distinct :
    forall u, PublicData.senderId d = Some u ->
              PublicData.receiverId d <> Some u;
  (* rounds exist only once both roles are filled, and then round 1 does *)
  inv_roles :
    forall n, is_Some (PublicData.roundMap d !! n) ->
              is_Some (PublicData.senderId d)
              /\ is_Some (PublicData.receiverId d);
  inv_round1 :
    is_Some (PublicData.senderId d) -> is_Some (PublicData.receiverId d) ->
    is_Some (PublicData.roundMap d !! 1);
  (* every round lies in 1..currentRound and was drawn by the generator *)
  inv_bound :
    forall n, is_Some (PublicData.roundMap d !! n) ->
              n <= PublicData.currentRound d;
  inv_generated :
    forall n, is_Some (PublicData.roundMap d !! n) ->
      exists defaults,
        Generator.getRoundDefault n (Config.numRounds config)
          (probabilityOf config)
          (pairSeedOf (PublicData.senderId d) (PublicData.receiverId d)
             stageId)
        = Ok (Some defaults);
}.

(** ** Scenario data *)

(** The payoff table of Scenario B, on an otherwise default
    configuration ([createSenderReceiverStage]: 4 rounds, probability
    0.5). *)
Definition scenarioB : Config.t :=
  {| Config.kind := SENDER_RECEIVER;
     Config.numRounds := 4;
     Config.state1Probability := Some (1 # 2)%Q;
     Config.requireParticipantClick := true;
     Config.enableBalancedDefaults := true;
     Config.payoffSenderChoiceA := 30;
     Config.payoffSenderChoiceB1 := 0;
     Config.payoffSenderChoiceB2 := 20;
     Config.payoffReceiverChoiceA := 20;
     Config.payoffReceiverChoiceB1 := 36;
     Config.payoffReceiverChoiceB2 := 4 |}.

(** a call of [userId] on stage "stage1" with the given payload, at time
    [t], outside the emulator and with no other stage in the cohort *)
Definition callOf (config : Config.t) (userId : string) (action : Action)
    (payload : option Payload.t) (t : Timestamp) : Env.t * Request.t :=
  (Env.mk false (fun _ => t) (Some config) [],
   Request.mk "experiment" "cohort" "stage1" action payload (Some userId)).

(** an instance of "alice" (Sender) and "bob" (Receiver) in round 1 *)
Definition instanceIn (r : RoundData.t) : PublicData.t :=
  PublicData.mk "stage1" SENDER_RECEIVER (Some "alice") (Some "bob") 1
    {[ 1 := r ]}.

(** round 1 of that instance with hidden state 1, in a given status and
    with a given recorded sender choice *)
Definition roundIn (s : Status) (senderChoice : field Choice) : RoundData.t :=
  RoundData.apply (RoundData.w_senderChoice senderChoice)
    (RoundData.apply (RoundData.w_status s)
       (Utils.roundObject (fun _ => 0) 1 1 true)).

(** the calls that take a fresh instance of "stage1" into round 1 with the
    Sender to move: "alice" then "bob" ask for a role, and both press
    start *)
Definition opening (config : Config.t) : list (Env.t * Request.t) :=
  [callOf config "alice" assign_role None 1;
   callOf config "bob" assign_role None 2;
   callOf config "alice" start_game None 3;
   callOf config "bob" start_game None 4].

(** payloads of the two decisions *)
Definition signalPayload (senderChoice : field Choice) (isTimedOut : option bool)
  : option Payload.t :=
  Some (Payload.mk senderChoice None None None None None isTimedOut).

Definition choicePayload (receiverChoice : option Choice) : option Payload.t :=
  Some (Payload.mk undefined None receiverChoice None None None None).

(** ** The two roles in next_round *)

Definition partner (role : Role) : Role :=
  match role with
  | sender => receiver
  | receiver => sender
  end.

(** the participant holding a role *)
Definition playerOf (d : PublicData.t) (role : Role) : option string :=
  match role with
  | sender => PublicData.senderId d
  | receiver => PublicData.receiverId d
  end.

(** the ready-for-the-next-round flag of a role, and the write that sets
    it *)
Definition readyNext (role : Role) (r : RoundData.t) : field bool :=
  match role with
  | sender => RoundData.senderReadyNext r
  | receiver => RoundData.receiverReadyNext r
  end.

Definition setReadyNext (role : Role) : RoundData.write :=
  match role with
  | sender => RoundData.w_senderReadyNext (val true)
  | receiver => RoundData.w_receiverReadyNext (val true)
  end.

(** [x] is [d] moved on by one round: the same participants,
    currentRound one higher, no round but those of [d] and, unless the
    game is over, the new round currentRound + 1 waiting for the
    Sender. *)
Definition advanced (config : Config.t) (d x : PublicData.t) : Prop :=
  let n := PublicData.currentRound d in
  PublicData.currentRound x = n + 1
  /\ PublicData.senderId x = PublicData.senderId d
  /\ PublicData.receiverId x = PublicData.receiverId d
  /\ (forall m, m <> n + 1 ->
        is_Some (PublicData.roundMap x !! m)
        <-> is_Some (PublicData.roundMap d !! m))
  /\ (Config.numRounds config < n + 1 ->
      PublicData.roundMap x !! (n + 1) = None)
  /\ (n + 1 <= Config.numRounds config ->
      exists new,
        PublicData.roundMap x !! (n + 1) = Some new
        /\ RoundData.status new = WAITING_SENDER_DECIDE).

(** the calls that take a fresh instance of "stage1" to the feedback of
    round 1 *)
Definition firstRound (config : Config.t) : list (Env.t * Request.t) :=
  opening config ++
  [callOf config "alice" sender_signal (signalPayload (val A) None) 5;
   callOf config "bob" receiver_choice (choicePayload (Some B)) 6].

(** ** The transitions of an instance

    What one call can do to the stored document, read off the handlers:
    [roundStep] lists the property writes a handler makes to the round it
    has read, [transition] the documents a call can leave. *)

(** the ready-to-start flag of a role, and the write that sets it *)
Definition readyStart (role : Role) (r : RoundData.t) : field bool :=
  match role with
  | sender => RoundData.senderReadyStart r
  | receiver => RoundData.receiverReadyStart r
  end.

Definition setReadyStart (role : Role) : RoundData.write :=
  match role with
  | sender => RoundData.w_senderReadyStart (val true)
  | receiver => RoundData.w_receiverReadyStart (val true)
  end.

(** the write that gives a role to a participant *)
Definition setPlayer (role : Role) (userId : string) : PublicData.write :=
  match role with
  | sender => PublicData.w_senderId userId
  | receiver => PublicData.w_receiverId userId
  end.

Inductive roundStep (config : Config.t) (r : RoundData.t)
  : list RoundData.write -> Prop :=
| ready_start role :
    RoundData.status r = WAITING_BOTH_START ->
    isTrue (readyStart (partner role) r) = false ->
    roundStep config r [setReadyStart role]
| both_started role now :
    RoundData.status r = WAITING_BOTH_START ->
    isTrue (readyStart (partner role) r) = true ->
    roundStep config r
      [setReadyStart role;
       RoundData.w_status WAITING_SENDER_DECIDE;
       RoundData.w_startTime (val now);
       RoundData.w_senderUnlockedTime (val now)]
| signalled choice message now active timedOut dflt :
    RoundData.status r = WAITING_SENDER_DECIDE ->
    choice <> undefined ->
    roundStep config r
      ([RoundData.w_senderChoice choice;
        RoundData.w_senderMessage message;
        RoundData.w_senderSubmittedTime (val now);
        RoundData.w_senderReactionTimeSeconds
          (Endpoints.reactionTime (RoundData.senderUnlockedTime r) now);
        RoundData.w_senderActiveTimeSeconds active;
        RoundData.w_senderTimedOut timedOut;
        RoundData.w_defaultSenderChoice dflt]
       ++ (if Config.requireParticipantClick config && timedOut
           then [RoundData.w_senderPayoff (val 0%Q);
                 RoundData.w_receiverPayoff (val 0%Q)]
           else [])
       ++ [RoundData.w_status WAITING_RECEIVER_DECIDE;
           RoundData.w_receiverUnlockedTime (val now)])
| message_seen now :
    RoundData.status r = WAITING_RECEIVER_DECIDE ->
    isSet (RoundData.receiverSawMessageTime r) = false ->
    roundStep config r [RoundData.w_receiverSawMessageTime (val now)]
| chosen choice now active timedOut dflt :
    RoundData.status r = WAITING_RECEIVER_DECIDE ->
    roundStep config r
      [RoundData.w_receiverChoice (val choice);
       RoundData.w_receiverSubmittedTime (val now);
       RoundData.w_receiverReactionTimeSeconds
         (Endpoints.reactionTime (RoundData.receiverUnlockedTime r) now);
       RoundData.w_receiverActiveTimeSeconds active;
       RoundData.w_receiverTimedOut timedOut;
       RoundData.w_defaultReceiverChoice dflt;
       RoundData.w_senderPayoff
         (val (Endpoints.payoffLogic config r choice).1);
       RoundData.w_receiverPayoff
         (val (Endpoints.payoffLogic config r choice).2);
       RoundData.w_status SHOW_FEEDBACK]
| ready_next role :
    RoundData.status r = SHOW_FEEDBACK ->
    roundStep config r [setReadyNext role].

Inductive transition (config : Config.t) (stageId : string) (d : PublicData.t)
  : PublicData.t -> Prop :=
| stays : transition config stageId d d
| takes_role role u :
    truthy u = true ->
    truthyId (playerOf d role) = false ->
    truthyId (playerOf d (partner role)) = false
    \/ is_Some (PublicData.roundMap d !! 1) ->
    transition config stageId d (PublicData.apply d (setPlayer role u))
| takes_role_and_opens role u now t :
    truthy u = true ->
    truthyId (playerOf d role) = false ->
    truthyId (playerOf d (partner role)) = true ->
    PublicData.roundMap d !! 1 = None ->
    (let d1 := PublicData.apply d (setPlayer role u) in
     Generator.getRoundDefault 1 (Config.numRounds config)
       (probabilityOf config)
       (pairSeedOf (PublicData.senderId d1) (PublicData.receiverId d1) stageId)
     = Ok (Some t)) ->
    transition config stageId d
      (PublicData.applyAll d
         [setPlayer role u;
          PublicData.w_round 1
            (Utils.roundObject now 1 (RoundDefaults.trueState t) true);
          PublicData.w_currentRound 1])
| in_round r rws :
    currentRoundData d = Some r ->
    roundStep config r rws ->
    transition config stageId d
      (withRound d (PublicData.currentRound d) (writeAll r rws))
| game_over role r :
    currentRoundData d = Some r ->
    RoundData.status r = SHOW_FEEDBACK ->
    isTrue (readyNext (partner role) r) = true ->
    Config.numRounds config < PublicData.currentRound d + 1 ->
    transition config stageId d
      (PublicData.applyAll d
         [PublicData.w_roundField (PublicData.currentRound d)
            (setReadyNext role);
          PublicData.w_currentRound (PublicData.currentRound d + 1)])
| next_opened role r env t :
    currentRoundData d = Some r ->
    RoundData.status r = SHOW_FEEDBACK ->
    isTrue (readyNext (partner role) r) = true ->
    PublicData.currentRound d + 1 <= Config.numRounds config ->
    PublicData.roundMap d !! (PublicData.currentRound d + 1) = None ->
    Generator.getRoundDefault (PublicData.currentRound d + 1)
      (Config.numRounds config) (probabilityOf config)
      (pairSeedOf (PublicData.senderId d) (PublicData.receiverId d) stageId)
    = Ok (Some t) ->
    transition config stageId d
      (PublicData.applyAll d
         [PublicData.w_roundField (PublicData.currentRound d)
            (setReadyNext role);
          PublicData.w_currentRound (PublicData.currentRound d + 1);
          PublicData.w_round (PublicData.currentRound d + 1)
            (Endpoints.newRoundData env (PublicData.currentRound d + 1)
               (RoundDefaults.trueState t))]).

(** ** What a reachable instance has stored

    Beyond [Inv]: the rounds are numbered by their index and carry the
    hidden state drawn by the generator, the rounds before the current
    one are finished, and a round holds what its status promises. *)

(** A round that has started has its start and unlock times; one that
    has been signalled holds a sender choice and the sender's
    reaction time; a finished one holds the receiver's choice, the payoffs of
    the payoff logic and the receiver's reaction time. *)
Definition roundOk (config : Config.t) (r : RoundData.t) : Prop :=
  (RoundData.status r <> WAITING_BOTH_START ->
   isSet (RoundData.startTime r) = true
   /\ isSet (RoundData.senderUnlockedTime r) = true)
  /\ ((2 <= rank (RoundData.status r))%nat ->
      RoundData.senderChoice r <> undefined
      /\ exists unlocked submitted,
          RoundData.senderUnlockedTime r = val unlocked
          /\ RoundData.senderSubmittedTime r = val submitted
          /\ RoundData.receiverUnlockedTime r = val submitted
          /\ RoundData.senderReactionTimeSeconds r
             = val (Double.div
                      (inject_Z (toMillis submitted - toMillis unlocked)) 1000))
  /\ (RoundData.status r = SHOW_FEEDBACK ->
      exists choice submitted decided,
        RoundData.receiverChoice r = val choice
        /\ RoundData.senderPayoff r
           = val (Endpoints.payoffLogic config r choice).1
        /\ RoundData.receiverPayoff r
           = val (Endpoints.payoffLogic config r choice).2
        /\ RoundData.receiverUnlockedTime r = val submitted
        /\ RoundData.receiverSubmittedTime r = val decided
        /\ RoundData.receiverReactionTimeSeconds r
           = val (Double.div
                    (inject_Z (toMillis decided - toMillis submitted)) 1000)).

Record Played (config : Config.t) (stageId : string) (d : PublicData.t)
  : Prop := {
  played_current : 1 <= PublicData.currentRound d;
  played_bound :
    PublicData.currentRound d = 1
    \/ PublicData.currentRound d <= Config.numRounds config + 1;
  played_fresh :
    PublicData.roundMap d !! 1 = None -> PublicData.currentRound d = 1;
  played_number :
    forall n r, PublicData.roundMap d !! n = Some r ->
      RoundData.roundNumber r = n;
  played_state :
    forall n r, PublicData.roundMap d !! n = Some r ->
      exists t,
        Generator.getRoundDefault n (Config.numRounds config)
          (probabilityOf config)
          (pairSeedOf (PublicData.senderId d) (PublicData.receiverId d)
             stageId)
        = Ok (Some t)
        /\ RoundData.trueState r = RoundDefaults.trueState t;
  played_all :
    forall n, 1 <= n <= PublicData.currentRound d ->
      n <= Config.numRounds config ->
      is_Some (PublicData.roundMap d !! 1) ->
      is_Some (PublicData.roundMap d !! n);
  played_past :
    forall n r, PublicData.roundMap d !! n = Some r ->
      n < PublicData.currentRound d ->
      RoundData.status r = SHOW_FEEDBACK;
  played_first :
    forall n r, PublicData.roundMap d !! n = Some r ->
      RoundData.status r = WAITING_BOTH_START -> n = 1;
  played_round :
    forall n r, PublicData.roundMap d !! n = Some r -> roundOk config r;
}.

(** ** Observations on the stored rounds *)

(** the hidden states of the rounds 1..[numRounds] of an instance that are
    stored, in round order *)
Definition hiddenStates (d : PublicData.t) (numRounds : Z) : list Z :=
  omap (fun n => RoundData.trueState <$> PublicData.roundMap d !! n)
    (seqZ 1 numRounds).

(** What the calls after it leave of a round: its number and hidden
    state, its place in the order of statuses or a later one, its start
    once started, the sender's decision once signalled, and the time the
    receiver first saw the message once recorded. *)
Definition kept (r r' : RoundData.t) : Prop :=
  RoundData.roundNumber r' = RoundData.roundNumber r
  /\ RoundData.trueState r' = RoundData.trueState r
  /\ (rank (RoundData.status r) <= rank (RoundData.status r'))%nat
  /\ (RoundData.status r <> WAITING_BOTH_START ->
      RoundData.startTime r' = RoundData.startTime r
      /\ RoundData.senderUnlockedTime r' = RoundData.senderUnlockedTime r)
  /\ ((2 <= rank (RoundData.status r))%nat ->
      RoundData.senderChoice r' = RoundData.senderChoice r
      /\ RoundData.senderMessage r' = RoundData.senderMessage r
      /\ RoundData.senderSubmittedTime r' = RoundData.senderSubmittedTime r
      /\ RoundData.senderReactionTimeSeconds r'
         = RoundData.senderReactionTimeSeconds r
      /\ RoundData.senderTimedOut r' = RoundData.senderTimedOut r
      /\ RoundData.defaultSenderChoice r' = RoundData.defaultSenderChoice r
      /\ RoundData.receiverUnlockedTime r' = RoundData.receiverUnlockedTime r)
  /\ (isSet (RoundData.receiverSawMessageTime r) = true ->
      RoundData.receiverSawMessageTime r'
      = RoundData.receiverSawMessageTime r)
  /\ (isTrue (RoundData.senderReadyNext r) = true ->
      isTrue (RoundData.senderReadyNext r') = true)
  /\ (isTrue (RoundData.receiverReadyNext r) = true ->
      isTrue (RoundData.receiverReadyNext r') = true).

(** the calls that play the current round from the Sender's move to its
    feedback and leave it, from time [t] on *)
Definition furtherRound (config : Config.t) (t : Timestamp)
  : list (Env.t * Request.t) :=
  [callOf config "alice" sender_signal (signalPayload (val A) None) t;
   callOf config "bob" receiver_choice (choicePayload (Some B)) (t + 1);
   callOf config "alice" next_round None (t + 2);
   callOf config "bob" next_round None (t + 3)].

(** a whole game of four rounds on a fresh instance of "stage1" *)
Definition wholeGame (config : Config.t) : list (Env.t * Request.t) :=
  firstRound config
  ++ [callOf config "alice" next_round None 7;
      callOf config "bob" next_round None 8]
  ++ furtherRound config 9 ++ furtherRound config 13
  ++ furtherRound config 17.

(** a configuration with another number of rounds *)
Definition withRounds (config : Config.t) (numRounds : Z) : Config.t :=
  {| Config.kind := Config.kind config;
     Config.numRounds := numRounds;
     Config.state1Probability := Config.state1Probability config;
     Config.requireParticipantClick := Config.requireParticipantClick config;
     Config.enableBalancedDefaults := Config.enableBalancedDefaults config;
     Config.payoffSenderChoiceA := Config.payoffSenderChoiceA config;
     Config.payoffSenderChoiceB1 := Config.payoffSenderChoiceB1 config;
     Config.payoffSenderChoiceB2 := Config.payoffSenderChoiceB2 config;
     Config.payoffReceiverChoiceA := Config.payoffReceiverChoiceA config;
     Config.payoffReceiverChoiceB1 := Config.payoffReceiverChoiceB1 config;
     Config.payoffReceiverChoiceB2 := Config.payoffReceiverChoiceB2 config |}.

(** ** Variations of a call *)

(** the request with [payload.participantId] replaced *)
Definition withParticipantId (req : Request.t) (participantId : option string)
  : Request.t :=
  let p := Endpoints.payloadOf req in
  Request.mk (Request.experimentId req) (Request.cohortId req)
    (Request.stageId req) (Request.action req)
    (Some (Payload.mk (Payload.senderChoice p) (Payload.senderMessage p)
             (Payload.receiverChoice p) participantId
             (Payload.requestedRole p) (Payload.activeTimeSeconds p)
             (Payload.isTimedOut p)))
    (Request.auth_uid req).

(** the request with [request.auth?.uid] replaced *)
Definition authenticatedAs (req : Request.t) (uid : option string)
  : Request.t :=
  Request.mk (Request.experimentId req) (Request.cohortId req)
    (Request.stageId req) (Request.action req) (Request.payload req) uid.

(** the same surroundings without FUNCTIONS_EMULATOR *)
Definition outsideEmulator (env : Env.t) : Env.t :=
  Env.mk false (Env.now env) (Env.stage env) (Env.cohortPublicData env).

(** * The participant's browser

    The parts of the participant view that decide what is sent to the
    endpoint, and the countdown they rely on. *)

(** ** countdown.utils *)
Module Countdown.

(** [s.padStart(targetLength, c)] for a one-character pad string *)
Definition padStart (targetLength : nat) (c : ascii) (s : string) : string :=
  string_of_list_ascii (replicate (targetLength - String.length s) c) +:+ s.

(** [formatTime]; [seconds] is a whole number, and [toString] of a whole
    number is its decimal notation *)
Definition formatTime (seconds : Z) : string :=
  let m := Double.floor (Double.div (inject_Z seconds) 60) in
  let s := Z.rem seconds 60 in
  pretty m +:+ ":" +:+ padStart 2 "0" (pretty s).

(** The calls a timer makes to the callbacks of its configuration. *)
Inductive Callback :=
| onTick (remainingSeconds : Z)
| onComplete.

Global Instance Callback_eq_dec : EqDecision Callback.
Proof. solve_decision. Defined.

(** A [CountdownTimer] together with what it has asked of [window]:
    [intervals] are the intervals it has set that are not cleared,
    [nextId] the id the next [window.setInterval] returns, [calls] the
    callbacks called so far, the latest last.  The callbacks do not
    call back into the timer. *)
Record t := mk {
  intervalId : option nat;
  remaining : Z;
  intervals : gset nat;
  nextId : nat;
  calls : list Callback;
}.

(** [new CountdownTimer(config)] *)
Definition create (durationSeconds : Z) : t :=
  mk None durationSeconds ∅ 1%nat [].

Definition start (x : t) : t :=
  mk (Some (nextId x)) (remaining x) ({[ nextId x ]} ∪ intervals x)
     (S (nextId x)) (calls x).

Definition stop (x : t) : t :=
  match intervalId x with
  | Some i => mk None (remaining x) (intervals x ∖ {[ i ]}) (nextId x) (calls x)
  | None => x
  end.

Definition getRemaining (x : t) : Z := remaining x.

Definition isRunning (x : t) : bool := bool_decide (is_Some (intervalId x)).

Definition call (c : Callback) (x : t) : t :=
  mk (intervalId x) (remaining x) (intervals x) (nextId x) (calls x ++ [c]).

(** the function given to [setInterval] *)
Definition body (x : t) : t :=
  let x :=
    mk (intervalId x) (remaining x - 1) (intervals x) (nextId x) (calls x) in
  let x := call (onTick (remaining x)) x in
  if remaining x <=? 0 then call onComplete (stop x) else x.

(** a second has passed for interval [i]: [window] runs the function
    unless the interval has been cleared *)
Definition tick (i : nat) (x : t) : t :=
  if bool_decide (i ∈ intervals x) then body x else x.

(** what happens to a timer: calls of its methods and seconds passing *)
Inductive Event :=
| Start
| Stop
| Tick (i : nat).

Definition handle (x : t) (e : Event) : t :=
  match e with
  | Start => start x
  | Stop => stop x
  | Tick i => tick i x
  end.

Definition run (events : list Event) (x : t) : t := foldl handle x events.

(** a timer that is not running and has no interval left *)
Definition idle (x : t) : Prop := intervalId x = None /\ intervals x = ∅.

(** the callbacks of the first [k] seconds of a countdown from [n] *)
Definition ticksOf (n : Z) (k : nat) : list Callback :=
  (fun i => onTick (n - Z.of_nat i)) <$> seq 1 k.

(** the timer counting down from [n], started once, [k] seconds later *)
Definition counting (n : Z) (k : nat) : t :=
  mk (Some 1%nat) (n - Z.of_nat k) {[ 1%nat ]} 2 (ticksOf n k).

End Countdown.

(** ** sender_receiver_participant_view

    The state of the view that its handlers read and write, and the
    calls they hand to [participantService.submitSenderReceiverAction].
    Rendering is not modelled. *)
Module View.

Inductive DefaultSenderChoice := recommend_A | recommend_B | random.

(** [this.stage]: the stage configuration, with the fields the view
    reads beyond those of [Config.t] *)
Record Stage := mkStage {
  id : string;
  config : Config.t;
  allowTextMessage : bool;
  allowButtonPress : bool;
  defaultSenderChoice : DefaultSenderChoice;
  senderTimeLimitInSeconds : option Q;      (* [number | null] *)
  receiverTimeLimitInSeconds : option Q;
}.

Record t := mk {
  stage : option Stage;
  publicId : option string;      (* [participantService.profile?.publicId] *)
  isSignalingLoading : bool;
  isDecidingLoading : bool;
  chatMessageA : string;
  chatMessageB : string;
  selectedOption : option Choice;
  hasConfirmedChoice : bool;
  decisionClickTimestamp : option Z;
  detectedPreviousRole : option Role;
  pageRenderTimestamp : Z;
}.

(** the argument of [submitSenderReceiverAction] *)
Record Call := mkCall {
  stageId : string;
  action : Action;
  payload : Payload.t;
}.

Definition setDeciding (b : bool) (v : t) : t :=
  mk (stage v) (publicId v) (isSignalingLoading v) b (chatMessageA v)
     (chatMessageB v) (selectedOption v) (hasConfirmedChoice v)
     (decisionClickTimestamp v) (detectedPreviousRole v)
     (pageRenderTimestamp v).

Definition setSignaling (b : bool) (v : t) : t :=
  mk (stage v) (publicId v) b (isDecidingLoading v) (chatMessageA v)
     (chatMessageB v) (selectedOption v) (hasConfirmedChoice v)
     (decisionClickTimestamp v) (detectedPreviousRole v)
     (pageRenderTimestamp v).

Definition setSelected (o : option Choice) (v : t) : t :=
  mk (stage v) (publicId v) (isSignalingLoading v) (isDecidingLoading v)
     (chatMessageA v) (chatMessageB v) o (hasConfirmedChoice v)
     (decisionClickTimestamp v) (detectedPreviousRole v)
     (pageRenderTimestamp v).

Definition setMessages (a b : string) (v : t) : t :=
  mk (stage v) (publicId v) (isSignalingLoading v) (isDecidingLoading v)
     a b (selectedOption v) (hasConfirmedChoice v)
     (decisionClickTimestamp v) (detectedPreviousRole v)
     (pageRenderTimestamp v).

Definition setConfirmed (now : Z) (v : t) : t :=
  mk (stage v) (publicId v) (isSignalingLoading v) (isDecidingLoading v)
     (chatMessageA v) (chatMessageB v) (selectedOption v) true
     (Some now) (detectedPreviousRole v) (pageRenderTimestamp v).

Definition setDetected (o : option Role) (v : t) : t :=
  mk (stage v) (publicId v) (isSignalingLoading v) (isDecidingLoading v)
     (chatMessageA v) (chatMessageB v) (selectedOption v)
     (hasConfirmedChoice v) (decisionClickTimestamp v) o
     (pageRenderTimestamp v).

(** [getActiveTimeSeconds]; [now] is the reading of [Date.now()], and a
    click timestamp of 0 is falsy *)
Definition getActiveTimeSeconds (now : Z) (v : t) : Q :=
  if pageRenderTimestamp v =? 0 then 0%Q
  else
    let clicked :=
      match decisionClickTimestamp v with
      | Some t => if t =? 0 then now else t
      | None => now
      end in
    Double.div (inject_Z (clicked - pageRenderTimestamp v)) 1000.

(** [handleSenderSignalWithText], up to its [await]: the view with the
    loading flag set and the call made; nothing while a call is in
    flight.  [label] is ['A' | 'B' | null]. *)
Definition handleSenderSignalWithText (now : Z) (st : Stage)
    (label : option Choice) (message : string) (isTimedOut : bool) (v : t)
  : t * list Call :=
  if isDecidingLoading v then (v, [])
  else
    (setDeciding true v,
     [mkCall (id st) sender_signal
        (Payload.mk (orNull label)
           (if allowTextMessage st then Some message else None)
           None (publicId v) None
           (Some (getActiveTimeSeconds now v)) (Some isTimedOut))]).

(** [handleReceiverChoice], up to its [await] *)
Definition handleReceiverChoice (now : Z) (st : Stage)
    (choice : Choice) (isTimedOut : bool) (v : t) : t * list Call :=
  if isDecidingLoading v then (v, [])
  else
    (setDeciding true v,
     [mkCall (id st) receiver_choice
        (Payload.mk undefined None (Some choice) (publicId v) None
           (Some (getActiveTimeSeconds now v)) (Some isTimedOut))]).

(** the [finally] of both: the call has settled *)
Definition settled (v : t) : t := setDeciding false v.

Definition messageFor (c : Choice) (v : t) : string :=
  match c with
  | A => chatMessageA v
  | B => chatMessageB v
  end.

(** [handleTimeoutSubmit] *)
Definition handleTimeoutSubmit (now : Z) (isSender : bool) (v : t)
  : t * list Call :=
  match stage v with
  | None => (v, [])
  | Some st =>
      match hasConfirmedChoice v, selectedOption v with
      | true, Some selected =>
          (* Case 1: the participant confirmed a choice *)
          if isSender then
            handleSenderSignalWithText now st (Some selected)
              (messageFor selected v) false v
          else handleReceiverChoice now st selected false v
      | _, _ =>
          (* Case 2: true timeout *)
          if isSender then
            if Config.requireParticipantClick (config st) then
              let '(v, calls) :=
                handleSenderSignalWithText now st None "" true v in
              (setSelected None v, calls)
            else
              let choice :=
                match selectedOption v with
                | Some c => c
                | None =>
                    match defaultSenderChoice st with
                    | recommend_A => A
                    | recommend_B => B
                    | random => A
                    end
                end in
              handleSenderSignalWithText now st (Some choice)
                (messageFor choice v) true v
          else
            let choice := default A (selectedOption v) in
            handleReceiverChoice now st choice true v
      end
  end.

(** [isSenderRole]: [publicData?.senderId === myId] for the document
    [publicData = stagePublicDataMap[this.stage!.id]]; an absent
    document and an absent profile both read [undefined] *)
Definition isSenderRole (publicData : option PublicData.t) (v : t) : bool :=
  match publicData with
  | None => bool_decide (publicId v = None)
  | Some d =>
      match PublicData.senderId d, publicId v with
      | Some s, Some u => String.eqb s u
      | _, _ => false
      end
  end.

(** [handleConfirmChoice]; [publicData] is the document
    [stagePublicDataMap[this.stage!.id]] that [isSenderRole] reads, and
    reading the id of a null stage is a TypeError *)
Definition handleConfirmChoice (now : Z) (publicData : option PublicData.t)
    (v : t) : Result (t * list Call) :=
  match selectedOption v with
  | None => Ok (v, [])
  | Some _ =>
      st ← orThrow TypeError (stage v);
      let isSender := isSenderRole publicData v in
      let limit :=
        default 0%Q
          (if isSender then senderTimeLimitInSeconds st
           else receiverTimeLimitInSeconds st) in
      let v := setConfirmed now v in
      if Qlt_le_dec 0 limit then Ok (v, [])
      else Ok (handleTimeoutSubmit now isSender v)
  end.

(** [handleTyping] *)
Definition handleTyping (key : Choice) (value : string) (v : t) : t :=
  let v :=
    match key with
    | A => setMessages value (if truthy value then "" else chatMessageB v) v
    | B => setMessages (if truthy value then "" else chatMessageA v) value v
    end in
  if negb (from_option allowButtonPress false (stage v))
  then setSelected (Some key) v
  else v.

(** [detectPreviousRole]: [stagePublicDataMap] is given by its entries
    in the order of [Object.entries] *)
Definition foundRole (stageId : string) (myId : string)
    (stagePublicDataMap : list (string * PublicData.t)) : option Role :=
  foldl (fun found entry =>
           if String.eqb (fst entry) stageId then found
           else
             match PublicData.kind (snd entry) with
             | OTHER_STAGE => found
             | SENDER_RECEIVER =>
                 let f1 :=
                   if isUser (PublicData.senderId (snd entry)) myId
                   then Some sender else found in
                 if isUser (PublicData.receiverId (snd entry)) myId
                 then Some receiver else f1
             end)
        None stagePublicDataMap.

(** [stagePublicDataMap[id]] *)
Definition lookupStage (stageId : string)
    (stagePublicDataMap : list (string * PublicData.t))
  : option PublicData.t :=
  (fun found => snd (snd found))
    <$> list_find (fun entry => fst entry = stageId) stagePublicDataMap.

Definition detectPreviousRole (st : Stage)
    (stagePublicDataMap : list (string * PublicData.t)) (v : t) : t :=
  match publicId v with
  | None => v
  | Some myId =>
      if negb (truthy myId) then v
      else
        let found := foundRole (id st) myId stagePublicDataMap in
        let taken (o : option string) :=
          truthyId o && negb (isUser o myId) in
        let found :=
          match lookupStage (id st) stagePublicDataMap with
          | Some currentPublic =>
              let found :=
                match found with
                | Some sender =>
                    if taken (PublicData.senderId currentPublic)
                    then None else found
                | _ => found
                end in
              match found with
              | Some receiver =>
                  if taken (PublicData.receiverId currentPublic)
                  then None else found
              | _ => found
              end
          | None => found
          end in
        setDetected found v
  end.

(** [assignedRole], up to its [await], as the join button calls it:
    [assignedRole(publicData, myId, this.detectedPreviousRole ??
    undefined)] *)
Definition assignedRole (st : Stage) (myId : string)
    (requestedRole : option Role) (v : t) : t * list Call :=
  if isSignalingLoading v then (v, [])
  else
    (setSignaling true v,
     [mkCall (id st) assign_role
        (Payload.mk undefined None None (Some myId) requestedRole None
           None)]).

(** a request of the endpoint that carries a call of the view *)
Definition carries (req : Request.t) (call : Call) : Prop :=
  Request.stageId req = stageId call
  /\ Request.action req = action call
  /\ Endpoints.payloadOf req = payload call.

End View.

(** ** Observations on the seed *)

(** the base-31 polynomial of the character codes of a string, in exact
    integers, continued from [acc] *)
Fixpoint polynomial31 (str : string) (acc : Z) : Z :=
  match str with
  | EmptyString => acc
  | String c rest => polynomial31 rest (31 * acc + SeededRandom.charCodeAt c)
  end.

(** the Sender's view in Scenario B on stage "stage1": "alice", shown the
    page at time 1000, with a limit of 20 seconds and nothing typed or
    selected *)
Definition scenarioStage : View.Stage :=
  View.mkStage "stage1" scenarioB true false View.random (Some 20%Q)
    (Some 20%Q).

Definition scenarioView : View.t :=
  View.mk (Some scenarioStage) (Some "alice") false false "" "" None false
    None None 1000.

(** ** A game played in turn *)

(** the four calls with which two players play one round: the Sender's
    signal, the Receiver's choice, and the next_round calls of both *)
Record RoundCalls := mkRoundCalls {
  signalCall : Env.t * Request.t;
  decideCall : Env.t * Request.t;
  nextBySender : Env.t * Request.t;
  nextByReceiver : Env.t * Request.t;
}.

Definition callsOf (c : RoundCalls) : list (Env.t * Request.t) :=
  [signalCall c; decideCall c; nextBySender c; nextByReceiver c].

(** [c] are calls of the Sender [s] and the Receiver [u] on stage
    [stageId] with configuration [config], the Receiver's with a choice *)
Definition inTurn (config : Config.t) (stageId s u : string) (c : RoundCalls)
  : Prop :=
  calledBy (signalCall c).1 (signalCall c).2 config s sender_signal
  /\ calledBy (decideCall c).1 (decideCall c).2 config u receiver_choice
  /\ is_Some (Payload.receiverChoice (Endpoints.payloadOf (decideCall c).2))
  /\ calledBy (nextBySender c).1 (nextBySender c).2 config s next_round
  /\ calledBy (nextByReceiver c).1 (nextByReceiver c).2 config u next_round
  /\ Forall (fun call => Request.stageId call.2 = stageId) (callsOf c).

(** the calls of [furtherRound] as the calls of one round *)
Definition furtherRoundCalls (config : Config.t) (t : Timestamp) : RoundCalls :=
  mkRoundCalls
    (callOf config "alice" sender_signal (signalPayload (val A) None) t)
    (callOf config "bob" receiver_choice (choicePayload (Some B)) (t + 1))
    (callOf config "alice" next_round None (t + 2))
    (callOf config "bob" next_round None (t + 3)).

(** * Properties *)

(** ** Rounding of JavaScript numbers *)
Module DoubleFacts.
Import Double.
Local Open Scope Q_scope.

Lemma pow2_pos e : 0 < pow2 e.
Proof. unfold pow2. apply Qpower_0_lt. reflexivity. Qed.

Lemma pow2_add a b : pow2 (a + b) == pow2 a * pow2 b.
Proof. unfold pow2. apply Qpower_plus. discriminate. Qed.

Lemma pow2_Z a : (0 <= a)%Z -> pow2 a == inject_Z (2 ^ a).
Proof. intros H. unfold pow2. rewrite Zpower_Qpower by assumption. reflexivity. Qed.

Lemma pow2_succ e : pow2 (e + 1) == 2 * pow2 e.
Proof. rewrite pow2_add. unfold pow2 at 2. simpl. ring. Qed.

Lemma pow2_le a b : (a <= b)%Z -> pow2 a <= pow2 b.
Proof. intros H. unfold pow2. apply Qpower_le_compat_l; [assumption|]. discriminate. Qed.

Lemma ilog2_spec q : 0 < q -> pow2 (ilog2 q) <= q /\ q < pow2 (ilog2 q + 1).
Proof.
intros Hq. destruct q as [n d]. unfold Qlt in Hq. simpl in Hq.
assert (Hn : (0 < n)%Z) by lia.
unfold ilog2. cbn [Qnum Qden].
set (a := Z.log2 n). set (b := Z.log2 (Z.pos d)).
destruct (Z.log2_spec n Hn) as [Ha1 Ha2]. fold a in Ha1, Ha2.
destruct (Z.log2_spec (Z.pos d) ltac:(lia)) as [Hb1 Hb2]. fold b in Hb1, Hb2.
assert (Ha0 : (0 <= a)%Z) by apply Z.log2_nonneg.
assert (Hb0 : (0 <= b)%Z) by apply Z.log2_nonneg.
assert (Hnd : n # d == inject_Z n / inject_Z (Z.pos d)) by apply Qmake_Qdiv.
assert (Hdpos : 0 < inject_Z (Z.pos d)) by (unfold Qlt; simpl; lia).
assert (HA1 : inject_Z (2 ^ a) <= inject_Z n) by (rewrite <- Zle_Qle; lia).
assert (HA2 : inject_Z n < inject_Z (2 ^ Z.succ a)) by (rewrite <- Zlt_Qlt; lia).
assert (HB1 : inject_Z (2 ^ b) <= inject_Z (Z.pos d)) by (rewrite <- Zle_Qle; lia).
assert (HB2 : inject_Z (Z.pos d) < inject_Z (2 ^ Z.succ b)) by (rewrite <- Zlt_Qlt; lia).
rewrite <- !pow2_Z in HA1, HA2, HB1, HB2 by lia.
unfold Z.succ in *. rewrite pow2_succ in HA2, HB2.
assert (Hpa : pow2 a == pow2 (a - b) * pow2 b).
{ rewrite <- pow2_add. replace (a - b + b)%Z with a by lia. reflexivity. }
pose proof (pow2_pos (a - b)) as Hp0. pose proof (pow2_pos b) as Hpb.
destruct (Qle_bool (pow2 (a - b)) (n # d)) eqn:Hc.
- apply Qle_bool_iff in Hc. split; [assumption|].
  rewrite pow2_succ, Hnd. apply Qlt_shift_div_r; [assumption|].
  nra.
- assert (Hlt : n # d < pow2 (a - b)).
  { apply Qnot_le_lt. intros H. apply Qle_bool_iff in H. congruence. }
  replace (a - b - 1 + 1)%Z with (a - b)%Z by lia.
  split; [|assumption].
  assert (Hp1 : pow2 (a - b) == 2 * pow2 (a - b - 1)).
  { rewrite <- pow2_succ. replace (a - b - 1 + 1)%Z with (a - b)%Z by lia. reflexivity. }
  rewrite Hnd. apply Qle_shift_div_l; [assumption|].
  pose proof (pow2_pos (a - b - 1)). nra.
Qed.

Lemma pow2_lt_inv a b : pow2 a < pow2 b -> (a < b)%Z.
Proof. unfold pow2. intros H. apply Qpower_lt_compat_l_inv in H; [assumption|reflexivity]. Qed.

Lemma ilog2_unique q e :
pow2 e <= q -> q < pow2 (e + 1) -> ilog2 q = e.
Proof.
intros H1 H2.
assert (Hq : 0 < q) by (pose proof (pow2_pos e); lra).
destruct (ilog2_spec q Hq) as [H3 H4].
assert (pow2 e < pow2 (ilog2 q + 1)) by lra.
assert (pow2 (ilog2 q) < pow2 (e + 1)) by lra.
apply pow2_lt_inv in H, H0. lia.
Qed.

Lemma ilog2_pos_comp q q' : q == q' -> 0 < q -> ilog2 q = ilog2 q'.
Proof.
intros E Hq. symmetry. destruct (ilog2_spec q Hq). apply ilog2_unique; rewrite <- E; assumption.
Qed.

#[global] Instance round_half_even_comp : Proper (Qeq ==> eq) round_half_even.
Proof.
intros x y E. unfold round_half_even.
rewrite (Qfloor_comp _ _ E).
assert (E' : x - inject_Z (Qfloor y) == y - inject_Z (Qfloor y)) by (rewrite E; reflexivity).
rewrite (Qcompare_comp _ _ E' (1#2) (1#2) ltac:(reflexivity)). reflexivity.
Qed.

Lemma fl_pos_comp q q' : q == q' -> 0 < q -> fl_pos q == fl_pos q'.
Proof.
intros E Hq. unfold fl_pos. rewrite (ilog2_pos_comp q q' E Hq).
assert (E' : q * pow2 (52 - ilog2 q') == q' * pow2 (52 - ilog2 q')) by (rewrite E; reflexivity).
rewrite (round_half_even_comp _ _ E'). reflexivity.
Qed.

#[global] Instance fl_comp : Proper (Qeq ==> Qeq) fl.
Proof.
intros x y E. unfold fl.
rewrite (Qcompare_comp x y E 0 0 ltac:(reflexivity)).
destruct (Qcompare y 0) eqn:Hc.
- reflexivity.
- apply Qlt_alt in Hc. rewrite (fl_pos_comp (-x) (-y)); [reflexivity| rewrite E; reflexivity | lra].
- apply Qgt_alt in Hc. apply fl_pos_comp; [assumption | lra].
Qed.

Lemma round_half_even_err q :
inject_Z (round_half_even q) - q <= 1 # 2 /\ q - inject_Z (round_half_even q) <= 1 # 2.
Proof.
unfold round_half_even.
pose proof (Qfloor_le q) as H1. pose proof (Qlt_floor q) as H2.
rewrite inject_Z_plus in H2. change (inject_Z 1) with 1 in H2.
destruct (Qcompare (q - inject_Z (Qfloor q)) (1 # 2)) eqn:Hc.
- apply Qeq_alt in Hc.
  destruct (Z.even (Qfloor q)); rewrite ?inject_Z_plus; change (inject_Z 1) with 1; lra.
- apply Qlt_alt in Hc. lra.
- apply Qgt_alt in Hc. rewrite inject_Z_plus. change (inject_Z 1) with 1. lra.
Qed.

Lemma round_half_even_Z z : round_half_even (inject_Z z) = z.
Proof.
unfold round_half_even. rewrite Qfloor_Z.
assert (H : inject_Z z - inject_Z z < 1 # 2) by lra.
rewrite (proj1 (Qlt_alt _ _) H). reflexivity.
Qed.

Lemma round_half_even_mono_Z q z : inject_Z z <= q -> (z <= round_half_even q)%Z.
Proof.
intros H. unfold round_half_even.
assert (Hf : (z <= Qfloor q)%Z).
{ rewrite <- (Qfloor_Z z). apply Qfloor_resp_le. assumption. }
destruct (Qcompare _ _); [destruct (Z.even _)|..]; lia.
Qed.

(** the scaled significand of a positive number lies in [2^52, 2^53) *)
Lemma significand_range q :
0 < q -> pow2 52 <= q * pow2 (52 - ilog2 q) /\ q * pow2 (52 - ilog2 q) < pow2 53.
Proof.
intros Hq. destruct (ilog2_spec q Hq) as [H1 H2].
pose proof (pow2_pos (52 - ilog2 q)) as Hp.
assert (E1 : pow2 52 == pow2 (ilog2 q) * pow2 (52 - ilog2 q)).
{ rewrite <- pow2_add. replace (ilog2 q + (52 - ilog2 q))%Z with 52%Z by lia. reflexivity. }
assert (E2 : pow2 53 == pow2 (ilog2 q + 1) * pow2 (52 - ilog2 q)).
{ rewrite <- pow2_add. replace (ilog2 q + 1 + (52 - ilog2 q))%Z with 53%Z by lia. reflexivity. }
rewrite E1, E2. split; nra.
Qed.

Lemma fl_pos_eq q : 0 < q -> fl q = fl_pos q.
Proof. intros H. unfold fl. rewrite (proj1 (Qgt_alt _ _) H). reflexivity. Qed.

Lemma fl_0 q : q == 0 -> fl q = 0.
Proof. intros H. unfold fl. rewrite (proj1 (Qeq_alt _ _) H). reflexivity. Qed.

(** relative error of one rounding: at most 2^-53 *)
Lemma fl_error q :
0 < q -> q * (1 - pow2 (-53)) <= fl q /\ fl q <= q * (1 + pow2 (-53)).
Proof.
intros Hq. rewrite (fl_pos_eq q Hq). unfold fl_pos.
destruct (ilog2_spec q Hq) as [H1 H2].
set (e := ilog2 q) in *.
destruct (round_half_even_err (q * pow2 (52 - e))) as [R1 R2].
set (r := inject_Z (round_half_even (q * pow2 (52 - e)))) in *.
pose proof (pow2_pos (e - 52)) as Hp.
assert (E : pow2 (52 - e) * pow2 (e - 52) == 1).
{ rewrite <- pow2_add. replace (52 - e + (e - 52))%Z with 0%Z by lia. reflexivity. }
assert (E2 : pow2 e * pow2 (-53) == pow2 (e - 52) * (1 # 2)).
{ rewrite <- pow2_add. replace (e + -53)%Z with (e - 52 + -1)%Z by lia.
  rewrite pow2_add. reflexivity. }
assert (Hu : 0 < pow2 (-53)) by apply pow2_pos.
assert (Hd1 : (r - q * pow2 (52 - e)) * pow2 (e - 52) <= (1 # 2) * pow2 (e - 52)) by nra.
assert (Hd2 : (q * pow2 (52 - e) - r) * pow2 (e - 52) <= (1 # 2) * pow2 (e - 52)) by nra.
assert (Hq2 : q * pow2 (52 - e) * pow2 (e - 52) == q) by (rewrite <- Qmult_assoc, E; ring).
assert (Hb : pow2 (e - 52) * (1 # 2) <= q * pow2 (-53)) by (rewrite <- E2; nra).
split; nra.
Qed.

Lemma fl_nonneg q : 0 <= q -> 0 <= fl q.
Proof.
intros H. destruct (Qlt_le_dec 0 q) as [Hq|Hq].
- destruct (fl_error q Hq) as [H1 _].
  assert (pow2 (-53) <= 1) by (vm_compute; discriminate). nra.
- rewrite fl_0; [lra| lra].
Qed.

Lemma fl_exact_scaled q k :
0 < q -> q * pow2 (52 - ilog2 q) == inject_Z k -> fl q == q.
Proof.
intros Hq Hk. rewrite (fl_pos_eq q Hq). unfold fl_pos.
rewrite (round_half_even_comp _ _ Hk), round_half_even_Z, <- Hk.
rewrite <- Qmult_assoc, <- pow2_add.
replace (52 - ilog2 q + (ilog2 q - 52))%Z with 0%Z by lia.
change (pow2 0) with 1. ring.
Qed.

(** integers up to 2^53 are represented exactly *)
Lemma fl_int_exact z :
(0 <= z <= 2 ^ 53)%Z -> fl (inject_Z z) == inject_Z z.
Proof.
intros Hz.
destruct (Z.eq_dec z 0%Z) as [->|Hz0]; [reflexivity|].
destruct (Z.eq_dec z (2 ^ 53)%Z) as [->|Hz1]; [vm_compute; reflexivity|].
assert (Hq : 0 < inject_Z z) by (change 0 with (inject_Z 0); rewrite <- Zlt_Qlt; lia).
destruct (ilog2_spec _ Hq) as [H1 _].
assert (He : (ilog2 (inject_Z z) < 53)%Z).
{ apply pow2_lt_inv. eapply Qle_lt_trans; [exact H1|].
  rewrite (pow2_Z 53) by lia. rewrite <- Zlt_Qlt. lia. }
apply (fl_exact_scaled _ (z * 2 ^ (52 - ilog2 (inject_Z z)))); [assumption|].
rewrite inject_Z_mult, pow2_Z by lia. reflexivity.
Qed.

(** from 2^53 on, every representable number is an even integer *)
Lemma fl_large_even q :
pow2 53 <= q -> exists k, fl q == inject_Z (2 * k) /\ (2 ^ 52 <= k)%Z.
Proof.
intros Hq.
assert (Hq0 : 0 < q) by (pose proof (pow2_pos 53); lra).
destruct (ilog2_spec _ Hq0) as [_ H2].
destruct (significand_range _ Hq0) as [S1 _].
assert (He : (53 < ilog2 q + 1)%Z) by (apply pow2_lt_inv; lra).
rewrite (fl_pos_eq q Hq0). unfold fl_pos.
set (e := ilog2 q) in *.
set (r := round_half_even (q * pow2 (52 - e))).
assert (Hr : (2 ^ 52 <= r)%Z).
{ apply round_half_even_mono_Z. rewrite <- pow2_Z by lia. exact S1. }
exists (r * 2 ^ (e - 53))%Z. split.
- rewrite pow2_Z by lia. rewrite <- inject_Z_mult.
  replace (e - 52)%Z with (Z.succ (e - 53)) by lia.
  rewrite Z.pow_succ_r by lia.
  replace (2 * (r * 2 ^ (e - 53)))%Z with (r * (2 * 2 ^ (e - 53)))%Z by ring.
  reflexivity.
- assert (1 <= 2 ^ (e - 53))%Z by (apply Z.pow_le_mono_r with (b := 0%Z); lia). nia.
Qed.

Lemma trunc_Z q z : q == inject_Z z -> trunc q = z.
Proof.
intros H. unfold trunc.
destruct (Qle_bool 0 q).
- rewrite (Qfloor_comp _ _ H). apply Qfloor_Z.
- rewrite (Qceiling_comp _ _ H). apply Qceiling_Z.
Qed.

Lemma land_wrap32 z : Z.land (wrap32 z) 0x7fffffff = (z mod 2 ^ 31)%Z.
Proof.
change 0x7fffffff%Z with (Z.ones 31). rewrite Z.land_ones by lia.
unfold wrap32.
change (2 ^ 32)%Z with 4294967296%Z. change (2 ^ 31)%Z with 2147483648%Z.
destruct (Z.ltb_spec (z mod 4294967296) 2147483648);
  Z.div_mod_to_equations; lia.
Qed.

End DoubleFacts.
Import DoubleFacts.

(** ** The generator of SeededRandom *)
Module SeededRandomFacts.
Import Double SeededRandom.
Local Open Scope Q_scope.

Lemma step_mod seed :
step seed = (trunc (add (mul (inject_Z seed) 1103515245) 12345) mod 2 ^ 31)%Z.
Proof. unfold step, ToInt32. apply land_wrap32. Qed.

Lemma step_bounds seed : (0 <= step seed < 2 ^ 31)%Z.
Proof. rewrite step_mod. apply Z.mod_pos_bound. lia. Qed.

(** While the product stays below 2^53 the generator is the exact
  linear congruential one. *)
Lemma step_exact seed :
(0 <= seed)%Z -> (seed * 1103515245 + 12345 <= 2 ^ 53)%Z ->
step seed = ((seed * 1103515245 + 12345) mod 2 ^ 31)%Z.
Proof.
intros H0 H1. rewrite step_mod. f_equal. apply trunc_Z.
unfold add, mul.
change 1103515245 with (inject_Z 1103515245). rewrite <- inject_Z_mult.
rewrite (fl_int_exact (seed * 1103515245)) by lia.
change 12345 with (inject_Z 12345). rewrite <- inject_Z_plus.
apply fl_int_exact. lia.
Qed.

(** Beyond 2^53 the rounded sum is an even integer. *)
Lemma step_rounded_even seed :
(0 <= seed)%Z -> (2 ^ 53 < seed * 1103515245 + 12345)%Z ->
exists k, step seed = ((2 * k) mod 2 ^ 31)%Z.
Proof.
intros H0 H1. rewrite step_mod. unfold add, mul.
change 1103515245 with (inject_Z 1103515245). rewrite <- inject_Z_mult.
change 12345 with (inject_Z 12345).
destruct (Z_le_gt_dec (seed * 1103515245) (2 ^ 53)) as [Hs|Hs].
- destruct (fl_large_even (inject_Z (seed * 1103515245 + 12345))) as (k & Hk & _).
  { rewrite (pow2_Z 53) by lia. rewrite <- Zle_Qle. lia. }
  exists k. f_equal. apply trunc_Z.
  rewrite (fl_int_exact (seed * 1103515245)) by lia.
  rewrite <- inject_Z_plus. exact Hk.
- destruct (fl_large_even (inject_Z (seed * 1103515245))) as (k & Hk & Hk').
  { rewrite (pow2_Z 53) by lia. rewrite <- Zle_Qle. lia. }
  destruct (fl_large_even (inject_Z (2 * k + 12345))) as (k' & Hk2 & _).
  { rewrite (pow2_Z 53) by lia. rewrite <- Zle_Qle. lia. }
  exists k'. f_equal. apply trunc_Z.
  rewrite Hk, <- inject_Z_plus. exact Hk2.
Qed.

(** The seed never becomes 0x7fffffff, so [next] never returns 1. *)
Lemma step_not_max seed : (0 <= seed)%Z -> step seed <> 0x7fffffff%Z.
Proof.
intros H0 Hmax.
destruct (Z_le_gt_dec (seed * 1103515245 + 12345) (2 ^ 53)) as [Hs|Hs].
- rewrite step_exact in Hmax by assumption.
  change (2 ^ 31)%Z with 2147483648%Z in Hmax. change (2 ^ 53)%Z with 9007199254740992%Z in Hs.
  Z.div_mod_to_equations. lia.
- destruct (step_rounded_even seed H0 ltac:(lia)) as (k & Hk).
  rewrite Hk in Hmax. change (2 ^ 31)%Z with 2147483648%Z in Hmax.
  Z.div_mod_to_equations. lia.
Qed.

Lemma pow2_m53 : pow2 (-53) == 1 # 9007199254740992.
Proof. reflexivity. Qed.

(** a quotient below (d-1)/d with d = 0x7fffffff, rounded, then
  multiplied by n and rounded again, stays below n *)
Lemma scaled_below q n :
0 <= q -> q <= 2147483646 # 2147483647 -> 0 < n ->
0 <= mul (fl q) n /\ mul (fl q) n < n.
Proof.
intros Hq0 Hq1 Hn. unfold mul.
assert (Hr0 : 0 <= fl q) by (apply fl_nonneg; assumption).
split; [apply fl_nonneg; nra|].
destruct (Qlt_le_dec 0 q) as [Hq|Hq].
- destruct (fl_error q Hq) as [L1 U1]. rewrite pow2_m53 in L1, U1.
  assert (Hr : 0 < fl q) by nra.
  assert (Hrn : 0 < fl q * n) by nra.
  destruct (fl_error _ Hrn) as [_ U2]. rewrite pow2_m53 in U2.
  assert (Hb : fl q <= (2147483646 # 2147483647) * (1 + (1 # 9007199254740992))) by nra.
  assert (Hb2 : fl q * (1 + (1 # 9007199254740992)) < 1) by nra.
  nra.
- assert (E : fl q == 0) by (rewrite fl_0; [reflexivity| lra]).
  rewrite E. rewrite fl_0; [assumption| ring].
Qed.

Lemma next_value seed :
(0 <= seed)%Z ->
0 <= snd (next seed) /\ snd (next seed) < 1.
Proof.
intros H0. unfold next. cbn [snd]. unfold div.
pose proof (step_bounds seed) as Hb. pose proof (step_not_max seed H0) as Hm.
set (s := step seed) in *.
assert (Hq : inject_Z s / inject_Z 0x7fffffff == s # 2147483647).
{ rewrite (Qmake_Qdiv s 2147483647). reflexivity. }
assert (Hs0 : 0 <= s # 2147483647) by (unfold Qle; simpl; lia).
assert (Hs1 : s # 2147483647 <= 2147483646 # 2147483647).
{ unfold Qle; simpl. change (2 ^ 31)%Z with 2147483648%Z in Hb. lia. }
rewrite Hq.
destruct (scaled_below (s # 2147483647) 1 Hs0 Hs1 ltac:(reflexivity)) as [_ H1].
split; [apply fl_nonneg; assumption|].
unfold mul in H1.
assert (E : fl (s # 2147483647) * 1 == fl (s # 2147483647)) by ring.
destruct (Qlt_le_dec 0 (fl (s # 2147483647))) as [Hp|Hp].
- destruct (Qlt_le_dec (fl (s # 2147483647)) 1) as [?|Hge]; [assumption|].
  exfalso.
  destruct (Qlt_le_dec 0 (s # 2147483647)) as [Hq'|Hq'].
  + destruct (fl_error _ Hq') as [_ U1]. rewrite pow2_m53 in U1. nra.
  + rewrite fl_0 in Hp by lra. lra.
- lra.
Qed.

(** the index drawn by [shuffle] at position [i] is within [0, i] *)
Lemma shuffle_index seed i :
(0 <= seed)%Z -> (0 <= i)%Z ->
(0 <= floor (mul (snd (next seed)) (inject_Z (i + 1))) <= i)%Z.
Proof.
intros H0 Hi. unfold next. cbn [snd]. unfold div.
pose proof (step_bounds seed) as Hb. pose proof (step_not_max seed H0) as Hm.
set (s := step seed) in *.
assert (Hq : inject_Z s / inject_Z 0x7fffffff == s # 2147483647).
{ rewrite (Qmake_Qdiv s 2147483647). reflexivity. }
assert (Hs0 : 0 <= s # 2147483647) by (unfold Qle; simpl; lia).
assert (Hs1 : s # 2147483647 <= 2147483646 # 2147483647).
{ unfold Qle; simpl. change (2 ^ 31)%Z with 2147483648%Z in Hb. lia. }
assert (Hn : 0 < inject_Z (i + 1)).
{ change 0 with (inject_Z 0). rewrite <- Zlt_Qlt. lia. }
destruct (scaled_below (s # 2147483647) (inject_Z (i + 1)) Hs0 Hs1 Hn) as [L U].
assert (E : mul (fl (inject_Z s / inject_Z 0x7fffffff)) (inject_Z (i + 1))
            == mul (fl (s # 2147483647)) (inject_Z (i + 1))).
{ unfold mul. rewrite Hq. reflexivity. }
unfold floor. rewrite (Qfloor_comp _ _ E).
split.
- change 0%Z with (Qfloor (inject_Z 0)). apply Qfloor_resp_le. exact L.
- assert (Qfloor (mul (fl (s # 2147483647)) (inject_Z (i + 1))) < i + 1)%Z; [|lia].
  rewrite Zlt_Qlt. eapply Qle_lt_trans; [apply Qfloor_le| exact U].
Qed.

End SeededRandomFacts.
Import SeededRandomFacts.

(** ** hashString *)
Module HashFacts.
Import Double SeededRandom.

(** *** hashString *)

Lemma wrap32_range z : - 2 ^ 31 <= wrap32 z < 2 ^ 31.
Proof.
unfold wrap32. cbv zeta.
pose proof (Z.mod_pos_bound z (2 ^ 32) ltac:(lia)).
destruct (Z.ltb_spec (z mod 2 ^ 32) (2 ^ 31)); lia.
Qed.

(** numbers that differ by a multiple of 2^32 wrap to the same value *)
Lemma wrap32_congr a b k : a = b + k * 2 ^ 32 -> wrap32 a = wrap32 b.
Proof. intros ->. unfold wrap32. by rewrite Z.mod_add by lia. Qed.

Lemma wrap32_multiple z : exists k, wrap32 z = z + k * 2 ^ 32.
Proof.
unfold wrap32. cbv zeta.
pose proof (Z.div_mod z (2 ^ 32) ltac:(lia)) as H.
destruct (Z.ltb_spec (z mod 2 ^ 32) (2 ^ 31)).
- exists (- (z / 2 ^ 32)). lia.
- exists (- (z / 2 ^ 32) - 1). lia.
Qed.

(** one turn of the loop, on a wrapped hash *)
Lemma hash_turn h c :
wrap32 (wrap32 (wrap32 h * 32) - wrap32 h + c) = wrap32 (31 * h + c).
Proof.
destruct (wrap32_multiple h) as [k1 H1].
destruct (wrap32_multiple (wrap32 h * 32)) as [k2 H2].
apply (wrap32_congr _ _ (31 * k1 + k2)). lia.
Qed.

Lemma hashLoop_polynomial str h :
hashLoop str (wrap32 h) = wrap32 (polynomial31 str h).
Proof.
revert h. induction str as [|c rest IH]; intros h; [done|].
cbn [hashLoop polynomial31]. by rewrite hash_turn, IH.
Qed.

Lemma polynomial31_app s t acc :
polynomial31 (s +:+ t) acc = polynomial31 t (polynomial31 s acc).
Proof.
revert acc. induction s as [|a s IH]; intros acc; [done|]. cbn. apply IH.
Qed.

End HashFacts.
Import HashFacts.

(** ** Arrays and shuffle *)
Module ArrayFacts.
Import Double JsArray SeededRandom.

Section Shuffle.
Context {T : Type}.
Implicit Types a : array T.

Lemma insert_head_perm (l : list (option T)) j x y :
l !! j = Some y -> y :: <[j := x]> l ≡ₚ x :: l.
Proof.
revert j. induction l as [|z l IH]; intros [|j] H; simplify_eq/=.
- apply perm_swap.
- rewrite perm_swap. rewrite (IH j H). apply perm_swap.
Qed.

Lemma insert_swap_perm (l : list (option T)) i j x y :
l !! i = Some x -> l !! j = Some y -> <[j := x]> (<[i := y]> l) ≡ₚ l.
Proof.
revert i j. induction l as [|z l IH]; intros [|i] [|j] Hi Hj; simplify_eq/=.
- done.
- by apply insert_head_perm.
- by apply insert_head_perm.
- f_equiv. by apply IH.
Qed.

Lemma get_lookup a (i : nat) x : a !! i = Some x -> get a (Z.of_nat i) = x.
Proof.
intros H. unfold get. destruct (Z.ltb_spec (Z.of_nat i) 0); [lia|].
by rewrite Nat2Z.id, H.
Qed.

Lemma store_lookup a (i : nat) v :
(i < length a)%nat -> store a (Z.of_nat i) v = <[i := v]> a.
Proof.
intros H. unfold store. destruct (Z.ltb_spec (Z.of_nat i) 0); [lia|].
rewrite Nat2Z.id. destruct (Nat.ltb_spec i (length a)); [done|lia].
Qed.

(** within bounds, [swap] exchanges two slots *)
Lemma swap_perm a i j :
0 <= i < Z.of_nat (length a) -> 0 <= j < Z.of_nat (length a) ->
swap a i j ≡ₚ a.
Proof.
intros Hi Hj.
destruct (Z_of_nat_complete i ltac:(lia)) as [ni ->].
destruct (Z_of_nat_complete j ltac:(lia)) as [nj ->].
assert (Hi' : (ni < length a)%nat) by lia.
assert (Hj' : (nj < length a)%nat) by lia.
destruct (lookup_lt_is_Some_2 a _ Hi') as [x Hx].
destruct (lookup_lt_is_Some_2 a _ Hj') as [y Hy].
unfold swap.
rewrite (get_lookup _ _ _ Hx), (get_lookup _ _ _ Hy).
rewrite (store_lookup a ni) by lia.
rewrite store_lookup; [|rewrite length_insert; lia].
by apply insert_swap_perm.
Qed.

Lemma shuffleFrom_perm (i : nat) seed a :
0 <= seed -> (i < length a)%nat ->
0 <= (shuffleFrom i seed a).1 /\ (shuffleFrom i seed a).2 ≡ₚ a.
Proof.
revert seed a. induction i as [|i IH]; intros seed a Hs Hi; [done|].
cbn [shuffleFrom].
pose proof (shuffle_index seed (Z.of_nat (S i)) Hs ltac:(lia)) as Hj.
pose proof (step_bounds seed) as Hb.
destruct (next seed) as [seed' r] eqn:Hn.
assert (seed' = step seed) as -> by (unfold next in Hn; congruence).
cbn [snd] in Hj.
set (j := floor _) in *.
assert (Hp : swap a (Z.of_nat (S i)) j ≡ₚ a) by (apply swap_perm; lia).
destruct (IH (step seed) (swap a (Z.of_nat (S i)) j)) as [H1 H2].
- lia.
- rewrite Hp. lia.
- split; [done|]. by rewrite H2.
Qed.

(** [shuffle] permutes its argument *)
Lemma shuffle_perm a seed :
0 <= seed -> 0 <= (shuffle a seed).1 /\ (shuffle a seed).2 ≡ₚ a.
Proof.
intros Hs. unfold shuffle. destruct a as [|x a]; [done|].
apply shuffleFrom_perm; [done|]. simpl. lia.
Qed.
End Shuffle.

Lemma hashString_nonneg str : 0 <= hashString str.
Proof. unfold hashString. lia. Qed.

End ArrayFacts.
Import ArrayFacts.

(** ** generateBalancedDefaults *)
Module GeneratorFacts.
Import Double JsArray SeededRandom Generator.

Lemma filter_replicate {X} (P : X -> Prop) `{!forall x, Decision (P x)} n x :
filter P (replicate n x) = if decide (P x) then replicate n x else [].
Proof.
induction n as [|n IH]; simpl; [by case_decide|].
rewrite filter_cons, IH. by case_decide.
Qed.

Lemma fill_ok {T} n (x : T) :
0 <= n < 2 ^ 32 -> fill n x = Some (replicate (Z.to_nat n) (Some x)).
Proof.
intros H. unfold fill.
destruct (Z.leb_spec 0 n); [|lia]. destruct (Z.ltb_spec n (2 ^ 32)); [done|lia].
Qed.

Lemma upTo_all {T} (vs : list T) n :
Z.of_nat (length vs) <= n -> upTo n vs = vs.
Proof.
revert n. induction vs as [|v vs IH]; intros n Hn; [done|].
cbn [upTo]. cbn [length] in Hn.
destruct (Z.ltb_spec 0 n); [|lia]. rewrite IH by lia. done.
Qed.

Lemma upTo_length {T} (vs : list T) n :
0 <= n -> Z.of_nat (length (upTo n vs)) <= n.
Proof.
revert n. induction vs as [|v vs IH]; intros n Hn; cbn [upTo]; [simpl; lia|].
destruct (Z.ltb_spec 0 n); [|simpl; lia].
cbn [length]. specialize (IH (n - 1)). lia.
Qed.

Lemma spread_app {T} (a b : array T) :
Z.of_nat (length a) + Z.of_nat (length b) < 2 ^ 32 -> spread a b = a ++ b.
Proof. intros H. apply upTo_all. rewrite length_app. lia. Qed.

Lemma push_Some {T} (a : list T) v :
Z.of_nat (length a) < 2 ^ 32 - 1 -> push a v = Some (a ++ [v]).
Proof. intros H. unfold push. by destruct (Z.ltb_spec (Z.of_nat (length a)) (2 ^ 32 - 1)); [|lia]. Qed.

Lemma push_None {T} (a : list T) v :
2 ^ 32 - 1 <= Z.of_nat (length a) -> push a v = None.
Proof. intros H. unfold push. by destruct (Z.ltb_spec (Z.of_nat (length a)) (2 ^ 32 - 1)); [lia|]. Qed.

Lemma filled_ok {T} a (x : T) b y :
0 <= a -> 0 <= b -> a + b < 2 ^ 32 ->
filled a x b y
= Ok (replicate (Z.to_nat a) (Some x) ++ replicate (Z.to_nat b) (Some y)).
Proof.
intros Ha Hb Hab. unfold filled. rewrite !fill_ok by lia. cbn.
rewrite spread_app; [done|]. rewrite !length_replicate. lia.
Qed.

(** [Math.round(numRounds * p)] lies between 0 and [numRounds] *)
Lemma numState1_bounds n p :
0 <= n < 2 ^ 32 -> (0 <= p)%Q -> (p <= 1)%Q ->
0 <= round (mul (inject_Z n) p) <= n.
Proof.
intros Hn Hp0 Hp1. unfold round, mul.
assert (Hn0 : (0 <= inject_Z n)%Q) by (change 0%Q with (inject_Z 0); rewrite <- Zle_Qle; lia).
assert (Hn1 : (inject_Z n <= inject_Z (2 ^ 32))%Q) by (rewrite <- Zle_Qle; lia).
change (inject_Z (2 ^ 32)) with (4294967296%Q) in Hn1.
assert (Hx0 : (0 <= fl (inject_Z n * p))%Q) by (apply fl_nonneg; nra).
split.
- change 0 with (Qfloor (inject_Z 0)). apply Qfloor_resp_le. change (inject_Z 0) with 0%Q. lra.
- assert (Qfloor (fl (inject_Z n * p) + (1 # 2)) < n + 1); [|lia].
  rewrite Zlt_Qlt, inject_Z_plus. change (inject_Z 1) with 1%Q.
  eapply Qle_lt_trans; [apply Qfloor_le|].
  destruct (Qlt_le_dec 0 (inject_Z n * p)) as [Hq|Hq].
  + destruct (fl_error _ Hq) as [_ U]. rewrite pow2_m53 in U. nra.
  + rewrite fl_0 by nra. lra.
Qed.

Section Zip.
Variables (ss : array Z) (sd1 sd2 rd1 rd2 : array Choice).

Local Abbreviation zip := (zipRounds ss sd1 sd2 rd1 rd2).
Local Abbreviation count1 seg := (length (filter (fun s : option Z => s = Some 1) seg)).
Local Abbreviation count2 seg := (length (filter (fun s : option Z => s <> Some 1) seg)).
Local Abbreviation slice a c m :=
((fun t : nat => get a (Z.of_nat t)) <$> seq c m).

Lemma get_drop {T} (a : array T) (k : nat) s rest :
drop k a = s :: rest -> get a (Z.of_nat k) = s.
Proof.
intros H. apply get_lookup. rewrite <- (Nat.add_0_r k), <- lookup_drop, H. done.
Qed.

(** one turn of the loop: the push succeeds below 2^32 - 1 entries *)
Lemma zip_S n i idx1 idx2 results :
zip (S n) i idx1 idx2 results
= if bool_decide (Z.of_nat (length results) < 2 ^ 32 - 1) then
    if decide (get ss i = Some 1) then
      zip n (i + 1) (idx1 + 1) idx2
        (results ++ [RoundDefaults.mk (i + 1) 1 (get sd1 idx1) (get rd1 idx1)])
    else
      zip n (i + 1) idx1 (idx2 + 1)
        (results ++ [RoundDefaults.mk (i + 1) 2 (get sd2 idx2) (get rd2 idx2)])
  else Throw RangeError.
Proof.
cbn [zipRounds]. case_bool_decide as Hl.
- case_decide; by rewrite push_Some.
- case_decide; by rewrite push_None by lia.
Qed.

(** the loop returns when the entries fit into an array *)
Lemma zip_Ok n : forall i idx1 idx2 results,
Z.of_nat (length results) + Z.of_nat n < 2 ^ 32 ->
exists out, zip n i idx1 idx2 results = Ok out.
Proof.
induction n as [|n IH]; intros i idx1 idx2 results Hl; [by eexists|].
rewrite zip_S, bool_decide_eq_true_2 by lia.
case_decide; apply IH; rewrite length_app; simpl; lia.
Qed.

(** and throws a RangeError when they do not *)
Lemma zip_overflow n : forall i idx1 idx2 results,
2 ^ 32 <= Z.of_nat (length results) + Z.of_nat n ->
Z.of_nat (length results) < 2 ^ 32 ->
zip n i idx1 idx2 results = Throw RangeError.
Proof.
induction n as [|n IH]; intros i idx1 idx2 results Hl Hr; [lia|].
rewrite zip_S. case_bool_decide as Hp; [|done].
case_decide; apply IH; rewrite length_app; simpl; lia.
Qed.

Lemma zip_Throw n : forall i idx1 idx2 results e,
zip n i idx1 idx2 results = Throw e -> e = RangeError.
Proof.
induction n as [|n IH]; intros i idx1 idx2 results e; [done|].
rewrite zip_S. case_bool_decide; [|congruence].
case_decide; apply IH.
Qed.

Lemma zip_inv n : forall (k c1 c2 : nat) results out,
(k + n <= length ss)%nat ->
zip n (Z.of_nat k) (Z.of_nat c1) (Z.of_nat c2) results = Ok out ->
let seg := take n (drop k ss) in
length out = (length results + n)%nat
/\ defaultsIn RoundDefaults.senderDefault 1 out
   = defaultsIn RoundDefaults.senderDefault 1 results ++ slice sd1 c1 (count1 seg)
/\ defaultsIn RoundDefaults.receiverDefault 1 out
   = defaultsIn RoundDefaults.receiverDefault 1 results ++ slice rd1 c1 (count1 seg)
/\ defaultsIn RoundDefaults.senderDefault 2 out
   = defaultsIn RoundDefaults.senderDefault 2 results ++ slice sd2 c2 (count2 seg)
/\ defaultsIn RoundDefaults.receiverDefault 2 out
   = defaultsIn RoundDefaults.receiverDefault 2 results ++ slice rd2 c2 (count2 seg).
Proof.
induction n as [|n IH]; intros k c1 c2 results out Hk Hout.
- injection Hout as <-. simpl. rewrite !app_nil_r. repeat split; lia.
- destruct (drop k ss) as [|s rest] eqn:Hd.
  { apply (f_equal length) in Hd. rewrite length_drop in Hd. simpl in Hd. lia. }
  assert (Hrest : drop (S k) ss = rest).
  { rewrite <- (Nat.add_1_l k), Nat.add_comm, <- drop_drop, Hd. done. }
  cbn zeta. rewrite zip_S in Hout.
  case_bool_decide; [|done].
  rewrite (get_drop _ _ _ _ Hd) in Hout.
  replace (Z.of_nat k + 1) with (Z.of_nat (S k)) in Hout by lia.
  replace (Z.of_nat c1 + 1) with (Z.of_nat (S c1)) in Hout by lia.
  replace (Z.of_nat c2 + 1) with (Z.of_nat (S c2)) in Hout by lia.
  rewrite firstn_cons.
  case_decide as Hs.
  + destruct (IH (S k) (S c1) c2 _ out ltac:(lia) Hout)
      as (L & S1 & R1 & S2 & R2).
    rewrite Hrest in *. rewrite L, S1, R1, S2, R2.
    rewrite filter_cons_True by done.
    rewrite (filter_cons_False (fun s0 => s0 <> Some 1)) by (intros ?; done).
    unfold defaultsIn. rewrite !filter_app, !fmap_app, length_app. simpl.
    rewrite <- !app_assoc, ?app_nil_r. simpl.
    repeat split; lia.
  + destruct (IH (S k) c1 (S c2) _ out ltac:(lia) Hout)
      as (L & S1 & R1 & S2 & R2).
    rewrite Hrest in *. rewrite L, S1, R1, S2, R2.
    rewrite filter_cons_False by done.
    rewrite (filter_cons_True (fun s0 => s0 <> Some 1)) by done.
    unfold defaultsIn. rewrite !filter_app, !fmap_app, length_app. simpl.
    rewrite <- !app_assoc, ?app_nil_r. simpl.
    repeat split; lia.
Qed.
End Zip.

Lemma slice_all {T} (a : array T) :
(fun t : nat => get a (Z.of_nat t)) <$> seq 0 (length a) = a.
Proof.
apply list_eq. intros i. rewrite list_lookup_fmap.
destruct (a !! i) as [x|] eqn:Hx.
- rewrite lookup_seq_lt by (eapply lookup_lt_Some; done). simpl.
  f_equal. by apply get_lookup.
- rewrite lookup_seq_ge; [done|]. by apply lookup_ge_None.
Qed.

(** [m] defaults split into floor(m/2) A's and the remaining B's *)
Local Abbreviation balanced m :=
(replicate (Z.to_nat (m / 2)) (Some A) ++ replicate (Z.to_nat (m - m / 2)) (Some B)).

Lemma mbind_Ok {X Y} (x : X) (k : X -> Result Y) : mbind k (Ok x) = k x.
Proof. reflexivity. Qed.

Lemma count1_states (ss : array Z) a b :
ss ≡ₚ replicate a (Some 1) ++ replicate b (Some 2) ->
length (filter (fun s : option Z => s = Some 1) ss) = a
/\ length (filter (fun s : option Z => s <> Some 1) ss) = b
/\ length ss = (a + b)%nat.
Proof.
intros ->. rewrite !filter_app, !filter_replicate, !length_app.
repeat case_decide; try done; simpl; rewrite ?length_replicate; lia.
Qed.

Section GenerateSpec.
Variables (numRounds : Z) (p : Q) (seed : string).
Hypothesis Hn : 0 <= numRounds < 2 ^ 32.
Hypothesis Hp0 : (0 <= p)%Q.
Hypothesis Hp1 : (p <= 1)%Q.

Local Abbreviation numState1 := (round (mul (inject_Z numRounds) p)).

Lemma generate_spec :
exists out,
  generateBalancedDefaults numRounds p seed = Ok out
  /\ length out = Z.to_nat numRounds
  /\ defaultsIn RoundDefaults.senderDefault 1 out ≡ₚ balanced numState1
  /\ defaultsIn RoundDefaults.receiverDefault 1 out ≡ₚ balanced numState1
  /\ defaultsIn RoundDefaults.senderDefault 2 out
     ≡ₚ balanced (numRounds - numState1)
  /\ defaultsIn RoundDefaults.receiverDefault 2 out
     ≡ₚ balanced (numRounds - numState1).
Proof.
pose proof (numState1_bounds numRounds p Hn Hp0 Hp1) as Hb.
unfold generateBalancedDefaults. cbv zeta.
set (n1 := numState1) in *. set (n2 := numRounds - n1).
assert (Hn2 : 0 <= n2 <= numRounds) by lia.
assert (Hh1 : 0 <= n1 / 2 <= n1) by (split; [apply Z.div_pos; lia| apply Z.div_le_upper_bound; lia]).
assert (Hh2 : 0 <= n2 / 2 <= n2) by (split; [apply Z.div_pos; lia| apply Z.div_le_upper_bound; lia]).
rewrite (filled_ok n1 1 n2 2), (filled_ok (n1 / 2) A (n1 - n1 / 2) B),
  (filled_ok (n2 / 2) A (n2 - n2 / 2) B) by lia.
cbn [mbind Result_bind].
pose proof (hashString_nonneg seed) as Hs0. fold (create seed) in Hs0.
destruct (shuffle_perm (replicate (Z.to_nat n1) (Some 1) ++ replicate (Z.to_nat n2) (Some 2))
            (create seed) Hs0) as [Hr1 Hss].
destruct (shuffle _ (create seed)) as [rng1 ss]. cbn [fst snd] in Hr1, Hss.
destruct (shuffle_perm (balanced n1) rng1 Hr1) as [Hr2 Hsd1].
destruct (shuffle _ rng1) as [rng2 sd1]. cbn [fst snd] in Hr2, Hsd1.
destruct (shuffle_perm (balanced n2) rng2 Hr2) as [Hr3 Hsd2].
destruct (shuffle _ rng2) as [rng3 sd2]. cbn [fst snd] in Hr3, Hsd2.
destruct (shuffle_perm (balanced n1) rng3 Hr3) as [Hr4 Hrd1].
destruct (shuffle _ rng3) as [rng4 rd1]. cbn [fst snd] in Hr4, Hrd1.
destruct (shuffle_perm (balanced n2) rng4 Hr4) as [Hr5 Hrd2].
destruct (shuffle _ rng4) as [rng5 rd2]. cbn [fst snd] in Hr5, Hrd2.
destruct (count1_states ss _ _ Hss) as (C1 & C2 & Lss).
destruct (zip_Ok ss sd1 sd2 rd1 rd2 (Z.to_nat numRounds) 0 0 0 [])
  as [out Hout]; [simpl; lia|].
exists out. split; [exact Hout|].
assert (Hlen : forall m (a : array Choice), 0 <= m -> a ≡ₚ balanced m -> length a = Z.to_nat m).
{ intros m a Hm ->. rewrite length_app, !length_replicate.
  assert (0 <= m / 2 <= m) by (split; [apply Z.div_pos; lia| apply Z.div_le_upper_bound; lia]).
  lia. }
destruct (zip_inv ss sd1 sd2 rd1 rd2 (Z.to_nat numRounds) 0 0 0 [] out
            ltac:(lia) Hout)
  as (L & S1 & R1 & S2 & R2).
cbn zeta in *. change (Z.of_nat 0) with 0 in *.
rewrite drop_0, take_ge in S1, R1, S2, R2 by lia.
rewrite C1 in S1, R1. rewrite C2 in S2, R2.
rewrite <- (Hlen n1 sd1), slice_all in S1 by (done || lia).
rewrite <- (Hlen n1 rd1), slice_all in R1 by (done || lia).
rewrite <- (Hlen n2 sd2), slice_all in S2 by (done || lia).
rewrite <- (Hlen n2 rd2), slice_all in R2 by (done || lia).
rewrite L, S1, R1, S2, R2. simpl. done.
Qed.
End GenerateSpec.

Lemma zipRounds_length ss sd1 sd2 rd1 rd2 n i idx1 idx2 results out :
zipRounds ss sd1 sd2 rd1 rd2 n i idx1 idx2 results = Ok out ->
length out = (length results + n)%nat.
Proof.
revert i idx1 idx2 results. induction n as [|n IH]; intros i idx1 idx2 results.
- intros [= <-]. lia.
- rewrite zip_S. case_bool_decide; [|done].
  case_decide; intros Hz%IH; rewrite Hz, length_app; simpl; lia.
Qed.

(** the last step of [generateBalancedDefaults] is the loop *)
Lemma generate_zip numRounds p seed out :
generateBalancedDefaults numRounds p seed = Ok out ->
exists ss sd1 sd2 rd1 rd2,
  zipRounds ss sd1 sd2 rd1 rd2 (Z.to_nat numRounds) 0 0 0 [] = Ok out.
Proof.
unfold generateBalancedDefaults. cbv zeta. unfold mbind, Result_bind.
intros H.
repeat (lazymatch type of H with
        | (match ?c with _ => _ end) = _ => destruct c eqn:?
        end; try discriminate H).
eauto 10.
Qed.

Lemma generate_length numRounds p seed out :
generateBalancedDefaults numRounds p seed = Ok out ->
length out = Z.to_nat numRounds.
Proof.
intros (ss & sd1 & sd2 & rd1 & rd2 & H)%generate_zip.
by apply zipRounds_length in H.
Qed.

Lemma getRoundDefault_inv k numRounds p seed t :
getRoundDefault k numRounds p seed = Ok (Some t) ->
exists out,
  generateBalancedDefaults numRounds p seed = Ok out
  /\ 1 <= k <= numRounds
  /\ out !! Z.to_nat (k - 1) = Some t.
Proof.
unfold getRoundDefault, mbind, Result_bind. intros H.
destruct (generateBalancedDefaults numRounds p seed) as [out|] eqn:Hg; [|done].
injection H as H. exists out. split; [done|].
destruct (Z.ltb_spec (k - 1) 0); [done|].
pose proof (lookup_lt_Some _ _ _ H) as Hlt.
rewrite (generate_length _ _ _ _ Hg) in Hlt. split; [lia|done].
Qed.

Lemma getRoundDefault_in_range k numRounds p seed out :
generateBalancedDefaults numRounds p seed = Ok out ->
1 <= k <= numRounds ->
exists t, getRoundDefault k numRounds p seed = Ok (Some t).
Proof.
intros Hg Hk. unfold getRoundDefault, mbind, Result_bind. rewrite Hg.
destruct (Z.ltb_spec (k - 1) 0); [lia|].
destruct (lookup_lt_is_Some_2 out (Z.to_nat (k - 1))) as [t Ht].
{ rewrite (generate_length _ _ _ _ Hg). lia. }
exists t. by rewrite Ht.
Qed.

Lemma getRoundDefault_next k numRounds p seed t :
getRoundDefault k numRounds p seed = Ok (Some t) ->
k + 1 <= numRounds ->
exists t', getRoundDefault (k + 1) numRounds p seed = Ok (Some t').
Proof.
intros H Hk. destruct (getRoundDefault_inv _ _ _ _ _ H) as (out & Hg & Hr & _).
eapply getRoundDefault_in_range; [done|lia].
Qed.

(** with at least one round and a probability in [0,1], the defaults of
  every round 1..numRounds exist *)
Lemma getRoundDefault_valid k numRounds p seed :
1 <= k <= numRounds -> numRounds < 2 ^ 32 -> (0 <= p)%Q -> (p <= 1)%Q ->
exists t, getRoundDefault k numRounds p seed = Ok (Some t).
Proof.
intros Hk Hn Hp0 Hp1.
destruct (generate_spec numRounds p seed ltac:(lia) Hp0 Hp1) as (out & Hg & _).
by eapply getRoundDefault_in_range.
Qed.

(** the term a stuck [match] or [if] waits for *)
Ltac destruct_scrutinee x :=
lazymatch x with
| (if ?c then _ else _) => destruct_scrutinee c
| (match ?c with _ => _ end) => destruct_scrutinee c
| _ => destruct x eqn:?
end.

Lemma filled_exn {T} a (x : T) b y e :
filled a x b y = Throw e -> e = RangeError.
Proof.
unfold filled, orThrow, mbind, Result_bind.
destruct (fill a x); [|by intros [= <-]].
destruct (fill b y); [done|by intros [= <-]].
Qed.

(** the generator throws nothing but the RangeError of [Array(n)] and of
  [push] *)
Lemma generate_Throw numRounds p seed e :
generateBalancedDefaults numRounds p seed = Throw e -> e = RangeError.
Proof.
unfold generateBalancedDefaults. cbv zeta. unfold mbind, Result_bind.
intros H.
repeat (lazymatch type of H with
        | (match filled ?a ?x ?b ?y with _ => _ end) = _ =>
            let Hf := fresh "Hf" in
            destruct (filled a x b y) eqn:Hf;
            [|injection H as <-; by eapply filled_exn]
        | (match ?c with _ => _ end) = _ => destruct c eqn:?
        end).
by eapply zip_Throw.
Qed.

Lemma getRoundDefault_Throw k numRounds p seed e :
getRoundDefault k numRounds p seed = Throw e -> e = RangeError.
Proof.
unfold getRoundDefault, mbind, Result_bind.
destruct (generateBalancedDefaults numRounds p seed) eqn:H; [done|].
intros [= <-]. by eapply generate_Throw.
Qed.

(** *** The entries of the generated sequence *)

(** entry [k] (from 0) is numbered [k + 1] and has hidden state 1 or 2 *)
Lemma zipRounds_numbered ss sd1 sd2 rd1 rd2 n :
forall i idx1 idx2 results out,
  i = Z.of_nat (length results) ->
  (forall k t, results !! k = Some t ->
     RoundDefaults.round t = Z.of_nat k + 1
     /\ (RoundDefaults.trueState t = 1 \/ RoundDefaults.trueState t = 2)) ->
  zipRounds ss sd1 sd2 rd1 rd2 n i idx1 idx2 results = Ok out ->
  forall k t,
    out !! k = Some t ->
    RoundDefaults.round t = Z.of_nat k + 1
    /\ (RoundDefaults.trueState t = 1 \/ RoundDefaults.trueState t = 2).
Proof.
induction n as [|n IH]; intros i idx1 idx2 results out Hi Hres;
  [by intros [= <-]|].
rewrite zip_S. case_bool_decide; [|done]. case_decide.
all: apply IH; [rewrite length_app; simpl; lia|].
all: intros k t; rewrite lookup_app; destruct (results !! k) eqn:Hk;
  [intros [= <-]; by apply Hres|].
all: apply lookup_ge_None in Hk.
all: destruct (k - length results)%nat as [|j] eqn:Hj; [|done].
all: intros [= <-]; cbn; split; [lia|eauto].
Qed.

Lemma generate_entries numRounds p seed out k t :
generateBalancedDefaults numRounds p seed = Ok out ->
out !! k = Some t ->
RoundDefaults.round t = Z.of_nat k + 1
/\ (RoundDefaults.trueState t = 1 \/ RoundDefaults.trueState t = 2).
Proof.
intros (ss & sd1 & sd2 & rd1 & rd2 & H)%generate_zip Hk.
by eapply (zipRounds_numbered _ _ _ _ _ _ 0 0 0 [] out).
Qed.

(** a default of an entry is one of the defaults of its hidden state *)
Lemma default_in proj s (out : list RoundDefaults.t) t :
t ∈ out -> RoundDefaults.trueState t = s -> proj t ∈ defaultsIn proj s out.
Proof.
intros Ht Hs. unfold defaultsIn. apply list_elem_of_fmap_2.
by apply list_elem_of_filter.
Qed.

Section Entries.
Variables (numRounds : Z) (p : Q) (seed : string).
Hypothesis Hn : 0 <= numRounds < 2 ^ 32.
Hypothesis Hp0 : (0 <= p)%Q.
Hypothesis Hp1 : (p <= 1)%Q.

(** with a probability in [0,1], no default is left undefined *)
Lemma generate_defaults out t :
generateBalancedDefaults numRounds p seed = Ok out -> t ∈ out ->
(RoundDefaults.senderDefault t = Some A
 \/ RoundDefaults.senderDefault t = Some B)
/\ (RoundDefaults.receiverDefault t = Some A
    \/ RoundDefaults.receiverDefault t = Some B).
Proof.
intros Hout Ht.
destruct (generate_spec numRounds p seed Hn Hp0 Hp1)
  as (out' & Hout' & _ & S1 & R1 & S2 & R2).
assert (out' = out) as -> by congruence.
assert (Hin : forall m (x : option Choice),
          x ∈ replicate (Z.to_nat (m / 2)) (Some A)
              ++ replicate (Z.to_nat (m - m / 2)) (Some B) ->
          x = Some A \/ x = Some B).
{ intros m x [Hx|Hx]%elem_of_app; apply elem_of_replicate in Hx as [-> _];
    eauto. }
apply list_elem_of_lookup in Ht as [k Hk].
destruct (generate_entries _ _ _ _ _ _ Hout Hk) as [_ [Hs|Hs]].
- split; eapply Hin.
  + rewrite <- S1. apply default_in; [|done]. by eapply list_elem_of_lookup_2.
  + rewrite <- R1. apply default_in; [|done]. by eapply list_elem_of_lookup_2.
- split; eapply Hin.
  + rewrite <- S2. apply default_in; [|done]. by eapply list_elem_of_lookup_2.
  + rewrite <- R2. apply default_in; [|done]. by eapply list_elem_of_lookup_2.
Qed.
End Entries.

(** *** When the generator throws *)

Lemma fill_None {T} n (x : T) : fill n x = None <-> ~ 0 <= n < 2 ^ 32.
Proof.
unfold fill. destruct (Z.leb_spec 0 n); destruct (Z.ltb_spec n (2 ^ 32));
  cbn; split; try done; try lia.
Qed.

Lemma filled_Throw {T} a (x : T) b y e :
filled a x b y = Throw e ->
e = RangeError /\ (~ 0 <= a < 2 ^ 32 \/ ~ 0 <= b < 2 ^ 32).
Proof.
unfold filled, orThrow, mbind, Result_bind.
destruct (fill a x) eqn:Ha; [|intros [= <-]; split; [done|]; left;
                               by apply (fill_None a x)].
destruct (fill b y) eqn:Hb; [done|]. intros [= <-]. split; [done|].
right. by apply (fill_None b y).
Qed.

Lemma halves_in_range m : 0 <= m < 2 ^ 32 ->
0 <= m / 2 /\ 0 <= m - m / 2.
Proof. intros H. Z.div_mod_to_equations. lia. Qed.

(** The generator returns exactly when both counts are array lengths
  and the entries fit into the array [results]. *)
Lemma generate_Ok_iff numRounds p seed :
let numState1 := round (mul (inject_Z numRounds) p) in
let numState2 := numRounds - numState1 in
(exists out, generateBalancedDefaults numRounds p seed = Ok out)
<-> 0 <= numState1 < 2 ^ 32 /\ 0 <= numState2 < 2 ^ 32
    /\ numRounds < 2 ^ 32.
Proof.
intros n1 n2. split.
- intros [out H].
  destruct (generate_zip _ _ _ _ H) as (ss & sd1 & sd2 & rd1 & rd2 & Hz).
  unfold generateBalancedDefaults in H. cbv zeta in H. fold n1 n2 in H.
  destruct (filled n1 1 n2 2) as [states|e] eqn:Hf; [|done].
  unfold filled, orThrow, mbind, Result_bind in Hf.
  destruct (fill n1 1) eqn:H1; [|done]. destruct (fill n2 2) eqn:H2; [|done].
  split; [|split].
  + destruct (decide (0 <= n1 < 2 ^ 32)) as [|Hn]; [done|].
    apply (fill_None n1 1) in Hn. congruence.
  + destruct (decide (0 <= n2 < 2 ^ 32)) as [|Hn]; [done|].
    apply (fill_None n2 2) in Hn. congruence.
  + destruct (decide (numRounds < 2 ^ 32)) as [|Hn]; [done|].
    rewrite zip_overflow in Hz; [done|simpl; lia|simpl; lia].
- intros (H1 & H2 & Hn).
  unfold generateBalancedDefaults. cbv zeta. fold n1. fold n2.
  destruct (halves_in_range n1 H1) as [? ?].
  destruct (halves_in_range n2 H2) as [? ?].
  rewrite (filled_ok n1 1 n2 2), (filled_ok (n1 / 2) A (n1 - n1 / 2) B),
    (filled_ok (n2 / 2) A (n2 - n2 / 2) B) by (done || lia).
  cbn [mbind Result_bind].
  repeat (match goal with
          | |- context [shuffle ?a ?s] => destruct (shuffle a s)
          end; cbn [mbind Result_bind]).
  apply zip_Ok. simpl. lia.
Qed.

(** *** The draws of shuffle *)

Lemma shuffleFrom_seed {T} (i : nat) seed (a : array T) :
(shuffleFrom i seed a).1 = Nat.iter i step seed.
Proof.
revert seed a. induction i as [|i IH]; intros seed a; [done|].
cbn [shuffleFrom]. unfold next. cbn zeta. rewrite IH.
by rewrite Nat.iter_succ_r.
Qed.

Lemma seedAfter_add seed n m :
seedAfter seed (n + m) = Nat.iter m step (seedAfter seed n).
Proof.
unfold seedAfter. by rewrite Nat.add_comm, Nat.iter_add.
Qed.

End GeneratorFacts.
Import GeneratorFacts.

(** ** Results on the generator *)
Import Double JsArray SeededRandom Generator.

Lemma countState_defaultsIn proj s out :
  countState s out = length (defaultsIn proj s out).
Proof. unfold countState, defaultsIn. by rewrite length_fmap. Qed.

Lemma half_bounds m : 0 <= m -> 0 <= m / 2 <= m.
Proof. intros H. split; [apply Z.div_pos; lia| apply Z.div_le_upper_bound; lia]. Qed.

Lemma balanced_counts (xs : list (option Choice)) m :
  0 <= m ->
  xs ≡ₚ replicate (Z.to_nat (m / 2)) (Some A) ++ replicate (Z.to_nat (m - m / 2)) (Some B) ->
  Z.of_nat (length xs) = m
  /\ Z.of_nat (countChoice A xs) = m / 2
  /\ Z.of_nat (countChoice B xs) = m - m / 2.
Proof.
  intros Hm Hp. pose proof (half_bounds m Hm).
  unfold countChoice. rewrite !Hp. rewrite !filter_app, !filter_replicate, !length_app.
  repeat case_decide; try done; simpl; rewrite ?length_replicate; lia.
Qed.



Lemma evenlySplit_balanced (xs : list (option Choice)) m :
  0 <= m ->
  xs ≡ₚ replicate (Z.to_nat (m / 2)) (Some A) ++ replicate (Z.to_nat (m - m / 2)) (Some B) ->
  evenlySplit xs
  /\ (countChoice A xs + countChoice B xs = length xs)%nat.
Proof.
  intros Hm Hp. destruct (balanced_counts xs m Hm Hp) as (L & CA & CB).
  unfold evenlySplit. rewrite CA, CB.
  split; [|lia]. Z.div_mod_to_equations. lia.
Qed.

(** C7: within the rounds of each hidden state, the sender defaults and
    the receiver defaults are each A or B, with counts that differ by at
    most one. *)
Theorem C7_defaults_balanced (numRounds : Z) (p : Q) (seed : string) :
  0 <= numRounds < 2 ^ 32 -> (0 <= p)%Q -> (p <= 1)%Q ->
  exists out,
    generateBalancedDefaults numRounds p seed = Ok out
    /\ forall proj s,
         proj = RoundDefaults.senderDefault
         \/ proj = RoundDefaults.receiverDefault ->
         s = 1 \/ s = 2 ->
         evenlySplit (defaultsIn proj s out)
         /\ (countChoice A (defaultsIn proj s out)
             + countChoice B (defaultsIn proj s out)
             = countState s out)%nat.
Proof.
  intros Hn Hp0 Hp1.
  pose proof (numState1_bounds numRounds p Hn Hp0 Hp1) as Hb.
  destruct (generate_spec numRounds p seed Hn Hp0 Hp1)
    as (out & Hout & Hlen & S1 & R1 & S2 & R2).
  exists out. split; [done|].
  intros proj s [-> | ->] [-> | ->];
    match goal with
    | |- context [defaultsIn ?pr ?st out] =>
        rewrite (countState_defaultsIn pr st out)
    end;
    (eapply evenlySplit_balanced; [|eassumption]; lia).
Qed.

Lemma C7_defaults_balanced_witness :
  exists out,
    generateBalancedDefaults 4 (1 # 2) "alice-bob-stage1" = Ok out
    /\ forall proj s,
         proj = RoundDefaults.senderDefault
         \/ proj = RoundDefaults.receiverDefault ->
         s = 1 \/ s = 2 ->
         evenlySplit (defaultsIn proj s out)
         /\ (countChoice A (defaultsIn proj s out)
             + countChoice B (defaultsIn proj s out)
             = countState s out)%nat.
Proof.
  apply (C7_defaults_balanced 4 (1 # 2) "alice-bob-stage1"); [lia| |]; discriminate.
Defined.

Lemma seedAfter_nonneg seed n : 0 <= seedAfter seed n.
Proof.
  destruct n as [|n]; [apply hashString_nonneg|].
  unfold seedAfter. simpl. apply step_bounds.
Qed.

Lemma seedAfter_succ seed n :
  seedAfter seed (S n) = (next (seedAfter seed n)).1.
Proof. reflexivity. Qed.

(** C8 (as the code has it): after any number of calls, [next] moves the
    seed to [(fl (fl (seed * 1103515245) + 12345)) mod 2^31], where [fl]
    rounds to a JavaScript number, which is the exact linear congruential
    step as long as [seed * 1103515245 + 12345 <= 2^53]; it returns the
    new seed divided by 0x7fffffff = 2^31 - 1 (not 2^31), rounded.  The
    seed is never 2^31 - 1, so the returned value is in [0,1) and the
    index [floor (next() * (i + 1))] drawn by [shuffle] never exceeds
    [i]. *)
Theorem C8_next_range (seed : string) (n : nat) :
  let s := seedAfter seed n in
  let s' := (next s).1 in
  let r := (next s).2 in
  seedAfter seed (S n) = s'
  /\ s' = trunc (add (mul (inject_Z s) 1103515245) 12345) mod 2 ^ 31
  /\ (s * 1103515245 + 12345 <= 2 ^ 53 ->
      s' = (s * 1103515245 + 12345) mod 2 ^ 31)
  /\ 0 <= s' < 2 ^ 31 - 1
  /\ r = fl (inject_Z s' / inject_Z (2 ^ 31 - 1))
  /\ (0 <= r)%Q /\ (r < 1)%Q
  /\ forall i : nat,
       0 <= floor (mul r (inject_Z (Z.of_nat i + 1))) <= Z.of_nat i.
Proof.
  intros s s' r. pose proof (seedAfter_nonneg seed n) as Hs. fold s in Hs.
  pose proof (step_bounds s) as Hb. pose proof (step_not_max s Hs) as Hm.
  destruct (next_value s Hs) as [Hr0 Hr1].
  split; [reflexivity|]. split; [apply step_mod|].
  split; [intros Hsmall; by apply step_exact|].
  split; [unfold s', next; simpl; lia|].
  split; [reflexivity|]. split; [done|]. split; [done|].
  intros i. apply shuffle_index; lia.
Qed.

Lemma C8_next_range_witness :
  let s := seedAfter "" 0 in
  s * 1103515245 + 12345 <= 2 ^ 53
  /\ (next s).1 = (s * 1103515245 + 12345) mod 2 ^ 31.
Proof.
  split; [vm_compute; discriminate|].
  apply (C8_next_range "" 0). vm_compute. discriminate.
Defined.

(** C8 as stated fails: for the seed "hello" the first call of [next]
    leaves the seed 238796208 where the exact congruence gives 238796195
    (the product exceeds 2^53 and is rounded), and it returns
    238796208 / (2^31 - 1), which is not 238796208 / 2^31. *)
Lemma C8_counterexample :
  let s := SeededRandom.create "hello" in
  (next s).1 <> (s * 1103515245 + 12345) mod 2 ^ 31
  /\ ~ ((next s).2 == inject_Z (next s).1 / inject_Z (2 ^ 31))%Q.
Proof.
  split.
  - vm_compute. discriminate.
  - vm_compute. discriminate.
Qed.

(** [fl] on some familiar values: 0.1 and 1/3 as binary64 numbers, and
    the first rounded product of the generator *)
Example fl_tenth : (fl (1 # 10) == 3602879701896397 # 36028797018963968)%Q.
Proof. reflexivity. Qed.

Example fl_third : (fl (1 # 3) == 6004799503160661 # 18014398509481984)%Q.
Proof. reflexivity. Qed.

Example fl_product :
  (fl (inject_Z (99162322 * 1103515245)) == inject_Z 109427134056598896)%Q.
Proof. reflexivity. Qed.

(** ** The endpoint *)
Module EndpointFacts.
Import Endpoints Utils Generator.

(** *** Authentication and lookup of the stage *)

Lemma submit_calledBy env req config u a doc :
calledBy env req config u a ->
submitSenderReceiverAction env req doc = transaction env req config u doc.
Proof.
intros (Hu & Ht & Hs & Hk & _). unfold submitSenderReceiverAction.
by rewrite Hu, Ht, Hs, Hk.
Qed.

Lemma submit_Ok_inv env req doc ws :
submitSenderReceiverAction env req doc = Ok ws ->
exists config u,
  calledBy env req config u (Request.action req)
  /\ transaction env req config u doc = Ok ws.
Proof.
unfold submitSenderReceiverAction, calledBy, httpsError. intros H.
destruct (userIdOf env req) as [u|]; [|done].
destruct (truthy u) eqn:Ht; [|done]. simpl in H.
destruct (Env.stage env) as [config|]; [|done].
destruct (Config.kind config) eqn:Hk; [|done].
exists config, u. done.
Qed.

(** *** Writes into one round *)

Lemma withRound_id d n r :
PublicData.roundMap d !! n = Some r -> withRound d n r = d.
Proof. intros H. destruct d. unfold withRound. simpl in *. by rewrite insert_id. Qed.

Lemma withRound_withRound d n r r' :
withRound (withRound d n r) n r' = withRound d n r'.
Proof. unfold withRound. simpl. by rewrite insert_insert_eq. Qed.

Lemma apply_roundField d n r w :
PublicData.roundMap d !! n = Some r ->
PublicData.apply d (PublicData.w_roundField n w)
= withRound d n (RoundData.apply w r).
Proof.
intros H. unfold withRound. simpl. f_equal.
apply map_eq. intros i. rewrite lookup_alter, lookup_insert.
case_decide; subst; by rewrite ?H.
Qed.

Lemma applyAll_roundFields d n r rws :
PublicData.roundMap d !! n = Some r ->
PublicData.applyAll d (PublicData.w_roundField n <$> rws)
= withRound d n (writeAll r rws).
Proof.
revert d r. induction rws as [|w rws IH]; intros d r H.
- simpl. by rewrite withRound_id.
- unfold PublicData.applyAll in *. rewrite fmap_cons. cbn [foldl].
  rewrite (apply_roundField d n r w H).
  rewrite (IH _ (RoundData.apply w r)); [|by simpl; rewrite lookup_insert_eq].
  by rewrite withRound_withRound.
Qed.

Lemma lookup_withRound d n r m :
PublicData.roundMap (withRound d n r) !! m
= if decide (n = m) then Some r else PublicData.roundMap d !! m.
Proof. unfold withRound. simpl. apply lookup_insert. Qed.

Lemma applyAll_app d ws1 ws2 :
PublicData.applyAll d (ws1 ++ ws2)
= PublicData.applyAll (PublicData.applyAll d ws1) ws2.
Proof. unfold PublicData.applyAll. apply foldl_app. Qed.

Lemma forward_refl r : forward r r.
Proof. split; [lia|done]. Qed.

Lemma forward_trans r1 r2 r3 : forward r1 r2 -> forward r2 r3 -> forward r1 r3.
Proof.
intros [H1 H2] [H3 H4]. split; [lia|]. intros Hs.
destruct (H2 Hs) as (? & ? & ? & ?).
assert (Hs2 : RoundData.status r2 = SHOW_FEEDBACK).
{ rewrite Hs in H1. destruct (RoundData.status r2); simpl in *; try lia; done. }
destruct (H4 Hs2) as (? & ? & ? & ?). repeat split; congruence.
Qed.

Lemma forwardAll_refl d : forwardAll d d.
Proof. intros n r H. exists r. split; [done|apply forward_refl]. Qed.

Lemma forwardAll_trans d1 d2 d3 :
forwardAll d1 d2 -> forwardAll d2 d3 -> forwardAll d1 d3.
Proof.
intros H1 H2 n r Hr. destruct (H1 n r Hr) as (r2 & Hr2 & F1).
destruct (H2 n r2 Hr2) as (r3 & Hr3 & F2). exists r3.
split; [done|]. by eapply forward_trans.
Qed.

Lemma forwardAll_withRound d n r r' :
PublicData.roundMap d !! n = Some r -> forward r r' ->
forwardAll d (withRound d n r').
Proof.
intros H F m r0 Hm. rewrite lookup_withRound. case_decide; subst.
- exists r'. split; [done|]. by simplify_eq.
- exists r0. split; [done|apply forward_refl].
Qed.

(** Case analysis on the run of a handler that returned: the tests and
  binds on the way to the result are decided one after the other. *)
Ltac decide_tests :=
repeat match goal with
  | H : negb _ = true |- _ => apply negb_true_iff in H
  | H : negb _ = false |- _ => apply negb_false_iff in H
  | H : bool_decide _ = true |- _ => apply bool_decide_eq_true in H
  | H : bool_decide _ = false |- _ => apply bool_decide_eq_false in H
  | H : _ && _ = true |- _ => apply andb_true_iff in H; destruct H
  | H : _ || _ = false |- _ => apply orb_false_iff in H; destruct H
  end.

Ltac handler_cases H :=
unfold backendDefault, createNewRound, orThrow, httpsError, mbind,
  Result_bind in H;
cbv beta iota zeta in H;
repeat (lazymatch type of H with
        | (if ?c then _ else _) = _ => destruct_scrutinee c
        | (match ?c with _ => _ end) = _ => destruct_scrutinee c
        end; cbv beta iota zeta in H; try discriminate H);
injection H as <-; decide_tests; try congruence.

(** the writes of a handler, gathered into one list of property writes
  of the current round *)
Ltac gather_fields :=
cbn [app fmap list_fmap];
repeat match goal with
  | |- context [ PublicData.w_roundField ?n ?a :: (PublicData.w_roundField ?n <$> ?l) ] =>
      change (PublicData.w_roundField n a :: (PublicData.w_roundField n <$> l))
        with (PublicData.w_roundField n <$> (a :: l))
  | |- context [ [PublicData.w_roundField ?n ?a] ] =>
      change [PublicData.w_roundField n a]
        with (PublicData.w_roundField n <$> [a])
  end.

Ltac forward_fields :=
gather_fields;
lazymatch goal with
| Hr : PublicData.roundMap ?d !! ?n = Some ?r
  |- forwardAll ?d (PublicData.applyAll ?d (PublicData.w_roundField ?n <$> ?rws)) =>
    rewrite (applyAll_roundFields d n r rws Hr);
    apply (forwardAll_withRound d n r _ Hr);
    split; cbn; unfold RoundData.status in *;
    repeat match goal with H : RoundData.status _ = _ |- _ => rewrite H end;
    cbn; [lia | intros; repeat split; congruence]
end.

Lemma startGame_forward env isS isR d r ws :
currentRoundData d = Some r ->
startGame env isS isR (PublicData.currentRound d) r = Ok ws ->
forwardAll d (PublicData.applyAll d ws).
Proof.
unfold currentRoundData, startGame. intros Hr H. handler_cases H.
all: try apply forwardAll_refl.
all: forward_fields.
Qed.

Lemma senderSignal_forward env req config isS d r ws :
currentRoundData d = Some r ->
senderSignal env req config isS d (PublicData.currentRound d) r = Ok ws ->
forwardAll d (PublicData.applyAll d ws).
Proof.
unfold currentRoundData, senderSignal. intros Hr H. handler_cases H.
all: destruct (Config.requireParticipantClick config && _); forward_fields.
Qed.

Lemma receiverSawMessage_forward env isR d r ws :
currentRoundData d = Some r ->
receiverSawMessage env isR (PublicData.currentRound d) r = Ok ws ->
forwardAll d (PublicData.applyAll d ws).
Proof.
unfold currentRoundData, receiverSawMessage. intros Hr H. handler_cases H.
all: try apply forwardAll_refl.
all: forward_fields.
Qed.

Lemma receiverChoice_forward env req config isR d r ws :
currentRoundData d = Some r ->
receiverChoice env req config isR d (PublicData.currentRound d) r = Ok ws ->
forwardAll d (PublicData.applyAll d ws).
Proof.
unfold currentRoundData, receiverChoice. intros Hr H. handler_cases H.
all: forward_fields.
Qed.

Lemma forwardAll_fresh d d' :
(forall n r, PublicData.roundMap d !! n = Some r ->
             PublicData.roundMap d' !! n = Some r) ->
forwardAll d d'.
Proof. intros H n r Hn. exists r. split; [by apply H|apply forward_refl]. Qed.

Lemma forwardAll_update d d' n r r1 :
PublicData.roundMap d !! n = Some r -> forward r r1 ->
PublicData.roundMap d' !! n = Some r1 ->
(forall m r0, m <> n -> PublicData.roundMap d !! m = Some r0 ->
              PublicData.roundMap d' !! m = Some r0) ->
forwardAll d d'.
Proof.
intros Hr F Hn Hm m r0 H0. destruct (decide (m = n)) as [->|Hne].
- exists r1. split; [done|]. by simplify_eq.
- exists r0. split; [by apply Hm|apply forward_refl].
Qed.

Ltac flag_forward :=
split; cbn; unfold RoundData.status in *;
repeat match goal with H : RoundData.status _ = _ |- _ => rewrite H end;
cbn; [lia | intros; repeat split; congruence].

Lemma nextRound_forward env req config isS isR d r ws :
currentRoundData d = Some r ->
nextRound env req config isS isR d (PublicData.currentRound d) r = Ok ws ->
forwardAll d (PublicData.applyAll d ws).
Proof.
unfold currentRoundData, nextRound. intros Hr H. handler_cases H.
all: try apply forwardAll_refl.
all: try forward_fields.
all: unfold PublicData.applyAll; cbn [foldl].
all: rewrite (apply_roundField _ _ _ _ Hr).
all: eapply (forwardAll_update _ _ _ _ _ Hr);
  [|cbn [PublicData.apply PublicData.roundMap withRound];
    rewrite ?lookup_insert_ne by lia; apply lookup_insert_eq
   |intros m r0 Hne Hm; cbn [PublicData.apply PublicData.roundMap withRound]];
  [flag_forward|].
all: try (rewrite lookup_insert_ne by done; done).
all: destruct (decide (m = PublicData.currentRound d + 1)) as [->|Hne2];
  [exfalso; match goal with H : ¬ is_Some _ |- _ => apply H; eauto end|].
all: rewrite !lookup_insert_ne by done; done.
Qed.

Lemma assignRole_forward env req config u d ws :
assignRole env req config u d = Ok ws ->
forwardAll d (PublicData.applyAll d ws).
Proof.
unfold assignRole, assignUpdates, startGameIfReady. intros H. handler_cases H.
all: try apply forwardAll_refl.
all: apply forwardAll_fresh; intros m r0 Hm.
all: unfold PublicData.applyAll;
  cbn [app foldl PublicData.apply PublicData.roundMap default from_option].
all: try done.
all: rewrite lookup_insert_ne; [done|].
all: intros <-.
all: match goal with H : ¬ is_Some _ |- _ => apply H end.
all: unfold PublicData.applyAll;
  cbn [app foldl PublicData.apply PublicData.roundMap]; eauto.
Qed.

Lemma transaction_dispatch env req config u d :
transaction env req config u (Some d)
= if bool_decide (Request.action req = assign_role)
  then assignRole env req config u d
  else if negb (isUser (PublicData.senderId d) u)
          && negb (isUser (PublicData.receiverId d) u)
  then httpsError permission_denied "User is not a player in this game"
  else match currentRoundData d with
       | None => httpsError failed_precondition "Round data not initialized"
       | Some r => handle env req config u d r
       end.
Proof. reflexivity. Qed.

Lemma handle_forward env req config u d r ws :
currentRoundData d = Some r ->
handle env req config u d r = Ok ws ->
forwardAll d (PublicData.applyAll d ws).
Proof.
intros Hr. unfold handle. destruct (Request.action req).
- intros [= <-]. apply forwardAll_refl.
- by apply startGame_forward.
- by apply senderSignal_forward.
- by apply receiverSawMessage_forward.
- by apply receiverChoice_forward.
- by apply nextRound_forward.
Qed.

Lemma transaction_forward env req config u d ws :
transaction env req config u (Some d) = Ok ws ->
forwardAll d (PublicData.applyAll d ws).
Proof.
rewrite transaction_dispatch. case_bool_decide.
- apply assignRole_forward.
- destruct (_ && _); [done|].
  destruct (currentRoundData d) as [r|] eqn:Hr; [|done].
  by apply handle_forward.
Qed.

Lemma run_forward env req d : forwardAll d (run env req d).
Proof.
unfold run, stored.
destruct (submitSenderReceiverAction env req (Some d)) as [ws|e] eqn:H;
  [|apply forwardAll_refl].
destruct (submit_Ok_inv _ _ _ _ H) as (config & u & _ & Ht).
by eapply transaction_forward.
Qed.

Lemma runAll_forward calls d : forwardAll d (runAll calls d).
Proof.
revert d. induction calls as [|c calls IH]; intros d; [apply forwardAll_refl|].
unfold runAll. simpl. eapply forwardAll_trans; [apply run_forward|apply IH].
Qed.

(** *** The writes of each handler *)

Ltac fields_shape := gather_fields; eexists; reflexivity.

Lemma startGame_shape env isS isR n r ws :
startGame env isS isR n r = Ok ws ->
exists rws, ws = PublicData.w_roundField n <$> rws.
Proof.
unfold startGame. intros H. handler_cases H; try (by exists []); fields_shape.
Qed.

Lemma senderSignal_shape env req config isS d n r ws :
senderSignal env req config isS d n r = Ok ws ->
exists rws, ws = PublicData.w_roundField n <$> rws.
Proof.
unfold senderSignal. intros H. handler_cases H.
all: destruct (Config.requireParticipantClick config && _); fields_shape.
Qed.

Lemma receiverSawMessage_shape env isR n r ws :
receiverSawMessage env isR n r = Ok ws ->
exists rws, ws = PublicData.w_roundField n <$> rws.
Proof.
unfold receiverSawMessage. intros H.
handler_cases H; try (by exists []); fields_shape.
Qed.

Lemma receiverChoice_shape env req config isR d n r ws :
receiverChoice env req config isR d n r = Ok ws ->
exists rws, ws = PublicData.w_roundField n <$> rws.
Proof. unfold receiverChoice. intros H. handler_cases H; fields_shape. Qed.

(** next_round: no write, the caller's flag alone, or the flag followed
  by the advancement *)
Lemma nextRound_shape env req config isS isR d r ws :
nextRound env req config isS isR d (PublicData.currentRound d) r = Ok ws ->
let n := PublicData.currentRound d in
ws = []
\/ RoundData.status r = SHOW_FEEDBACK
   /\ exists flag advance,
       ws = PublicData.w_roundField n flag :: advance
       /\ (isS = true /\ flag = RoundData.w_senderReadyNext (val true)
           /\ (advance = [] \/ isTrue (RoundData.receiverReadyNext r) = true)
           \/ isS = false /\ isR = true
              /\ flag = RoundData.w_receiverReadyNext (val true)
              /\ (advance = [] \/ isTrue (RoundData.senderReadyNext r) = true))
       /\ (advance = []
           /\ (isTrue (if isS then RoundData.receiverReadyNext r
                       else RoundData.senderReadyNext r) = false
               \/ n + 1 <= Config.numRounds config
                  /\ is_Some (PublicData.roundMap d !! (n + 1)))
           \/ advance = [PublicData.w_currentRound (n + 1)]
              /\ Config.numRounds config < n + 1
           \/ exists t,
               advance = [PublicData.w_currentRound (n + 1);
                          PublicData.w_round (n + 1)
                            (newRoundData env (n + 1)
                               (RoundDefaults.trueState t))]
               /\ n + 1 <= Config.numRounds config
               /\ PublicData.roundMap d !! (n + 1) = None
               /\ Generator.getRoundDefault (n + 1) (Config.numRounds config)
                    (probabilityOf config)
                    (pairSeedOf (PublicData.senderId d)
                       (PublicData.receiverId d) (Request.stageId req))
                  = Ok (Some t)).
Proof.
unfold nextRound. intros H. handler_cases H; cbn zeta; try (by left).
all: right; split; [done|]; eexists _, _; split; [reflexivity|].
all: repeat match goal with
       | H : (_ <? _) = true |- _ => apply Z.ltb_lt in H
       | H : (_ <? _) = false |- _ => apply Z.ltb_ge in H
       | H : ¬ is_Some _ |- _ => apply eq_None_not_Some in H
       end.
all: split; [naive_solver|].
all: first [ left; split; [reflexivity|]; naive_solver
           | right; left; split; [reflexivity|]; lia
           | right; right; eexists; split; [reflexivity|]; done ].
Qed.

(** assign_role: nothing for a participant who already has a role;
  otherwise one id, followed by round 1 when that fills both roles
  and round 1 does not exist *)
Lemma assignRole_shape env req config u d ws :
assignRole env req config u d = Ok ws ->
(isUser (PublicData.senderId d) u || isUser (PublicData.receiverId d) u = true
 /\ ws = [])
\/ isUser (PublicData.senderId d) u = false
   /\ isUser (PublicData.receiverId d) u = false
   /\ exists idw,
       (idw = PublicData.w_senderId u
        /\ truthyId (PublicData.senderId d) = false
        \/ idw = PublicData.w_receiverId u
           /\ truthyId (PublicData.receiverId d) = false)
       /\ let d1 := PublicData.apply d idw in
          (ws = [idw]
           /\ (truthyId (PublicData.senderId d1) = false
               \/ truthyId (PublicData.receiverId d1) = false
               \/ is_Some (PublicData.roundMap d !! 1))
           \/ exists t,
               ws = [idw;
                     PublicData.w_round 1
                       (roundObject (Env.now env) 1
                          (RoundDefaults.trueState t) true);
                     PublicData.w_currentRound 1]
               /\ truthyId (PublicData.senderId d1) = true
               /\ truthyId (PublicData.receiverId d1) = true
               /\ PublicData.roundMap d !! 1 = None
               /\ Generator.getRoundDefault 1 (Config.numRounds config)
                    (probabilityOf config)
                    (pairSeedOf (PublicData.senderId d1)
                       (PublicData.receiverId d1) (Request.stageId req))
                  = Ok (Some t)).
Proof.
unfold assignRole, assignUpdates, startGameIfReady. intros H.
handler_cases H; try (by left).
all: right; split; [done|]; split; [done|].
all: repeat match goal with
       | H : ¬ is_Some _ |- _ => apply eq_None_not_Some in H
       | H : truthyId _ = true |- _ =>
           progress (unfold PublicData.applyAll in H;
                     cbn [app foldl PublicData.apply PublicData.senderId
                            PublicData.receiverId PublicData.roundMap] in H)
       | H : _ !! _ = None |- _ =>
           progress (unfold PublicData.applyAll in H;
                     cbn [app foldl PublicData.apply PublicData.senderId
                            PublicData.receiverId PublicData.roundMap] in H)
       | H : Generator.getRoundDefault _ _ _ _ = _ |- _ =>
           progress (unfold PublicData.applyAll in H;
                     cbn [app foldl PublicData.apply PublicData.senderId
                            PublicData.receiverId PublicData.roundMap] in H)
       end.
all: eexists; split; [first [left; split; [reflexivity|done]
                            |right; split; [reflexivity|done]]|].
all: cbn zeta;
  cbn [app default from_option PublicData.apply PublicData.senderId
         PublicData.receiverId PublicData.roundMap].
all: first [ left; split; [reflexivity|]
           | right; eexists; split; [reflexivity|]; done ].
all: unfold PublicData.applyAll in *;
  cbn [app foldl PublicData.apply PublicData.senderId
         PublicData.receiverId PublicData.roundMap] in *.
all: repeat match goal with
       | H : _ || _ = true |- _ => apply orb_true_iff in H; destruct H
       | H : is_Some _ |- _ => by eauto
       end; decide_tests; eauto.
Qed.

(** *** Ids *)

Lemma isUser_true o u : isUser o u = true <-> o = Some u.
Proof.
destruct o as [s|]; simpl; [|done]. rewrite String.eqb_eq.
split; congruence.
Qed.

Lemma isUser_false o u : isUser o u = false <-> o <> Some u.
Proof.
rewrite <- isUser_true. destruct (isUser o u); split; congruence.
Qed.

Lemma truthyId_true o :
truthyId o = true <-> exists s, o = Some s /\ truthy s = true.
Proof.
destruct o as [s|]; simpl; [|by split; [|intros (? & ? & ?)]].
split; [eauto|]. by intros (? & [= <-] & ?).
Qed.

Lemma truthyId_false o :
(forall s, o = Some s -> truthy s = true) -> truthyId o = false -> o = None.
Proof.
destruct o as [s|]; simpl; [|done]. intros H Hf. rewrite (H s) in Hf; done.
Qed.

(** *** The invariant holds initially and is kept by every call *)

Section Invariant.
Variables (config : Config.t) (stageId : string).

Local Abbreviation I := (Inv config stageId).

Lemma Inv_init : I (createSenderReceiverStagePublicData stageId).
Proof.
split; simpl; intros; try done;
  repeat match goal with
    | H : is_Some (∅ !! _) |- _ => rewrite lookup_empty in H
    | H : is_Some None |- _ => destruct H; done
    end.
Qed.

Lemma Inv_withRound d n r r' :
I d -> PublicData.roundMap d !! n = Some r -> I (withRound d n r').
Proof.
intros [Hsnd Hrcv Hdist Hroles Hround1 Hbound Hgen] Hr.
assert (Hs : forall m, is_Some (PublicData.roundMap (withRound d n r') !! m)
                    -> is_Some (PublicData.roundMap d !! m)).
{ intros m. rewrite lookup_withRound. case_decide; subst; eauto. }
split; simpl; eauto.
intros Hs1 Hs2. rewrite lookup_insert. case_decide; eauto.
Qed.

Lemma Inv_fields d r rws :
I d -> currentRoundData d = Some r ->
I (PublicData.applyAll d
       (PublicData.w_roundField (PublicData.currentRound d) <$> rws)).
Proof.
intros HI Hr. rewrite (applyAll_roundFields _ _ _ _ Hr).
by eapply Inv_withRound.
Qed.

Lemma Inv_bump d k :
I d -> PublicData.currentRound d <= k ->
I (PublicData.apply d (PublicData.w_currentRound k)).
Proof.
intros [Hsnd Hrcv Hdist Hroles Hround1 Hbound Hgen] Hk. split; simpl; eauto.
intros n Hn. specialize (Hbound n Hn). lia.
Qed.

Lemma Inv_newRound d k new t :
I d ->
is_Some (PublicData.senderId d) -> is_Some (PublicData.receiverId d) ->
k <= PublicData.currentRound d ->
Generator.getRoundDefault k (Config.numRounds config) (probabilityOf config)
  (pairSeedOf (PublicData.senderId d) (PublicData.receiverId d) stageId)
= Ok (Some t) ->
I (PublicData.apply d (PublicData.w_round k new)).
Proof.
intros [Hsnd Hrcv Hdist Hroles Hround1 Hbound Hgen] Hs Hr Hk Hg. split; simpl; eauto.
- intros _ _. rewrite lookup_insert. case_decide; eauto.
- intros n. rewrite lookup_insert. case_decide; subst; eauto.
- intros n. rewrite lookup_insert. case_decide; subst; eauto.
Qed.

(** an instance with a free role has no round yet *)
Lemma Inv_no_round d n :
I d ->
truthyId (PublicData.senderId d) = false
\/ truthyId (PublicData.receiverId d) = false ->
PublicData.roundMap d !! n = None.
Proof.
intros [Hsnd Hrcv Hdist Hroles Hround1 Hbound Hgen] Hfree. apply eq_None_not_Some. intros Hn.
destruct (Hroles n Hn) as [[s Hs] [r Hr]].
pose proof (Hsnd s Hs). pose proof (Hrcv r Hr).
rewrite Hs, Hr in Hfree. simpl in Hfree. destruct Hfree; congruence.
Qed.

Lemma Inv_assignRole env req u d ws :
I d -> truthy u = true -> Request.stageId req = stageId ->
assignRole env req config u d = Ok ws ->
I (PublicData.applyAll d ws).
Proof.
intros HI Hu Hst H.
destruct (assignRole_shape _ _ _ _ _ _ H) as [[_ ->]|(HnS & HnR & idw & Hid & Hws)];
  [done|].
apply isUser_false in HnS, HnR.
assert (Hnone : forall n, PublicData.roundMap d !! n = None).
{ intros n. apply Inv_no_round; [done|]. destruct Hid as [[_ ?]|[_ ?]]; eauto. }
destruct HI as [Hsnd Hrcv Hdist Hroles Hround1 Hbound Hgen].
destruct Hid as [[-> Hfree]|[-> Hfree]]; cbn zeta in Hws;
  cbn [PublicData.apply PublicData.senderId PublicData.receiverId] in Hws.
- destruct Hws as [[-> Hno]|(t & -> & T1 & T2 & Hr1 & Hg)];
    unfold PublicData.applyAll; cbn [foldl PublicData.apply]; split; simpl.
  all: repeat match goal with
         | |- forall _, _ => intro
         | H : Some _ = Some _ |- _ => injection H as <-
         | H : is_Some (<[_ := _]> _ !! _) |- _ =>
             rewrite lookup_insert in H; case_decide; subst
         | H : is_Some (PublicData.roundMap _ !! ?n) |- _ =>
             rewrite (Hnone n) in H; destruct H; done
         end; rewrite ?lookup_insert_eq; eauto; try lia.
  all: try (apply truthyId_true in T2 as (? & ? & ?); by eauto).
  all: try (rewrite <- Hst; by eauto).
  all: try congruence.
  all: destruct Hno as [Hno|[Hno|Hno]]; [| |done].
  all: apply truthyId_false in Hno; [|intros ? [= <-] || eauto; done].
  all: try done.
  all: match goal with
       | H : is_Some ?o, E : ?o = None |- _ =>
           rewrite E in H; destruct H; done
       end.
- destruct Hws as [[-> Hno]|(t & -> & T1 & T2 & Hr1 & Hg)];
    unfold PublicData.applyAll; cbn [foldl PublicData.apply]; split; simpl.
  all: repeat match goal with
         | |- forall _, _ => intro
         | H : Some _ = Some _ |- _ => injection H as <-
         | H : is_Some (<[_ := _]> _ !! _) |- _ =>
             rewrite lookup_insert in H; case_decide; subst
         | H : is_Some (PublicData.roundMap _ !! ?n) |- _ =>
             rewrite (Hnone n) in H; destruct H; done
         end; rewrite ?lookup_insert_eq; eauto; try lia.
  all: try (apply truthyId_true in T1 as (? & ? & ?); by eauto).
  all: try (rewrite <- Hst; by eauto).
  all: try congruence.
  all: destruct Hno as [Hno|[Hno|Hno]]; [| |done].
  all: apply truthyId_false in Hno; [|intros ? [= <-] || eauto; done].
  all: try done.
  all: match goal with
       | H : is_Some ?o, E : ?o = None |- _ =>
           rewrite E in H; destruct H; done
       end.
Qed.

Lemma Inv_nextRound env req isS isR d r ws :
I d -> Request.stageId req = stageId ->
currentRoundData d = Some r ->
nextRound env req config isS isR d (PublicData.currentRound d) r = Ok ws ->
I (PublicData.applyAll d ws).
Proof.
intros HI Hst Hr H.
destruct (nextRound_shape _ _ _ _ _ _ _ _ H)
  as [->|(_ & flag & advance & -> & _ & Hadv)]; [done|].
cbn zeta in Hadv. unfold PublicData.applyAll. cbn [foldl].
rewrite (apply_roundField _ _ _ _ Hr).
pose proof (Inv_withRound d _ r (RoundData.apply flag r) HI Hr) as HI1.
destruct (inv_roles _ _ _ HI _ (mk_is_Some _ _ Hr)) as [Hs1 Hs2].
destruct Hadv as [[-> _]|[[-> Hlast]|(t & -> & Hle & Hnone & Hg)]];
  cbn [foldl].
- done.
- apply Inv_bump; [done|]. simpl. lia.
- eapply Inv_newRound; [apply Inv_bump; [done|simpl; lia]|done|done|simpl; lia|].
  simpl. rewrite <- Hst. exact Hg.
Qed.

Lemma Inv_handle env req u d r ws :
I d -> Request.stageId req = stageId ->
currentRoundData d = Some r ->
handle env req config u d r = Ok ws ->
I (PublicData.applyAll d ws).
Proof.
intros HI Hst Hr. unfold handle. destruct (Request.action req); intros H.
- by injection H as <-.
- destruct (startGame_shape _ _ _ _ _ _ H) as [rws ->]. by eapply Inv_fields.
- destruct (senderSignal_shape _ _ _ _ _ _ _ _ H) as [rws ->].
  by eapply Inv_fields.
- destruct (receiverSawMessage_shape _ _ _ _ _ H) as [rws ->].
  by eapply Inv_fields.
- destruct (receiverChoice_shape _ _ _ _ _ _ _ _ H) as [rws ->].
  by eapply Inv_fields.
- by eapply Inv_nextRound.
Qed.

Lemma Inv_run env req d :
I d -> Env.stage env = Some config -> Request.stageId req = stageId ->
I (run env req d).
Proof.
intros HI Hcfg Hst. unfold run, stored.
destruct (submitSenderReceiverAction env req (Some d)) as [ws|e] eqn:H;
  [|done].
destruct (submit_Ok_inv _ _ _ _ H) as (config' & u & Hc & Ht).
destruct Hc as (_ & Hu & Hcfg' & _).
assert (config' = config) as -> by congruence.
rewrite transaction_dispatch in Ht. case_bool_decide.
- by eapply Inv_assignRole.
- destruct (_ && _); [done|].
  destruct (currentRoundData d) as [r|] eqn:Hr; [|done].
  by eapply Inv_handle.
Qed.

Lemma reachable_Inv d : reachable config stageId d -> I d.
Proof.
induction 1 as [|d env req _ IH Hcfg Hst]; [apply Inv_init|by apply Inv_run].
Qed.
End Invariant.

(** *** Calls that reach a handler *)

Lemma submit_handle env req config u a d r :
calledBy env req config u a -> a <> assign_role ->
PublicData.senderId d = Some u \/ PublicData.receiverId d = Some u ->
currentRoundData d = Some r ->
submitSenderReceiverAction env req (Some d) = handle env req config u d r.
Proof.
intros Hc Ha Hrole Hr. rewrite (submit_calledBy _ _ _ _ _ _ Hc).
destruct Hc as (_ & _ & _ & _ & Hact).
rewrite transaction_dispatch, Hact, bool_decide_eq_false_2, Hr by done.
destruct Hrole as [H|H]; apply isUser_true in H; rewrite H; simpl;
  [done|by rewrite andb_false_r].
Qed.

Lemma submit_Ok_handle env req d ws :
submitSenderReceiverAction env req (Some d) = Ok ws ->
Request.action req <> assign_role ->
exists config u r,
  calledBy env req config u (Request.action req)
  /\ (PublicData.senderId d = Some u \/ PublicData.receiverId d = Some u)
  /\ currentRoundData d = Some r
  /\ handle env req config u d r = Ok ws.
Proof.
intros H Ha. destruct (submit_Ok_inv _ _ _ _ H) as (config & u & Hc & Ht).
rewrite transaction_dispatch, bool_decide_eq_false_2 in Ht by done.
destruct (isUser (PublicData.senderId d) u) eqn:HS;
  destruct (isUser (PublicData.receiverId d) u) eqn:HR; simpl in Ht; try done.
all: destruct (currentRoundData d) as [r|] eqn:Hr; [|done].
all: exists config, u, r; rewrite ?isUser_true in *; eauto.
Qed.

(** *** What the two decision handlers write *)

Lemma senderSignal_Ok env req config isS d n r ws :
senderSignal env req config isS d n r = Ok ws ->
isS = true /\ RoundData.status r = WAITING_SENDER_DECIDE
/\ exists dflt,
    backendDefault RoundDefaults.senderDefault config (Request.stageId req)
      d n = Ok dflt
    /\ let payload := payloadOf req in
       let now := Env.now env 0%nat in
       ws = PublicData.w_roundField n <$>
              ([RoundData.w_senderChoice
                  (choiceOrNull (Payload.senderChoice payload));
                RoundData.w_senderMessage
                  (messageOrNull (Payload.senderMessage payload));
                RoundData.w_senderSubmittedTime (val now);
                RoundData.w_senderReactionTimeSeconds
                  (reactionTime (RoundData.senderUnlockedTime r) now);
                RoundData.w_senderActiveTimeSeconds
                  (orNull (Payload.activeTimeSeconds payload));
                RoundData.w_senderTimedOut
                  (default false (Payload.isTimedOut payload));
                RoundData.w_defaultSenderChoice dflt]
               ++ (if Config.requireParticipantClick config
                      && bool_decide (Payload.isTimedOut payload = Some true)
                   then [RoundData.w_senderPayoff (val 0%Q);
                         RoundData.w_receiverPayoff (val 0%Q)]
                   else [])
               ++ [RoundData.w_status WAITING_RECEIVER_DECIDE;
                   RoundData.w_receiverUnlockedTime (val now)]).
Proof.
unfold senderSignal. intros H.
destruct isS; [|done]. simpl in H. case_bool_decide as Hs; [|done]. simpl in H.
destruct (backendDefault _ _ _ _ _) as [dflt|] eqn:Hd; [|done].
injection H as <-. eauto.
Qed.

Lemma receiverChoice_Ok env req config isR d n r ws :
receiverChoice env req config isR d n r = Ok ws ->
isR = true /\ RoundData.status r = WAITING_RECEIVER_DECIDE
/\ exists choice dflt,
    Payload.receiverChoice (payloadOf req) = Some choice
    /\ backendDefault RoundDefaults.receiverDefault config
         (Request.stageId req) d n = Ok dflt
    /\ let payload := payloadOf req in
       let now := Env.now env 0%nat in
       ws = PublicData.w_roundField n <$>
              [RoundData.w_receiverChoice (val choice);
               RoundData.w_receiverSubmittedTime (val now);
               RoundData.w_receiverReactionTimeSeconds
                 (reactionTime (RoundData.receiverUnlockedTime r) now);
               RoundData.w_receiverActiveTimeSeconds
                 (orNull (Payload.activeTimeSeconds payload));
               RoundData.w_receiverTimedOut
                 (default false (Payload.isTimedOut payload));
               RoundData.w_defaultReceiverChoice dflt;
               RoundData.w_senderPayoff
                 (val (payoffLogic config r choice).1);
               RoundData.w_receiverPayoff
                 (val (payoffLogic config r choice).2);
               RoundData.w_status SHOW_FEEDBACK].
Proof.
unfold receiverChoice. intros H.
destruct isR; [|done]. simpl in H. case_bool_decide as Hs; [|done]. simpl in H.
destruct (Payload.receiverChoice (payloadOf req)) as [choice|]; [|done].
destruct (payoffLogic config r choice) as [sp rp] eqn:Hp.
destruct (backendDefault _ _ _ _ _) as [dflt|] eqn:Hd; [|done].
injection H as <-. split; [done|]. split; [done|]. exists choice, dflt.
rewrite Hp. eauto.
Qed.

(** the backend default exists for every round of a reachable instance *)
Lemma backendDefault_Ok proj config stageId d n :
Inv config stageId d -> is_Some (PublicData.roundMap d !! n) ->
exists dflt, backendDefault proj config stageId d n = Ok dflt.
Proof.
intros HI Hn. unfold backendDefault.
destruct (Config.enableBalancedDefaults config); [|by eauto].
destruct (inv_generated _ _ _ HI n Hn) as [t Ht]. rewrite Ht. simpl. eauto.
Qed.

(** *** The stored round after a transaction of property writes *)

Lemma stored_roundFields d r rws :
currentRoundData d = Some r ->
stored d (Ok (PublicData.w_roundField (PublicData.currentRound d) <$> rws))
= withRound d (PublicData.currentRound d) (writeAll r rws).
Proof. intros H. simpl. by apply applyAll_roundFields. Qed.

Lemma currentRound_withRound d n r :
PublicData.currentRound (withRound d n r) = PublicData.currentRound d.
Proof. done. Qed.

Lemma current_withRound d r :
currentRoundData (withRound d (PublicData.currentRound d) r) = Some r.
Proof.
unfold currentRoundData. rewrite lookup_withRound, currentRound_withRound.
by rewrite decide_True.
Qed.

(** *** Instances reached by a list of calls *)

Lemma reachable_runAll config stageId calls d :
reachable config stageId d ->
Forall (fun c => Env.stage c.1 = Some config
                 /\ Request.stageId c.2 = stageId) calls ->
reachable config stageId (runAll calls d).
Proof.
intros Hd Hc. revert d Hd. induction Hc as [|c calls [H1 H2] _ IH]; intros d Hd.
- done.
- apply IH. by apply reachable_run.
Qed.

(** a call that does not return leaves the document as it was *)
Lemma run_Throw env req d e :
submitSenderReceiverAction env req (Some d) = Throw e -> run env req d = d.
Proof. unfold run. by intros ->. Qed.

Lemma run_Ok env req d ws :
submitSenderReceiverAction env req (Some d) = Ok ws ->
run env req d = PublicData.applyAll d ws.
Proof. unfold run. by intros ->. Qed.

(** the payoff logic written into receiver_choice is [calculatePayoffs]
  behind the test for a missing sender choice *)
Lemma payoffLogic_null config r choice :
RoundData.senderChoice r = null -> payoffLogic config r choice = (0, 0)%Q.
Proof.
unfold payoffLogic, RoundData.senderChoice. by intros ->.
Qed.

Lemma payoffLogic_calculatePayoffs config r choice :
RoundData.senderChoice r <> null ->
payoffLogic config r choice
= calculatePayoffs choice (RoundData.trueState r) config.
Proof.
unfold payoffLogic, calculatePayoffs. destruct r. cbn.
by destruct senderChoice.
Qed.

(** *** Calls that throw *)

(** Case analysis on the run of a handler that threw [e]; an exception
  that comes out of the generator is a RangeError. *)
Ltac thrown_cases H :=
unfold backendDefault, createNewRound, orThrow, httpsError, mbind,
  Result_bind in H;
cbv beta iota zeta in H;
repeat (lazymatch type of H with
        | (if ?c then _ else _) = _ => destruct_scrutinee c
        | (match ?c with _ => _ end) = _ => destruct_scrutinee c
        end; cbv beta iota zeta in H; try discriminate H);
repeat match goal with
  | E : Generator.getRoundDefault _ _ _ _ = Throw _ |- _ =>
      apply getRoundDefault_Throw in E
  end;
decide_tests; simplify_eq.

Lemma assignRole_Throw env req config u d e :
assignRole env req config u d = Throw e ->
e = RangeError \/ e = TypeError
\/ exists msg, e = HttpsError failed_precondition msg.
Proof.
unfold assignRole, assignUpdates, startGameIfReady. intros H.
thrown_cases H; eauto.
Qed.

Lemma handle_Throw env req config u d r e :
handle env req config u d r = Throw e ->
e = RangeError \/ e = TypeError
\/ (exists msg, e = HttpsError permission_denied msg)
\/ (exists msg, e = HttpsError failed_precondition msg)
\/ e = HttpsError invalid_argument "Missing choice"
   /\ Request.action req = receiver_choice
   /\ Payload.receiverChoice (payloadOf req) = None.
Proof.
unfold handle. destruct (Request.action req) eqn:Ha; intros H.
- done.
- unfold startGame in H. thrown_cases H.
- unfold senderSignal in H. thrown_cases H; eauto 10.
- unfold receiverSawMessage in H. thrown_cases H.
- unfold receiverChoice in H. thrown_cases H; eauto 10.
- unfold nextRound in H. thrown_cases H; eauto 10.
Qed.

Lemma submit_Throw env req doc e :
submitSenderReceiverAction env req doc = Throw e ->
e = RangeError \/ e = TypeError
\/ (exists msg, e = HttpsError unauthenticated msg)
\/ (exists msg, e = HttpsError not_found msg)
\/ (exists msg, e = HttpsError permission_denied msg)
\/ (exists msg, e = HttpsError failed_precondition msg)
\/ e = HttpsError invalid_argument "Missing choice"
   /\ Request.action req = receiver_choice
   /\ Payload.receiverChoice (payloadOf req) = None.
Proof.
unfold submitSenderReceiverAction, httpsError. intros H.
destruct (userIdOf env req) as [u|]; [|simplify_eq; eauto 10].
destruct (negb (truthy u)); [simplify_eq; eauto 10|].
destruct (Env.stage env) as [config|]; [|simplify_eq; eauto 10].
destruct (Config.kind config); [|simplify_eq; eauto 10].
destruct doc as [d|]; [|unfold transaction, httpsError in H; simplify_eq; eauto 10].
rewrite transaction_dispatch in H. unfold httpsError in H.
case_bool_decide.
{ apply assignRole_Throw in H. naive_solver. }
destruct (_ && _); [simplify_eq; eauto 10|].
destruct (currentRoundData d) as [r|]; [|simplify_eq; eauto 10].
apply handle_Throw in H. naive_solver.
Qed.

(** *** sender_signal and receiver_choice on a reachable instance *)

Lemma senderSignal_run config stageId env req d u r :
Inv config stageId d ->
calledBy env req config u sender_signal ->
Request.stageId req = stageId ->
PublicData.senderId d = Some u ->
currentRoundData d = Some r ->
RoundData.status r = WAITING_SENDER_DECIDE ->
exists dflt,
  let payload := payloadOf req in
  let now := Env.now env 0%nat in
  submitSenderReceiverAction env req (Some d)
  = Ok (PublicData.w_roundField (PublicData.currentRound d) <$>
          ([RoundData.w_senderChoice
              (choiceOrNull (Payload.senderChoice payload));
            RoundData.w_senderMessage
              (messageOrNull (Payload.senderMessage payload));
            RoundData.w_senderSubmittedTime (val now);
            RoundData.w_senderReactionTimeSeconds
              (reactionTime (RoundData.senderUnlockedTime r) now);
            RoundData.w_senderActiveTimeSeconds
              (orNull (Payload.activeTimeSeconds payload));
            RoundData.w_senderTimedOut
              (default false (Payload.isTimedOut payload));
            RoundData.w_defaultSenderChoice dflt]
           ++ (if Config.requireParticipantClick config
                  && bool_decide (Payload.isTimedOut payload = Some true)
               then [RoundData.w_senderPayoff (val 0%Q);
                     RoundData.w_receiverPayoff (val 0%Q)]
               else [])
           ++ [RoundData.w_status WAITING_RECEIVER_DECIDE;
               RoundData.w_receiverUnlockedTime (val now)])).
Proof.
intros HI Hc Hst Hs Hr Hstatus.
rewrite (submit_handle _ _ _ _ _ _ _ Hc) by eauto.
destruct Hc as (_ & _ & _ & _ & Ha). unfold handle. rewrite Ha.
unfold senderSignal. apply isUser_true in Hs. rewrite Hs.
rewrite bool_decide_eq_true_2 by done. cbn [negb].
destruct (backendDefault_Ok RoundDefaults.senderDefault config stageId d
            (PublicData.currentRound d) HI) as [dflt Hd]; [by eexists|].
rewrite Hst, Hd. by exists dflt.
Qed.

(** the round left by a sender_signal call *)
Lemma senderSignal_stored config stageId env req d u r :
Inv config stageId d ->
calledBy env req config u sender_signal ->
Request.stageId req = stageId ->
PublicData.senderId d = Some u ->
currentRoundData d = Some r ->
RoundData.status r = WAITING_SENDER_DECIDE ->
exists ws r',
  submitSenderReceiverAction env req (Some d) = Ok ws
  /\ run env req d = withRound d (PublicData.currentRound d) r'
  /\ RoundData.senderChoice r'
     = choiceOrNull (Payload.senderChoice (payloadOf req))
  /\ RoundData.senderMessage r'
     = messageOrNull (Payload.senderMessage (payloadOf req))
  /\ RoundData.status r' = WAITING_RECEIVER_DECIDE
  /\ RoundData.trueState r' = RoundData.trueState r
  /\ ((RoundData.senderPayoff r', RoundData.receiverPayoff r')
      = if Config.requireParticipantClick config
           && bool_decide (Payload.isTimedOut (payloadOf req) = Some true)
        then (val 0%Q, val 0%Q)
        else (RoundData.senderPayoff r, RoundData.receiverPayoff r)).
Proof.
intros HI Hc Hst Hs Hr Hstatus.
destruct (senderSignal_run _ _ _ _ _ _ _ HI Hc Hst Hs Hr Hstatus)
  as [dflt H]. cbv zeta in H.
eexists _, _. split; [exact H|]. unfold run. rewrite H.
split; [by apply stored_roundFields|].
destruct (Config.requireParticipantClick config && _); by cbn.
Qed.

(** *** Calls that are turned away *)

Lemma submit_not_player env req config u a d :
calledBy env req config u a -> a <> assign_role ->
isUser (PublicData.senderId d) u = false ->
isUser (PublicData.receiverId d) u = false ->
submitSenderReceiverAction env req (Some d)
= Throw (HttpsError permission_denied "User is not a player in this game").
Proof.
intros Hc Ha HS HR. rewrite (submit_calledBy _ _ _ _ _ _ Hc).
destruct Hc as (_ & _ & _ & _ & Hact).
by rewrite transaction_dispatch, Hact, bool_decide_eq_false_2, HS, HR.
Qed.

Lemma submit_no_round env req config u a d :
calledBy env req config u a -> a <> assign_role ->
isUser (PublicData.senderId d) u = true
\/ isUser (PublicData.receiverId d) u = true ->
currentRoundData d = None ->
submitSenderReceiverAction env req (Some d)
= Throw (HttpsError failed_precondition "Round data not initialized").
Proof.
intros Hc Ha Hrole Hr. rewrite (submit_calledBy _ _ _ _ _ _ Hc).
destruct Hc as (_ & _ & _ & _ & Hact).
rewrite transaction_dispatch, Hact, bool_decide_eq_false_2, Hr by done.
destruct Hrole as [-> | ->]; [done|by rewrite andb_false_r].
Qed.

Lemma submit_no_doc env req config u a :
calledBy env req config u a ->
submitSenderReceiverAction env req None
= Throw (HttpsError not_found "Public data doc does not exist").
Proof. intros Hc. by rewrite (submit_calledBy _ _ _ _ _ _ Hc). Qed.

Lemma submit_no_stage env req u doc :
userIdOf env req = Some u -> Env.stage env = None ->
submitSenderReceiverAction env req doc
= Throw (if truthy u
         then HttpsError not_found "Stage not found or invalid kind"
         else HttpsError unauthenticated "User must be logged in.").
Proof.
intros Hu Hs. unfold submitSenderReceiverAction. rewrite Hu, Hs.
by destruct (truthy u).
Qed.

(** a player's call when the current round exists *)
Lemma submit_player env req config u a d r :
calledBy env req config u a -> a <> assign_role ->
isUser (PublicData.senderId d) u = true
\/ isUser (PublicData.receiverId d) u = true ->
currentRoundData d = Some r ->
submitSenderReceiverAction env req (Some d) = handle env req config u d r.
Proof.
intros Hc Ha Hrole Hr. apply (submit_handle _ _ _ _ _ _ _ Hc Ha); [|done].
by rewrite <-!isUser_true.
Qed.

(** the instance after the first of two sender_signal calls, and the
  second call on it *)
Lemma senderSignal_twice config stageId env req env2 req2 d u r :
Inv config stageId d ->
calledBy env req config u sender_signal ->
Request.stageId req = stageId ->
PublicData.senderId d = Some u ->
currentRoundData d = Some r ->
RoundData.status r = WAITING_SENDER_DECIDE ->
calledBy env2 req2 config u sender_signal ->
exists ws r1,
  submitSenderReceiverAction env req (Some d) = Ok ws
  /\ currentRoundData (run env req d) = Some r1
  /\ RoundData.senderChoice r1
     = choiceOrNull (Payload.senderChoice (payloadOf req))
  /\ RoundData.senderMessage r1
     = messageOrNull (Payload.senderMessage (payloadOf req))
  /\ RoundData.status r1 = WAITING_RECEIVER_DECIDE
  /\ submitSenderReceiverAction env2 req2 (Some (run env req d))
     = Throw (HttpsError failed_precondition
                "Not sender turn. Current status: WAITING_RECEIVER_DECIDE").
Proof.
intros HI Hc Hst Hs Hr Hstatus Hc2.
destruct (senderSignal_stored _ _ _ _ _ _ _ HI Hc Hst Hs Hr Hstatus)
  as (ws & r1 & H & Hrun & Hsc & Hsm & Hst1 & _).
exists ws, r1. rewrite Hrun, current_withRound. split_and!; try done.
rewrite (submit_player _ _ _ _ _ _ r1 Hc2); try done.
- destruct Hc2 as (_ & _ & _ & _ & Ha). unfold handle. rewrite Ha.
  unfold senderSignal. cbn [withRound PublicData.senderId].
  apply isUser_true in Hs. rewrite Hs. cbn [negb].
  rewrite bool_decide_eq_false_2 by (rewrite Hst1; done).
  cbn [negb]. unfold RoundData.status in *. by rewrite Hst1.
- left. cbn. by apply isUser_true.
- apply current_withRound.
Qed.

(** *** Which transactions write the payoffs *)

(** a payoff write in an explicit list of writes is one of its elements *)
Ltac payoff_writes :=
cbn [app fmap list_fmap default from_option];
unfold writesSenderPayoff, writesReceiverPayoff;
repeat setoid_rewrite elem_of_cons; repeat setoid_rewrite elem_of_nil.

Lemma startGame_payoffs env isS isR n r ws m :
startGame env isS isR n r = Ok ws ->
~ writesSenderPayoff m ws /\ ~ writesReceiverPayoff m ws.
Proof.
unfold startGame. intros H. handler_cases H; payoff_writes; naive_solver.
Qed.

Lemma receiverSawMessage_payoffs env isR n r ws m :
receiverSawMessage env isR n r = Ok ws ->
~ writesSenderPayoff m ws /\ ~ writesReceiverPayoff m ws.
Proof.
unfold receiverSawMessage. intros H.
handler_cases H; payoff_writes; naive_solver.
Qed.

Lemma nextRound_payoffs env req config isS isR d n r ws m :
nextRound env req config isS isR d n r = Ok ws ->
~ writesSenderPayoff m ws /\ ~ writesReceiverPayoff m ws.
Proof.
unfold nextRound. intros H. handler_cases H; payoff_writes; naive_solver.
Qed.

Lemma assignRole_payoffs env req config u d ws m :
assignRole env req config u d = Ok ws ->
~ writesSenderPayoff m ws /\ ~ writesReceiverPayoff m ws.
Proof.
unfold assignRole, assignUpdates, startGameIfReady. intros H.
handler_cases H; payoff_writes; naive_solver.
Qed.

Lemma senderSignal_payoffs env req config isS d n r ws :
senderSignal env req config isS d n r = Ok ws ->
let forced :=
  Config.requireParticipantClick config
  && bool_decide (Payload.isTimedOut (payloadOf req) = Some true) in
(forall m v,
   PublicData.w_roundField m (RoundData.w_senderPayoff v) ∈ ws
   <-> forced = true /\ m = n /\ v = val 0%Q)
/\ (forall m v,
      PublicData.w_roundField m (RoundData.w_receiverPayoff v) ∈ ws
      <-> forced = true /\ m = n /\ v = val 0%Q).
Proof.
intros H. destruct (senderSignal_Ok _ _ _ _ _ _ _ _ H) as (_ & _ & dflt & _ & ->).
cbv zeta. destruct (Config.requireParticipantClick config && _);
  payoff_writes; naive_solver.
Qed.

Lemma receiverChoice_payoffs env req config isR d n r ws :
receiverChoice env req config isR d n r = Ok ws ->
exists choice,
  Payload.receiverChoice (payloadOf req) = Some choice
  /\ (forall m v,
        PublicData.w_roundField m (RoundData.w_senderPayoff v) ∈ ws
        <-> m = n /\ v = val (payoffLogic config r choice).1)
  /\ (forall m v,
        PublicData.w_roundField m (RoundData.w_receiverPayoff v) ∈ ws
        <-> m = n /\ v = val (payoffLogic config r choice).2).
Proof.
intros H.
destruct (receiverChoice_Ok _ _ _ _ _ _ _ _ H)
  as (_ & _ & choice & dflt & Hc & _ & ->).
exists choice. split; [done|]. cbv zeta. payoff_writes. naive_solver.
Qed.

(** a payoff write of a committed transaction comes from sender_signal
  or receiver_choice *)
Lemma submit_payoffs env req d ws m :
submitSenderReceiverAction env req (Some d) = Ok ws ->
writesSenderPayoff m ws \/ writesReceiverPayoff m ws ->
Request.action req = sender_signal \/ Request.action req = receiver_choice.
Proof.
intros H Hw. destruct (submit_Ok_inv _ _ _ _ H) as (config & u & _ & Ht).
rewrite transaction_dispatch in Ht. case_bool_decide as Ha.
{ apply (assignRole_payoffs _ _ _ _ _ _ m) in Ht. tauto. }
destruct (_ && _); [done|].
destruct (currentRoundData d) as [r|]; [|done].
unfold handle in Ht. destruct (Request.action req); eauto.
- injection Ht as <-. destruct Hw as [[v Hv]|[v Hv]]; by apply elem_of_nil in Hv.
- apply (startGame_payoffs _ _ _ _ _ _ m) in Ht. tauto.
- apply (receiverSawMessage_payoffs _ _ _ _ _ m) in Ht. tauto.
- apply (nextRound_payoffs _ _ _ _ _ _ _ _ _ m) in Ht. tauto.
Qed.

(** the committed sender_signal and receiver_choice calls *)
Lemma senderSignal_committed env req d ws :
submitSenderReceiverAction env req (Some d) = Ok ws ->
Request.action req = sender_signal ->
let n := PublicData.currentRound d in
exists config r r1,
  Env.stage env = Some config
  /\ currentRoundData d = Some r
  /\ senderSignal env req config true d n r = Ok ws
  /\ run env req d = withRound d n r1
  /\ RoundData.senderChoice r1
     = choiceOrNull (Payload.senderChoice (payloadOf req))
  /\ RoundData.status r1 = WAITING_RECEIVER_DECIDE.
Proof.
intros H Ha n.
destruct (submit_Ok_handle _ _ _ _ H) as (config & u & r & Hc & _ & Hr & Hh);
  [by rewrite Ha|].
unfold handle in Hh. rewrite Ha in Hh.
destruct (senderSignal_Ok _ _ _ _ _ _ _ _ Hh) as (HS & _ & dflt & _ & Hws).
cbv zeta in Hws. rewrite HS in Hh.
destruct Hc as (_ & _ & Hcfg & _). exists config, r. eexists.
split; [done|]. split; [done|]. split; [done|].
unfold run. rewrite H, Hws. split; [by apply stored_roundFields|].
destruct (Config.requireParticipantClick config && _); by cbn.
Qed.

Lemma receiverChoice_committed env req d ws :
submitSenderReceiverAction env req (Some d) = Ok ws ->
Request.action req = receiver_choice ->
let n := PublicData.currentRound d in
exists config r r1,
  Env.stage env = Some config
  /\ currentRoundData d = Some r
  /\ receiverChoice env req config true d n r = Ok ws
  /\ run env req d = withRound d n r1
  /\ exists choice,
      Payload.receiverChoice (payloadOf req) = Some choice
      /\ RoundData.senderPayoff r1 = val (payoffLogic config r choice).1
      /\ RoundData.receiverPayoff r1 = val (payoffLogic config r choice).2
      /\ RoundData.status r1 = SHOW_FEEDBACK.
Proof.
intros H Ha n.
destruct (submit_Ok_handle _ _ _ _ H) as (config & u & r & Hc & _ & Hr & Hh);
  [by rewrite Ha|].
unfold handle in Hh. rewrite Ha in Hh.
destruct (receiverChoice_Ok _ _ _ _ _ _ _ _ Hh)
  as (HR & _ & choice & dflt & Hchoice & _ & Hws).
cbv zeta in Hws. rewrite HR in Hh.
destruct Hc as (_ & _ & Hcfg & _). exists config, r. eexists.
split; [done|]. split; [done|]. split; [done|].
unfold run. rewrite H, Hws. split; [by apply stored_roundFields|].
by exists choice.
Qed.

(** *** assign_role *)

Lemma submit_assignRole env req config u d :
calledBy env req config u assign_role ->
submitSenderReceiverAction env req (Some d) = assignRole env req config u d.
Proof.
intros Hc. rewrite (submit_calledBy _ _ _ _ _ _ Hc).
destruct Hc as (_ & _ & _ & _ & Ha).
by rewrite transaction_dispatch, bool_decide_eq_true_2.
Qed.

(** an assignment that leaves both roles filled on an instance without
  round 1 has created it *)
Lemma assignRole_round1 config0 stageId0 env req config u d ws :
Inv config0 stageId0 d -> truthy u = true ->
assignRole env req config u d = Ok ws ->
let d' := PublicData.applyAll d ws in
is_Some (PublicData.senderId d') -> is_Some (PublicData.receiverId d') ->
PublicData.roundMap d !! 1 = None ->
exists r1,
  PublicData.w_round 1 r1 ∈ ws
  /\ PublicData.w_currentRound 1 ∈ ws
  /\ PublicData.roundMap d' !! 1 = Some r1
  /\ RoundData.status r1 = WAITING_BOTH_START
  /\ PublicData.currentRound d' = 1.
Proof.
intros HI Hu H d' HS HR Hnone. subst d'.
destruct (assignRole_shape _ _ _ _ _ _ H)
  as [[_ ->]|(_ & _ & idw & Hid & Hws)].
{ destruct (inv_round1 _ _ _ HI HS HR) as [? Hx]. cbn in Hx. congruence. }
cbv zeta in Hws. destruct Hws as [[-> Hno]|(t & -> & _)].
- exfalso. unfold PublicData.applyAll in HS, HR. cbn [foldl] in HS, HR.
  destruct Hno as [Hno|[Hno|[? Hno]]]; [| |congruence].
  + apply truthyId_false in Hno; [rewrite Hno in HS; by destruct HS|].
    intros s Hs. destruct Hid as [[-> _]|[-> _]]; cbn in Hs.
    * by injection Hs as <-.
    * by apply (inv_sender _ _ _ HI).
  + apply truthyId_false in Hno; [rewrite Hno in HR; by destruct HR|].
    intros s Hs. destruct Hid as [[-> _]|[-> _]]; cbn in Hs.
    * by apply (inv_receiver _ _ _ HI).
    * by injection Hs as <-.
- eexists. split; [apply list_elem_of_further, list_elem_of_here|].
  split; [do 2 apply list_elem_of_further; apply list_elem_of_here|].
  unfold PublicData.applyAll. cbn [foldl PublicData.apply PublicData.roundMap
                                     PublicData.currentRound].
  by rewrite lookup_insert_eq.
Qed.

(** the first-come-first-served fallback on an instance with no role
  taken, and with the Sender role taken *)
Lemma assignRole_first env req config u d :
PublicData.senderId d = None -> PublicData.receiverId d = None ->
Payload.requestedRole (payloadOf req) = None ->
historicalRoleOf (Request.stageId req) u (Env.cohortPublicData env) = None ->
assignRole env req config u d = Ok [PublicData.w_senderId u].
Proof.
intros Hs Hr Hq Hh. unfold assignRole, assignUpdates, startGameIfReady.
unfold PublicData.applyAll. rewrite Hs, Hr, Hq, Hh. cbn. rewrite Hr.
by rewrite orb_true_r.
Qed.

Lemma assignUpdates_second env stageId u d s :
PublicData.senderId d = Some s -> truthy s = true ->
PublicData.receiverId d = None ->
historicalRoleOf stageId u (Env.cohortPublicData env) = None ->
assignUpdates env stageId u None d = Ok [PublicData.w_receiverId u].
Proof.
intros Hs Hts Hr Hh. unfold assignUpdates. rewrite Hs, Hr, Hh. cbn.
by rewrite Hts.
Qed.

Lemma startGameIfReady_first now d config stageId s u t :
PublicData.senderId d = Some s -> truthy s = true ->
PublicData.receiverId d = Some u -> truthy u = true ->
PublicData.roundMap d !! 1 = None ->
Generator.getRoundDefault 1 (Config.numRounds config) (probabilityOf config)
  (pairSeedOf (Some s) (Some u) stageId) = Ok (Some t) ->
startGameIfReady now d config stageId
= Ok (Some [PublicData.w_round 1
              (roundObject now 1 (RoundDefaults.trueState t) true);
            PublicData.w_currentRound 1]).
Proof.
intros Hs Hts Hr Htu Hn Hg. unfold startGameIfReady, createNewRound.
rewrite Hs, Hr, Hn, Hg. cbn [truthyId]. rewrite Hts, Htu.
by rewrite bool_decide_eq_false_2 by (by intros [? ?]).
Qed.

Lemma assignRole_second env req config u d s t :
PublicData.senderId d = Some s -> truthy s = true -> s <> u ->
truthy u = true ->
PublicData.receiverId d = None ->
PublicData.roundMap d !! 1 = None ->
Payload.requestedRole (payloadOf req) = None ->
historicalRoleOf (Request.stageId req) u (Env.cohortPublicData env) = None ->
Generator.getRoundDefault 1 (Config.numRounds config) (probabilityOf config)
  (pairSeedOf (Some s) (Some u) (Request.stageId req)) = Ok (Some t) ->
assignRole env req config u d
= Ok [PublicData.w_receiverId u;
      PublicData.w_round 1
        (roundObject (Env.now env) 1 (RoundDefaults.trueState t) true);
      PublicData.w_currentRound 1].
Proof.
intros Hs Hts Hne Htu Hr Hn Hq Hh Hg. unfold assignRole.
replace (isUser (PublicData.senderId d) u) with false
  by (symmetry; apply isUser_false; congruence).
replace (isUser (PublicData.receiverId d) u) with false
  by (symmetry; apply isUser_false; congruence).
rewrite Hq, (assignUpdates_second _ _ _ _ s) by done.
cbn [orb mbind Result_bind].
rewrite (startGameIfReady_first _ _ _ _ s u t); done.
Qed.

(** *** next_round *)

Lemma partner_partner role : partner (partner role) = role.
Proof. by destruct role. Qed.

(** the role tests of a participant on a reachable instance *)
Lemma playerOf_isUser config stageId d role u :
Inv config stageId d -> playerOf d role = Some u ->
isUser (PublicData.senderId d) u
= match role with sender => true | receiver => false end
/\ isUser (PublicData.receiverId d) u
   = match role with sender => false | receiver => true end.
Proof.
intros HI Hu. destruct role; cbn in Hu.
- split; [by apply isUser_true|]. apply isUser_false.
  by apply (inv_distinct _ _ _ HI).
- split; [|by apply isUser_true]. apply isUser_false.
  intros Hs. by apply (inv_distinct _ _ _ HI u Hs).
Qed.

Lemma playerOf_player d role u :
playerOf d role = Some u ->
isUser (PublicData.senderId d) u = true
\/ isUser (PublicData.receiverId d) u = true.
Proof. destruct role; cbn; intros H; [left|right]; by apply isUser_true. Qed.

(** what next_round returns in SHOW_FEEDBACK *)
Lemma nextRound_SHOW_FEEDBACK config stageId env req d role u r :
Inv config stageId d ->
calledBy env req config u next_round ->
Request.stageId req = stageId ->
playerOf d role = Some u ->
currentRoundData d = Some r ->
RoundData.status r = SHOW_FEEDBACK ->
let n := PublicData.currentRound d in
let flag := PublicData.w_roundField n (setReadyNext role) in
exists t,
  submitSenderReceiverAction env req (Some d)
  = Ok (if negb (isTrue (readyNext (partner role) r)) then [flag]
        else if Config.numRounds config <? n + 1
             then [flag; PublicData.w_currentRound (n + 1)]
             else [flag; PublicData.w_currentRound (n + 1);
                   PublicData.w_round (n + 1)
                     (newRoundData env (n + 1) (RoundDefaults.trueState t))]).
Proof.
intros HI Hc Hst Hu Hr Hstatus n flag.
rewrite (submit_player _ _ _ _ _ _ r Hc); [|done|by eapply playerOf_player|done].
destruct Hc as (_ & _ & _ & _ & Ha). unfold handle. rewrite Ha.
destruct (playerOf_isUser _ _ _ _ _ HI Hu) as [-> ->].
unfold nextRound. rewrite bool_decide_eq_true_2 by done. cbn [negb].
assert (Hnext : PublicData.roundMap d !! (n + 1) = None).
{ apply eq_None_not_Some. intros Hn.
  apply (inv_bound _ _ _ HI) in Hn. subst n. lia. }
fold n. rewrite Hnext, (bool_decide_eq_false_2 (is_Some None))
  by (by intros [? ?]).
destruct (Z.ltb_spec (Config.numRounds config) (n + 1)) as [Hend|Hmore].
- exists (RoundDefaults.mk 0 0 None None).
  subst flag. destruct role; cbn; by destruct (isTrue _).
- destruct (inv_generated _ _ _ HI n) as [t0 Ht0]; [by eexists|].
  destruct (getRoundDefault_next _ _ _ _ _ Ht0 Hmore) as [t Ht].
  exists t. rewrite Hst, Ht.
  subst flag. destruct role; cbn; by destruct (isTrue _).
Qed.

(** the first of the two calls sets its caller's flag; the call that
  finds the partner's flag set moves the instance on *)
Lemma nextRound_flagged config stageId env req d role u r :
Inv config stageId d ->
calledBy env req config u next_round ->
Request.stageId req = stageId ->
playerOf d role = Some u ->
currentRoundData d = Some r ->
RoundData.status r = SHOW_FEEDBACK ->
isTrue (readyNext (partner role) r) = false ->
run env req d
= withRound d (PublicData.currentRound d)
    (RoundData.apply (setReadyNext role) r).
Proof.
intros HI Hc Hst Hu Hr Hstatus Hflag.
destruct (nextRound_SHOW_FEEDBACK _ _ _ _ _ _ _ _ HI Hc Hst Hu Hr Hstatus)
  as [t H]. cbv zeta in H. rewrite Hflag in H. cbn [negb] in H.
rewrite (run_Ok _ _ _ _ H). unfold PublicData.applyAll. cbn [foldl].
by apply apply_roundField.
Qed.

Lemma nextRound_advanced config stageId env req d role u r :
Inv config stageId d ->
calledBy env req config u next_round ->
Request.stageId req = stageId ->
playerOf d role = Some u ->
currentRoundData d = Some r ->
RoundData.status r = SHOW_FEEDBACK ->
isTrue (readyNext (partner role) r) = true ->
advanced config d (run env req d).
Proof.
intros HI Hc Hst Hu Hr Hstatus Hflag.
destruct (nextRound_SHOW_FEEDBACK _ _ _ _ _ _ _ _ HI Hc Hst Hu Hr Hstatus)
  as [t H]. cbv zeta in H. rewrite Hflag in H. cbn [negb] in H.
rewrite (run_Ok _ _ _ _ H). clear H.
assert (Hnext : PublicData.roundMap d
                  !! (PublicData.currentRound d + 1) = None).
{ apply eq_None_not_Some. intros Hn.
  apply (inv_bound _ _ _ HI) in Hn. lia. }
assert (Hsame : forall m,
           is_Some (PublicData.roundMap
                      (withRound d (PublicData.currentRound d)
                         (RoundData.apply (setReadyNext role) r)) !! m)
           <-> is_Some (PublicData.roundMap d !! m)).
{ intros m. rewrite lookup_withRound. case_decide; [subst|done].
  unfold currentRoundData in Hr. rewrite Hr. split; by eexists. }
unfold advanced. cbv zeta.
destruct (Z.ltb_spec (Config.numRounds config) (PublicData.currentRound d + 1))
  as [Hend|Hmore].
- unfold PublicData.applyAll. cbn [foldl].
  rewrite (apply_roundField _ _ _ _ Hr).
  cbn [PublicData.apply PublicData.currentRound PublicData.senderId
         PublicData.receiverId PublicData.roundMap].
  split_and!; try done.
  + intros _. apply eq_None_not_Some. intros Hn%Hsame.
    rewrite Hnext in Hn. by destruct Hn.
  + lia.
- unfold PublicData.applyAll. cbn [foldl].
  rewrite (apply_roundField _ _ _ _ Hr).
  cbn [PublicData.apply PublicData.currentRound PublicData.senderId
         PublicData.receiverId PublicData.roundMap].
  split_and!; try done.
  + intros m Hm. rewrite lookup_insert_ne by done. apply Hsame.
  + lia.
  + intros _. eexists. by rewrite lookup_insert_eq.
Qed.

(** on an instance that has moved on, next_round changes nothing *)
Lemma advanced_stuck config config' d x env req role u :
advanced config d x ->
playerOf x role = Some u ->
calledBy env req config' u next_round ->
run env req x = x.
Proof.
intros (Hn & _ & _ & _ & Hend & Hmore) Hu Hc.
destruct (Z.lt_ge_cases (Config.numRounds config)
            (PublicData.currentRound d + 1)) as [Hlt|Hge].
- eapply run_Throw, (submit_no_round _ _ _ _ _ _ Hc);
    [done|by eapply playerOf_player|].
  unfold currentRoundData. rewrite Hn. by apply Hend.
- destruct (Hmore Hge) as (new & Hnew & Hstatus).
  assert (Hr : currentRoundData x = Some new)
    by (unfold currentRoundData; by rewrite Hn).
  unfold run.
  rewrite (submit_player _ _ _ _ _ _ new Hc);
    [|done|by eapply playerOf_player|done].
  destruct Hc as (_ & _ & _ & _ & Ha). unfold handle. rewrite Ha.
  unfold nextRound. rewrite bool_decide_eq_false_2; [done|].
  unfold RoundData.status in *. by rewrite Hstatus.
Qed.

Lemma advanced_flagged config d r r' x :
currentRoundData d = Some r ->
advanced config (withRound d (PublicData.currentRound d) r') x ->
advanced config d x.
Proof.
intros Hr (Hn & HS & HR & Hsame & Hend & Hmore).
rewrite currentRound_withRound in *. cbn in HS, HR.
split_and!; try done.
intros m Hm. rewrite (Hsame m Hm), lookup_withRound.
case_decide; [subst|done]. unfold currentRoundData in Hr. rewrite Hr.
split; by eexists.
Qed.

(** *** Every call is one transition *)

Lemma startGame_step config env isS isR n r ws :
startGame env isS isR n r = Ok ws ->
ws = []
\/ exists rws, ws = PublicData.w_roundField n <$> rws /\ roundStep config r rws.
Proof.
unfold startGame. intros H. handler_cases H; try (by left); right.
- eexists [_; _; _; _]. split; [reflexivity|].
  by apply (both_started config r sender).
- eexists [_]. split; [reflexivity|]. by apply (ready_start config r sender).
- eexists [_; _; _; _]. split; [reflexivity|].
  by apply (both_started config r receiver).
- eexists [_]. split; [reflexivity|]. by apply (ready_start config r receiver).
Qed.

Lemma senderSignal_step config env req isS d n r ws :
senderSignal env req config isS d n r = Ok ws ->
exists rws, ws = PublicData.w_roundField n <$> rws /\ roundStep config r rws.
Proof.
intros H. destruct (senderSignal_Ok _ _ _ _ _ _ _ _ H)
  as (_ & Hs & dflt & _ & Hws). cbv zeta in Hws.
eexists. split; [exact Hws|].
replace (bool_decide (Payload.isTimedOut (payloadOf req) = Some true))
  with (default false (Payload.isTimedOut (payloadOf req)))
  by (by destruct (Payload.isTimedOut (payloadOf req)) as [[]|]).
apply signalled; [done|].
by destruct (Payload.senderChoice (payloadOf req)).
Qed.

Lemma receiverSawMessage_step config env isR n r ws :
receiverSawMessage env isR n r = Ok ws ->
ws = []
\/ exists rws, ws = PublicData.w_roundField n <$> rws /\ roundStep config r rws.
Proof.
unfold receiverSawMessage. intros H. handler_cases H; try (by left); right.
eexists [_]. split; [reflexivity|]. by apply message_seen.
Qed.

Lemma receiverChoice_step config env req isR d n r ws :
receiverChoice env req config isR d n r = Ok ws ->
exists rws, ws = PublicData.w_roundField n <$> rws /\ roundStep config r rws.
Proof.
intros H. destruct (receiverChoice_Ok _ _ _ _ _ _ _ _ H)
  as (_ & Hs & choice & dflt & _ & _ & Hws). cbv zeta in Hws.
eexists. split; [exact Hws|]. by apply chosen.
Qed.

Lemma nextRound_step config env req isS isR d r ws :
currentRoundData d = Some r ->
nextRound env req config isS isR d (PublicData.currentRound d) r = Ok ws ->
transition config (Request.stageId req) d (PublicData.applyAll d ws).
Proof.
intros Hr H. destruct (nextRound_shape _ _ _ _ _ _ _ _ H)
  as [->|(Hs & flag & advance & -> & Hflag & Hadv)]; [apply stays|].
cbv zeta in Hadv.
assert (Hrole : exists role,
           flag = setReadyNext role
           /\ (advance = []
               \/ isTrue (readyNext (partner role) r) = true)).
{ destruct Hflag as [(_ & -> & ?)|(_ & _ & -> & ?)];
    [by exists sender|by exists receiver]. }
destruct Hrole as (role & -> & Hpartner).
destruct Hadv as [[-> _]|[[-> Hend]|(t & -> & Hle & Hnone & Hg)]].
- unfold PublicData.applyAll. cbn [foldl].
  rewrite (apply_roundField _ _ _ _ Hr).
  apply (in_round _ _ _ r [setReadyNext role]); [done|by apply ready_next].
- destruct Hpartner as [?|Hp]; [done|]. by eapply game_over.
- destruct Hpartner as [?|Hp]; [done|]. by eapply next_opened.
Qed.

Lemma assignRole_step config env req u d ws :
truthy u = true ->
assignRole env req config u d = Ok ws ->
transition config (Request.stageId req) d (PublicData.applyAll d ws).
Proof.
intros Hu H.
destruct (assignRole_shape _ _ _ _ _ _ H)
  as [[_ ->]|(_ & _ & idw & Hid & Hws)]; [apply stays|].
cbv zeta in Hws.
assert (Hrole : exists role,
           idw = setPlayer role u /\ truthyId (playerOf d role) = false).
{ destruct Hid as [[-> ?]|[-> ?]]; [by exists sender|by exists receiver]. }
destruct Hrole as (role & -> & Hfree).
destruct Hws as [[-> Hno]|(t & -> & HS & HR & Hnone & Hg)].
- unfold PublicData.applyAll. cbn [foldl].
  apply takes_role; [done|done|].
  destruct role; cbn in *;
    destruct Hno as [Hno|[Hno|Hno]]; eauto; rewrite Hu in Hno; done.
- apply takes_role_and_opens; try done.
  destruct role; cbn in *; done.
Qed.

Lemma handle_step config env req u d r ws :
currentRoundData d = Some r ->
handle env req config u d r = Ok ws ->
transition config (Request.stageId req) d (PublicData.applyAll d ws).
Proof.
intros Hr. unfold handle.
assert (Hfields : forall rws,
          roundStep config r rws ->
          transition config (Request.stageId req) d
            (PublicData.applyAll d
               (PublicData.w_roundField (PublicData.currentRound d) <$> rws))).
{ intros rws Hstep. rewrite (applyAll_roundFields _ _ _ _ Hr).
  by apply in_round. }
destruct (Request.action req); intros H; cbv beta iota zeta in H.
- injection H as <-. apply stays.
- destruct (startGame_step config _ _ _ _ _ _ H) as [->|(rws & -> & ?)];
    [apply stays|by apply Hfields].
- destruct (senderSignal_step _ _ _ _ _ _ _ _ H) as (rws & -> & ?).
  by apply Hfields.
- destruct (receiverSawMessage_step config _ _ _ _ _ H)
    as [->|(rws & -> & ?)]; [apply stays|by apply Hfields].
- destruct (receiverChoice_step _ _ _ _ _ _ _ _ H) as (rws & -> & ?).
  by apply Hfields.
- by eapply nextRound_step.
Qed.

(** a call that finds the stage configuration [config] makes one step *)
Lemma run_step config env req d :
Env.stage env = Some config ->
transition config (Request.stageId req) d (run env req d).
Proof.
intros Hcfg. unfold run, stored.
destruct (submitSenderReceiverAction env req (Some d)) as [ws|e] eqn:H;
  [|apply stays].
destruct (submit_Ok_inv _ _ _ _ H) as (config' & u & Hc & Ht).
destruct Hc as (_ & Hu & Hcfg' & _).
assert (config' = config) as -> by congruence.
rewrite transaction_dispatch in Ht. case_bool_decide.
- by eapply assignRole_step.
- destruct (_ && _); [done|].
  destruct (currentRoundData d) as [r|] eqn:Hr; [|done].
  by eapply handle_step.
Qed.

(** a call that finds no stage leaves the document alone *)
Lemma run_no_stage env req d : Env.stage env = None -> run env req d = d.
Proof.
intros Hs. unfold run, submitSenderReceiverAction. rewrite Hs.
destruct (userIdOf env req) as [u|]; [|done]. by destruct (negb (truthy u)).
Qed.

(** *** The stored rounds of a reachable instance *)

Lemma payoffLogic_ext config r r' choice :
RoundData.senderChoice r' = RoundData.senderChoice r ->
RoundData.trueState r' = RoundData.trueState r ->
payoffLogic config r' choice = payoffLogic config r choice.
Proof.
unfold payoffLogic. destruct r, r'. cbn. by intros -> ->.
Qed.


Lemma roundStep_ok config r rws :
roundOk config r -> roundStep config r rws ->
let r' := writeAll r rws in
roundOk config r'
/\ RoundData.roundNumber r' = RoundData.roundNumber r
/\ RoundData.trueState r' = RoundData.trueState r
/\ (RoundData.status r' = WAITING_BOTH_START ->
    RoundData.status r = WAITING_BOTH_START)
/\ (rank (RoundData.status r) <= rank (RoundData.status r'))%nat.
Proof.
intros Hok Hstep. destruct r. unfold roundOk in *. cbn in Hok.
destruct Hok as (H1 & H2 & H3).
inversion Hstep as [role Hs Hp|role now Hs Hp
                   |choice message now active timedOut dflt Hs Hc
                   |now Hs Hseen|choice now active timedOut dflt Hs
                   |role Hs]; subst; cbn in *; subst.
all: clear Hstep; unfold payoffLogic in *; cbn in *.
- (* ready_start *)
  destruct role; cbn; split_and!; try done; try lia.
- (* both_started *)
  destruct role; cbn; split_and!; try done; try lia; intros; lia.
- (* signalled *)
  destruct (H1 ltac:(done)) as [Hst Hu].
  destruct senderUnlockedTime as [| |unlocked]; try discriminate Hu.
  destruct (Config.requireParticipantClick config && timedOut); cbn;
    split_and!; try done; try lia; intros _;
    (split; [done|]); try done; by exists unlocked, now.
- (* message_seen *)
  split_and!; try done; lia.
- (* chosen *)
  destruct (H2 ltac:(lia)) as (Hc & unlocked & submitted & Hu & Hsub & Hru & Hrt).
  subst. split_and!; try done; try lia.
  + intros _. by apply H1.
  + intros _. split; [done|]. by eexists _, _.
  + intros _. by exists choice, submitted, now.
- (* ready_next *)
  destruct role; cbn; split_and!; try done; try lia.
Qed.

Section Rounds.
Variables (config : Config.t) (stageId : string).

Local Abbreviation I := (Inv config stageId).
Local Abbreviation P := (Played config stageId).

Lemma Played_init : P (createSenderReceiverStagePublicData stageId).
Proof.
split; cbn; try done; try lia.
Qed.

(** once a round exists, round 1 does *)
Lemma Inv_round_1 d n :
I d -> is_Some (PublicData.roundMap d !! n) ->
is_Some (PublicData.roundMap d !! 1).
Proof.
intros HI Hn. destruct (inv_roles _ _ _ HI n Hn) as [HS HR].
by apply (inv_round1 _ _ _ HI).
Qed.

Lemma Played_withRound d r r' :
I d -> P d -> currentRoundData d = Some r ->
roundOk config r' ->
RoundData.roundNumber r' = RoundData.roundNumber r ->
RoundData.trueState r' = RoundData.trueState r ->
(RoundData.status r' = WAITING_BOTH_START ->
 RoundData.status r = WAITING_BOTH_START) ->
P (withRound d (PublicData.currentRound d) r').
Proof.
intros HI [Hcur Hbnd Hfresh Hnum Hstate Hall Hpast Hfirst Hround] Hr Hok Hn Ht Hs.
unfold currentRoundData in Hr.
split; cbn [withRound PublicData.currentRound PublicData.senderId
              PublicData.receiverId PublicData.roundMap].
- done.
- done.
- intros H1. apply Hfresh. rewrite lookup_insert in H1.
  case_decide; [done|]. done.
- intros m r0. rewrite lookup_insert. case_decide; [|by apply Hnum].
  intros [= <-]. subst m. rewrite Hn. by apply Hnum.
- intros m r0. rewrite lookup_insert. case_decide; [|by apply Hstate].
  intros [= <-]. subst m. rewrite Ht. by apply Hstate.
- intros m Hm Hle H1. rewrite lookup_insert. case_decide; [by eexists|].
  apply Hall; try done. rewrite lookup_insert in H1.
  case_decide as Hd; [rewrite <- Hd, Hr; by eexists|done].
- intros m r0. rewrite lookup_insert. case_decide; [lia|by apply Hpast].
- intros m r0. rewrite lookup_insert. case_decide; [|by apply Hfirst].
  intros [= <-] Hs'. subst m. by apply (Hfirst _ r), Hs.
- intros m r0. rewrite lookup_insert. case_decide; [|by apply Hround].
  by intros [= <-].
Qed.

(** the game ends: currentRound moves past the last round *)
Lemma Played_end d r :
I d -> P d -> currentRoundData d = Some r ->
RoundData.status r = SHOW_FEEDBACK ->
Config.numRounds config < PublicData.currentRound d + 1 ->
P (PublicData.apply d
     (PublicData.w_currentRound (PublicData.currentRound d + 1))).
Proof.
intros HI [Hcur Hbnd Hfresh Hnum Hstate Hall Hpast Hfirst Hround] Hr Hs Hend.
unfold currentRoundData in Hr.
split; cbn [PublicData.apply PublicData.currentRound PublicData.senderId
              PublicData.receiverId PublicData.roundMap]; try done.
- lia.
- right.
  destruct (inv_generated _ _ _ HI _ (mk_is_Some _ _ Hr)) as [t Ht].
  destruct (getRoundDefault_inv _ _ _ _ _ Ht) as (_ & _ & ? & _). lia.
- intros H1. destruct (Inv_round_1 d _ HI (mk_is_Some _ _ Hr)) as [? H].
  congruence.
- intros m Hm Hle H1. apply Hall; [lia|done|done].
- intros m r0 Hm Hlt.
  destruct (decide (m = PublicData.currentRound d)) as [->|Hne];
    [congruence|]. apply (Hpast m); [done|lia].
Qed.

(** the next round is opened *)
Lemma Played_open d r new t :
I d -> P d -> currentRoundData d = Some r ->
RoundData.status r = SHOW_FEEDBACK ->
PublicData.roundMap d !! (PublicData.currentRound d + 1) = None ->
Generator.getRoundDefault (PublicData.currentRound d + 1)
  (Config.numRounds config) (probabilityOf config)
  (pairSeedOf (PublicData.senderId d) (PublicData.receiverId d) stageId)
= Ok (Some t) ->
RoundData.roundNumber new = PublicData.currentRound d + 1 ->
RoundData.trueState new = RoundDefaults.trueState t ->
RoundData.status new <> WAITING_BOTH_START ->
roundOk config new ->
P (PublicData.applyAll d
     [PublicData.w_currentRound (PublicData.currentRound d + 1);
      PublicData.w_round (PublicData.currentRound d + 1) new]).
Proof.
intros HI [Hcur Hbnd Hfresh Hnum Hstate Hall Hpast Hfirst Hround] Hr Hs Hnone Hg
  Hn Ht Hsn Hok.
unfold currentRoundData in Hr. unfold PublicData.applyAll.
split; cbn [foldl PublicData.apply PublicData.currentRound
              PublicData.senderId PublicData.receiverId
              PublicData.roundMap].
- lia.
- right. destruct (getRoundDefault_inv _ _ _ _ _ Hg) as (_ & _ & ? & _).
  lia.
- intros H1. destruct (Inv_round_1 d _ HI (mk_is_Some _ _ Hr)) as [? H].
  rewrite lookup_insert_ne in H1 by lia. congruence.
- intros m r0. rewrite lookup_insert. case_decide; [|by apply Hnum].
  intros [= <-]. by subst m.
- intros m r0. rewrite lookup_insert. case_decide; [|by apply Hstate].
  intros [= <-]. subst m. by exists t.
- intros m Hm Hle H1. rewrite lookup_insert. case_decide; [by eexists|].
  apply Hall; [lia|done|].
  by apply (Inv_round_1 d _ HI (mk_is_Some _ _ Hr)).
- intros m r0. rewrite lookup_insert. case_decide; [lia|].
  intros Hm Hlt.
  destruct (decide (m = PublicData.currentRound d)) as [->|Hne];
    [congruence|]. apply (Hpast m); [done|lia].
- intros m r0. rewrite lookup_insert. case_decide; [|by apply Hfirst].
  by intros [= <-].
- intros m r0. rewrite lookup_insert. case_decide; [|by apply Hround].
  by intros [= <-].
Qed.

Lemma roundOk_first now trueState :
roundOk config (roundObject now 1 trueState true).
Proof. unfold roundOk. cbn. split_and!; [done|lia|done]. Qed.

Lemma roundOk_new env n trueState :
roundOk config (newRoundData env n trueState).
Proof. unfold roundOk. cbn. split_and!; [done|lia|done]. Qed.

Lemma Played_step d d' :
I d -> P d -> transition config stageId d d' -> P d'.
Proof.
intros HI HP Hstep.
destruct Hstep as [|role u Hu Hfree Hother|role u now t Hu Hfree Hother H1 Hg
                  |r rws Hr Hrs|role r Hr Hs Hp Hend
                  |role r env t Hr Hs Hp Hle Hnone Hg].
- done.
- (* a role is taken: there is no round yet *)
  assert (Hno : forall n, PublicData.roundMap d !! n = None).
  { intros n. apply (Inv_no_round config stageId); [done|].
    destruct role; cbn in Hfree; eauto. }
  destruct HP as [Hcur Hbnd Hfresh Hnum Hstate Hall Hpast Hfirst Hround].
  split; destruct role;
    cbn [setPlayer PublicData.apply PublicData.currentRound
           PublicData.senderId PublicData.receiverId PublicData.roundMap];
    try done; intros n; rewrite ?Hno; try done.
  all: intros ? ? [? ?]; done.
- (* the second role is taken and round 1 created *)
  assert (Hno : forall n, PublicData.roundMap d !! n = None).
  { intros n. apply (Inv_no_round config stageId); [done|].
    destruct role; cbn in Hfree; eauto. }
  cbv zeta in Hg. unfold PublicData.applyAll.
  split; destruct role;
    cbn [foldl setPlayer PublicData.apply PublicData.currentRound
           PublicData.senderId PublicData.receiverId PublicData.roundMap]
      in *.
  all: try lia.
  all: try (by left).
  all: try (rewrite lookup_insert_eq; done).
  all: try (intros n r0; rewrite lookup_insert; case_decide;
            [intros [= <-]|by rewrite Hno]).
  all: try (intros n Hn Hle _; rewrite lookup_insert; case_decide;
            [by eexists|lia]).
  all: try done; try lia.
  all: try (subst; by exists t).
  all: apply roundOk_first.
- (* property writes into the current round *)
  assert (Hr0 : roundOk config r)
    by exact (played_round _ _ _ HP _ _ Hr).
  destruct (roundStep_ok config r rws Hr0 Hrs) as (Hok & Hn & Ht & Hs & _).
  by eapply Played_withRound.
- (* the game is over *)
  unfold PublicData.applyAll. cbn [foldl].
  rewrite (apply_roundField _ _ _ _ Hr).
  assert (Hr0 : roundOk config r)
    by exact (played_round _ _ _ HP _ _ Hr).
  destruct (roundStep_ok config r [setReadyNext role] Hr0
              (ready_next config r role Hs)) as (Hok & Hn & Ht & Hs' & Hrk).
  cbn [writeAll foldl] in *.
  pose proof (Played_withRound d r _ HI HP Hr Hok Hn Ht Hs') as HP1.
  pose proof (Inv_withRound config stageId d _ r
                (RoundData.apply (setReadyNext role) r) HI Hr) as HI1.
  apply (Played_end
           (withRound d (PublicData.currentRound d)
              (RoundData.apply (setReadyNext role) r))
           (RoundData.apply (setReadyNext role) r));
    [done|done|apply current_withRound| |done].
  destruct role; cbn; unfold RoundData.status in *; by rewrite Hs.
- (* the next round is opened *)
  unfold PublicData.applyAll. cbn [foldl].
  rewrite (apply_roundField _ _ _ _ Hr).
  assert (Hr0 : roundOk config r)
    by exact (played_round _ _ _ HP _ _ Hr).
  destruct (roundStep_ok config r [setReadyNext role] Hr0
              (ready_next config r role Hs)) as (Hok & Hn & Ht & Hs' & Hrk).
  cbn [writeAll foldl] in *.
  pose proof (Played_withRound d r _ HI HP Hr Hok Hn Ht Hs') as HP1.
  pose proof (Inv_withRound config stageId d _ r
                (RoundData.apply (setReadyNext role) r) HI Hr) as HI1.
  apply (Played_open
           (withRound d (PublicData.currentRound d)
              (RoundData.apply (setReadyNext role) r))
           (RoundData.apply (setReadyNext role) r) _ t);
    try done.
  + apply current_withRound.
  + destruct role; cbn; unfold RoundData.status in *; by rewrite Hs.
  + cbn. rewrite lookup_insert_ne by lia. done.
  + apply roundOk_new.
Qed.

Lemma Played_run env req d :
I d -> P d -> Env.stage env = Some config -> Request.stageId req = stageId ->
P (run env req d).
Proof.
intros HI HP Hcfg Hst. apply (Played_step d); [done|done|].
rewrite <- Hst. by apply run_step.
Qed.

Lemma reachable_Played d : reachable config stageId d -> P d.
Proof.
induction 1 as [|d env req Hd IH Hcfg Hst]; [apply Played_init|].
apply Played_run; try done. by apply reachable_Inv.
Qed.
End Rounds.

(** *** What a call leaves in place *)

Lemma kept_refl r : kept r r.
Proof. unfold kept. split_and!; try done. Qed.

Lemma kept_trans r1 r2 r3 : kept r1 r2 -> kept r2 r3 -> kept r1 r3.
Proof.
unfold kept.
intros (Hn & Ht & Hk & Hs & Hc & Hm & Hf & Hg)
       (Hn' & Ht' & Hk' & Hs' & Hc' & Hm' & Hf' & Hg').
assert (Hne : RoundData.status r1 <> WAITING_BOTH_START ->
              RoundData.status r2 <> WAITING_BOTH_START).
{ intros H1 H2. rewrite H2 in Hk.
  destruct (RoundData.status r1); cbn in Hk; try done; lia. }
split_and!; try congruence; try lia.
- intros H. destruct (Hs H), (Hs' (Hne H)). split; congruence.
- intros H. destruct (Hc H) as (?&?&?&?&?&?&?).
  destruct (Hc' ltac:(lia)) as (?&?&?&?&?&?&?). split_and!; congruence.
- intros H. rewrite <- (Hm H). apply Hm'. by rewrite (Hm H).
- auto.
- auto.
Qed.

Lemma roundStep_kept config r rws :
roundStep config r rws -> kept r (writeAll r rws).
Proof.
intros Hstep. destruct r. unfold kept.
inversion Hstep as [role Hs Hp|role now Hs Hp
                   |choice message now active timedOut dflt Hs Hc
                   |now Hs Hseen|choice now active timedOut dflt Hs
                   |role Hs]; subst; cbn in *; subst; clear Hstep.
- destruct role; cbn; split_and!; try done; try lia; try (intros; lia).
- destruct role; cbn; split_and!; try done; try lia; try (intros; lia).
- destruct (Config.requireParticipantClick config && timedOut); cbn;
    split_and!; try done; try lia; try (intros; lia).
- split_and!; try done; try lia; try (intros; lia); congruence.
- split_and!; try done; try (cbn; lia); try (intros; lia).
- destruct role; cbn; split_and!; try done; try lia; try (intros; lia).
Qed.

Lemma step_kept config stageId d d' n r :
transition config stageId d d' -> PublicData.roundMap d !! n = Some r ->
exists r', PublicData.roundMap d' !! n = Some r' /\ kept r r'.
Proof.
intros Hstep Hn.
destruct Hstep as [|role u Hu Hfree Hother|role u now t Hu Hfree Hother H1 Hg
                  |r0 rws Hr Hrs|role r0 Hr Hs Hp Hend
                  |role r0 env t Hr Hs Hp Hle Hnone Hg].
- exists r. split; [done|apply kept_refl].
- exists r. split; [by destruct role|apply kept_refl].
- exists r. split; [|apply kept_refl].
  unfold PublicData.applyAll. destruct role; cbn.
  all: rewrite lookup_insert_ne; [done|congruence].
- unfold currentRoundData in Hr. cbn. rewrite lookup_insert.
  case_decide as Hd.
  + subst n. rewrite Hr in Hn. injection Hn as ->.
    eexists. split; [done|]. by eapply roundStep_kept.
  + exists r. split; [done|apply kept_refl].
- unfold PublicData.applyAll. cbn [foldl].
  rewrite (apply_roundField _ _ _ _ Hr). cbn.
  unfold currentRoundData in Hr. rewrite lookup_insert.
  case_decide as Hd.
  + subst n. rewrite Hr in Hn. injection Hn as ->.
    eexists. split; [done|].
    apply (roundStep_kept config r [setReadyNext role]). by constructor.
  + exists r. split; [done|apply kept_refl].
- unfold PublicData.applyAll. cbn [foldl].
  rewrite (apply_roundField _ _ _ _ Hr). cbn.
  unfold currentRoundData in Hr.
  rewrite lookup_insert_ne by congruence. rewrite lookup_insert.
  case_decide as Hd.
  + subst n. rewrite Hr in Hn. injection Hn as ->.
    eexists. split; [done|].
    apply (roundStep_kept config r [setReadyNext role]). by constructor.
  + exists r. split; [done|apply kept_refl].
Qed.

Lemma run_kept env req d n r :
PublicData.roundMap d !! n = Some r ->
exists r', PublicData.roundMap (run env req d) !! n = Some r' /\ kept r r'.
Proof.
intros Hn. destruct (Env.stage env) as [config|] eqn:Hcfg.
- eapply step_kept; [by apply run_step|done].
- rewrite run_no_stage by done. exists r. split; [done|apply kept_refl].
Qed.

Lemma runAll_kept calls d n r :
PublicData.roundMap d !! n = Some r ->
exists r', PublicData.roundMap (runAll calls d) !! n = Some r' /\ kept r r'.
Proof.
revert d r. induction calls as [|[env req] calls IH]; intros d r Hn.
- exists r. split; [done|apply kept_refl].
- destruct (run_kept env req d n r Hn) as (r1 & H1 & Hk1).
  destruct (IH _ _ H1) as (r2 & H2 & Hk2).
  exists r2. split; [done|]. by eapply kept_trans.
Qed.

(** a role that is held stays with its holder *)
Lemma step_player config stageId d d' role :
transition config stageId d d' -> truthyId (playerOf d role) = true ->
playerOf d' role = playerOf d role.
Proof.
intros Hstep Hrole.
destruct Hstep as [|role' u Hu Hfree Hother|role' u now t Hu Hfree Hother H1 Hg
                  |r0 rws Hr Hrs|role' r0 Hr Hs Hp Hend
                  |role' r0 env t Hr Hs Hp Hle Hnone Hg].
- done.
- destruct role, role'; cbn in *; congruence.
- destruct role, role'; cbn in *; congruence.
- by destruct role.
- unfold PublicData.applyAll. cbn [foldl].
  rewrite (apply_roundField _ _ _ _ Hr). by destruct role.
- unfold PublicData.applyAll. cbn [foldl].
  rewrite (apply_roundField _ _ _ _ Hr). by destruct role.
Qed.

Lemma run_player env req d role :
truthyId (playerOf d role) = true ->
playerOf (run env req d) role = playerOf d role.
Proof.
intros Hrole. destruct (Env.stage env) as [config|] eqn:Hcfg.
- eapply step_player; [by apply run_step|done].
- by rewrite run_no_stage.
Qed.

(** currentRound moves by at most one, and never back *)
Lemma step_currentRound config stageId d d' :
(PublicData.roundMap d !! 1 = None -> PublicData.currentRound d = 1) ->
transition config stageId d d' ->
PublicData.currentRound d <= PublicData.currentRound d'
<= PublicData.currentRound d + 1.
Proof.
intros Hfresh Hstep.
destruct Hstep as [|role' u Hu Hfree Hother|role' u now t Hu Hfree Hother H1 Hg
                  |r0 rws Hr Hrs|role' r0 Hr Hs Hp Hend
                  |role' r0 env t Hr Hs Hp Hle Hnone Hg].
- lia.
- destruct role'; cbn; lia.
- unfold PublicData.applyAll. destruct role'; cbn; rewrite (Hfresh H1); lia.
- cbn. lia.
- unfold PublicData.applyAll. cbn [foldl].
  rewrite (apply_roundField _ _ _ _ Hr). cbn. lia.
- unfold PublicData.applyAll. cbn [foldl].
  rewrite (apply_roundField _ _ _ _ Hr). cbn. lia.
Qed.

Lemma run_currentRound env req d :
(PublicData.roundMap d !! 1 = None -> PublicData.currentRound d = 1) ->
PublicData.currentRound d <= PublicData.currentRound (run env req d)
<= PublicData.currentRound d + 1.
Proof.
intros Hfresh. destruct (Env.stage env) as [config|] eqn:Hcfg.
- eapply step_currentRound; [done|by apply run_step].
- rewrite run_no_stage by done. lia.
Qed.

Lemma runAll_player calls d role :
truthyId (playerOf d role) = true ->
playerOf (runAll calls d) role = playerOf d role.
Proof.
revert d. induction calls as [|[env req] calls IH]; intros d Hrole; [done|].
cbn [runAll foldl]. change (foldl _ ?x calls) with (runAll calls x).
cbn [fst snd]. rewrite IH; rewrite run_player; done.
Qed.

Lemma runAll_currentRound config stageId calls d :
reachable config stageId d ->
Forall (fun c => Env.stage c.1 = Some config
                 /\ Request.stageId c.2 = stageId) calls ->
PublicData.currentRound d <= PublicData.currentRound (runAll calls d).
Proof.
intros Hd Hc. revert d Hd.
induction Hc as [|[env req] calls [H1 H2] _ IH]; intros d Hd; [cbn; lia|].
cbn [runAll foldl fst snd]. change (foldl _ ?x calls) with (runAll calls x).
pose proof (run_currentRound env req d
              (played_fresh _ _ _ (reachable_Played config stageId d Hd))).
specialize (IH (run env req d) ltac:(by apply reachable_run)). lia.
Qed.

(** *** The hidden states of a game played to its end *)

Lemma omap_total {X Y} (f : X -> option Y) (g : X -> Y) (l : list X) :
(forall x, x ∈ l -> f x = Some (g x)) -> omap f l = g <$> l.
Proof.
induction l as [|x l IH]; intros H; [done|].
cbn. rewrite (H x) by apply list_elem_of_here.
rewrite IH; [done|]. intros y Hy. apply H. by apply list_elem_of_further.
Qed.

Lemma hiddenStates_generated config stageId d out :
Played config stageId d ->
generateBalancedDefaults (Config.numRounds config) (probabilityOf config)
  (pairSeedOf (PublicData.senderId d) (PublicData.receiverId d) stageId)
= Ok out ->
1 <= Config.numRounds config < PublicData.currentRound d ->
hiddenStates d (Config.numRounds config) = RoundDefaults.trueState <$> out.
Proof.
intros HP Hout Hn. unfold hiddenStates.
assert (H0 : is_Some (PublicData.roundMap d !! 1)).
{ destruct (PublicData.roundMap d !! 1) eqn:E; [done|].
  pose proof (played_fresh _ _ _ HP E). lia. }
pose (g := fun n : Z =>
             default 0 (RoundDefaults.trueState <$> out !! Z.to_nat (n - 1))).
rewrite (omap_total _ g).
- pose proof (generate_length _ _ _ _ Hout) as Hlen.
  apply list_eq. intros i. rewrite !list_lookup_fmap.
  destruct (decide (Z.of_nat i < Config.numRounds config)) as [Hi|Hi].
  + rewrite lookup_seqZ_lt by lia. cbn. unfold g.
    replace (Z.to_nat (1 + Z.of_nat i - 1)) with i by lia.
    destruct (lookup_lt_is_Some_2 out i ltac:(lia)) as [t Ht].
    by rewrite Ht.
  + rewrite lookup_seqZ_ge by lia.
    rewrite (lookup_ge_None_2 out i) by lia. done.
- intros n Hin. apply elem_of_seqZ in Hin.
  destruct (played_all _ _ _ HP n ltac:(lia) ltac:(lia) H0) as [r Hr].
  rewrite Hr. cbn. f_equal.
  destruct (played_state _ _ _ HP n r Hr) as (t & Ht & Hs).
  destruct (getRoundDefault_inv _ _ _ _ _ Ht) as (out' & Hout' & _ & Hl).
  assert (out' = out) as -> by congruence.
  unfold g. by rewrite Hl.
Qed.

Lemma countState_fmap s (out : list RoundDefaults.t) :
length (filter (fun x => x = s) (RoundDefaults.trueState <$> out))
= countState s out.
Proof.
unfold countState. induction out as [|t out IH]; [done|].
rewrite fmap_cons, !filter_cons. repeat case_decide; cbn; try done; lia.
Qed.

(** *** The role given by assign_role *)

Lemma assignUpdates_requested env stageId u role d :
assignUpdates env stageId u (Some role) d
= if truthyId (playerOf d role)
  then httpsError failed_precondition
         ("Requested role " +:+ roleName role +:+ " is not available.")
  else Ok [setPlayer role u].
Proof.
unfold assignUpdates.
destruct role; cbn;
  destruct (truthyId (PublicData.senderId d)),
           (truthyId (PublicData.receiverId d)); cbn;
  rewrite ?bool_decide_eq_true_2 by (by eexists); done.
Qed.

(** without a request: the role of the history check when it is free,
  else the first free role *)
Lemma assignUpdates_unrequested env stageId u d :
assignUpdates env stageId u None d
= match historicalRoleOf stageId u (Env.cohortPublicData env) with
  | Some role =>
      if truthyId (playerOf d role) then
        if negb (truthyId (playerOf d (partner role)))
        then Ok [setPlayer (partner role) u]
        else httpsError failed_precondition "Roles are full"
      else Ok [setPlayer role u]
  | None =>
      if negb (truthyId (PublicData.senderId d))
      then Ok [PublicData.w_senderId u]
      else if negb (truthyId (PublicData.receiverId d))
      then Ok [PublicData.w_receiverId u]
      else httpsError failed_precondition "Roles are full"
  end.
Proof.
unfold assignUpdates.
rewrite bool_decide_eq_false_2 by (by intros [? ?]).
destruct (historicalRoleOf stageId u (Env.cohortPublicData env)) as [[]|];
  cbn;
  destruct (truthyId (PublicData.senderId d)),
           (truthyId (PublicData.receiverId d)); cbn; done.
Qed.

(** what [startGameIfReady] adds touches no participant id *)
Lemma startGameIfReady_writes now d config stageId o :
startGameIfReady now d config stageId = Ok o ->
o = None
\/ exists r1, o = Some [PublicData.w_round 1 r1; PublicData.w_currentRound 1].
Proof.
unfold startGameIfReady, createNewRound, orThrow, mbind, Result_bind.
intros H.
repeat (lazymatch type of H with
        | (match ?c with _ => _ end) = _ => destruct_scrutinee c
        | (if ?c then _ else _) = _ => destruct_scrutinee c
        end; try discriminate H).
all: injection H as <-; eauto.
Qed.

(** [startGameIfReady] throws no HttpsError *)
Lemma startGameIfReady_Throw now d config stageId e :
startGameIfReady now d config stageId = Throw e ->
(e = TypeError \/ e = RangeError)
/\ truthyId (PublicData.senderId d) = true
/\ truthyId (PublicData.receiverId d) = true
/\ PublicData.roundMap d !! 1 = None.
Proof.
unfold startGameIfReady, createNewRound, orThrow.
destruct (truthyId (PublicData.senderId d)); [|done].
destruct (truthyId (PublicData.receiverId d)); [|done]. cbn [negb orb].
case_bool_decide as H1; [done|]. apply eq_None_not_Some in H1.
destruct (getRoundDefault _ _ _ _) as [[t|]|e'] eqn:Hg;
  cbn [mbind Result_bind]; intros [= <-]; split_and!; try done; auto.
right. by eapply getRoundDefault_Throw.
Qed.

Lemma playerOf_setPlayer d role u :
playerOf (PublicData.apply d (setPlayer role u)) role = Some u
/\ playerOf (PublicData.apply d (setPlayer role u)) (partner role)
   = playerOf d (partner role)
/\ PublicData.roundMap (PublicData.apply d (setPlayer role u))
   = PublicData.roundMap d.
Proof. by destruct role. Qed.

(** a successful assignment to a participant without a role *)
Lemma assignRole_Ok env req config u d ws :
isUser (PublicData.senderId d) u = false ->
isUser (PublicData.receiverId d) u = false ->
assignRole env req config u d = Ok ws ->
exists role rest,
  assignUpdates env (Request.stageId req) u
    (Payload.requestedRole (payloadOf req)) d = Ok [setPlayer role u]
  /\ truthyId (playerOf d role) = false
  /\ ws = setPlayer role u :: rest
  /\ (rest = []
      \/ exists r1,
          rest = [PublicData.w_round 1 r1; PublicData.w_currentRound 1]).
Proof.
intros Hs Hr. unfold assignRole. rewrite Hs, Hr. cbn [orb].
intros H.
assert (Hup : exists role,
           assignUpdates env (Request.stageId req) u
             (Payload.requestedRole (payloadOf req)) d
           = Ok [setPlayer role u]
           /\ truthyId (playerOf d role) = false).
{ destruct (Payload.requestedRole (payloadOf req)) as [role|].
  - rewrite assignUpdates_requested in H |- *.
    destruct (truthyId (playerOf d role)) eqn:E; [done|]. by exists role.
  - rewrite assignUpdates_unrequested in H |- *.
    destruct (historicalRoleOf _ _ _) as [role|].
    + destruct (truthyId (playerOf d role)) eqn:E; [|by exists role].
      destruct (truthyId (playerOf d (partner role))) eqn:E'; [done|].
      exists (partner role). by rewrite E'.
    + destruct (truthyId (PublicData.senderId d)) eqn:E;
        [|by exists sender].
      destruct (truthyId (PublicData.receiverId d)) eqn:E';
        [done|by exists receiver]. }
destruct Hup as (role & Hup & Hfree). rewrite Hup in H |- *.
cbn [mbind Result_bind] in H.
destruct (startGameIfReady _ _ _ _) as [o|] eqn:Hstart; [|done].
cbn [mbind Result_bind] in H. injection H as <-.
exists role, (default [] o). split; [done|]. split; [done|].
split; [done|].
destruct (startGameIfReady_writes _ _ _ _ _ Hstart) as [->|[r1 ->]];
  [by left|right; by exists r1].
Qed.

(** *** The history check *)

Lemma historicalRoleOf_snoc stageId u docs doc :
historicalRoleOf stageId u (docs ++ [doc])
= if String.eqb doc.1 stageId then historicalRoleOf stageId u docs
  else
    match PublicData.kind doc.2 with
    | SENDER_RECEIVER =>
        if isUser (PublicData.receiverId doc.2) u then Some receiver
        else if isUser (PublicData.senderId doc.2) u then Some sender
        else historicalRoleOf stageId u docs
    | OTHER_STAGE => historicalRoleOf stageId u docs
    end.
Proof.
unfold historicalRoleOf. rewrite foldl_app. cbn [foldl].
destruct (String.eqb doc.1 stageId); [done|].
destruct (PublicData.kind doc.2); [|done].
by destruct (isUser (PublicData.receiverId doc.2) u),
            (isUser (PublicData.senderId doc.2) u).
Qed.

(** a role found in the history is held in another document *)
Lemma historicalRoleOf_held stageId u snapshot role :
historicalRoleOf stageId u snapshot = Some role ->
exists doc, doc ∈ snapshot /\ doc.1 <> stageId
            /\ PublicData.kind doc.2 = SENDER_RECEIVER
            /\ playerOf doc.2 role = Some u.
Proof.
revert role. induction snapshot as [|doc docs IH] using rev_ind; [done|].
intros role. rewrite historicalRoleOf_snoc.
assert (Hold : historicalRoleOf stageId u docs = Some role ->
               exists doc0, doc0 ∈ docs ++ [doc] /\ doc0.1 <> stageId
                 /\ PublicData.kind doc0.2 = SENDER_RECEIVER
                 /\ playerOf doc0.2 role = Some u).
{ intros H. destruct (IH role H) as (doc0 & Hin & ?).
  exists doc0. split; [|done]. apply elem_of_app. by left. }
destruct (String.eqb doc.1 stageId) eqn:Hid; [done|].
apply String.eqb_neq in Hid.
destruct (PublicData.kind doc.2) eqn:Hk; [|done].
destruct (isUser (PublicData.receiverId doc.2) u) eqn:HR.
{ intros [= <-]. exists doc. split; [apply elem_of_app; right; set_solver|].
  split_and!; try done. by apply isUser_true. }
destruct (isUser (PublicData.senderId doc.2) u) eqn:HS; [|done].
intros [= <-]. exists doc. split; [apply elem_of_app; right; set_solver|].
split_and!; try done. by apply isUser_true.
Qed.

(** *** start_game and receiver_saw_message *)

(** the round after a start_game call of a player in WAITING_BOTH_START *)
Lemma startGame_run config stageId env req d role u r :
Inv config stageId d ->
calledBy env req config u start_game ->
playerOf d role = Some u ->
currentRoundData d = Some r ->
RoundData.status r = WAITING_BOTH_START ->
run env req d
= withRound d (PublicData.currentRound d)
    (writeAll r
       (setReadyStart role ::
        if isTrue (readyStart (partner role) r)
        then [RoundData.w_status WAITING_SENDER_DECIDE;
              RoundData.w_startTime (val (Env.now env 0%nat));
              RoundData.w_senderUnlockedTime (val (Env.now env 0%nat))]
        else [])).
Proof.
intros HI Hc Hu Hr Hs. unfold run.
rewrite (submit_player _ _ _ _ _ _ r Hc);
  [|done|by eapply playerOf_player|done].
destruct Hc as (_ & _ & _ & _ & Ha). unfold handle. rewrite Ha.
destruct (playerOf_isUser _ _ _ _ _ HI Hu) as [-> ->].
unfold startGame. rewrite bool_decide_eq_true_2 by done. cbn [negb].
rewrite <- (stored_roundFields d r) by done.
destruct role; cbn; by destruct (isTrue _).
Qed.

(** the round after a receiver_saw_message call of the Receiver in
  WAITING_RECEIVER_DECIDE *)
Lemma receiverSawMessage_run config stageId env req d u r :
Inv config stageId d ->
calledBy env req config u receiver_saw_message ->
PublicData.receiverId d = Some u ->
currentRoundData d = Some r ->
RoundData.status r = WAITING_RECEIVER_DECIDE ->
run env req d
= if isSet (RoundData.receiverSawMessageTime r) then d
  else withRound d (PublicData.currentRound d)
         (RoundData.apply
            (RoundData.w_receiverSawMessageTime (val (Env.now env 0%nat)))
            r).
Proof.
intros HI Hc Hu Hr Hs. unfold run.
rewrite (submit_player _ _ _ _ _ _ r Hc);
  [|done|by eapply (playerOf_player d receiver)|done].
destruct Hc as (_ & _ & _ & _ & Ha). unfold handle. rewrite Ha.
destruct (playerOf_isUser _ _ d receiver u HI Hu) as [_ ->].
unfold receiverSawMessage. rewrite bool_decide_eq_true_2 by done.
cbn [negb]. destruct (isSet _); [done|].
cbn [stored PublicData.applyAll foldl]. by apply apply_roundField.
Qed.

(** *** A round played to its end *)

(** the round left by a receiver_choice call *)
Lemma receiverChoice_stored config stageId env req d u r choice :
Inv config stageId d ->
calledBy env req config u receiver_choice ->
Request.stageId req = stageId ->
PublicData.receiverId d = Some u ->
currentRoundData d = Some r ->
RoundData.status r = WAITING_RECEIVER_DECIDE ->
Payload.receiverChoice (payloadOf req) = Some choice ->
exists r',
  run env req d = withRound d (PublicData.currentRound d) r'
  /\ RoundData.status r' = SHOW_FEEDBACK
  /\ RoundData.receiverChoice r' = val choice
  /\ RoundData.senderChoice r' = RoundData.senderChoice r.
Proof.
intros HI Hc Hst Hu Hr Hs Hch. unfold run.
rewrite (submit_player _ _ _ _ _ _ r Hc);
  [|done|by eapply (playerOf_player d receiver)|done].
destruct Hc as (_ & _ & _ & _ & Ha). unfold handle. rewrite Ha.
destruct (playerOf_isUser _ _ d receiver u HI Hu) as [_ ->].
unfold receiverChoice. rewrite bool_decide_eq_true_2 by done.
cbn [negb]. rewrite Hch.
destruct (payoffLogic config r choice) as [sp rp].
destruct (backendDefault_Ok RoundDefaults.receiverDefault config stageId d
            (PublicData.currentRound d) HI) as [dflt Hd]; [by eexists|].
rewrite Hst, Hd. cbn [mbind Result_bind].
rewrite (stored_roundFields d r) by done.
eexists. split; [reflexivity|]. by destruct r.
Qed.

(** the next_round calls of both players, in either order *)
Lemma nextRound_both config stageId d r role u1 u2 env1 req1 env2 req2 :
Inv config stageId d ->
currentRoundData d = Some r ->
RoundData.status r = SHOW_FEEDBACK ->
playerOf d role = Some u1 ->
playerOf d (partner role) = Some u2 ->
calledBy env1 req1 config u1 next_round ->
calledBy env2 req2 config u2 next_round ->
Request.stageId req1 = stageId ->
Request.stageId req2 = stageId ->
advanced config d (run env2 req2 (run env1 req1 d)).
Proof.
intros HI Hr Hstatus Hu1 Hu2 Hc1 Hc2 Hst1 Hst2.
destruct (isTrue (readyNext (partner role) r)) eqn:Hflag.
- assert (Hadv : advanced config d (run env1 req1 d))
    by (by eapply (nextRound_advanced _ _ _ _ _ role)).
  rewrite (advanced_stuck config config d _ _ _ (partner role) u2 Hadv);
    [done| |done].
  destruct Hadv as (_ & HS & HR & _).
  destruct role; cbn in *; congruence.
- assert (H1 : run env1 req1 d
               = withRound d (PublicData.currentRound d)
                   (RoundData.apply (setReadyNext role) r))
    by (by eapply nextRound_flagged).
  apply (advanced_flagged _ _ r (RoundData.apply (setReadyNext role) r));
    [done|].
  rewrite <- H1.
  apply (nextRound_advanced config stageId env2 req2 _
           (partner role) u2 (RoundData.apply (setReadyNext role) r));
    try done.
  + rewrite H1. by eapply Inv_withRound.
  + rewrite H1. by destruct role.
  + rewrite H1. apply current_withRound.
  + destruct role; cbn; unfold RoundData.status in *; by rewrite Hstatus.
  + rewrite partner_partner. by destruct role.
Qed.

(** the fields of the round left by a sender_signal call *)
Lemma senderSignal_fields config stageId env req d u r :
Inv config stageId d ->
calledBy env req config u sender_signal ->
Request.stageId req = stageId ->
PublicData.senderId d = Some u ->
currentRoundData d = Some r ->
RoundData.status r = WAITING_SENDER_DECIDE ->
let payload := payloadOf req in
exists r',
  run env req d = withRound d (PublicData.currentRound d) r'
  /\ RoundData.status r' = WAITING_RECEIVER_DECIDE
  /\ RoundData.senderChoice r' = choiceOrNull (Payload.senderChoice payload)
  /\ RoundData.senderMessage r'
     = messageOrNull (Payload.senderMessage payload)
  /\ RoundData.senderTimedOut r' = default false (Payload.isTimedOut payload)
  /\ RoundData.senderActiveTimeSeconds r'
     = orNull (Payload.activeTimeSeconds payload)
  /\ RoundData.senderSubmittedTime r' = val (Env.now env 0%nat)
  /\ (Config.requireParticipantClick config = true ->
      Payload.isTimedOut payload = Some true ->
      RoundData.senderPayoff r' = val 0%Q
      /\ RoundData.receiverPayoff r' = val 0%Q).
Proof.
intros HI Hc Hst Hs Hr Hstatus payload.
destruct (senderSignal_run _ _ _ _ _ _ _ HI Hc Hst Hs Hr Hstatus)
  as [dflt H]. cbv zeta in H. fold payload in H.
eexists. unfold run. rewrite H.
split; [by apply stored_roundFields|].
destruct (Config.requireParticipantClick config) eqn:Hclick; cbn [andb].
- case_bool_decide as Ht; cbn; split_and!; try done; try congruence.
- cbn. split_and!; done.
Qed.

(** a round played in turn, from the Sender's move to the next round *)
Lemma round_played config stageId d r s u choice role u1 u2
  signal decide next1 next2 :
Inv config stageId d ->
currentRoundData d = Some r ->
RoundData.status r = WAITING_SENDER_DECIDE ->
PublicData.senderId d = Some s ->
PublicData.receiverId d = Some u ->
calledBy signal.1 signal.2 config s sender_signal ->
calledBy decide.1 decide.2 config u receiver_choice ->
Payload.receiverChoice (payloadOf decide.2) = Some choice ->
playerOf d role = Some u1 ->
playerOf d (partner role) = Some u2 ->
calledBy next1.1 next1.2 config u1 next_round ->
calledBy next2.1 next2.2 config u2 next_round ->
Forall (fun c => Request.stageId c.2 = stageId)
  [signal; decide; next1; next2] ->
let d2 := runAll [signal; decide] d in
let d4 := runAll [next1; next2] d2 in
(exists r2,
   d2 = withRound d (PublicData.currentRound d) r2
   /\ RoundData.status r2 = SHOW_FEEDBACK
   /\ RoundData.senderChoice r2
      = choiceOrNull (Payload.senderChoice (payloadOf signal.2))
   /\ RoundData.receiverChoice r2 = val choice)
/\ advanced config d2 d4.
Proof.
intros HI Hr Hs HS HR Hc1 Hc2 Hch Hu1 Hu2 Hc3 Hc4 Hst d2 d4.
apply Forall_cons in Hst as [Hst1 Hst].
apply Forall_cons in Hst as [Hst2 Hst].
apply Forall_cons in Hst as [Hst3 Hst].
apply Forall_cons in Hst as [Hst4 _].
destruct (senderSignal_stored config stageId signal.1 signal.2 d s r
            HI Hc1 Hst1 HS Hr Hs)
  as (ws & r1 & _ & Hrun1 & Hsc & _ & Hs1 & _).
assert (HI1 : Inv config stageId (run signal.1 signal.2 d)).
{ apply Inv_run; try done. by destruct Hc1 as (_ & _ & ? & _). }
assert (Hr1 : currentRoundData (run signal.1 signal.2 d) = Some r1)
  by (rewrite Hrun1; apply current_withRound).
destruct (receiverChoice_stored config stageId decide.1 decide.2
            (run signal.1 signal.2 d) u r1 choice HI1 Hc2 Hst2)
  as (r2 & Hrun2 & Hs2 & Hrc & Hsc2); try done.
{ by rewrite Hrun1. }
assert (Hd2 : d2 = withRound d (PublicData.currentRound d) r2).
{ subst d2. cbn [runAll foldl]. rewrite Hrun2, Hrun1.
  by rewrite currentRound_withRound, withRound_withRound. }
assert (HI2 : Inv config stageId d2).
{ subst d2. cbn [runAll foldl]. apply Inv_run; try done.
  by destruct Hc2 as (_ & _ & ? & _). }
split.
{ exists r2. split; [done|]. split; [done|]. split; [congruence|done]. }
subst d4. cbn [runAll foldl].
apply (nextRound_both config stageId d2 r2 role u1 u2); try done.
- rewrite Hd2. apply current_withRound.
- rewrite Hd2. by destruct role.
- rewrite Hd2. by destruct role.
Qed.

Lemma runAll_app calls1 calls2 d :
runAll (calls1 ++ calls2) d = runAll calls2 (runAll calls1 d).
Proof. unfold runAll. apply foldl_app. Qed.

(** rounds played in turn as long as there are rounds left *)
Lemma rounds_played config stageId s u rounds :
Forall (inTurn config stageId s u) rounds ->
forall d r,
  reachable config stageId d ->
  currentRoundData d = Some r ->
  RoundData.status r = WAITING_SENDER_DECIDE ->
  PublicData.senderId d = Some s ->
  PublicData.receiverId d = Some u ->
  PublicData.currentRound d + Z.of_nat (length rounds)
  <= Config.numRounds config + 1 ->
  let d' := runAll (concat (callsOf <$> rounds)) d in
  reachable config stageId d'
  /\ PublicData.currentRound d'
     = PublicData.currentRound d + Z.of_nat (length rounds)
  /\ PublicData.senderId d' = Some s
  /\ PublicData.receiverId d' = Some u
  /\ (PublicData.currentRound d' <= Config.numRounds config ->
      exists new, currentRoundData d' = Some new
                  /\ RoundData.status new = WAITING_SENDER_DECIDE).
Proof.
induction 1 as [|c rounds Hc _ IH]; intros d r Hd Hr Hs HS HR Hlen d'.
- subst d'. cbn. rewrite Z.add_0_r. split_and!; try done.
  intros _. by exists r.
- subst d'. cbn [fmap list_fmap concat length] in *.
  rewrite runAll_app.
  destruct Hc as (Hc1 & Hc2 & [choice Hch] & Hc3 & Hc4 & Hst).
  pose proof (reachable_Inv config stageId d Hd) as HI.
  destruct (round_played config stageId d r s u choice sender s u
              (signalCall c) (decideCall c) (nextBySender c)
              (nextByReceiver c) HI Hr Hs HS HR Hc1 Hc2 Hch HS HR Hc3 Hc4
              Hst)
    as [(r2 & Hd2 & _) Hadv].
  change (runAll [nextBySender c; nextByReceiver c]
            (runAll [signalCall c; decideCall c] d))
    with (runAll (callsOf c) d) in Hadv.
  set (d4 := runAll (callsOf c) d) in *.
  assert (Hd4 : reachable config stageId d4).
  { apply reachable_runAll; [done|].
    apply Forall_forall. intros call Hin.
    rewrite Forall_forall in Hst. split; [|by apply Hst].
    unfold callsOf in Hin.
    repeat (apply elem_of_cons in Hin as [->|Hin]);
      [by destruct Hc1 as (_ & _ & ? & _)
      |by destruct Hc2 as (_ & _ & ? & _)
      |by destruct Hc3 as (_ & _ & ? & _)
      |by destruct Hc4 as (_ & _ & ? & _)
      |by apply elem_of_nil in Hin]. }
  destruct Hadv as (Hn & HS4 & HR4 & _ & _ & Hmore).
  rewrite Hd2 in Hn, HS4, HR4, Hmore.
  rewrite currentRound_withRound in Hn, Hmore.
  cbn [withRound PublicData.senderId PublicData.receiverId] in HS4, HR4.
  destruct rounds as [|c' rounds].
  + cbn [fmap list_fmap concat runAll foldl length].
    rewrite Hn. split_and!; try done; try congruence; try lia.
    intros Hle. unfold currentRoundData. rewrite Hn. apply Hmore. lia.
  + destruct (Hmore ltac:(cbn [length] in Hlen; lia)) as (new & Hnew & Hsn).
    assert (Hr4 : currentRoundData d4 = Some new)
      by (unfold currentRoundData; by rewrite Hn).
    destruct (IH d4 new Hd4 Hr4 Hsn ltac:(congruence) ltac:(congruence)
                ltac:(rewrite Hn; cbn [length] in *; lia))
      as (H1 & H2 & H3 & H4 & H5).
    split_and!; try done. rewrite H2, Hn. cbn [length]. lia.
Qed.

(** the fields of the round left by a receiver_choice call *)
Lemma receiverChoice_fields config stageId env req d u r choice :
Inv config stageId d ->
calledBy env req config u receiver_choice ->
Request.stageId req = stageId ->
PublicData.receiverId d = Some u ->
currentRoundData d = Some r ->
RoundData.status r = WAITING_RECEIVER_DECIDE ->
Payload.receiverChoice (payloadOf req) = Some choice ->
exists r',
  run env req d = withRound d (PublicData.currentRound d) r'
  /\ RoundData.status r' = SHOW_FEEDBACK
  /\ RoundData.receiverChoice r' = val choice
  /\ RoundData.receiverTimedOut r'
     = default false (Payload.isTimedOut (payloadOf req))
  /\ RoundData.receiverActiveTimeSeconds r'
     = orNull (Payload.activeTimeSeconds (payloadOf req))
  /\ RoundData.senderPayoff r' = val (payoffLogic config r choice).1
  /\ RoundData.receiverPayoff r' = val (payoffLogic config r choice).2
  /\ RoundData.senderChoice r' = RoundData.senderChoice r
  /\ RoundData.trueState r' = RoundData.trueState r.
Proof.
intros HI Hc Hst Hu Hr Hs Hch. unfold run.
rewrite (submit_player _ _ _ _ _ _ r Hc);
  [|done|by eapply (playerOf_player d receiver)|done].
destruct Hc as (_ & _ & _ & _ & Ha). unfold handle. rewrite Ha.
destruct (playerOf_isUser _ _ d receiver u HI Hu) as [_ ->].
unfold receiverChoice. rewrite bool_decide_eq_true_2 by done.
cbn [negb]. rewrite Hch.
destruct (payoffLogic config r choice) as [sp rp].
destruct (backendDefault_Ok RoundDefaults.receiverDefault config stageId d
            (PublicData.currentRound d) HI) as [dflt Hd]; [by eexists|].
rewrite Hst, Hd. cbn [mbind Result_bind].
rewrite (stored_roundFields d r) by done.
eexists. split; [reflexivity|]. by destruct r.
Qed.

End EndpointFacts.
Import EndpointFacts.

(** ** Results on the endpoint *)
Import Endpoints Utils.

(** C1, as the endpoint has it: on an instance reached by calls of the
    endpoint whose current round n is in SHOW_FEEDBACK, the next_round
    calls of the two participants, in either order ([role1] calls
    first), leave currentRound = n + 1.  Which of the two calls performs
    the advancement depends on the readyNext flag of the second caller:
    when it is not set, the first call sets its caller's flag in round n
    and nothing else (nothing at all when that flag is set already), so
    that the second call performs the advancement; when it is already
    set, the first call performs the advancement and the second changes
    nothing.  A third next_round call of either participant leaves the
    instance as it is.  When n + 1 exceeds numRounds the instance has
    the same rounds as before and currentRound = n + 1; otherwise round
    n + 1 is new and waits for the Sender. *)
Theorem C1_next_round_advances_once
    (config : Config.t) (stageId : string) (d : PublicData.t)
    (r : RoundData.t) (role1 role3 : Role) (u1 u2 u3 : string)
    (first second third : Env.t * Request.t) :
  reachable config stageId d ->
  currentRoundData d = Some r ->
  RoundData.status r = SHOW_FEEDBACK ->
  playerOf d role1 = Some u1 ->
  playerOf d (partner role1) = Some u2 ->
  playerOf d role3 = Some u3 ->
  calledBy first.1 first.2 config u1 next_round ->
  calledBy second.1 second.2 config u2 next_round ->
  calledBy third.1 third.2 config u3 next_round ->
  Request.stageId first.2 = stageId ->
  Request.stageId second.2 = stageId ->
  let n := PublicData.currentRound d in
  let d1 := run first.1 first.2 d in
  let d2 := run second.1 second.2 d1 in
  let d3 := run third.1 third.2 d2 in
  PublicData.currentRound d2 = n + 1
  /\ (isTrue (readyNext (partner role1) r) = false ->
      d1 = withRound d n (RoundData.apply (setReadyNext role1) r)
      /\ PublicData.currentRound d1 = n
      /\ (isTrue (readyNext role1 r) = true -> d1 = d))
  /\ (isTrue (readyNext (partner role1) r) = true ->
      PublicData.currentRound d1 = n + 1 /\ d2 = d1)
  /\ d3 = d2
  /\ (Config.numRounds config < n + 1 ->
      forall m, is_Some (PublicData.roundMap d2 !! m)
                <-> is_Some (PublicData.roundMap d !! m))
  /\ (n + 1 <= Config.numRounds config ->
      PublicData.roundMap d !! (n + 1) = None
      /\ exists new,
          PublicData.roundMap d2 !! (n + 1) = Some new
          /\ RoundData.status new = WAITING_SENDER_DECIDE).
Proof.
  intros Hd Hr Hstatus Hu1 Hu2 Hu3 Hc1 Hc2 Hc3 Hst1 Hst2 n d1 d2 d3.
  pose proof (reachable_Inv _ _ _ Hd) as HI.
  assert (Hnext : PublicData.roundMap d !! (n + 1) = None).
  { apply eq_None_not_Some. intros Hn.
    apply (inv_bound _ _ _ HI) in Hn. subst n. lia. }
  assert (Hfirst :
    isTrue (readyNext (partner role1) r) = false
    /\ d1 = withRound d n (RoundData.apply (setReadyNext role1) r)
    /\ advanced config d d2
    \/ isTrue (readyNext (partner role1) r) = true
       /\ advanced config d d1 /\ d2 = d1).
  { destruct (isTrue (readyNext (partner role1) r)) eqn:Hflag.
    - right. split; [done|].
      assert (Hadv : advanced config d d1)
        by (by eapply (nextRound_advanced _ _ _ _ _ role1)).
      split; [done|]. subst d2.
      apply (advanced_stuck config config d d1 _ _ (partner role1) u2 Hadv);
        [|done].
      destruct Hadv as (_ & HS & HR & _).
      destruct role1; cbn in *; congruence.
    - left. split; [done|].
      assert (H1 : d1 = withRound d n (RoundData.apply (setReadyNext role1) r))
        by (by eapply nextRound_flagged).
      split; [done|].
      apply (advanced_flagged _ _ r (RoundData.apply (setReadyNext role1) r));
        [done|].
      fold n. rewrite <-H1. subst d2.
      apply (nextRound_advanced config stageId second.1 second.2 d1
               (partner role1) u2 (RoundData.apply (setReadyNext role1) r));
        try done.
      + rewrite H1. by eapply Inv_withRound.
      + rewrite H1. by destruct role1.
      + rewrite H1. apply current_withRound.
      + destruct role1; cbn; unfold RoundData.status in *; by rewrite Hstatus.
      + rewrite partner_partner. by destruct role1. }
  assert (Hadv : advanced config d d2)
    by (destruct Hfirst as [(_ & _ & ?)|(_ & ? & ->)]; done).
  pose proof Hadv as (Hn & HS & HR & Hsame & Hend & Hmore).
  split_and!.
  - done.
  - intros Hflag.
    destruct Hfirst as [(_ & H1 & _)|(Hflag' & _)]; [|congruence].
    split; [done|]. split; [by rewrite H1|].
    intros Hown. rewrite H1. apply withRound_id.
    replace (RoundData.apply (setReadyNext role1) r) with r; [exact Hr|].
    destruct role1; cbn in Hown |- *.
    + destruct (RoundData.senderReadyNext r) as [| |[]] eqn:E; try done.
      by destruct r; cbn in *; subst.
    + destruct (RoundData.receiverReadyNext r) as [| |[]] eqn:E; try done.
      by destruct r; cbn in *; subst.
  - intros Hflag. destruct Hfirst as [(? & _)|(_ & (? & _) & ?)]; [congruence|done].
  - subst d3. apply (advanced_stuck config config d d2 _ _ role3 u3 Hadv); [|done].
    destruct role3; cbn in *; congruence.
  - intros Hlt m. destruct (decide (m = n + 1)) as [->|Hm]; [|by apply Hsame].
    subst n. rewrite Hend, Hnext by done. done.
  - intros Hle. split; [done|by apply Hmore].
Qed.

Lemma C1_next_round_advances_once_witness :
  let d :=
    runAll (firstRound scenarioB)
      (createSenderReceiverStagePublicData "stage1") in
  let first := callOf scenarioB "alice" next_round None 7 in
  let second := callOf scenarioB "bob" next_round None 8 in
  let third := callOf scenarioB "alice" next_round None 9 in
  let d1 := run first.1 first.2 d in
  let d2 := run second.1 second.2 d1 in
  let d3 := run third.1 third.2 d2 in
  (r ← currentRoundData d; Some (RoundData.status r)) = Some SHOW_FEEDBACK
  /\ playerOf d sender = Some "alice"
  /\ playerOf d receiver = Some "bob"
  /\ PublicData.currentRound d2 = PublicData.currentRound d + 1
  /\ d3 = d2.
Proof.
  intros d first second third d1 d2 d3.
  assert (Hd : reachable scenarioB "stage1" d)
    by (apply reachable_runAll; [apply reachable_init|repeat constructor]).
  assert (Hr : exists r, currentRoundData d = Some r
                         /\ RoundData.status r = SHOW_FEEDBACK)
    by (vm_compute; eauto).
  destruct Hr as (r & Hr & Hstatus).
  assert (Hu1 : playerOf d sender = Some "alice") by (vm_compute; reflexivity).
  assert (Hu2 : playerOf d receiver = Some "bob") by (vm_compute; reflexivity).
  split; [by rewrite Hr; cbn; rewrite Hstatus|].
  split; [exact Hu1|]. split; [exact Hu2|].
  destruct (C1_next_round_advances_once scenarioB "stage1" d r sender sender
              "alice" "bob" "alice" first second third Hd Hr Hstatus Hu1 Hu2
              Hu1 ltac:(repeat split) ltac:(repeat split) ltac:(repeat split)
              eq_refl eq_refl)
    as (H1 & _ & _ & H3 & _).
  split; [exact H1|exact H3].
Defined.

(** Scenario D on a game of one round: the advancement past the last
    round creates no round, and the late call is refused for want of a
    current round. *)
Example scenarioD_last_round :
  let config :=
    {| Config.kind := SENDER_RECEIVER; Config.numRounds := 1;
       Config.state1Probability := None;
       Config.requireParticipantClick := true;
       Config.enableBalancedDefaults := false;
       Config.payoffSenderChoiceA := 30; Config.payoffSenderChoiceB1 := 0;
       Config.payoffSenderChoiceB2 := 20; Config.payoffReceiverChoiceA := 20;
       Config.payoffReceiverChoiceB1 := 36;
       Config.payoffReceiverChoiceB2 := 4 |} in
  let d :=
    runAll (firstRound config ++
            [callOf config "bob" next_round None 7;
             callOf config "alice" next_round None 8])
      (createSenderReceiverStagePublicData "stage1") in
  let late := callOf config "bob" next_round None 9 in
  PublicData.currentRound d = 2
  /\ dom (PublicData.roundMap d) = ({[ 1 ]} : gset Z)
  /\ submitSenderReceiverAction late.1 late.2 (Some d)
     = Throw (HttpsError failed_precondition "Round data not initialized").
Proof. vm_compute. done. Qed.

(** The partner was ready first: on the instance left by the first round
    and bob's next_round, alice's call performs the advancement and
    bob's call after it changes nothing. *)
Lemma C1_counterexample :
  let d :=
    runAll (firstRound scenarioB ++ [callOf scenarioB "bob" next_round None 7])
      (createSenderReceiverStagePublicData "stage1") in
  let first := callOf scenarioB "alice" next_round None 8 in
  let second := callOf scenarioB "bob" next_round None 9 in
  let d1 := run first.1 first.2 d in
  let d2 := run second.1 second.2 d1 in
  (r ← currentRoundData d; Some (RoundData.status r)) = Some SHOW_FEEDBACK
  /\ PublicData.currentRound d = 1
  /\ PublicData.senderId d = Some "alice"
  /\ PublicData.receiverId d = Some "bob"
  /\ PublicData.currentRound d1 = 2
  /\ d2 = d1.
Proof. vm_compute. done. Qed.

(** C3: whatever the configuration, a receiver_choice call that is
    carried out on a round stores both payoffs in that round: 0 and 0
    when the recorded senderChoice is null (for every setting of
    requireParticipantClick); otherwise the pair of
    [calculatePayoffs], which for choice A is (payoffSenderChoiceA,
    payoffReceiverChoiceA) whatever the hidden state, and for choice B
    the B1 pair when trueState is 1 and the B2 pair when it is 2.  With
    the payoff table of Scenario B, choice B under trueState 1 gives the
    sender 0 and the receiver 36. *)
Theorem C3_payoff_rules
    (env : Env.t) (req : Request.t) (d : PublicData.t)
    (ws : list PublicData.write) :
  Request.action req = receiver_choice ->
  submitSenderReceiverAction env req (Some d) = Ok ws ->
  exists config choice r r',
    Env.stage env = Some config
    /\ Payload.receiverChoice (payloadOf req) = Some choice
    /\ currentRoundData d = Some r
    /\ currentRoundData (run env req d) = Some r'
    /\ RoundData.receiverChoice r' = val choice
    /\ (RoundData.senderChoice r = null ->
        RoundData.senderPayoff r' = val 0%Q
        /\ RoundData.receiverPayoff r' = val 0%Q)
    /\ (RoundData.senderChoice r <> null ->
        (RoundData.senderPayoff r', RoundData.receiverPayoff r')
        = (val (calculatePayoffs choice (RoundData.trueState r) config).1,
           val (calculatePayoffs choice (RoundData.trueState r) config).2))
    /\ (forall trueState,
          calculatePayoffs A trueState config
          = (Config.payoffSenderChoiceA config,
             Config.payoffReceiverChoiceA config))
    /\ calculatePayoffs B 1 config
       = (Config.payoffSenderChoiceB1 config,
          Config.payoffReceiverChoiceB1 config)
    /\ calculatePayoffs B 2 config
       = (Config.payoffSenderChoiceB2 config,
          Config.payoffReceiverChoiceB2 config)
    /\ calculatePayoffs B 1 scenarioB = (0, 36)%Q.
Proof.
  intros Ha H.
  destruct (submit_Ok_handle _ _ _ _ H) as (config & u & r & Hc & _ & Hr & Hh);
    [by rewrite Ha|].
  unfold handle in Hh. rewrite Ha in Hh.
  destruct (receiverChoice_Ok _ _ _ _ _ _ _ _ Hh)
    as (_ & _ & choice & dflt & Hchoice & _ & Hws).
  cbv zeta in Hws. exists config, choice, r.
  unfold run. rewrite H, Hws, (stored_roundFields _ _ _ Hr), current_withRound.
  eexists. destruct Hc as (_ & _ & Hcfg & _).
  split_and!; try done; cbn.
  - intros Hn. by rewrite (payoffLogic_null _ _ _ Hn).
  - intros Hn. by rewrite (payoffLogic_calculatePayoffs _ _ _ Hn).
Qed.

Lemma C3_payoff_rules_witness :
  let d := instanceIn (roundIn WAITING_RECEIVER_DECIDE (val A)) in
  let call :=
    callOf scenarioB "bob" receiver_choice
      (choicePayload (Some B)) 7 in
  Request.action call.2 = receiver_choice
  /\ exists ws,
      submitSenderReceiverAction call.1 call.2 (Some d) = Ok ws
      /\ exists config choice r r',
          Env.stage call.1 = Some config
          /\ Payload.receiverChoice (payloadOf call.2) = Some choice
          /\ currentRoundData d = Some r
          /\ currentRoundData (run call.1 call.2 d) = Some r'
          /\ RoundData.receiverChoice r' = val choice
          /\ (RoundData.senderChoice r = null ->
              RoundData.senderPayoff r' = val 0%Q
              /\ RoundData.receiverPayoff r' = val 0%Q)
          /\ (RoundData.senderChoice r <> null ->
              (RoundData.senderPayoff r', RoundData.receiverPayoff r')
              = (val (calculatePayoffs choice (RoundData.trueState r) config).1,
                 val (calculatePayoffs choice (RoundData.trueState r) config).2))
          /\ (forall trueState,
                calculatePayoffs A trueState config
                = (Config.payoffSenderChoiceA config,
                   Config.payoffReceiverChoiceA config))
          /\ calculatePayoffs B 1 config
             = (Config.payoffSenderChoiceB1 config,
                Config.payoffReceiverChoiceB1 config)
          /\ calculatePayoffs B 2 config
             = (Config.payoffSenderChoiceB2 config,
                Config.payoffReceiverChoiceB2 config)
          /\ calculatePayoffs B 1 scenarioB = (0, 36)%Q.
Proof.
  intros d call.
  assert (Ha : Request.action call.2 = receiver_choice) by reflexivity.
  assert (H : exists ws,
             submitSenderReceiverAction call.1 call.2 (Some d) = Ok ws)
    by (vm_compute; eauto).
  destruct H as [ws H]. split; [exact Ha|]. exists ws. split; [exact H|].
  exact (C3_payoff_rules call.1 call.2 d ws Ha H).
Defined.

(** Scenario B played on the endpoint: the receiver chooses B in a round
    of hidden state 1 in which the sender has chosen A. *)
Example scenarioB_stored :
  let d := instanceIn (roundIn WAITING_RECEIVER_DECIDE (val A)) in
  let call :=
    callOf scenarioB "bob" receiver_choice
      (choicePayload (Some B)) 7 in
  (r ← currentRoundData (run call.1 call.2 d);
   Some (RoundData.status r, RoundData.senderPayoff r,
         RoundData.receiverPayoff r))
  = Some (SHOW_FEEDBACK, val 0%Q, val 36%Q).
Proof. vm_compute. reflexivity. Qed.

(** C4, as the endpoint has it.  For a call of start_game,
    sender_signal, receiver_saw_message, receiver_choice or next_round:
    a caller holding neither role gets permission-denied; sender_signal
    from the Receiver and receiver_choice from the Sender get
    permission-denied, and in the wrong round status they get
    failed-precondition; start_game and next_round in the wrong status,
    and receiver_saw_message from the Sender or in the wrong status,
    return normally with no write; a player's call without a current
    round gets failed-precondition; a call on a missing instance
    document gets not-found, and so does the caller's request when the
    stage is missing or of another kind, whatever the instance document.
    In each of these cases the stored instance is unchanged.  Of two sender_signal calls in a row on a reachable
    instance the first is committed and the second gets
    failed-precondition and leaves the first submission as it is. *)
Theorem C4_rejected_calls
    (config : Config.t) (env : Env.t) (req : Request.t) (d : PublicData.t)
    (u : string) (a : Action) :
  calledBy env req config u a ->
  a <> assign_role ->
  let result := submitSenderReceiverAction env req (Some d) in
  let isSender := isUser (PublicData.senderId d) u in
  let isReceiver := isUser (PublicData.receiverId d) u in
  (isSender = false -> isReceiver = false ->
   result
   = Throw (HttpsError permission_denied "User is not a player in this game"))
  /\ (forall r,
        currentRoundData d = Some r ->
        isSender = true \/ isReceiver = true ->
        (a = sender_signal -> isSender = false ->
         result = Throw (HttpsError permission_denied "Only sender can signal"))
        /\ (a = sender_signal -> isSender = true ->
            RoundData.status r <> WAITING_SENDER_DECIDE ->
            result
            = Throw (HttpsError failed_precondition
                       ("Not sender turn. Current status: "
                        +:+ statusName (RoundData.status r))))
        /\ (a = receiver_choice -> isReceiver = false ->
            result
            = Throw (HttpsError permission_denied "Only receiver can choose"))
        /\ (a = receiver_choice -> isReceiver = true ->
            RoundData.status r <> WAITING_RECEIVER_DECIDE ->
            result = Throw (HttpsError failed_precondition "Not receiver turn"))
        /\ (a = start_game -> RoundData.status r <> WAITING_BOTH_START ->
            result = Ok [])
        /\ (a = next_round -> RoundData.status r <> SHOW_FEEDBACK ->
            result = Ok [])
        /\ (a = receiver_saw_message ->
            isReceiver = false
            \/ RoundData.status r <> WAITING_RECEIVER_DECIDE ->
            result = Ok []))
  /\ (currentRoundData d = None ->
      isSender = true \/ isReceiver = true ->
      result
      = Throw (HttpsError failed_precondition "Round data not initialized"))
  /\ submitSenderReceiverAction env req None
     = Throw (HttpsError not_found "Public data doc does not exist")
  /\ (forall env' doc,
        userIdOf env' req = Some u ->
        (forall stage, Env.stage env' = Some stage ->
                       Config.kind stage <> SENDER_RECEIVER) ->
        submitSenderReceiverAction env' req doc
        = Throw (HttpsError not_found "Stage not found or invalid kind")
        /\ run env' req d = d)
  /\ ((exists e, result = Throw e) \/ result = Ok [] -> run env req d = d)
  /\ (forall stageId r env2 req2,
        a = sender_signal ->
        reachable config stageId d ->
        Request.stageId req = stageId ->
        PublicData.senderId d = Some u ->
        currentRoundData d = Some r ->
        RoundData.status r = WAITING_SENDER_DECIDE ->
        calledBy env2 req2 config u sender_signal ->
        let d1 := run env req d in
        exists ws r1,
          result = Ok ws
          /\ currentRoundData d1 = Some r1
          /\ RoundData.senderChoice r1
             = choiceOrNull (Payload.senderChoice (payloadOf req))
          /\ RoundData.senderMessage r1
             = messageOrNull (Payload.senderMessage (payloadOf req))
          /\ RoundData.status r1 = WAITING_RECEIVER_DECIDE
          /\ submitSenderReceiverAction env2 req2 (Some d1)
             = Throw (HttpsError failed_precondition
                        "Not sender turn. Current status: WAITING_RECEIVER_DECIDE")
          /\ run env2 req2 d1 = d1).
Proof.
  intros Hc Ha result isSender isReceiver. subst result isSender isReceiver.
  split_and!.
  - by apply (submit_not_player _ _ _ _ _ _ Hc).
  - intros r Hr Hrole. rewrite (submit_player _ _ _ _ _ _ _ Hc Ha Hrole Hr).
    destruct Hc as (_ & _ & _ & _ & Hact). unfold handle. rewrite Hact.
    split_and!; intros ->.
    + unfold senderSignal. by intros ->.
    + unfold senderSignal. intros -> Hs. by rewrite bool_decide_eq_false_2.
    + unfold receiverChoice. by intros ->.
    + unfold receiverChoice. intros -> Hs. by rewrite bool_decide_eq_false_2.
    + unfold startGame. intros Hs. by rewrite bool_decide_eq_false_2.
    + unfold nextRound. intros Hs. by rewrite bool_decide_eq_false_2.
    + unfold receiverSawMessage. intros [-> | Hs]; [done|].
      rewrite bool_decide_eq_false_2 by done. by destruct (negb _).
  - intros Hr Hrole. by apply (submit_no_round _ _ _ _ _ _ Hc).
  - by apply (submit_no_doc _ _ _ _ _ Hc).
  - intros env' doc Hu Hstage.
    assert (Hnf : forall doc',
              submitSenderReceiverAction env' req doc'
              = Throw (HttpsError not_found "Stage not found or invalid kind")).
    { intros doc'. unfold submitSenderReceiverAction. rewrite Hu.
      destruct Hc as (_ & -> & _). cbn.
      destruct (Env.stage env') as [stage|]; [|done].
      specialize (Hstage stage eq_refl). by destruct (Config.kind stage). }
    split; [done|]. unfold run. by rewrite Hnf.
  - unfold run. by intros [[e ->] | ->].
  - intros stageId r env2 req2 -> Hd Hst Hs Hr Hstatus Hc2 d1. subst d1.
    destruct (senderSignal_twice _ _ _ _ _ _ _ _ _ (reachable_Inv _ _ _ Hd)
                Hc Hst Hs Hr Hstatus Hc2)
      as (ws & r1 & H & Hr1 & Hsc & Hsm & Hst1 & H2).
    exists ws, r1. split_and!; try done. by apply (run_Throw _ _ _ _ H2).
Qed.

Lemma C4_rejected_calls_witness :
  let d :=
    runAll (opening scenarioB) (createSenderReceiverStagePublicData "stage1") in
  let first :=
    callOf scenarioB "alice" sender_signal (signalPayload (val A) None) 9 in
  let second :=
    callOf scenarioB "alice" sender_signal (signalPayload (val B) None) 10 in
  let d1 := run first.1 first.2 d in
  calledBy first.1 first.2 scenarioB "alice" sender_signal
  /\ sender_signal <> assign_role
  /\ exists ws r1,
      submitSenderReceiverAction first.1 first.2 (Some d) = Ok ws
      /\ currentRoundData d1 = Some r1
      /\ RoundData.senderChoice r1 = val A
      /\ RoundData.senderMessage r1 = null
      /\ RoundData.status r1 = WAITING_RECEIVER_DECIDE
      /\ submitSenderReceiverAction second.1 second.2 (Some d1)
         = Throw (HttpsError failed_precondition
                    "Not sender turn. Current status: WAITING_RECEIVER_DECIDE")
      /\ run second.1 second.2 d1 = d1.
Proof.
  intros d first second d1.
  assert (Hc : calledBy first.1 first.2 scenarioB "alice" sender_signal)
    by (repeat split).
  assert (Ha : sender_signal <> assign_role) by discriminate.
  assert (Hr : exists r, currentRoundData d = Some r
                         /\ RoundData.status r = WAITING_SENDER_DECIDE)
    by (vm_compute; eauto).
  destruct Hr as (r & Hr & Hstatus).
  split; [exact Hc|]. split; [exact Ha|].
  refine (proj2 (proj2 (proj2 (proj2 (proj2 (proj2
            (C4_rejected_calls scenarioB first.1 first.2 d "alice"
               sender_signal Hc Ha))))))
          "stage1" r second.1 second.2 eq_refl _ eq_refl _ Hr Hstatus _).
  - apply reachable_runAll; [apply reachable_init|repeat constructor].
  - vm_compute. reflexivity.
  - repeat split.
Defined.

(** start_game in a round that has already started, and
    receiver_saw_message sent by the Sender, return normally. *)
Lemma C4_counterexample :
  let d :=
    runAll (opening scenarioB) (createSenderReceiverStagePublicData "stage1") in
  let start := callOf scenarioB "alice" start_game None 5 in
  let saw := callOf scenarioB "alice" receiver_saw_message None 6 in
  (r ← currentRoundData d; Some (RoundData.status r))
  = Some WAITING_SENDER_DECIDE
  /\ PublicData.senderId d = Some "alice"
  /\ submitSenderReceiverAction start.1 start.2 (Some d) = Ok []
  /\ submitSenderReceiverAction saw.1 saw.2 (Some d) = Ok [].
Proof. vm_compute. done. Qed.

(** C5: whatever calls follow, a round keeps its place in the fixed
    order of statuses or moves forward, and a round that is in
    SHOW_FEEDBACK keeps its senderChoice, receiverChoice, senderPayoff
    and receiverPayoff (for every instance state, reachable or not). *)
Theorem C5_rounds_only_move_forward
    (calls : list (Env.t * Request.t)) (d : PublicData.t) (n : Z)
    (r : RoundData.t) :
  PublicData.roundMap d !! n = Some r ->
  exists r',
    PublicData.roundMap (runAll calls d) !! n = Some r'
    /\ (rank (RoundData.status r) <= rank (RoundData.status r'))%nat
    /\ (RoundData.status r = SHOW_FEEDBACK ->
        RoundData.senderChoice r' = RoundData.senderChoice r
        /\ RoundData.receiverChoice r' = RoundData.receiverChoice r
        /\ RoundData.senderPayoff r' = RoundData.senderPayoff r
        /\ RoundData.receiverPayoff r' = RoundData.receiverPayoff r).
Proof.
  intros Hr. destruct (runAll_forward calls d n r Hr) as (r' & Hr' & F).
  exists r'. split; [done|]. exact F.
Qed.

Lemma C5_rounds_only_move_forward_witness :
  let r := roundIn SHOW_FEEDBACK (val A) in
  let d := instanceIn r in
  let calls := [callOf scenarioB "alice" next_round None 5;
                callOf scenarioB "bob" sender_signal None 6] in
  PublicData.roundMap d !! 1 = Some r
  /\ exists r',
      PublicData.roundMap (runAll calls d) !! 1 = Some r'
      /\ (rank (RoundData.status r) <= rank (RoundData.status r'))%nat
      /\ (RoundData.status r = SHOW_FEEDBACK ->
          RoundData.senderChoice r' = RoundData.senderChoice r
          /\ RoundData.receiverChoice r' = RoundData.receiverChoice r
          /\ RoundData.senderPayoff r' = RoundData.senderPayoff r
          /\ RoundData.receiverPayoff r' = RoundData.receiverPayoff r).
Proof.
  intros r d calls.
  assert (H : PublicData.roundMap d !! 1 = Some r) by reflexivity.
  split; [exact H|]. exact (C5_rounds_only_move_forward calls d 1 r H).
Defined.

(** C6, as the endpoint has it.  A committed transaction writes
    senderPayoff of a round exactly when it writes receiverPayoff of
    that round; only sender_signal and receiver_choice write them, and
    only in the current round.  sender_signal writes them, both 0,
    exactly when requireParticipantClick holds and the payload has
    isTimedOut = true.  Every committed receiver_choice writes both,
    computed anew from the recorded senderChoice, the choice and
    trueState, whether or not sender_signal has written them before;
    after a sender_signal without a choice the recorded senderChoice is
    null, and the payoffs receiver_choice then writes and stores are
    again 0 and 0. *)
Theorem C6_payoffs_written_together
    (env : Env.t) (req : Request.t) (d : PublicData.t)
    (ws : list PublicData.write) :
  submitSenderReceiverAction env req (Some d) = Ok ws ->
  let n := PublicData.currentRound d in
  exists config,
    Env.stage env = Some config
    /\ (forall m, writesSenderPayoff m ws <-> writesReceiverPayoff m ws)
    /\ (forall m,
          writesSenderPayoff m ws ->
          m = n
          /\ (Request.action req = sender_signal
              \/ Request.action req = receiver_choice))
    /\ (Request.action req = sender_signal ->
        (writesSenderPayoff n ws
         <-> Config.requireParticipantClick config = true
             /\ Payload.isTimedOut (payloadOf req) = Some true)
        /\ (forall v,
              PublicData.w_roundField n (RoundData.w_senderPayoff v) ∈ ws
              \/ PublicData.w_roundField n (RoundData.w_receiverPayoff v) ∈ ws ->
              v = val 0%Q))
    /\ (Request.action req = receiver_choice ->
        exists choice r r',
          Payload.receiverChoice (payloadOf req) = Some choice
          /\ currentRoundData d = Some r
          /\ (forall v,
                PublicData.w_roundField n (RoundData.w_senderPayoff v) ∈ ws
                <-> v = val (payoffLogic config r choice).1)
          /\ (forall v,
                PublicData.w_roundField n (RoundData.w_receiverPayoff v) ∈ ws
                <-> v = val (payoffLogic config r choice).2)
          /\ currentRoundData (run env req d) = Some r'
          /\ RoundData.senderPayoff r' = val (payoffLogic config r choice).1
          /\ RoundData.receiverPayoff r' = val (payoffLogic config r choice).2
          /\ (RoundData.senderChoice r = null ->
              payoffLogic config r choice = (0, 0)%Q))
    /\ (Request.action req = sender_signal ->
        Payload.senderChoice (payloadOf req) = undefined
        \/ Payload.senderChoice (payloadOf req) = null ->
        forall env2 req2 ws2,
          Request.action req2 = receiver_choice ->
          submitSenderReceiverAction env2 req2 (Some (run env req d)) = Ok ws2 ->
          writesSenderPayoff n ws2
          /\ writesReceiverPayoff n ws2
          /\ exists r2,
              currentRoundData (run env2 req2 (run env req d)) = Some r2
              /\ RoundData.senderPayoff r2 = val 0%Q
              /\ RoundData.receiverPayoff r2 = val 0%Q).
Proof.
  intros H n.
  destruct (submit_Ok_inv _ _ _ _ H) as (config & u & Hc & _).
  pose proof Hc as (_ & _ & Hcfg & _).
  exists config. split; [done|].
  assert (HSR : forall m, writesSenderPayoff m ws ->
                          writesReceiverPayoff m ws /\ m = n).
  { intros m Hw.
    destruct (submit_payoffs _ _ _ _ m H (or_introl Hw)) as [Ha|Ha].
    - destruct (senderSignal_committed _ _ _ _ H Ha)
        as (config' & r & r1 & Hcfg' & _ & Hs & _).
      destruct (senderSignal_payoffs _ _ _ _ _ _ _ _ Hs) as [HS HR].
      destruct Hw as [v Hv]. apply HS in Hv as (Hf & -> & ->).
      split; [|done]. exists (val 0%Q). by apply HR.
    - destruct (receiverChoice_committed _ _ _ _ H Ha)
        as (config' & r & r1 & Hcfg' & _ & Hs & _).
      destruct (receiverChoice_payoffs _ _ _ _ _ _ _ _ Hs)
        as (choice & _ & HS & HR).
      destruct Hw as [v Hv]. apply HS in Hv as (-> & ->).
      split; [|done]. eexists. by apply HR. }
  assert (HRS : forall m, writesReceiverPayoff m ws -> writesSenderPayoff m ws).
  { intros m Hw.
    destruct (submit_payoffs _ _ _ _ m H (or_intror Hw)) as [Ha|Ha].
    - destruct (senderSignal_committed _ _ _ _ H Ha)
        as (config' & r & r1 & Hcfg' & _ & Hs & _).
      destruct (senderSignal_payoffs _ _ _ _ _ _ _ _ Hs) as [HS HR].
      destruct Hw as [v Hv]. apply HR in Hv as (Hf & -> & ->).
      exists (val 0%Q). by apply HS.
    - destruct (receiverChoice_committed _ _ _ _ H Ha)
        as (config' & r & r1 & Hcfg' & _ & Hs & _).
      destruct (receiverChoice_payoffs _ _ _ _ _ _ _ _ Hs)
        as (choice & _ & HS & HR).
      destruct Hw as [v Hv]. apply HR in Hv as (-> & ->).
      eexists. by apply HS. }
  split_and!.
  - intros m. split; [by intros [? _]%HSR|apply HRS].
  - intros m Hw. split; [by apply HSR in Hw as [_ ?]|].
    by apply (submit_payoffs _ _ _ _ m H); left.
  - intros Ha.
    destruct (senderSignal_committed _ _ _ _ H Ha)
      as (config' & r & r1 & Hcfg' & _ & Hs & _).
    assert (config' = config) as -> by congruence.
    destruct (senderSignal_payoffs _ _ _ _ _ _ _ _ Hs) as [HS HR].
    cbv zeta in HS, HR. split.
    + unfold writesSenderPayoff. setoid_rewrite HS.
      setoid_rewrite andb_true_iff. setoid_rewrite bool_decide_eq_true.
      naive_solver.
    + intros v [Hv|Hv]; [apply HS in Hv|apply HR in Hv]; tauto.
  - intros Ha.
    destruct (receiverChoice_committed _ _ _ _ H Ha)
      as (config' & r & r1 & Hcfg' & Hr & Hs & Hrun & choice & Hch & Hsp & Hrp & _).
    assert (config' = config) as -> by congruence.
    destruct (receiverChoice_payoffs _ _ _ _ _ _ _ _ Hs)
      as (choice' & Hch' & HS & HR).
    assert (choice' = choice) as -> by congruence.
    exists choice, r, r1. fold n in Hrun. rewrite Hrun, current_withRound.
    split_and!; try done.
    + intros v. rewrite HS. naive_solver.
    + intros v. rewrite HR. naive_solver.
    + apply payoffLogic_null.
  - intros Ha Hnone env2 req2 ws2 Ha2 H2.
    destruct (senderSignal_committed _ _ _ _ H Ha)
      as (config' & r & r1 & _ & _ & _ & Hrun & Hsc & _).
    fold n in Hrun. rewrite Hrun in *.
    destruct (receiverChoice_committed _ _ _ _ H2 Ha2)
      as (config2 & r' & r2 & _ & Hr' & Hs2 & Hrun2 & choice & _ & Hsp & Hrp & _).
    rewrite current_withRound in Hr'. injection Hr' as <-.
    rewrite currentRound_withRound in *. fold n in Hrun2, Hs2.
    assert (Hnull : RoundData.senderChoice r1 = null).
    { rewrite Hsc. by destruct Hnone as [-> | ->]. }
    rewrite (payoffLogic_null _ _ _ Hnull) in Hsp, Hrp.
    destruct (receiverChoice_payoffs _ _ _ _ _ _ _ _ Hs2)
      as (choice' & _ & HS & HR).
    split_and!.
    + eexists. by apply HS.
    + eexists. by apply HR.
    + exists r2. rewrite Hrun2. split; [|done].
      unfold currentRoundData. rewrite lookup_withRound.
      cbn [withRound PublicData.currentRound]. by rewrite decide_True.
Qed.

Lemma C6_payoffs_written_together_witness :
  let d :=
    runAll (opening scenarioB) (createSenderReceiverStagePublicData "stage1") in
  let signal :=
    callOf scenarioB "alice" sender_signal (signalPayload null (Some true)) 9 in
  exists ws,
    submitSenderReceiverAction signal.1 signal.2 (Some d) = Ok ws
    /\ (forall m, writesSenderPayoff m ws <-> writesReceiverPayoff m ws)
    /\ (writesSenderPayoff 1 ws
        <-> Config.requireParticipantClick scenarioB = true
            /\ Payload.isTimedOut (payloadOf signal.2) = Some true).
Proof.
  intros d signal.
  assert (H : exists ws,
             submitSenderReceiverAction signal.1 signal.2 (Some d) = Ok ws)
    by (vm_compute; eauto).
  destruct H as [ws H]. exists ws. split; [exact H|].
  destruct (C6_payoffs_written_together signal.1 signal.2 d ws H)
    as (config & Hcfg & Hboth & _ & Hsignal & _).
  injection Hcfg as <-. split; [exact Hboth|].
  exact (proj1 (Hsignal eq_refl)).
Defined.

(** A sender_signal that times out under requireParticipantClick and the
    receiver_choice that follows: each of the two transactions writes
    senderPayoff and receiverPayoff of round 1. *)
Lemma C6_counterexample :
  let d :=
    runAll (opening scenarioB) (createSenderReceiverStagePublicData "stage1") in
  let signal :=
    callOf scenarioB "alice" sender_signal (signalPayload null (Some true)) 9 in
  let choice :=
    callOf scenarioB "bob" receiver_choice (choicePayload (Some A)) 12 in
  exists ws1 ws2,
    submitSenderReceiverAction signal.1 signal.2 (Some d) = Ok ws1
    /\ submitSenderReceiverAction choice.1 choice.2
         (Some (run signal.1 signal.2 d)) = Ok ws2
    /\ PublicData.w_roundField 1 (RoundData.w_senderPayoff (val 0%Q)) ∈ ws1
    /\ PublicData.w_roundField 1 (RoundData.w_receiverPayoff (val 0%Q)) ∈ ws1
    /\ PublicData.w_roundField 1 (RoundData.w_senderPayoff (val 0%Q)) ∈ ws2
    /\ PublicData.w_roundField 1 (RoundData.w_receiverPayoff (val 0%Q)) ∈ ws2.
Proof.
  vm_compute. eexists _, _. split; [reflexivity|]. split; [reflexivity|].
  split_and!; set_solver.
Qed.

(** When the timed-out sender_signal carries a choice, the payoffs of
    receiver_choice replace the zeros written by sender_signal. *)
Example zero_forced_then_paid :
  let d :=
    runAll (opening scenarioB) (createSenderReceiverStagePublicData "stage1") in
  let signal :=
    callOf scenarioB "alice" sender_signal (signalPayload (val A) (Some true)) 9 in
  let choice :=
    callOf scenarioB "bob" receiver_choice (choicePayload (Some A)) 12 in
  let d1 := run signal.1 signal.2 d in
  let d2 := run choice.1 choice.2 d1 in
  (r ← currentRoundData d1;
   Some (RoundData.senderPayoff r, RoundData.receiverPayoff r))
  = Some (val 0%Q, val 0%Q)
  /\ (r ← currentRoundData d2;
      Some (RoundData.senderPayoff r, RoundData.receiverPayoff r))
     = Some (val 30%Q, val 20%Q).
Proof. vm_compute. done. Qed.

(** C9: on an instance reached by calls of the endpoint, an assign_role
    call that returns and leaves both senderId and receiverId non-null,
    when roundMap[1] did not exist, has written round 1 in status
    WAITING_BOTH_START and currentRound = 1 in its own transaction.  Two
    assign_role calls of different participants with no requestedRole
    and no role in another stage, on a freshly created instance of a
    stage with at least one round: the first caller is the Sender, the
    second the Receiver, the first transaction writes no round and the
    second writes round 1, which is then the only round. *)
Theorem C9_assign_role_creates_round_1
    (config : Config.t) (stageId : string) (d : PublicData.t)
    (env : Env.t) (req : Request.t) (ws : list PublicData.write) :
  reachable config stageId d ->
  Request.action req = assign_role ->
  submitSenderReceiverAction env req (Some d) = Ok ws ->
  is_Some (PublicData.senderId (run env req d)) ->
  is_Some (PublicData.receiverId (run env req d)) ->
  PublicData.roundMap d !! 1 = None ->
  (exists r1,
      PublicData.w_round 1 r1 ∈ ws
      /\ PublicData.w_currentRound 1 ∈ ws
      /\ PublicData.roundMap (run env req d) !! 1 = Some r1
      /\ RoundData.status r1 = WAITING_BOTH_START
      /\ PublicData.currentRound (run env req d) = 1)
  /\ (forall (first second : Env.t * Request.t) (u1 u2 : string),
        calledBy first.1 first.2 config u1 assign_role ->
        calledBy second.1 second.2 config u2 assign_role ->
        Request.stageId first.2 = stageId ->
        Request.stageId second.2 = stageId ->
        u1 <> u2 ->
        Payload.requestedRole (payloadOf first.2) = None ->
        Payload.requestedRole (payloadOf second.2) = None ->
        historicalRoleOf stageId u1 (Env.cohortPublicData first.1) = None ->
        historicalRoleOf stageId u2 (Env.cohortPublicData second.1) = None ->
        1 <= Config.numRounds config < 2 ^ 32 ->
        (0 <= probabilityOf config)%Q /\ (probabilityOf config <= 1)%Q ->
        let d0 := createSenderReceiverStagePublicData stageId in
        let d1 := run first.1 first.2 d0 in
        let d2 := run second.1 second.2 d1 in
        submitSenderReceiverAction first.1 first.2 (Some d0)
        = Ok [PublicData.w_senderId u1]
        /\ exists r1,
            submitSenderReceiverAction second.1 second.2 (Some d1)
            = Ok [PublicData.w_receiverId u2; PublicData.w_round 1 r1;
                  PublicData.w_currentRound 1]
            /\ RoundData.status r1 = WAITING_BOTH_START
            /\ d2 = PublicData.mk stageId SENDER_RECEIVER (Some u1) (Some u2) 1
                      {[ 1 := r1 ]}).
Proof.
  intros Hd Ha H HS HR Hnone. split.
  - destruct (submit_Ok_inv _ _ _ _ H) as (config' & u & Hc & Ht).
    rewrite transaction_dispatch, bool_decide_eq_true_2 in Ht by done.
    rewrite (run_Ok _ _ _ _ H) in *.
    destruct Hc as (_ & Hu & _).
    by apply (assignRole_round1 _ _ _ _ _ _ _ _ (reachable_Inv _ _ _ Hd) Hu Ht).
  - intros first second u1 u2 Hc1 Hc2 Hst1 Hst2 Hne Hq1 Hq2 Hh1 Hh2 Hn [Hp0 Hp1]
      d0 d1 d2.
    assert (H1 : submitSenderReceiverAction first.1 first.2 (Some d0)
                 = Ok [PublicData.w_senderId u1]).
    { rewrite (submit_assignRole _ _ _ _ _ Hc1).
      apply assignRole_first; try done. by rewrite Hst1. }
    split; [exact H1|].
    destruct (getRoundDefault_valid 1 (Config.numRounds config)
                (probabilityOf config) (pairSeedOf (Some u1) (Some u2) stageId))
      as [t Ht]; [lia|lia|done|done|].
    exists (roundObject (Env.now second.1) 1 (RoundDefaults.trueState t) true).
    assert (Hd1 : d1 = PublicData.mk stageId SENDER_RECEIVER (Some u1) None 1 ∅).
    { subst d1. by rewrite (run_Ok _ _ _ _ H1). }
    assert (H2 : submitSenderReceiverAction second.1 second.2 (Some d1)
                 = Ok [PublicData.w_receiverId u2;
                       PublicData.w_round 1
                         (roundObject (Env.now second.1) 1
                            (RoundDefaults.trueState t) true);
                       PublicData.w_currentRound 1]).
    { rewrite (submit_assignRole _ _ _ _ _ Hc2).
      destruct Hc1 as (_ & Hu1 & _). destruct Hc2 as (_ & Hu2 & _).
      apply (assignRole_second _ _ _ _ _ u1); rewrite ?Hst2, ?Hd1; done. }
    split; [exact H2|]. split; [done|].
    subst d2. rewrite (run_Ok _ _ _ _ H2), Hd1. reflexivity.
Qed.

Lemma C9_assign_role_creates_round_1_witness :
  let d :=
    runAll [callOf scenarioB "alice" assign_role None 1]
      (createSenderReceiverStagePublicData "stage1") in
  let call := callOf scenarioB "bob" assign_role None 2 in
  PublicData.roundMap d !! 1 = None
  /\ is_Some (PublicData.senderId (run call.1 call.2 d))
  /\ is_Some (PublicData.receiverId (run call.1 call.2 d))
  /\ exists ws,
      submitSenderReceiverAction call.1 call.2 (Some d) = Ok ws
      /\ exists r1,
          PublicData.w_round 1 r1 ∈ ws
          /\ PublicData.w_currentRound 1 ∈ ws
          /\ PublicData.roundMap (run call.1 call.2 d) !! 1 = Some r1
          /\ RoundData.status r1 = WAITING_BOTH_START
          /\ PublicData.currentRound (run call.1 call.2 d) = 1.
Proof.
  intros d call.
  assert (Hd : reachable scenarioB "stage1" d)
    by (apply reachable_runAll; [apply reachable_init|repeat constructor]).
  assert (Hnone : PublicData.roundMap d !! 1 = None) by (vm_compute; reflexivity).
  assert (HS : is_Some (PublicData.senderId (run call.1 call.2 d)))
    by (vm_compute; eauto).
  assert (HR : is_Some (PublicData.receiverId (run call.1 call.2 d)))
    by (vm_compute; eauto).
  assert (H : exists ws,
             submitSenderReceiverAction call.1 call.2 (Some d) = Ok ws)
    by (vm_compute; eauto).
  destruct H as [ws H].
  split; [exact Hnone|]. split; [exact HS|]. split; [exact HR|].
  exists ws. split; [exact H|].
  exact (proj1 (C9_assign_role_creates_round_1 scenarioB "stage1" d call.1
                  call.2 ws Hd eq_refl H HS HR Hnone)).
Defined.

(** Scenario C in both orders of arrival *)
Example scenarioC :
  let d0 := createSenderReceiverStagePublicData "stage1" in
  let alice t := callOf scenarioB "alice" assign_role None t in
  let bob t := callOf scenarioB "bob" assign_role None t in
  let d := runAll [alice 1; bob 2] d0 in
  let d' := runAll [bob 1; alice 2] d0 in
  (PublicData.senderId d, PublicData.receiverId d, PublicData.currentRound d,
   RoundData.status <$> PublicData.roundMap d)
  = (Some "alice", Some "bob", 1, {[ 1 := WAITING_BOTH_START ]})
  /\ (PublicData.senderId d', PublicData.receiverId d',
      PublicData.currentRound d', RoundData.status <$> PublicData.roundMap d')
     = (Some "bob", Some "alice", 1, {[ 1 := WAITING_BOTH_START ]}).
Proof. vm_compute. done. Qed.

(** C10: on an instance reached by calls of the endpoint whose current
    round is in WAITING_SENDER_DECIDE, a sender_signal call of the Sender
    whose payload has no senderChoice, or null, returns without an
    error: the round then holds senderChoice null and is in
    WAITING_RECEIVER_DECIDE.  An invalid-argument error comes from
    receiver_choice with a missing choice and from nowhere else, and
    receiver_choice of the Receiver in WAITING_RECEIVER_DECIDE without a
    choice does throw it. *)
Theorem C10_sender_signal_without_choice
    (config : Config.t) (stageId : string) (env : Env.t) (req : Request.t)
    (d : PublicData.t) (u : string) (r : RoundData.t) :
  reachable config stageId d ->
  calledBy env req config u sender_signal ->
  Request.stageId req = stageId ->
  PublicData.senderId d = Some u ->
  currentRoundData d = Some r ->
  RoundData.status r = WAITING_SENDER_DECIDE ->
  Payload.senderChoice (payloadOf req) = undefined
  \/ Payload.senderChoice (payloadOf req) = null ->
  (exists ws r',
      submitSenderReceiverAction env req (Some d) = Ok ws
      /\ currentRoundData (run env req d) = Some r'
      /\ RoundData.senderChoice r' = null
      /\ RoundData.status r' = WAITING_RECEIVER_DECIDE)
  /\ (forall env' req' doc msg,
        submitSenderReceiverAction env' req' doc
        = Throw (HttpsError invalid_argument msg) ->
        Request.action req' = receiver_choice
        /\ Payload.receiverChoice (payloadOf req') = None)
  /\ (forall env' req' config' d' u' r',
        calledBy env' req' config' u' receiver_choice ->
        PublicData.receiverId d' = Some u' ->
        currentRoundData d' = Some r' ->
        RoundData.status r' = WAITING_RECEIVER_DECIDE ->
        Payload.receiverChoice (payloadOf req') = None ->
        submitSenderReceiverAction env' req' (Some d')
        = Throw (HttpsError invalid_argument "Missing choice")).
Proof.
  intros Hd Hc Hst Hs Hr Hstatus Hchoice. split_and!.
  - destruct (senderSignal_stored _ _ _ _ _ _ _ (reachable_Inv _ _ _ Hd)
                Hc Hst Hs Hr Hstatus)
      as (ws & r' & H & Hrun & Hsc & _ & Hst' & _).
    exists ws, r'. rewrite Hrun, current_withRound. split_and!; try done.
    rewrite Hsc. by destruct Hchoice as [-> | ->].
  - intros env' req' doc msg H. apply submit_Throw in H.
    destruct H as [H|[H|[[? H]|[[? H]|[[? H]|[[? H]|H]]]]]]; try done.
    by destruct H as (_ & ? & ?).
  - intros env' req' config' d' u' r' Hc' Hrc Hr' Hstatus' Hnone.
    rewrite (submit_handle _ _ _ _ _ _ _ Hc') by eauto.
    destruct Hc' as (_ & _ & _ & _ & Ha). unfold handle. rewrite Ha.
    unfold receiverChoice. apply isUser_true in Hrc. rewrite Hrc, Hnone.
    by rewrite bool_decide_eq_true_2.
Qed.

Lemma C10_sender_signal_without_choice_witness :
  let d :=
    runAll (opening scenarioB) (createSenderReceiverStagePublicData "stage1") in
  let call := callOf scenarioB "alice" sender_signal None 9 in
  exists r,
    currentRoundData d = Some r
    /\ RoundData.status r = WAITING_SENDER_DECIDE
    /\ exists ws r',
        submitSenderReceiverAction call.1 call.2 (Some d) = Ok ws
        /\ currentRoundData (run call.1 call.2 d) = Some r'
        /\ RoundData.senderChoice r' = null
        /\ RoundData.status r' = WAITING_RECEIVER_DECIDE.
Proof.
  intros d call.
  assert (Hd : reachable scenarioB "stage1" d).
  { apply reachable_runAll; [apply reachable_init|].
    repeat constructor. }
  assert (Hr : exists r, currentRoundData d = Some r
                         /\ RoundData.status r = WAITING_SENDER_DECIDE)
    by (vm_compute; eauto).
  destruct Hr as (r & Hr & Hstatus). exists r. split; [exact Hr|].
  split; [exact Hstatus|].
  refine (proj1 (C10_sender_signal_without_choice scenarioB "stage1" call.1
                   call.2 d "alice" r Hd _ _ _ Hr Hstatus _)).
  - repeat split.
  - reflexivity.
  - vm_compute. reflexivity.
  - left. reflexivity.
Defined.

(** ** The countdown *)
Module CountdownFacts.
Import Double Countdown.

(** *** formatTime *)

(** the integer between whose neighbours a rational lies is its floor *)
Lemma Qfloor_between (x : Q) (k : Z) :
(inject_Z k <= x)%Q -> (x < inject_Z (k + 1))%Q -> Qfloor x = k.
Proof.
intros H1 H2.
pose proof (Qfloor_resp_le _ _ H1) as L. rewrite Qfloor_Z in L.
pose proof (Qfloor_le x) as U.
assert (inject_Z (Qfloor x) < inject_Z (k + 1))%Q as U'
  by (eapply Qle_lt_trans; [exact U|exact H2]).
rewrite <- Zlt_Qlt in U'. lia.
Qed.

(** [Math.floor(seconds / 60)] is the integer quotient *)
Lemma floor_div_60 seconds :
0 <= seconds < 2 ^ 53 ->
floor (div (inject_Z seconds) 60) = seconds / 60.
Proof.
intros Hs. unfold floor, div.
set (k := seconds / 60). set (r := seconds mod 60).
assert (Hr : 0 <= r < 60) by (apply Z.mod_pos_bound; lia).
assert (Hk : 0 <= k) by (apply Z.div_pos; lia).
assert (Hdm : seconds = 60 * k + r) by (apply Z.div_mod; lia).
assert (Hk53 : k <= 2 ^ 53) by lia.
assert (Hr0 : (0 <= inject_Z r)%Q)
  by (change 0%Q with (inject_Z 0); rewrite <- Zle_Qle; lia).
assert (Hr59 : (inject_Z r <= 59)%Q)
  by (change 59%Q with (inject_Z 59); rewrite <- Zle_Qle; lia).
assert (Hk0 : (0 <= inject_Z k)%Q)
  by (change 0%Q with (inject_Z 0); rewrite <- Zle_Qle; lia).
assert (Hs53 : (inject_Z seconds <= 9007199254740991)%Q)
  by (change 9007199254740991%Q with (inject_Z (2 ^ 53 - 1));
      rewrite <- Zle_Qle; lia).
assert (Hsum : (inject_Z seconds == 60 * inject_Z k + inject_Z r)%Q).
{ rewrite Hdm at 1. rewrite inject_Z_plus, inject_Z_mult. reflexivity. }
set (x := (inject_Z seconds / 60)%Q).
assert (Hx : (x * 60 == inject_Z seconds)%Q) by (subst x; field).
clearbody x.
apply Qfloor_between.
- destruct (Z.eq_dec r 0) as [E|E].
  + assert (Hxk : (x == inject_Z k)%Q).
    { rewrite E in Hsum. change (inject_Z 0) with 0%Q in Hsum. lra. }
    rewrite Hxk, fl_int_exact by lia. apply Qle_refl.
  + assert (Hr1 : (1 <= inject_Z r)%Q)
      by (change 1%Q with (inject_Z 1); rewrite <- Zle_Qle; lia).
    assert (Hpos : (0 < x)%Q) by lra.
    destruct (fl_error _ Hpos) as [L _]. rewrite pow2_m53 in L. lra.
- rewrite inject_Z_plus. change (inject_Z 1) with 1%Q.
  destruct (Qlt_le_dec 0 x) as [Hpos|Hnp].
  + destruct (fl_error _ Hpos) as [_ U]. rewrite pow2_m53 in U. lra.
  + rewrite fl_0 by lra. lra.
Qed.

(** a number of seconds below 60, padded to two places *)
Lemma two_digits s :
0 <= s < 60 ->
padStart 2 "0" (pretty s) = pretty (s / 10) +:+ pretty (s mod 10).
Proof.
intros Hs.
assert (H : forallb (fun s => String.eqb (padStart 2 "0" (pretty s))
                               (pretty (s / 10) +:+ pretty (s mod 10)))
              (seqZ 0 60) = true) by (vm_compute; reflexivity).
rewrite forallb_forall in H.
apply String.eqb_eq, H, list_elem_of_In, elem_of_seqZ. lia.
Qed.

(** *** CountdownTimer *)

Lemma idle_run events x :
idle x -> Start ∉ events -> run events x = x.
Proof.
intros [Hi Hs]. induction events as [|e events IH]; intros Hno; [done|].
assert (He : handle x e = x).
{ destruct e as [| |i]; cbn.
  - exfalso. apply Hno. apply list_elem_of_here.
  - unfold stop. by rewrite Hi.
  - unfold tick. rewrite Hs, bool_decide_eq_false_2; [done|set_solver]. }
cbn [run foldl]. rewrite He. apply IH.
intros H. apply Hno. by apply list_elem_of_further.
Qed.

Lemma ticksOf_S n k :
ticksOf n (S k) = ticksOf n k ++ [onTick (n - Z.of_nat (S k))].
Proof. unfold ticksOf. by rewrite seq_S, fmap_app. Qed.

Lemma start_create n : start (create n) = counting n 0.
Proof.
unfold start, create, counting. cbn. f_equal; try lia; set_solver.
Qed.

Lemma tick_counting n k :
Z.of_nat (S k) < n -> tick 1 (counting n k) = counting n (S k).
Proof.
intros H. unfold tick, counting. cbn [intervals].
rewrite bool_decide_eq_true_2 by set_solver.
unfold body, call. cbn [remaining intervalId intervals nextId calls].
destruct (Z.leb_spec (n - Z.of_nat k - 1) 0); [lia|].
rewrite ticksOf_S.
replace (n - Z.of_nat (S k)) with (n - Z.of_nat k - 1) by lia.
f_equal.
Qed.

Lemma tick_complete n k :
Z.of_nat (S k) = n ->
tick 1 (counting n k)
= Countdown.mk None 0 ∅ 2 (ticksOf n (S k) ++ [onComplete]).
Proof.
intros H. unfold tick, counting. cbn [intervals].
rewrite bool_decide_eq_true_2 by set_solver.
unfold body, call, stop. cbn [remaining intervalId intervals nextId calls].
destruct (Z.leb_spec (n - Z.of_nat k - 1) 0); [|lia].
cbn [remaining intervalId intervals nextId calls].
rewrite ticksOf_S, difference_diag_L.
replace (n - Z.of_nat (S k)) with (n - Z.of_nat k - 1) by lia.
f_equal. lia.
Qed.

Lemma run_ticks_app k j x :
run (replicate (k + j) (Tick 1)) x
= run (replicate j (Tick 1)) (run (replicate k (Tick 1)) x).
Proof. unfold run. by rewrite replicate_add, foldl_app. Qed.

Lemma run_counting n k :
Z.of_nat k < n -> run (replicate k (Tick 1)) (counting n 0) = counting n k.
Proof.
induction k as [|k IH]; intros H; [done|].
replace (S k) with (k + 1)%nat at 1 by lia.
rewrite run_ticks_app, IH by lia. cbn [replicate run foldl handle].
apply tick_counting. lia.
Qed.

Lemma run_complete n k :
1 <= n -> n <= Z.of_nat k ->
run (replicate k (Tick 1)) (counting n 0)
= Countdown.mk None 0 ∅ 2 (ticksOf n (Z.to_nat n) ++ [onComplete]).
Proof.
intros H1 Hk.
replace k with ((Z.to_nat n - 1) + 1 + (k - Z.to_nat n))%nat by lia.
rewrite !run_ticks_app, run_counting by lia.
cbn [replicate run foldl handle].
rewrite (tick_complete n (Z.to_nat n - 1)) by lia.
replace (S (Z.to_nat n - 1)) with (Z.to_nat n) by lia.
apply (idle_run _ (Countdown.mk None 0 ∅ 2 _)); [done|].
intros H%elem_of_replicate. by destruct H.
Qed.

End CountdownFacts.
Import CountdownFacts.

(** ** The participant view *)
Module ViewFacts.
Import Generator Endpoints Utils.

(** *** The view and the endpoint *)

(** the view looks for an earlier role as the endpoint does *)
Lemma foundRole_historicalRoleOf stageId u entries :
View.foundRole stageId u entries = historicalRoleOf stageId u entries.
Proof. unfold View.foundRole, historicalRoleOf. by f_equal. Qed.

(** the role the view detects is found in the history and is not held
  by somebody else on the current stage *)
Lemma detectPreviousRole_Some st entries v myId role d :
View.publicId v = Some myId -> truthy myId = true ->
View.lookupStage (View.id st) entries = Some d ->
View.detectedPreviousRole (View.detectPreviousRole st entries v)
= Some role ->
View.foundRole (View.id st) myId entries = Some role
/\ (truthyId (playerOf d role) = false \/ playerOf d role = Some myId).
Proof.
intros Hid Ht Hd. unfold View.detectPreviousRole. rewrite Hid, Hd, Ht.
cbn [negb View.setDetected View.detectedPreviousRole].
destruct (View.foundRole (View.id st) myId entries) as [[]|] eqn:Hf; cbn.
- destruct (truthyId (PublicData.senderId d)) eqn:E1; cbn;
    [destruct (isUser (PublicData.senderId d) myId) eqn:E2; cbn|];
    intros [= <-]; split_and!; try done; cbn; auto.
  right. by apply isUser_true.
- destruct (truthyId (PublicData.receiverId d)) eqn:E1; cbn;
    [destruct (isUser (PublicData.receiverId d) myId) eqn:E2; cbn|];
    intros [= <-]; split_and!; try done; cbn; auto.
  right. by apply isUser_true.
- done.
Qed.

End ViewFacts.
Import ViewFacts.

(** ** Further results *)

(** X1: [shuffle] of a generator built from a string seed, after any
    number of earlier draws, returns a permutation of its argument: the
    same slots in another order, none lost, none added, the length
    unchanged.  It draws one number for each slot but the first. *)
Theorem X1_shuffle_permutes {T} (arr : array T) (seed : string) (n : nat) :
  let rng := seedAfter seed n in
  (shuffle arr rng).2 ≡ₚ arr
  /\ length (shuffle arr rng).2 = length arr
  /\ (shuffle arr rng).1 = seedAfter seed (n + (length arr - 1)).
Proof.
  intros rng. destruct (shuffle_perm arr rng (seedAfter_nonneg seed n)) as [_ Hp].
  split; [done|]. split; [by rewrite Hp|].
  unfold shuffle. by rewrite shuffleFrom_seed, seedAfter_add.
Qed.

(** X2: for a number of rounds within the array-length range and a
    probability in [0,1], [getRoundDefault] of a round k in
    1..numRounds returns the entry numbered k, with hidden state 1 or 2
    and with both defaults 'A' or 'B' (none undefined); for any other k
    it returns undefined. *)
Theorem X2_getRoundDefault_entry
    (numRounds : Z) (p : Q) (seed : string) (k : Z) :
  0 <= numRounds < 2 ^ 32 -> (0 <= p)%Q -> (p <= 1)%Q ->
  (1 <= k <= numRounds ->
   exists t,
     getRoundDefault k numRounds p seed = Ok (Some t)
     /\ RoundDefaults.round t = k
     /\ (RoundDefaults.trueState t = 1 \/ RoundDefaults.trueState t = 2)
     /\ (RoundDefaults.senderDefault t = Some A
         \/ RoundDefaults.senderDefault t = Some B)
     /\ (RoundDefaults.receiverDefault t = Some A
         \/ RoundDefaults.receiverDefault t = Some B))
  /\ (k < 1 \/ numRounds < k ->
      getRoundDefault k numRounds p seed = Ok None).
Proof.
  intros Hn Hp0 Hp1.
  destruct (generate_spec numRounds p seed Hn Hp0 Hp1)
    as (out & Hout & Hlen & _).
  split.
  - intros Hk.
    destruct (getRoundDefault_in_range k numRounds p seed out Hout Hk)
      as [t Ht].
    exists t. split; [done|].
    destruct (getRoundDefault_inv _ _ _ _ _ Ht) as (out' & Hout' & _ & Hl).
    assert (out' = out) as -> by congruence.
    destruct (generate_entries _ _ _ _ _ _ Hout Hl) as [Hr Hs].
    split; [lia|]. split; [done|].
    eapply (generate_defaults numRounds p seed); try done.
    by eapply list_elem_of_lookup_2.
  - intros Hk. unfold getRoundDefault. rewrite Hout. cbn [mbind Result_bind].
    destruct (Z.ltb_spec (k - 1) 0); [done|].
    f_equal. apply lookup_ge_None. lia.
Qed.

Lemma X2_getRoundDefault_entry_witness :
  exists t,
    getRoundDefault 3 4 (1 # 2) "alice-bob-stage1" = Ok (Some t)
    /\ RoundDefaults.round t = 3
    /\ (RoundDefaults.trueState t = 1 \/ RoundDefaults.trueState t = 2)
    /\ (RoundDefaults.senderDefault t = Some A
        \/ RoundDefaults.senderDefault t = Some B)
    /\ (RoundDefaults.receiverDefault t = Some A
        \/ RoundDefaults.receiverDefault t = Some B).
Proof.
  apply (X2_getRoundDefault_entry 4 (1 # 2) "alice-bob-stage1" 3);
    [lia|discriminate|discriminate|lia].
Defined.

(** X3: [generateBalancedDefaults] returns exactly when
    [Math.round(numRounds * p)], its complement to [numRounds] and
    [numRounds] itself are array lengths (0 up to 2^32 - 1): the two
    counts for [Array(n)], [numRounds] for the entries pushed onto
    [results].  Otherwise it throws a RangeError, and so does
    [getRoundDefault] for every round. *)
Theorem X3_generator_range_error (numRounds : Z) (p : Q) (seed : string) :
  let numState1 := round (mul (inject_Z numRounds) p) in
  let numState2 := numRounds - numState1 in
  ((exists out, generateBalancedDefaults numRounds p seed = Ok out)
   <-> 0 <= numState1 < 2 ^ 32 /\ 0 <= numState2 < 2 ^ 32
       /\ numRounds < 2 ^ 32)
  /\ ((forall out, generateBalancedDefaults numRounds p seed <> Ok out) ->
      generateBalancedDefaults numRounds p seed = Throw RangeError
      /\ forall k, getRoundDefault k numRounds p seed = Throw RangeError).
Proof.
  intros n1 n2. split; [apply generate_Ok_iff|].
  intros Hno.
  destruct (generateBalancedDefaults numRounds p seed) as [out|e] eqn:H;
    [by destruct (Hno out)|].
  pose proof (generate_Throw _ _ _ _ H) as ->. split; [done|].
  intros k. unfold getRoundDefault. by rewrite H.
Qed.

(** a probability above 1 on four rounds: five rounds of state 1 and
    minus one of state 2 *)
Example generator_probability_above_1 :
  generateBalancedDefaults 4 (6 # 5) "alice-bob-stage1" = Throw RangeError.
Proof. reflexivity. Qed.

(** 2^32 rounds with probability 1/2: both counts are array lengths,
    but the last entry cannot be pushed *)
Example generator_too_many_rounds :
  generateBalancedDefaults (2 ^ 32) (1 # 2) "alice-bob-stage1"
  = Throw RangeError.
Proof.
  destruct (generateBalancedDefaults _ _ _) as [out|e] eqn:H.
  - destruct (proj1 (generate_Ok_iff _ _ _) (ex_intro _ out H))
      as (_ & _ & Hn). lia.
  - by rewrite (generate_Throw _ _ _ _ H).
Qed.

(** X4: on an instance reached by calls from a fresh one, a role is held
    by a non-empty participant id, never by the participant who holds
    the other role, and no later calls whatever take it from its holder;
    rounds exist exactly when both roles are held. *)
Theorem X4_roles_are_kept (config : Config.t) (stageId : string)
    (d : PublicData.t) :
  reachable config stageId d ->
  (forall role u, playerOf d role = Some u ->
     truthy u = true
     /\ playerOf d (partner role) <> Some u
     /\ forall calls, playerOf (runAll calls d) role = Some u)
  /\ ((exists n, is_Some (PublicData.roundMap d !! n))
      <-> is_Some (PublicData.senderId d)
          /\ is_Some (PublicData.receiverId d)).
Proof.
  intros Hd. pose proof (reachable_Inv config stageId d Hd) as HI.
  split.
  - intros role u Hu.
    assert (Ht : truthy u = true).
    { destruct role; cbn in Hu;
        [by apply (inv_sender _ _ _ HI)|by apply (inv_receiver _ _ _ HI)]. }
    split; [done|]. split.
    + destruct role; cbn in *.
      * by apply (inv_distinct _ _ _ HI).
      * intros Hs. by apply (inv_distinct _ _ _ HI u Hs).
    + intros calls. rewrite runAll_player; [done|]. by rewrite Hu.
  - split.
    + intros [n Hn]. by apply (inv_roles _ _ _ HI n).
    + intros [HS HR]. exists 1. by apply (inv_round1 _ _ _ HI).
Qed.

Lemma X4_roles_are_kept_witness :
  let d :=
    runAll (firstRound scenarioB)
      (createSenderReceiverStagePublicData "stage1") in
  playerOf d sender = Some "alice"
  /\ forall calls, playerOf (runAll calls d) sender = Some "alice".
Proof.
  intros d.
  assert (Hd : reachable scenarioB "stage1" d)
    by (apply reachable_runAll; [apply reachable_init|repeat constructor]).
  assert (Hu : playerOf d sender = Some "alice") by (vm_compute; reflexivity).
  split; [exact Hu|].
  exact (proj2 (proj2 (proj1 (X4_roles_are_kept scenarioB "stage1" d Hd)
                         sender "alice" Hu))).
Defined.

(** X5: a round stored at index n of a reachable instance is numbered
    n, with n between 1 and both currentRound and numRounds; its hidden
    state is the one getRoundDefault gives for round n under the pair
    seed of the two participants, 1 or 2; every round before it is
    stored too; it is in SHOW_FEEDBACK if n is below currentRound, and
    in WAITING_BOTH_START only if n = 1. *)
Theorem X5_stored_rounds (config : Config.t) (stageId : string)
    (d : PublicData.t) (n : Z) (r : RoundData.t) :
  reachable config stageId d ->
  PublicData.roundMap d !! n = Some r ->
  1 <= n <= PublicData.currentRound d
  /\ n <= Config.numRounds config
  /\ RoundData.roundNumber r = n
  /\ (exists t,
        getRoundDefault n (Config.numRounds config) (probabilityOf config)
          (pairSeedOf (PublicData.senderId d) (PublicData.receiverId d)
             stageId)
        = Ok (Some t)
        /\ RoundData.trueState r = RoundDefaults.trueState t)
  /\ (RoundData.trueState r = 1 \/ RoundData.trueState r = 2)
  /\ (forall m, 1 <= m <= n -> is_Some (PublicData.roundMap d !! m))
  /\ (n < PublicData.currentRound d -> RoundData.status r = SHOW_FEEDBACK)
  /\ (RoundData.status r = WAITING_BOTH_START -> n = 1).
Proof.
  intros Hd Hr.
  pose proof (reachable_Inv config stageId d Hd) as HI.
  pose proof (reachable_Played config stageId d Hd) as HP.
  destruct (played_state _ _ _ HP n r Hr) as (t & Ht & Hs).
  destruct (getRoundDefault_inv _ _ _ _ _ Ht) as (out & Hout & Hn & Hl).
  pose proof (inv_bound _ _ _ HI n (mk_is_Some _ _ Hr)) as Hb.
  split; [lia|]. split; [lia|].
  split; [by apply (played_number _ _ _ HP)|].
  split; [by exists t|].
  split; [rewrite Hs; by destruct (generate_entries _ _ _ _ _ _ Hout Hl)|].
  split.
  { intros m Hm. apply (played_all _ _ _ HP); [lia|lia|].
    by apply (Inv_round_1 config stageId d n). }
  split; [by apply (played_past _ _ _ HP)|by apply (played_first _ _ _ HP)].
Qed.

Lemma X5_stored_rounds_witness :
  let d :=
    runAll (wholeGame scenarioB)
      (createSenderReceiverStagePublicData "stage1") in
  exists r,
    PublicData.roundMap d !! 3 = Some r
    /\ RoundData.roundNumber r = 3
    /\ RoundData.status r = SHOW_FEEDBACK.
Proof.
  intros d.
  assert (Hd : reachable scenarioB "stage1" d)
    by (apply reachable_runAll; [apply reachable_init|repeat constructor]).
  assert (Hr : exists r, PublicData.roundMap d !! 3 = Some r)
    by (vm_compute; eauto).
  destruct Hr as [r Hr]. exists r. split; [exact Hr|].
  destruct (X5_stored_rounds scenarioB "stage1" d 3 r Hd Hr)
    as (_ & _ & Hn & _ & _ & _ & Hs & _).
  split; [exact Hn|]. apply Hs. vm_compute. reflexivity.
Defined.

(** X6: currentRound of a reachable instance is at least 1 and, once
    above 1, at most numRounds + 1; every round before it is stored and
    in SHOW_FEEDBACK; and a call, whatever it is, leaves currentRound as
    it is or raises it by one. *)
Theorem X6_currentRound_counts_up (config : Config.t) (stageId : string)
    (d : PublicData.t) :
  reachable config stageId d ->
  1 <= PublicData.currentRound d
  /\ (1 < PublicData.currentRound d ->
      PublicData.currentRound d <= Config.numRounds config + 1)
  /\ (forall n, 1 <= n < PublicData.currentRound d ->
        exists r, PublicData.roundMap d !! n = Some r
                  /\ RoundData.status r = SHOW_FEEDBACK)
  /\ (forall env req,
        PublicData.currentRound (run env req d) = PublicData.currentRound d
        \/ PublicData.currentRound (run env req d)
           = PublicData.currentRound d + 1).
Proof.
  intros Hd.
  pose proof (reachable_Played config stageId d Hd) as HP.
  pose proof (played_current _ _ _ HP) as H1.
  pose proof (played_bound _ _ _ HP) as H2.
  split; [done|]. split; [lia|]. split.
  - intros n Hn.
    assert (H0 : is_Some (PublicData.roundMap d !! 1)).
    { destruct (PublicData.roundMap d !! 1) eqn:E; [done|].
      pose proof (played_fresh _ _ _ HP E). lia. }
    destruct (played_all _ _ _ HP n ltac:(lia) ltac:(lia) H0) as [r Hr].
    exists r. split; [done|]. apply (played_past _ _ _ HP n); [done|lia].
  - intros env req.
    pose proof (run_currentRound env req d (played_fresh _ _ _ HP)). lia.
Qed.

Lemma X6_currentRound_counts_up_witness :
  let d :=
    runAll (wholeGame scenarioB)
      (createSenderReceiverStagePublicData "stage1") in
  PublicData.currentRound d = 5
  /\ forall n, 1 <= n < 5 ->
       exists r, PublicData.roundMap d !! n = Some r
                 /\ RoundData.status r = SHOW_FEEDBACK.
Proof.
  intros d.
  assert (Hd : reachable scenarioB "stage1" d)
    by (apply reachable_runAll; [apply reachable_init|repeat constructor]).
  assert (Hc : PublicData.currentRound d = 5) by (vm_compute; reflexivity).
  split; [exact Hc|]. rewrite <- Hc.
  exact (proj1 (proj2 (proj2 (X6_currentRound_counts_up scenarioB "stage1" d
                                Hd)))).
Defined.

(** X7: a round of a reachable instance that is in SHOW_FEEDBACK holds
    a receiver choice 'A' or 'B' and a sender choice that is not
    undefined; its payoffs are (0, 0) if the sender choice is null and
    the entry of the payoff table for the receiver's choice and the
    hidden state otherwise; the Receiver was unlocked at the time the
    Sender submitted, and both reaction times are the differences of the
    recorded times, in seconds. *)
Theorem X7_finished_round (config : Config.t) (stageId : string)
    (d : PublicData.t) (n : Z) (r : RoundData.t) :
  reachable config stageId d ->
  PublicData.roundMap d !! n = Some r ->
  RoundData.status r = SHOW_FEEDBACK ->
  exists choice started unlocked signalled decided,
    RoundData.receiverChoice r = val choice
    /\ RoundData.senderChoice r <> undefined
    /\ (RoundData.senderPayoff r, RoundData.receiverPayoff r)
       = match RoundData.senderChoice r with
         | null => (val 0%Q, val 0%Q)
         | _ =>
             (val (calculatePayoffs choice (RoundData.trueState r) config).1,
              val (calculatePayoffs choice (RoundData.trueState r) config).2)
         end
    /\ RoundData.startTime r = val started
    /\ RoundData.senderUnlockedTime r = val unlocked
    /\ RoundData.senderSubmittedTime r = val signalled
    /\ RoundData.receiverUnlockedTime r = val signalled
    /\ RoundData.receiverSubmittedTime r = val decided
    /\ RoundData.senderReactionTimeSeconds r
       = val (Double.div (inject_Z (signalled - unlocked)) 1000)
    /\ RoundData.receiverReactionTimeSeconds r
       = val (Double.div (inject_Z (decided - signalled)) 1000).
Proof.
  intros Hd Hr Hs.
  pose proof (reachable_Played config stageId d Hd) as HP.
  destruct (played_round _ _ _ HP n r Hr) as (H1 & H2 & H3).
  destruct (H1 ltac:(by rewrite Hs)) as [Hst _].
  destruct (H2 ltac:(rewrite Hs; cbn; lia))
    as (Hc & unlocked & signalled & Hu & Hsub & Hru & Hrt).
  destruct (H3 Hs) as (choice & submitted & decided & Hch & Hp1 & Hp2 & Hru'
                       & Hd' & Hrt').
  assert (submitted = signalled) as -> by congruence.
  destruct (RoundData.startTime r) as [| |started] eqn:Hstart; try done.
  exists choice, started, unlocked, signalled, decided.
  split_and!; try done.
  rewrite Hp1, Hp2.
  destruct (RoundData.senderChoice r) as [| |c] eqn:Hnull; [done| |].
  - by rewrite payoffLogic_null.
  - by rewrite payoffLogic_calculatePayoffs by (by rewrite Hnull).
Qed.

Lemma X7_finished_round_witness :
  let d :=
    runAll (firstRound scenarioB)
      (createSenderReceiverStagePublicData "stage1") in
  exists r,
    PublicData.roundMap d !! 1 = Some r
    /\ RoundData.status r = SHOW_FEEDBACK
    /\ RoundData.receiverUnlockedTime r = RoundData.senderSubmittedTime r.
Proof.
  intros d.
  assert (Hd : reachable scenarioB "stage1" d)
    by (apply reachable_runAll; [apply reachable_init|repeat constructor]).
  assert (Hr : exists r, PublicData.roundMap d !! 1 = Some r
                         /\ RoundData.status r = SHOW_FEEDBACK)
    by (vm_compute; eauto).
  destruct Hr as (r & Hr & Hs). exists r. split; [exact Hr|].
  split; [exact Hs|].
  destruct (X7_finished_round scenarioB "stage1" d 1 r Hd Hr Hs)
    as (? & ? & ? & ? & ? & _ & _ & _ & _ & _ & H1 & H2 & _).
  rewrite H1, H2. reflexivity.
Defined.

(** X8: when a game with at least one round (below the array-length
    range) and a probability p in [0,1] has been played to its end
    (currentRound is past numRounds), all numRounds rounds are stored,
    and exactly Math.round(numRounds * p) of them have hidden state 1,
    the others hidden state 2. *)
Theorem X8_states_of_a_played_game (config : Config.t) (stageId : string)
    (d : PublicData.t) :
  reachable config stageId d ->
  1 <= Config.numRounds config < 2 ^ 32 ->
  (0 <= probabilityOf config)%Q -> (probabilityOf config <= 1)%Q ->
  Config.numRounds config < PublicData.currentRound d ->
  let states := hiddenStates d (Config.numRounds config) in
  let numState1 :=
    round (mul (inject_Z (Config.numRounds config)) (probabilityOf config)) in
  Z.of_nat (length states) = Config.numRounds config
  /\ Z.of_nat (length (filter (fun s => s = 1) states)) = numState1
  /\ Z.of_nat (length (filter (fun s => s = 2) states))
     = Config.numRounds config - numState1.
Proof.
  intros Hd Hn Hp0 Hp1 Hend states numState1.
  pose proof (reachable_Played config stageId d Hd) as HP.
  set (seed := pairSeedOf (PublicData.senderId d) (PublicData.receiverId d)
                 stageId).
  pose proof (numState1_bounds (Config.numRounds config) (probabilityOf config)
                ltac:(lia) Hp0 Hp1) as Hb.
  destruct (generate_spec (Config.numRounds config) (probabilityOf config) seed
              ltac:(lia) Hp0 Hp1)
    as (out & Hout & Hlen & S1 & _ & S2 & _).
  subst states.
  rewrite (hiddenStates_generated config stageId d out HP Hout ltac:(lia)).
  rewrite length_fmap, !countState_fmap.
  split; [lia|].
  rewrite (countState_defaultsIn RoundDefaults.senderDefault 1),
    (countState_defaultsIn RoundDefaults.senderDefault 2).
  pose proof (fun H => proj1 (balanced_counts _ _ H S1)) as L1.
  pose proof (fun H => proj1 (balanced_counts _ _ H S2)) as L2.
  rewrite L1, L2 by lia. done.
Qed.

Lemma X8_states_of_a_played_game_witness :
  let d :=
    runAll (wholeGame scenarioB)
      (createSenderReceiverStagePublicData "stage1") in
  let states := hiddenStates d 4 in
  Z.of_nat (length states) = 4
  /\ Z.of_nat (length (filter (fun s => s = 1) states)) = 2
  /\ Z.of_nat (length (filter (fun s => s = 2) states)) = 2.
Proof.
  intros d.
  assert (Hd : reachable scenarioB "stage1" d)
    by (apply reachable_runAll; [apply reachable_init|repeat constructor]).
  apply (X8_states_of_a_played_game scenarioB "stage1" d Hd).
  - cbn. lia.
  - discriminate.
  - discriminate.
  - vm_compute. reflexivity.
Defined.

(** X9: whatever calls follow, a stored round stays stored, and it
    keeps its number and hidden state; once it has left
    WAITING_BOTH_START it keeps its start time and the Sender's unlock
    time; once the Sender has signalled it keeps the sender choice and
    message, the submission time, the reaction time, the timeout flag
    and the default choice of the Sender and the Receiver's unlock time;
    the time the Receiver first saw the message, once recorded, is never
    overwritten, and a ready-for-next-round flag once set stays set. *)
Theorem X9_round_data_is_kept (calls : list (Env.t * Request.t))
    (d : PublicData.t) (n : Z) (r : RoundData.t) :
  PublicData.roundMap d !! n = Some r ->
  exists r',
    PublicData.roundMap (runAll calls d) !! n = Some r'
    /\ RoundData.roundNumber r' = RoundData.roundNumber r
    /\ RoundData.trueState r' = RoundData.trueState r
    /\ (RoundData.status r <> WAITING_BOTH_START ->
        RoundData.status r' <> WAITING_BOTH_START
        /\ RoundData.startTime r' = RoundData.startTime r
        /\ RoundData.senderUnlockedTime r' = RoundData.senderUnlockedTime r)
    /\ (RoundData.status r = WAITING_RECEIVER_DECIDE
        \/ RoundData.status r = SHOW_FEEDBACK ->
        RoundData.senderChoice r' = RoundData.senderChoice r
        /\ RoundData.senderMessage r' = RoundData.senderMessage r
        /\ RoundData.senderSubmittedTime r' = RoundData.senderSubmittedTime r
        /\ RoundData.senderReactionTimeSeconds r'
           = RoundData.senderReactionTimeSeconds r
        /\ RoundData.senderTimedOut r' = RoundData.senderTimedOut r
        /\ RoundData.defaultSenderChoice r' = RoundData.defaultSenderChoice r
        /\ RoundData.receiverUnlockedTime r'
           = RoundData.receiverUnlockedTime r)
    /\ (isSet (RoundData.receiverSawMessageTime r) = true ->
        RoundData.receiverSawMessageTime r'
        = RoundData.receiverSawMessageTime r)
    /\ (forall role, isTrue (readyNext role r) = true ->
                     isTrue (readyNext role r') = true).
Proof.
  intros Hr. destruct (runAll_kept calls d n r Hr)
    as (r' & Hr' & Hn & Ht & Hk & Hs & Hc & Hm & Hf & Hg).
  exists r'. split_and!; try done.
  - intros H. split; [|by apply Hs]. intros H'. rewrite H' in Hk.
    destruct (RoundData.status r); cbn in Hk; try done; lia.
  - intros [H|H]; apply Hc; rewrite H; cbn; lia.
  - intros []; cbn; auto.
Qed.

Lemma X9_round_data_is_kept_witness :
  let d :=
    runAll (firstRound scenarioB)
      (createSenderReceiverStagePublicData "stage1") in
  let calls := [callOf scenarioB "alice" sender_signal
                  (signalPayload (val B) None) 7;
                callOf scenarioB "bob" next_round None 8] in
  exists r r',
    PublicData.roundMap d !! 1 = Some r
    /\ PublicData.roundMap (runAll calls d) !! 1 = Some r'
    /\ RoundData.trueState r' = RoundData.trueState r.
Proof.
  intros d calls.
  assert (Hr : exists r, PublicData.roundMap d !! 1 = Some r)
    by (vm_compute; eauto).
  destruct Hr as [r Hr].
  destruct (X9_round_data_is_kept calls d 1 r Hr) as (r' & Hr' & _ & Ht & _).
  exists r, r'. split; [exact Hr|]. split; [exact Hr'|exact Ht].
Defined.

(** X10: an assign_role call that returns has written nothing if the
    caller already held a role (whatever role was asked for); otherwise
    the caller now holds one role, which was free, and the other role
    is held as before.  The role is the requested one if one was
    requested; without a request it is the role the caller held in
    another Sender-Receiver stage of the cohort if that is free, and
    with no such history the Sender role if that is free. *)
Theorem X10_assign_role_outcome (config : Config.t) (env : Env.t)
    (req : Request.t) (d : PublicData.t) (u : string)
    (ws : list PublicData.write) :
  calledBy env req config u assign_role ->
  submitSenderReceiverAction env req (Some d) = Ok ws ->
  let d' := run env req d in
  let asked := Payload.requestedRole (payloadOf req) in
  let past :=
    historicalRoleOf (Request.stageId req) u (Env.cohortPublicData env) in
  (isUser (PublicData.senderId d) u = true
   \/ isUser (PublicData.receiverId d) u = true -> ws = [] /\ d' = d)
  /\ (isUser (PublicData.senderId d) u = false ->
      isUser (PublicData.receiverId d) u = false ->
      exists role,
        truthyId (playerOf d role) = false
        /\ playerOf d' role = Some u
        /\ playerOf d' (partner role) = playerOf d (partner role)
        /\ (forall r, asked = Some r -> role = r)
        /\ (forall r, asked = None -> past = Some r ->
                      truthyId (playerOf d r) = false -> role = r)
        /\ (asked = None -> past = None ->
            truthyId (PublicData.senderId d) = false -> role = sender)).
Proof.
  intros Hc Hws d' asked past. subst d'. unfold run. rewrite Hws.
  rewrite (submit_assignRole _ _ _ _ _ Hc) in Hws. cbn [stored].
  split.
  - intros Hheld. unfold assignRole in Hws.
    replace (isUser (PublicData.senderId d) u
             || isUser (PublicData.receiverId d) u) with true in Hws
      by (destruct Hheld as [-> | ->]; by rewrite ?orb_true_r).
    by injection Hws as <-.
  - intros Hs Hr.
    destruct (assignRole_Ok _ _ _ _ _ _ Hs Hr Hws)
      as (role & rest & Hup & Hfree & -> & Hrest).
    exists role. split; [done|].
    destruct (playerOf_setPlayer d role u) as (P1 & P2 & _).
    assert (Hsame : forall role',
               playerOf (PublicData.applyAll d (setPlayer role u :: rest))
                 role'
               = playerOf (PublicData.apply d (setPlayer role u)) role').
    { intros role'. destruct Hrest as [->|[r1 ->]]; [done|].
      by destruct role'. }
    rewrite !Hsame. split; [done|]. split; [done|]. fold asked in Hup.
    split; [|split].
    + intros r Hr'. rewrite Hr', assignUpdates_requested in Hup.
      destruct (truthyId (playerOf d r)); [done|].
      injection Hup as Hup. by destruct r, role.
    + intros r Ha Hp Hf. rewrite Ha, assignUpdates_unrequested in Hup.
      fold past in Hup. rewrite Hp, Hf in Hup.
      injection Hup as Hup. by destruct r, role.
    + intros Ha Hp Hf. rewrite Ha, assignUpdates_unrequested in Hup.
      fold past in Hup. rewrite Hp, Hf in Hup. cbn in Hup.
      injection Hup as Hup. by destruct role.
Qed.

Lemma X10_assign_role_outcome_witness :
  let d := createSenderReceiverStagePublicData "stage1" in
  let call := callOf scenarioB "alice" assign_role None 1 in
  exists role,
    playerOf (run call.1 call.2 d) role = Some "alice"
    /\ role = sender.
Proof.
  intros d call.
  destruct (proj2 (X10_assign_role_outcome scenarioB call.1 call.2 d "alice"
                     [PublicData.w_senderId "alice"]
                     ltac:(repeat split) eq_refl) eq_refl eq_refl)
    as (role & _ & H1 & _ & _ & _ & H2).
  exists role. split; [exact H1|]. apply H2; reflexivity.
Defined.

(** X11: an assign_role call of a participant without a role is
    refused with failed-precondition when the requested role is held,
    also when the other role is free, and when no role was requested
    and both roles are held; it is refused with an HttpsError in no
    other case.  A refused call leaves the instance as it was. *)
Theorem X11_assign_role_refused (config : Config.t) (env : Env.t)
    (req : Request.t) (d : PublicData.t) (u : string) :
  calledBy env req config u assign_role ->
  isUser (PublicData.senderId d) u = false ->
  isUser (PublicData.receiverId d) u = false ->
  let result := submitSenderReceiverAction env req (Some d) in
  let asked := Payload.requestedRole (payloadOf req) in
  (forall role, asked = Some role -> truthyId (playerOf d role) = true ->
     result
     = Throw (HttpsError failed_precondition
                ("Requested role " +:+ roleName role
                 +:+ " is not available.")))
  /\ (asked = None ->
      truthyId (PublicData.senderId d) = true ->
      truthyId (PublicData.receiverId d) = true ->
      result = Throw (HttpsError failed_precondition "Roles are full"))
  /\ (forall code message,
        result = Throw (HttpsError code message) ->
        code = failed_precondition
        /\ ((exists role, asked = Some role
                          /\ truthyId (playerOf d role) = true)
            \/ asked = None
               /\ truthyId (PublicData.senderId d) = true
               /\ truthyId (PublicData.receiverId d) = true))
  /\ (forall e, result = Throw e -> run env req d = d).
Proof.
  intros Hc Hs Hr result asked. subst result.
  rewrite (submit_assignRole _ _ _ _ _ Hc).
  unfold assignRole. rewrite Hs, Hr. cbn [orb]. fold asked.
  split_and!.
  - intros role Ha Hheld. rewrite Ha, assignUpdates_requested, Hheld. done.
  - intros Ha HS HR. rewrite Ha, assignUpdates_unrequested.
    destruct (historicalRoleOf _ _ _) as [[]|]; cbn; by rewrite HS, HR.
  - intros code message H.
    destruct (assignUpdates env (Request.stageId req) u asked d)
      as [ups|e] eqn:Hup; cbn [mbind Result_bind] in H.
    + destruct (startGameIfReady _ _ _ _) as [o|e] eqn:Hstart; [done|].
      cbn [mbind Result_bind] in H. injection H as ->.
      by destruct (startGameIfReady_Throw _ _ _ _ _ Hstart) as ([?|?] & _).
    + injection H as ->. destruct asked as [role|] eqn:Ha.
      * rewrite assignUpdates_requested in Hup.
        destruct (truthyId (playerOf d role)) eqn:E; [|done].
        injection Hup as <- _. split; [done|]. left. by exists role.
      * rewrite assignUpdates_unrequested in Hup.
        destruct (historicalRoleOf _ _ _) as [[]|]; cbn in Hup;
          destruct (truthyId (PublicData.senderId d)),
                   (truthyId (PublicData.receiverId d));
          try done; injection Hup as <- _; split; try done; by right.
  - intros e H. unfold run. rewrite (submit_assignRole _ _ _ _ _ Hc).
    unfold assignRole. rewrite Hs, Hr. cbn [orb]. fold asked. by rewrite H.
Qed.

Lemma X11_assign_role_refused_witness :
  let d := runAll (opening scenarioB)
             (createSenderReceiverStagePublicData "stage1") in
  let call := callOf scenarioB "carol" assign_role None 5 in
  submitSenderReceiverAction call.1 call.2 (Some d)
  = Throw (HttpsError failed_precondition "Roles are full").
Proof.
  intros d call.
  apply (X11_assign_role_refused scenarioB call.1 call.2 d "carol"
           ltac:(repeat split) eq_refl eq_refl); reflexivity.
Defined.

(** X12: the role found by the history check of assign_role is a role
    the participant holds in another Sender-Receiver document of the
    cohort snapshot, and none is found only if the participant holds no
    role in any such document; the last such document of the snapshot
    decides, and the document of the stage itself is skipped. *)
Theorem X12_history_check (stageId u : string)
    (snapshot : list (string * PublicData.t)) :
  (forall role, historicalRoleOf stageId u snapshot = Some role ->
     exists doc, doc ∈ snapshot /\ doc.1 <> stageId
                 /\ PublicData.kind doc.2 = SENDER_RECEIVER
                 /\ playerOf doc.2 role = Some u)
  /\ (historicalRoleOf stageId u snapshot = None ->
      forall doc role, doc ∈ snapshot -> doc.1 <> stageId ->
        PublicData.kind doc.2 = SENDER_RECEIVER ->
        playerOf doc.2 role <> Some u)
  /\ (forall docs doc role,
        snapshot = docs ++ [doc] -> doc.1 <> stageId ->
        PublicData.kind doc.2 = SENDER_RECEIVER ->
        playerOf doc.2 role = Some u ->
        playerOf doc.2 (partner role) <> Some u ->
        historicalRoleOf stageId u snapshot = Some role)
  /\ (forall docs doc,
        snapshot = docs ++ [doc] -> doc.1 = stageId ->
        historicalRoleOf stageId u snapshot
        = historicalRoleOf stageId u docs).
Proof.
  split_and!.
  - intros role. apply historicalRoleOf_held.
  - induction snapshot as [|doc docs IH] using rev_ind;
      [intros _ ? ? H; by apply elem_of_nil in H|].
    rewrite historicalRoleOf_snoc. intros H doc0 role Hin Hne Hk.
    apply elem_of_app in Hin. destruct Hin as [Hin|Hin].
    + apply IH; try done.
      destruct (String.eqb doc.1 stageId); [done|].
      destruct (PublicData.kind doc.2); [|done].
      destruct (isUser (PublicData.receiverId doc.2) u); [done|].
      by destruct (isUser (PublicData.senderId doc.2) u).
    + apply list_elem_of_singleton in Hin. subst doc0.
      apply String.eqb_neq in Hne. rewrite Hne, Hk in H.
      destruct (isUser (PublicData.receiverId doc.2) u) eqn:HR; [done|].
      destruct (isUser (PublicData.senderId doc.2) u) eqn:HS; [done|].
      apply isUser_false in HR, HS. by destruct role.
  - intros docs doc role -> Hne Hk Hrole Hother.
    rewrite historicalRoleOf_snoc. apply String.eqb_neq in Hne.
    rewrite Hne, Hk. destruct role; cbn in *.
    + apply isUser_false in Hother. apply isUser_true in Hrole.
      by rewrite Hother, Hrole.
    + apply isUser_true in Hrole. by rewrite Hrole.
  - intros docs doc -> Hid. rewrite historicalRoleOf_snoc.
    apply String.eqb_eq in Hid. by rewrite Hid.
Qed.

(** X13: with a configuration of fewer than one round no game is ever
    played: a reachable instance has no round, never both roles held,
    and currentRound 1; and once one role is held, every assign_role
    call of another participant throws (round 1 cannot be drawn) and
    writes nothing. *)
Theorem X13_no_rounds_no_game (config : Config.t) (stageId : string)
    (d : PublicData.t) :
  reachable config stageId d ->
  Config.numRounds config < 1 ->
  (forall n, PublicData.roundMap d !! n = None)
  /\ (PublicData.senderId d = None \/ PublicData.receiverId d = None)
  /\ PublicData.currentRound d = 1
  /\ (forall env req u role holder,
        calledBy env req config u assign_role ->
        Request.stageId req = stageId ->
        playerOf d role = Some holder -> holder <> u ->
        (exists e, submitSenderReceiverAction env req (Some d) = Throw e)
        /\ run env req d = d).
Proof.
  intros Hd Hn.
  pose proof (reachable_Inv config stageId d Hd) as HI.
  pose proof (reachable_Played config stageId d Hd) as HP.
  assert (Hno : forall n, PublicData.roundMap d !! n = None).
  { intros n. destruct (PublicData.roundMap d !! n) as [r|] eqn:Hr; [|done].
    destruct (inv_generated _ _ _ HI n (mk_is_Some _ _ Hr)) as [t Ht].
    destruct (getRoundDefault_inv _ _ _ _ _ Ht) as (_ & _ & ? & _). lia. }
  assert (Hroles : PublicData.senderId d = None
                   \/ PublicData.receiverId d = None).
  { destruct (PublicData.senderId d) eqn:HS; [|by left].
    destruct (PublicData.receiverId d) eqn:HR; [|by right].
    destruct (inv_round1 _ _ _ HI) as [r Hr]; try by rewrite ?HS, ?HR.
    by rewrite Hno in Hr. }
  split; [done|]. split; [done|].
  split; [by apply (played_fresh _ _ _ HP)|].
  intros env req u role holder Hc Hst Hrole Hne.
  assert (Hthrow : exists e, submitSenderReceiverAction env req (Some d)
                             = Throw e).
  { destruct (submitSenderReceiverAction env req (Some d)) as [ws|e] eqn:Hres;
      [exfalso|by exists e].
    assert (Hd' : reachable config stageId (run env req d)).
    { apply reachable_run; try done. by destruct Hc as (_ & _ & ? & _). }
    pose proof (reachable_Inv config stageId _ Hd') as HI'.
    assert (HuS : isUser (PublicData.senderId d) u = false).
    { apply isUser_false. destruct role; cbn in Hrole; [congruence|].
      destruct Hroles as [H|H]; congruence. }
    assert (HuR : isUser (PublicData.receiverId d) u = false).
    { apply isUser_false. destruct role; cbn in Hrole; [|congruence].
      destruct Hroles as [H|H]; congruence. }
    rewrite (submit_assignRole _ _ _ _ _ Hc) in Hres.
    destruct (assignRole_Ok _ _ _ _ _ _ HuS HuR Hres)
      as (role' & rest & _ & Hfree & -> & Hrest).
    assert (Hrun : run env req d
                   = PublicData.applyAll d (setPlayer role' u :: rest)).
    { unfold run. by rewrite (submit_assignRole _ _ _ _ _ Hc), Hres. }
    rewrite Hrun in HI'.
    assert (Hgen : exists r, PublicData.roundMap
                     (PublicData.applyAll d (setPlayer role' u :: rest)) !! 1
                   = Some r).
    { assert (Htr : truthy holder = true).
      { destruct role; cbn in Hrole;
          [by apply (inv_sender _ _ _ HI)|by apply (inv_receiver _ _ _ HI)]. }
      assert (role' = partner role) as ->.
      { destruct role, role'; try done; cbn in Hfree, Hrole;
          rewrite Hrole in Hfree; cbn in Hfree; congruence. }
      apply (inv_round1 _ _ _ HI').
      all: destruct Hrest as [->|[r1 ->]], role; cbn in *;
        rewrite ?Hrole; done. }
    destruct Hgen as [r Hr].
    destruct (inv_generated _ _ _ HI' 1 (mk_is_Some _ _ Hr)) as [t Ht].
    destruct (getRoundDefault_inv _ _ _ _ _ Ht) as (_ & _ & ? & _). lia. }
  split; [done|]. destruct Hthrow as [e He]. unfold run. by rewrite He.
Qed.

Lemma X13_no_rounds_no_game_witness :
  let config := withRounds scenarioB 0 in
  let d := runAll [callOf config "alice" assign_role None 1]
             (createSenderReceiverStagePublicData "stage1") in
  let call := callOf config "bob" assign_role None 2 in
  playerOf d sender = Some "alice"
  /\ (exists e, submitSenderReceiverAction call.1 call.2 (Some d) = Throw e)
  /\ run call.1 call.2 d = d.
Proof.
  intros config d call.
  assert (Hd : reachable config "stage1" d)
    by (apply reachable_runAll; [apply reachable_init|repeat constructor]).
  assert (Hs : playerOf d sender = Some "alice") by reflexivity.
  split; [exact Hs|].
  apply (proj2 (proj2 (proj2 (X13_no_rounds_no_game config "stage1" d Hd
                                ltac:(cbn; lia))))
           call.1 call.2 "bob" sender "alice" ltac:(repeat split) eq_refl Hs).
  discriminate.
Defined.

(** X14: round 1 starts only when both players have pressed start.  On
    a reachable instance whose round is in WAITING_BOTH_START, the
    start_game call of a player whose partner's ready flag is not set
    sets that player's flag and nothing else, and the same call repeated
    changes nothing;
    the start_game call of the partner then moves the round to
    WAITING_SENDER_DECIDE, with startTime and senderUnlockedTime the time
    of that second call. *)
Theorem X14_start_game_needs_both (config : Config.t) (stageId : string)
    (d : PublicData.t) (r : RoundData.t) (role : Role) (u1 u2 : string)
    (first second : Env.t * Request.t) :
  reachable config stageId d ->
  currentRoundData d = Some r ->
  RoundData.status r = WAITING_BOTH_START ->
  isTrue (readyStart (partner role) r) = false ->
  playerOf d role = Some u1 ->
  playerOf d (partner role) = Some u2 ->
  calledBy first.1 first.2 config u1 start_game ->
  calledBy second.1 second.2 config u2 start_game ->
  Request.stageId first.2 = stageId ->
  let d1 := run first.1 first.2 d in
  let d2 := run second.1 second.2 d1 in
  d1 = withRound d (PublicData.currentRound d)
         (RoundData.apply (setReadyStart role) r)
  /\ run first.1 first.2 d1 = d1
  /\ exists r2,
      currentRoundData d2 = Some r2
      /\ RoundData.status r2 = WAITING_SENDER_DECIDE
      /\ RoundData.startTime r2 = val (Env.now second.1 0%nat)
      /\ RoundData.senderUnlockedTime r2 = val (Env.now second.1 0%nat)
      /\ isTrue (readyStart role r2) = true
      /\ isTrue (readyStart (partner role) r2) = true.
Proof.
  intros Hd Hr Hs Hf2 Hu1 Hu2 Hc1 Hc2 Hst d1 d2.
  pose proof (reachable_Inv config stageId d Hd) as HI.
  assert (H1 : d1 = withRound d (PublicData.currentRound d)
                      (RoundData.apply (setReadyStart role) r)).
  { subst d1. rewrite (startGame_run config stageId _ _ d role u1 r);
      try done. by rewrite Hf2. }
  assert (HI1 : Inv config stageId d1).
  { subst d1. apply Inv_run; try done. by destruct Hc1 as (_ & _ & ? & _). }
  set (r1 := RoundData.apply (setReadyStart role) r) in *.
  assert (Hr1 : currentRoundData d1 = Some r1)
    by (rewrite H1; apply current_withRound).
  assert (Hs1 : RoundData.status r1 = WAITING_BOTH_START).
  { subst r1. destruct role; cbn; unfold RoundData.status in *; done. }
  assert (Hu1' : playerOf d1 role = Some u1) by (rewrite H1; by destruct role).
  assert (Hu2' : playerOf d1 (partner role) = Some u2)
    by (rewrite H1; by destruct role).
  assert (Hp1 : isTrue (readyStart (partner role) r1) = false).
  { subst r1. destruct role; cbn in *; destruct r; cbn in *; done. }
  assert (Hp2 : isTrue (readyStart role r1) = true).
  { subst r1. destruct role; cbn in *; destruct r; cbn in *; done. }
  split; [done|]. split.
  - rewrite (startGame_run config stageId _ _ d1 role u1 r1); try done.
    rewrite Hp1. cbn [writeAll foldl].
    rewrite H1, currentRound_withRound, withRound_withRound. f_equal.
    subst r1. destruct role; by destruct r.
  - subst d2.
    rewrite (startGame_run config stageId _ _ d1 (partner role) u2 r1);
      try done.
    rewrite partner_partner, Hp2.
    eexists. split; [apply current_withRound|].
    subst r1. destruct role; destruct r; cbn in *; done.
Qed.

Lemma X14_start_game_needs_both_witness :
  let d :=
    runAll [callOf scenarioB "alice" assign_role None 1;
            callOf scenarioB "bob" assign_role None 2]
      (createSenderReceiverStagePublicData "stage1") in
  let first := callOf scenarioB "bob" start_game None 3 in
  let second := callOf scenarioB "alice" start_game None 4 in
  let d1 := run first.1 first.2 d in
  let d2 := run second.1 second.2 d1 in
  run first.1 first.2 d1 = d1
  /\ exists r2,
      currentRoundData d2 = Some r2
      /\ RoundData.status r2 = WAITING_SENDER_DECIDE
      /\ RoundData.startTime r2 = val 4.
Proof.
  intros d first second d1 d2.
  assert (Hd : reachable scenarioB "stage1" d)
    by (apply reachable_runAll; [apply reachable_init|repeat constructor]).
  assert (Hr : exists r, currentRoundData d = Some r
                         /\ RoundData.status r = WAITING_BOTH_START
                         /\ isTrue (readyStart sender r) = false)
    by (vm_compute; eauto 10).
  destruct Hr as (r & Hr & Hs & Hf2).
  destruct (X14_start_game_needs_both scenarioB "stage1" d r receiver
              "bob" "alice" first second Hd Hr Hs Hf2 eq_refl eq_refl
              ltac:(repeat split) ltac:(repeat split) eq_refl)
    as (_ & H2 & r2 & H3 & H4 & H5 & _).
  split; [exact H2|]. exists r2. split; [exact H3|]. split; [exact H4|].
  exact H5.
Defined.

(** X15: on a reachable instance whose round is in
    WAITING_RECEIVER_DECIDE, the Receiver's receiver_saw_message call
    records the time of the call if no time is recorded yet, and changes
    nothing if one is; the recorded time is then the same after any
    further calls. *)
Theorem X15_message_seen_once (config : Config.t) (stageId : string)
    (d : PublicData.t) (r : RoundData.t) (u : string)
    (env : Env.t) (req : Request.t) :
  reachable config stageId d ->
  currentRoundData d = Some r ->
  RoundData.status r = WAITING_RECEIVER_DECIDE ->
  PublicData.receiverId d = Some u ->
  calledBy env req config u receiver_saw_message ->
  let d' := run env req d in
  (isSet (RoundData.receiverSawMessageTime r) = true -> d' = d)
  /\ exists seen,
      (isSet (RoundData.receiverSawMessageTime r) = false ->
       seen = Env.now env 0%nat
       /\ d' = withRound d (PublicData.currentRound d)
                 (RoundData.apply
                    (RoundData.w_receiverSawMessageTime (val seen)) r))
      /\ forall calls,
           exists r',
             PublicData.roundMap (runAll calls d')
               !! PublicData.currentRound d = Some r'
             /\ RoundData.receiverSawMessageTime r' = val seen.
Proof.
  intros Hd Hr Hs Hu Hc d'.
  pose proof (reachable_Inv config stageId d Hd) as HI.
  pose proof (receiverSawMessage_run config stageId env req d u r HI Hc Hu Hr
                Hs) as Hrun.
  fold d' in Hrun.
  destruct (RoundData.receiverSawMessageTime r) as [| |seen] eqn:Hseen;
    cbn [isSet] in *.
  - split; [done|]. exists (Env.now env 0%nat). split; [done|].
    intros calls.
    destruct (runAll_kept calls d' (PublicData.currentRound d)
                (RoundData.apply
                   (RoundData.w_receiverSawMessageTime
                      (val (Env.now env 0%nat))) r))
      as (r' & Hr' & Hk).
    { rewrite Hrun. apply current_withRound. }
    exists r'. split; [done|].
    destruct Hk as (_ & _ & _ & _ & _ & Hm & _). by rewrite Hm.
  - split; [done|]. exists (Env.now env 0%nat). split; [done|].
    intros calls.
    destruct (runAll_kept calls d' (PublicData.currentRound d)
                (RoundData.apply
                   (RoundData.w_receiverSawMessageTime
                      (val (Env.now env 0%nat))) r))
      as (r' & Hr' & Hk).
    { rewrite Hrun. apply current_withRound. }
    exists r'. split; [done|].
    destruct Hk as (_ & _ & _ & _ & _ & Hm & _). by rewrite Hm.
  - split; [done|]. exists seen. split; [done|]. intros calls.
    destruct (runAll_kept calls d' (PublicData.currentRound d) r)
      as (r' & Hr' & Hk); [by rewrite Hrun|].
    exists r'. split; [done|].
    destruct Hk as (_ & _ & _ & _ & _ & Hm & _).
    rewrite Hm; by rewrite Hseen.
Qed.

Lemma X15_message_seen_once_witness :
  let d :=
    runAll (opening scenarioB ++
            [callOf scenarioB "alice" sender_signal
               (signalPayload (val A) None) 5])
      (createSenderReceiverStagePublicData "stage1") in
  let call := callOf scenarioB "bob" receiver_saw_message None 6 in
  let later := [callOf scenarioB "bob" receiver_saw_message None 7;
                callOf scenarioB "bob" receiver_choice
                  (choicePayload (Some B)) 8] in
  exists r',
    PublicData.roundMap (runAll later (run call.1 call.2 d)) !! 1 = Some r'
    /\ RoundData.receiverSawMessageTime r' = val 6.
Proof.
  intros d call later.
  assert (Hd : reachable scenarioB "stage1" d)
    by (apply reachable_runAll; [apply reachable_init|repeat constructor]).
  assert (Hr : exists r, currentRoundData d = Some r
                         /\ RoundData.status r = WAITING_RECEIVER_DECIDE
                         /\ isSet (RoundData.receiverSawMessageTime r) = false)
    by (vm_compute; eauto 10).
  destruct Hr as (r & Hr & Hs & Hn).
  destruct (X15_message_seen_once scenarioB "stage1" d r "bob" call.1 call.2
              Hd Hr Hs eq_refl ltac:(repeat split))
    as (_ & seen & H1 & H2).
  destruct (H1 Hn) as [-> _]. exact (H2 later).
Defined.

(** X16: who a call acts for.  Outside the emulator the result of a
    call does not depend on payload.participantId: the caller is
    request.auth.uid.  Under the emulator a call with a non-empty
    payload.participantId acts exactly as a call authenticated as that
    participant, whatever request.auth is.  A call with no caller, or an
    empty one, is refused as unauthenticated, and an authenticated call
    whose stage is missing or of another kind gets not-found. *)
Theorem X16_caller_identity (env : Env.t) (req : Request.t)
    (doc : option PublicData.t) (p : option string) :
  (Env.FUNCTIONS_EMULATOR env = false ->
   submitSenderReceiverAction env (withParticipantId req p) doc
   = submitSenderReceiverAction env req doc)
  /\ (Env.FUNCTIONS_EMULATOR env = true -> truthyId p = true ->
      submitSenderReceiverAction env (withParticipantId req p) doc
      = submitSenderReceiverAction (outsideEmulator env)
          (authenticatedAs (withParticipantId req None) p) doc)
  /\ (truthyId (userIdOf env req) = false ->
      submitSenderReceiverAction env req doc
      = Throw (HttpsError unauthenticated "User must be logged in."))
  /\ (truthyId (userIdOf env req) = true ->
      (forall config, Env.stage env = Some config ->
                      Config.kind config <> SENDER_RECEIVER) ->
      submitSenderReceiverAction env req doc
      = Throw (HttpsError not_found "Stage not found or invalid kind")).
Proof.
  split_and!.
  - intros He. destruct env as [em now stage cohort], req as [e c s a pl uid].
    cbn in He. subst em. by destruct pl as [[]|].
  - intros He Hp. destruct env as [em now stage cohort],
      req as [e c s a pl uid], p as [p|]; [|done].
    cbn in He, Hp. subst em.
    unfold submitSenderReceiverAction, userIdOf. cbn. rewrite Hp.
    destruct pl as [[]|]; cbn; rewrite ?Hp; reflexivity.
  - unfold submitSenderReceiverAction.
    destruct (userIdOf env req) as [u|]; [|done]. cbn. by intros ->.
  - unfold submitSenderReceiverAction.
    destruct (userIdOf env req) as [u|]; [|done]. cbn. intros -> H. cbn.
    destruct (Env.stage env) as [config|]; [|done].
    specialize (H config eq_refl). by destruct (Config.kind config).
Qed.

(** X17: a round can always be played to its end.  On a reachable
    instance whose round n waits for the Sender, the Sender's
    sender_signal, the Receiver's receiver_choice with a choice, and the
    next_round calls of both players in either order all succeed in
    turn: round n ends in SHOW_FEEDBACK with the submitted choices, and
    then currentRound is n + 1, with round n + 1 waiting for the Sender
    if n + 1 is within numRounds and no current round (the game is over)
    otherwise. *)
Theorem X17_round_can_be_played (config : Config.t) (stageId : string)
    (d : PublicData.t) (r : RoundData.t) (s u u1 u2 : string)
    (choice : Choice) (role : Role)
    (signal decide next1 next2 : Env.t * Request.t) :
  reachable config stageId d ->
  currentRoundData d = Some r ->
  RoundData.status r = WAITING_SENDER_DECIDE ->
  PublicData.senderId d = Some s ->
  PublicData.receiverId d = Some u ->
  calledBy signal.1 signal.2 config s sender_signal ->
  calledBy decide.1 decide.2 config u receiver_choice ->
  Payload.receiverChoice (payloadOf decide.2) = Some choice ->
  playerOf d role = Some u1 ->
  playerOf d (partner role) = Some u2 ->
  calledBy next1.1 next1.2 config u1 next_round ->
  calledBy next2.1 next2.2 config u2 next_round ->
  Forall (fun c => Request.stageId c.2 = stageId)
    [signal; decide; next1; next2] ->
  let n := PublicData.currentRound d in
  let d2 := runAll [signal; decide] d in
  let d4 := runAll [next1; next2] d2 in
  (exists r2,
     PublicData.roundMap d2 !! n = Some r2
     /\ PublicData.currentRound d2 = n
     /\ RoundData.status r2 = SHOW_FEEDBACK
     /\ RoundData.senderChoice r2
        = choiceOrNull (Payload.senderChoice (payloadOf signal.2))
     /\ RoundData.receiverChoice r2 = val choice)
  /\ PublicData.currentRound d4 = n + 1
  /\ (n + 1 <= Config.numRounds config ->
      exists new, currentRoundData d4 = Some new
                  /\ RoundData.status new = WAITING_SENDER_DECIDE)
  /\ (Config.numRounds config < n + 1 -> currentRoundData d4 = None).
Proof.
  intros Hd Hr Hs HS HR Hc1 Hc2 Hch Hu1 Hu2 Hc3 Hc4 Hst n d2 d4.
  pose proof (reachable_Inv config stageId d Hd) as HI.
  destruct (round_played config stageId d r s u choice role u1 u2
              signal decide next1 next2 HI Hr Hs HS HR Hc1 Hc2 Hch Hu1 Hu2
              Hc3 Hc4 Hst)
    as [(r2 & Hd2 & Hs2 & Hsc & Hrc) Hadv].
  fold d2 in Hd2, Hadv. fold d4 in Hadv.
  split.
  { exists r2. rewrite Hd2. split; [apply current_withRound|]. done. }
  destruct Hadv as (Hn & _ & _ & _ & Hend & Hmore).
  rewrite Hd2, currentRound_withRound in Hn, Hend, Hmore.
  unfold currentRoundData. rewrite Hn. by split_and!.
Qed.

Lemma X17_round_can_be_played_witness :
  let d := runAll (opening scenarioB)
             (createSenderReceiverStagePublicData "stage1") in
  let signal := callOf scenarioB "alice" sender_signal
                  (signalPayload (val A) None) 5 in
  let decide := callOf scenarioB "bob" receiver_choice
                  (choicePayload (Some B)) 6 in
  let next1 := callOf scenarioB "bob" next_round None 7 in
  let next2 := callOf scenarioB "alice" next_round None 8 in
  let d4 := runAll [next1; next2] (runAll [signal; decide] d) in
  PublicData.currentRound d4 = 2
  /\ exists new, currentRoundData d4 = Some new
                 /\ RoundData.status new = WAITING_SENDER_DECIDE.
Proof.
  intros d signal decide next1 next2 d4.
  assert (Hd : reachable scenarioB "stage1" d)
    by (apply reachable_runAll; [apply reachable_init|repeat constructor]).
  assert (Hr : exists r, currentRoundData d = Some r
                         /\ RoundData.status r = WAITING_SENDER_DECIDE)
    by (vm_compute; eauto).
  destruct Hr as (r & Hr & Hs).
  destruct (X17_round_can_be_played scenarioB "stage1" d r "alice" "bob"
              "bob" "alice" B receiver signal decide next1 next2 Hd Hr Hs
              eq_refl eq_refl ltac:(repeat split) ltac:(repeat split) eq_refl
              eq_refl eq_refl ltac:(repeat split) ltac:(repeat split)
              ltac:(repeat constructor))
    as (_ & H1 & H2 & _).
  split; [exact H1|]. apply H2. vm_compute. discriminate.
Defined.

(** X24: a game can always be played to its end.  From a reachable
    instance whose round n waits for the Sender, rounds played in turn
    (the Sender's sender_signal, the Receiver's receiver_choice with a
    choice, next_round of both), as many as there are rounds left, all
    succeed: afterwards currentRound is numRounds + 1, there is no
    current round, and every round 1..numRounds is stored and in
    SHOW_FEEDBACK. *)
Theorem X24_game_can_be_finished (config : Config.t) (stageId : string)
    (d : PublicData.t) (r : RoundData.t) (s u : string)
    (rounds : list RoundCalls) :
  reachable config stageId d ->
  currentRoundData d = Some r ->
  RoundData.status r = WAITING_SENDER_DECIDE ->
  PublicData.senderId d = Some s ->
  PublicData.receiverId d = Some u ->
  Forall (inTurn config stageId s u) rounds ->
  PublicData.currentRound d + Z.of_nat (length rounds)
  = Config.numRounds config + 1 ->
  let d' := runAll (concat (callsOf <$> rounds)) d in
  PublicData.currentRound d' = Config.numRounds config + 1
  /\ currentRoundData d' = None
  /\ forall m, 1 <= m <= Config.numRounds config ->
       exists r', PublicData.roundMap d' !! m = Some r'
                  /\ RoundData.status r' = SHOW_FEEDBACK.
Proof.
  intros Hd Hr Hs HS HR Hrounds Hlen d'.
  destruct (rounds_played config stageId s u rounds Hrounds d r Hd Hr Hs HS HR
              ltac:(lia)) as (Hd' & Hn & _ & _ & _).
  fold d' in Hd', Hn. rewrite Hlen in Hn.
  pose proof (reachable_Inv config stageId d' Hd') as HI.
  pose proof (reachable_Played config stageId d' Hd') as HP.
  split; [done|]. split.
  - unfold currentRoundData. rewrite Hn.
    destruct (PublicData.roundMap d' !! (Config.numRounds config + 1))
      as [x|] eqn:Hx; [|done].
    destruct (inv_generated _ _ _ HI _ (mk_is_Some _ _ Hx)) as [t Ht].
    destruct (getRoundDefault_inv _ _ _ _ _ Ht) as (_ & _ & ? & _). lia.
  - intros m Hm.
    destruct (runAll_kept (concat (callsOf <$> rounds)) d _ r Hr)
      as (r0 & Hr0 & _).
    fold d' in Hr0.
    assert (H1 : is_Some (PublicData.roundMap d' !! 1))
      by (by apply (Inv_round_1 config stageId d' (PublicData.currentRound d))).
    destruct (played_all _ _ _ HP m ltac:(lia) ltac:(lia) H1) as [r' Hr'].
    exists r'. split; [done|].
    apply (played_past _ _ _ HP m); [done|lia].
Qed.

Lemma X24_game_can_be_finished_witness :
  let d := runAll (opening scenarioB)
             (createSenderReceiverStagePublicData "stage1") in
  let rounds := furtherRoundCalls scenarioB <$> [5; 9; 13; 17] in
  let d' := runAll (concat (callsOf <$> rounds)) d in
  PublicData.currentRound d' = 5
  /\ currentRoundData d' = None
  /\ forall m, 1 <= m <= 4 ->
       exists r', PublicData.roundMap d' !! m = Some r'
                  /\ RoundData.status r' = SHOW_FEEDBACK.
Proof.
  intros d rounds d'.
  assert (Hd : reachable scenarioB "stage1" d)
    by (apply reachable_runAll; [apply reachable_init|repeat constructor]).
  assert (Hr : exists r, currentRoundData d = Some r
                         /\ RoundData.status r = WAITING_SENDER_DECIDE)
    by (vm_compute; eauto).
  destruct Hr as (r & Hr & Hs).
  apply (X24_game_can_be_finished scenarioB "stage1" d r "alice" "bob" rounds
           Hd Hr Hs eq_refl eq_refl).
  - repeat constructor; by eexists.
  - reflexivity.
Defined.

(** X18: [hashString] of a string of one-byte characters is the
    absolute value of the base-31 polynomial of its character codes
    (sum of code_i * 31^(len-1-i)) wrapped to a signed 32-bit integer,
    as Java's String.hashCode followed by Math.abs; so it lies between 0
    and 2^31 inclusive, and appending a character c to a string whose
    polynomial is h gives the polynomial 31 * h + c. *)
Theorem X18_hashString_polynomial (str : string) :
  hashString str = Z.abs (wrap32 (polynomial31 str 0))
  /\ 0 <= hashString str <= 2 ^ 31
  /\ forall c,
       polynomial31 (str +:+ String c EmptyString) 0
       = 31 * polynomial31 str 0 + charCodeAt c.
Proof.
  assert (H : hashString str = Z.abs (wrap32 (polynomial31 str 0))).
  { unfold hashString. change 0 with (wrap32 0) at 1.
    by rewrite hashLoop_polynomial. }
  split; [done|]. split.
  - rewrite H. pose proof (wrap32_range (polynomial31 str 0)). lia.
  - intros c. by rewrite polynomial31_app.
Qed.

Section Timer.
Import Countdown.

(** X19: for a whole number of seconds from 0 up to 2^53 - 1,
  [formatTime] prints the minutes (seconds div 60) in decimal, a
  colon, and the seconds of the minute (seconds mod 60) as exactly two
  decimal digits. *)
Theorem X19_formatTime_minutes_seconds (seconds : Z) :
0 <= seconds < 2 ^ 53 ->
formatTime seconds
= pretty (seconds / 60) +:+ ":"
  +:+ pretty (seconds mod 60 / 10) +:+ pretty (seconds mod 60 mod 10).
Proof.
intros Hs. unfold formatTime. cbv zeta.
rewrite floor_div_60 by done.
rewrite Z.rem_mod_nonneg by lia.
rewrite two_digits by (apply Z.mod_pos_bound; lia). done.
Qed.

Lemma X19_formatTime_minutes_seconds_witness : formatTime 125 = "2:05".
Proof.
rewrite (X19_formatTime_minutes_seconds 125); [reflexivity|lia].
Defined.

(** seconds below zero are not printed as a time: the seconds of the
  minute keep their sign and are not padded *)
Example formatTime_negative : formatTime (-5) = "-1:-5".
Proof. reflexivity. Qed.

(** X20: a [CountdownTimer] of n >= 1 seconds that is started once
  calls onTick with n-1, ..., n-k during its first k < n seconds and
  is then running with n-k seconds remaining; at second n it calls
  onTick(0) and then onComplete, and is stopped with no interval left,
  so that nothing that happens later short of a new start makes it
  call anything again: onComplete is called exactly once.  Stopped
  before second n, it never calls onComplete. *)
Theorem X20_countdown_completes_once (n : Z) (k : nat) :
1 <= n ->
let x := run (Start :: replicate k (Tick 1%nat)) (create n) in
(Z.of_nat k < n ->
 getRemaining x = n - Z.of_nat k
 /\ isRunning x = true
 /\ calls x = ticksOf n k
 /\ forall events, Start ∉ events ->
      calls (run (Stop :: events) x) = ticksOf n k)
/\ (n <= Z.of_nat k ->
    getRemaining x = 0
    /\ isRunning x = false
    /\ calls x = ticksOf n (Z.to_nat n) ++ [onComplete]
    /\ forall events, Start ∉ events -> run events x = x).
Proof.
intros Hn x. subst x. cbn [run foldl handle].
change (foldl handle ?y ?l) with (run l y). rewrite start_create.
split.
- intros Hk. rewrite run_counting by done. split_and!; try done.
  intros events Hno. cbn [run foldl handle].
  change (foldl handle ?y ?l) with (run l y).
  rewrite run_counting by done. rewrite idle_run; [done| |done].
  split; [done|]. cbn. set_solver.
- intros Hk. rewrite run_complete by done. split_and!; try done.
  intros events Hno. by apply idle_run.
Qed.

Lemma X20_countdown_completes_once_witness :
calls (run (Start :: replicate 5 (Tick 1%nat)) (create 3))
= [onTick 2; onTick 1; onTick 0; onComplete].
Proof.
apply (proj2 (X20_countdown_completes_once 3 5 ltac:(lia))). lia.
Defined.

(** a timer started twice keeps the first interval when it is stopped:
  it goes on counting, and calls onComplete again every second once
  the count is down *)
Example countdown_started_twice :
let x := run [Start; Start; Tick 1%nat; Tick 2%nat; Stop] (create 3) in
isRunning x = false
/\ calls (run [Tick 1%nat; Tick 1%nat; Tick 1%nat] x)
   = [onTick 2; onTick 1; onTick 0; onComplete;
      onTick (-1); onComplete; onTick (-2); onComplete].
Proof. vm_compute. done. Qed.

End Timer.

(** X21: a Sender who lets the time run out without confirming a
    choice, on a stage with requireParticipantClick, leaves both players
    without payoff.  [handleTimeoutSubmit] of the Sender's view then
    makes exactly one call, sender_signal with senderChoice null and
    isTimedOut true, and clears the selected option; on a reachable
    instance whose round waits for the Sender that call records
    senderChoice null, senderTimedOut true and both payoffs 0, and after
    the Receiver's receiver_choice, whatever the choice, both payoffs of
    the finished round are 0. *)
Theorem X21_unclicked_sender_gets_zero (config : Config.t) (stageId : string)
    (d : PublicData.t) (r : RoundData.t) (s u : string)
    (v : View.t) (st : View.Stage) (now : Z) :
  reachable config stageId d ->
  currentRoundData d = Some r ->
  RoundData.status r = WAITING_SENDER_DECIDE ->
  PublicData.senderId d = Some s ->
  PublicData.receiverId d = Some u ->
  View.stage v = Some st ->
  View.config st = config ->
  View.id st = stageId ->
  Config.requireParticipantClick config = true ->
  View.isDecidingLoading v = false ->
  View.hasConfirmedChoice v = false \/ View.selectedOption v = None ->
  let call :=
    View.mkCall stageId sender_signal
      (Payload.mk null (if View.allowTextMessage st then Some "" else None)
         None (View.publicId v) None
         (Some (View.getActiveTimeSeconds now v)) (Some true)) in
  let submit := View.handleTimeoutSubmit now true v in
  submit.2 = [call]
  /\ View.selectedOption submit.1 = None
  /\ forall env req,
       calledBy env req config s sender_signal -> View.carries req call ->
       let d1 := run env req d in
       (exists r1,
          currentRoundData d1 = Some r1
          /\ RoundData.status r1 = WAITING_RECEIVER_DECIDE
          /\ RoundData.senderChoice r1 = null
          /\ RoundData.senderTimedOut r1 = true
          /\ RoundData.senderPayoff r1 = val 0%Q
          /\ RoundData.receiverPayoff r1 = val 0%Q)
       /\ forall env' req' choice,
            calledBy env' req' config u receiver_choice ->
            Request.stageId req' = stageId ->
            Payload.receiverChoice (payloadOf req') = Some choice ->
            exists r2,
              currentRoundData (run env' req' d1) = Some r2
              /\ RoundData.status r2 = SHOW_FEEDBACK
              /\ RoundData.receiverChoice r2 = val choice
              /\ RoundData.senderPayoff r2 = val 0%Q
              /\ RoundData.receiverPayoff r2 = val 0%Q.
Proof.
  intros Hd Hr Hs HS HR Hst Hcfg Hid Hclick Hload Hnot call submit.
  assert (Hsub : submit
                 = (View.setSelected None (View.setDeciding true v), [call])).
  { subst submit call. unfold View.handleTimeoutSubmit.
    rewrite Hst, Hcfg, Hclick. unfold View.handleSenderSignalWithText.
    rewrite Hload, Hid.
    destruct Hnot as [-> | ->]; [done|].
    by destruct (View.hasConfirmedChoice v). }
  rewrite Hsub. split; [done|]. split; [done|].
  intros env req Hc (Hsid & _ & Hp) d1.
  pose proof (reachable_Inv config stageId d Hd) as HI.
  assert (Hcfg' : Env.stage env = Some config)
    by (by destruct Hc as (_ & _ & ? & _)).
  destruct (senderSignal_fields config stageId env req d s r HI Hc Hsid HS Hr
              Hs)
    as (r1 & Hrun & Hs1 & Hch & _ & Hto & _ & _ & Hpay).
  rewrite Hp in Hch, Hto, Hpay. cbn in Hch, Hto, Hpay.
  destruct (Hpay Hclick eq_refl) as [Hp1 Hp2].
  assert (Hr1 : currentRoundData d1 = Some r1)
    by (subst d1; rewrite Hrun; apply current_withRound).
  split; [by exists r1|].
  intros env' req' choice Hc' Hsid' Hchoice.
  assert (Hd1 : reachable config stageId d1)
    by (subst d1; by apply reachable_run).
  assert (Hcfg'' : Env.stage env' = Some config)
    by (by destruct Hc' as (_ & _ & ? & _)).
  destruct (receiverChoice_stored config stageId env' req' d1 u r1 choice)
    as (r2 & Hrun2 & Hs2 & Hrc & Hsc); try done.
  { by apply reachable_Inv. }
  { subst d1. by rewrite Hrun. }
  assert (Hr2 : currentRoundData (run env' req' d1) = Some r2)
    by (rewrite Hrun2; apply current_withRound).
  exists r2. split; [done|]. split; [done|]. split; [done|].
  assert (Hd2 : reachable config stageId (run env' req' d1))
    by (by apply reachable_run).
  destruct (played_round _ _ _ (reachable_Played _ _ _ Hd2) _ _ Hr2)
    as (_ & _ & H3).
  destruct (H3 Hs2) as (c & ? & ? & _ & Hq1 & Hq2 & _).
  rewrite Hq1, Hq2, payoffLogic_null; [done|congruence].
Qed.

Lemma X21_unclicked_sender_gets_zero_witness :
  let d := runAll (opening scenarioB)
             (createSenderReceiverStagePublicData "stage1") in
  let submit := View.handleTimeoutSubmit 21000 true scenarioView in
  let payload :=
    Payload.mk null (Some "") None (Some "alice") None
      (Some (View.getActiveTimeSeconds 21000 scenarioView)) (Some true) in
  let signal := callOf scenarioB "alice" sender_signal (Some payload) 5 in
  submit.2 = [View.mkCall "stage1" sender_signal payload]
  /\ exists r1,
      currentRoundData (run signal.1 signal.2 d) = Some r1
      /\ RoundData.senderPayoff r1 = val 0%Q
      /\ RoundData.receiverPayoff r1 = val 0%Q.
Proof.
  intros d submit payload signal.
  assert (Hd : reachable scenarioB "stage1" d)
    by (apply reachable_runAll; [apply reachable_init|repeat constructor]).
  assert (Hr : exists r, currentRoundData d = Some r
                         /\ RoundData.status r = WAITING_SENDER_DECIDE)
    by (vm_compute; eauto).
  destruct Hr as (r & Hr & Hs).
  destruct (X21_unclicked_sender_gets_zero scenarioB "stage1" d r "alice"
              "bob" scenarioView scenarioStage 21000 Hd Hr Hs eq_refl eq_refl
              eq_refl eq_refl eq_refl eq_refl eq_refl (or_introl eq_refl))
    as (H1 & _ & H2).
  split; [exact H1|].
  destruct (H2 signal.1 signal.2 ltac:(repeat split) ltac:(repeat split))
    as [(r1 & Hr1 & _ & _ & _ & Hp1 & Hp2) _].
  exists r1. split; [exact Hr1|]. split; [exact Hp1|exact Hp2].
Defined.

(** X22: what the Sender typed and confirmed is what is sent and
    stored.  When the Sender types a non-empty text for an option (on a
    stage without button press) and confirms, [handleConfirmChoice]
    makes no call if a time limit runs and the call below at once if
    none does; [handleTimeoutSubmit] on the confirmed view makes exactly
    that one call: sender_signal with the option, the typed text if text
    messages are allowed, isTimedOut false, and the active time measured
    to the click; while the call has not settled no further call is
    made.  On a reachable instance whose round waits for the Sender the
    call records that choice and text, with senderTimedOut false. *)
Theorem X22_confirmed_choice_is_sent (config : Config.t) (stageId : string)
    (d : PublicData.t) (r : RoundData.t) (s : string)
    (v : View.t) (st : View.Stage) (key : Choice) (value : string)
    (clicked : Z) :
  reachable config stageId d ->
  currentRoundData d = Some r ->
  RoundData.status r = WAITING_SENDER_DECIDE ->
  PublicData.senderId d = Some s ->
  View.stage v = Some st ->
  View.config st = config ->
  View.id st = stageId ->
  View.publicId v = Some s ->
  View.allowButtonPress st = false ->
  View.isDecidingLoading v = false ->
  truthy value = true ->
  let limit := default 0%Q (View.senderTimeLimitInSeconds st) in
  let typed := View.handleTyping key value v in
  let confirmed := View.setConfirmed clicked typed in
  let call (now : Z) :=
    View.mkCall stageId sender_signal
      (Payload.mk (val key)
         (if View.allowTextMessage st then Some value else None)
         None (Some s) None
         (Some (View.getActiveTimeSeconds now confirmed)) (Some false)) in
  View.handleConfirmChoice clicked (Some d) typed
  = Ok (if Qlt_le_dec 0 limit then (confirmed, [])
        else (View.setDeciding true confirmed, [call clicked]))
  /\ (forall now,
        View.handleTimeoutSubmit now true confirmed
        = (View.setDeciding true confirmed, [call now]))
  /\ (forall now isSender,
        (View.handleTimeoutSubmit now isSender
           (View.setDeciding true confirmed)).2 = [])
  /\ (clicked <> 0 -> View.pageRenderTimestamp v <> 0 ->
      forall now,
        Payload.activeTimeSeconds (View.payload (call now))
        = Some (div (inject_Z (clicked - View.pageRenderTimestamp v)) 1000))
  /\ forall now env req,
       calledBy env req config s sender_signal ->
       View.carries req (call now) ->
       exists r1,
         currentRoundData (run env req d) = Some r1
         /\ RoundData.status r1 = WAITING_RECEIVER_DECIDE
         /\ RoundData.senderChoice r1 = val key
         /\ RoundData.senderMessage r1
            = (if View.allowTextMessage st then val value else null)
         /\ RoundData.senderTimedOut r1 = false.
Proof.
  intros Hd Hr Hs HS Hst Hcfg Hid Hpub Hbutton Hload Hvalue
    limit typed confirmed call.
  assert (Htyped : View.stage typed = Some st
                   /\ View.publicId typed = Some s
                   /\ View.isDecidingLoading typed = false
                   /\ View.selectedOption typed = Some key
                   /\ View.messageFor key typed = value
                   /\ View.pageRenderTimestamp typed
                      = View.pageRenderTimestamp v).
  { subst typed. unfold View.handleTyping.
    destruct key; cbn; rewrite Hst; cbn; rewrite Hbutton; cbn; done. }
  destruct Htyped as (Tst & Tpub & Tload & Tsel & Tmsg & Tpage).
  assert (Hsend : forall now,
             View.handleTimeoutSubmit now true confirmed
             = (View.setDeciding true confirmed, [call now])).
  { intros now. unfold View.handleTimeoutSubmit. subst confirmed call. cbn.
    rewrite Tst, Tsel. unfold View.handleSenderSignalWithText. cbn.
    rewrite Tload, Tpub, Hid.
    replace (View.messageFor key (View.setConfirmed clicked typed))
      with value by (by destruct key). done. }
  assert (Hsender : View.isSenderRole (Some d) typed = true).
  { unfold View.isSenderRole. rewrite HS, Tpub. apply String.eqb_refl. }
  split_and!.
  - unfold View.handleConfirmChoice.
    rewrite Tsel, Tst, Hsender. cbn [orThrow mbind Result_bind]. fold limit.
    fold confirmed. destruct (Qlt_le_dec 0 limit); [done|].
    by rewrite Hsend.
  - done.
  - intros now isSender. unfold View.handleTimeoutSubmit. subst confirmed.
    cbn. rewrite Tst, Tsel. cbn. by destruct isSender.
  - intros Hc0 Hp0 now. subst call. cbn. f_equal.
    unfold View.getActiveTimeSeconds. subst confirmed. cbn. rewrite Tpage.
    destruct (Z.eqb_spec (View.pageRenderTimestamp v) 0); [done|].
    by destruct (Z.eqb_spec clicked 0).
  - intros now env req Hc (Hsid & _ & Hp).
    pose proof (reachable_Inv config stageId d Hd) as HI.
    destruct (senderSignal_fields config stageId env req d s r HI Hc Hsid HS
                Hr Hs)
      as (r1 & Hrun & Hs1 & Hch & Hmsg & Hto & _).
    rewrite Hp in Hch, Hmsg, Hto. cbn in Hch, Hmsg, Hto.
    exists r1. split; [rewrite Hrun; apply current_withRound|].
    split_and!; try done.
    rewrite Hmsg. destruct (View.allowTextMessage st); [|done].
    cbn. by rewrite Hvalue.
Qed.

Lemma X22_confirmed_choice_is_sent_witness :
  let d := runAll (opening scenarioB)
             (createSenderReceiverStagePublicData "stage1") in
  let typed := View.handleTyping B "Beta is better" scenarioView in
  let confirmed := View.setConfirmed 9000 typed in
  View.handleConfirmChoice 9000 (Some d) typed = Ok (confirmed, [])
  /\ exists call,
      (View.handleTimeoutSubmit 21000 true confirmed).2 = [call]
      /\ Payload.senderChoice (View.payload call) = val B
      /\ Payload.senderMessage (View.payload call) = Some "Beta is better"
      /\ Payload.activeTimeSeconds (View.payload call)
         = Some (div (inject_Z (9000 - 1000)) 1000).
Proof.
  intros d typed confirmed.
  assert (Hd : reachable scenarioB "stage1" d)
    by (apply reachable_runAll; [apply reachable_init|repeat constructor]).
  assert (Hr : exists r, currentRoundData d = Some r
                         /\ RoundData.status r = WAITING_SENDER_DECIDE)
    by (vm_compute; eauto).
  destruct Hr as (r & Hr & Hs).
  destruct (X22_confirmed_choice_is_sent scenarioB "stage1" d r "alice"
              scenarioView scenarioStage B "Beta is better" 9000
              Hd Hr Hs eq_refl eq_refl eq_refl eq_refl eq_refl eq_refl eq_refl
              eq_refl)
    as (H1 & H2 & _ & H4 & _).
  split; [exact H1|].
  eexists. split; [exact (f_equal snd (H2 21000))|].
  split; [reflexivity|]. split; [reflexivity|].
  exact (H4 ltac:(discriminate) ltac:(discriminate) 21000).
Defined.

(** X23: a returning participant is given the old role again.  When
    the view of a participant who holds no role yet detects an earlier
    role (the role held in another Sender-Receiver stage of the cohort,
    not shown when somebody else holds it on this stage), the join
    button makes one assign_role call that requests this role, and on a
    reachable instance with a valid configuration (at least one round,
    probability in [0,1]) that is the document the view has seen, the
    call succeeds and gives the participant exactly this role. *)
Theorem X23_returning_participant_rejoins (config : Config.t)
    (stageId : string) (d : PublicData.t) (myId : string) (role : Role)
    (v : View.t) (st : View.Stage)
    (stagePublicDataMap : list (string * PublicData.t)) :
  reachable config stageId d ->
  1 <= Config.numRounds config < 2 ^ 32 ->
  (0 <= probabilityOf config)%Q -> (probabilityOf config <= 1)%Q ->
  View.id st = stageId ->
  View.publicId v = Some myId ->
  truthy myId = true ->
  View.isSignalingLoading v = false ->
  View.lookupStage stageId stagePublicDataMap = Some d ->
  playerOf d sender <> Some myId ->
  playerOf d receiver <> Some myId ->
  let detected := View.detectPreviousRole st stagePublicDataMap v in
  View.detectedPreviousRole detected = Some role ->
  let call :=
    View.mkCall stageId assign_role
      (Payload.mk undefined None None (Some myId) (Some role) None None) in
  (exists doc, doc ∈ stagePublicDataMap /\ doc.1 <> stageId
               /\ PublicData.kind doc.2 = SENDER_RECEIVER
               /\ playerOf doc.2 role = Some myId)
  /\ (View.assignedRole st myId (View.detectedPreviousRole detected)
        detected).2 = [call]
  /\ forall env req,
       calledBy env req config myId assign_role -> View.carries req call ->
       (exists ws, submitSenderReceiverAction env req (Some d) = Ok ws)
       /\ playerOf (run env req d) role = Some myId
       /\ playerOf (run env req d) (partner role) = playerOf d (partner role).
Proof.
  intros Hd Hn Hp0 Hp1 Hid Hpub Hme Hload Hlook HnS HnR detected Hrole call.
  rewrite <- Hid in Hlook.
  destruct (detectPreviousRole_Some st stagePublicDataMap v myId role d
              Hpub Hme Hlook Hrole) as [Hfound Hfree].
  rewrite foundRole_historicalRoleOf, Hid in Hfound.
  split; [by apply historicalRoleOf_held|].
  assert (Hfree' : truthyId (playerOf d role) = false).
  { destruct Hfree as [|Hheld]; [done|]. by destruct role. }
  split.
  { rewrite Hrole. unfold View.assignedRole. subst detected.
    unfold View.detectPreviousRole. rewrite Hpub, Hme. cbn.
    by rewrite Hload, Hid. }
  intros env req Hc (Hsid & _ & Hpay). subst call. cbn in Hsid, Hpay.
  pose proof (reachable_Inv config stageId d Hd) as HI.
  assert (HuS : isUser (PublicData.senderId d) myId = false)
    by (by apply isUser_false).
  assert (HuR : isUser (PublicData.receiverId d) myId = false)
    by (by apply isUser_false).
  assert (Hws : exists rest,
             submitSenderReceiverAction env req (Some d)
             = Ok (setPlayer role myId :: rest)
             /\ (rest = []
                 \/ exists r1, rest = [PublicData.w_round 1 r1;
                                       PublicData.w_currentRound 1])).
  { rewrite (submit_assignRole _ _ _ _ _ Hc). unfold assignRole.
    rewrite HuS, HuR. cbn [orb]. rewrite Hpay. cbn [Payload.requestedRole].
    rewrite assignUpdates_requested, Hfree'. cbn [mbind Result_bind].
    destruct (startGameIfReady _ _ _ _) as [o|e] eqn:Hstart.
    - cbn [mbind Result_bind]. exists (default [] o). split; [done|].
      destruct (startGameIfReady_writes _ _ _ _ _ Hstart) as [->|[r1 ->]];
        [by left|right; by exists r1].
    - exfalso. revert Hstart.
      unfold startGameIfReady, createNewRound.
      destruct (negb _ || negb _); [done|].
      case_bool_decide; [done|].
      destruct (getRoundDefault_valid 1 (Config.numRounds config)
                  (probabilityOf config)
                  (pairSeedOf
                     (PublicData.senderId
                        (PublicData.applyAll d [setPlayer role myId]))
                     (PublicData.receiverId
                        (PublicData.applyAll d [setPlayer role myId]))
                     (Request.stageId req)) ltac:(lia) ltac:(lia) Hp0 Hp1)
        as [t Ht].
      by rewrite Ht. }
  destruct Hws as (rest & Hws & Hrest).
  split; [by eexists|].
  unfold run. rewrite Hws. cbn [stored].
  destruct (playerOf_setPlayer d role myId) as (P1 & P2 & _).
  destruct Hrest as [->|[r1 ->]]; [done|].
  unfold PublicData.applyAll. cbn [foldl].
  split; [by destruct role|by destruct role].
Qed.

Lemma X23_returning_participant_rejoins_witness :
  let earlier :=
    runAll [callOf scenarioB "bob" assign_role None 1;
            callOf scenarioB "alice" assign_role None 2]
      (createSenderReceiverStagePublicData "stage0") in
  let d := createSenderReceiverStagePublicData "stage1" in
  let entries := [("stage0", earlier); ("stage1", d)] in
  let detected :=
    View.detectPreviousRole scenarioStage entries scenarioView in
  let join :=
    callOf scenarioB "alice" assign_role
      (Some (Payload.mk undefined None None (Some "alice") (Some receiver)
               None None)) 3 in
  View.detectedPreviousRole detected = Some receiver
  /\ playerOf (run join.1 join.2 d) receiver = Some "alice".
Proof.
  intros earlier d entries detected join.
  assert (Hrole : View.detectedPreviousRole detected = Some receiver)
    by reflexivity.
  split; [exact Hrole|].
  destruct (X23_returning_participant_rejoins scenarioB "stage1" d "alice"
              receiver scenarioView scenarioStage entries
              (reachable_init scenarioB "stage1") ltac:(cbn; lia)
              ltac:(discriminate) ltac:(discriminate) eq_refl eq_refl
              eq_refl eq_refl eq_refl ltac:(discriminate)
              ltac:(discriminate) Hrole)
    as (_ & _ & H).
  exact (proj1 (proj2 (H join.1 join.2 ltac:(repeat split)
                         ltac:(repeat split)))).
Defined.

(** X25: a Receiver who lets the time run out is given a choice, also
    with requireParticipantClick.  Without a confirmed choice,
    [handleTimeoutSubmit] of the Receiver's view makes exactly one call,
    receiver_choice with the selected option if there is one and 'A'
    otherwise, and isTimedOut true; on a reachable instance whose round
    waits for the Receiver that call finishes the round with this
    choice, receiverTimedOut true, and the payoffs of the payoff table
    for it ((0, 0) only if the sender choice is null). *)
Theorem X25_unclicked_receiver_chooses (config : Config.t) (stageId : string)
    (d : PublicData.t) (r : RoundData.t) (u : string)
    (v : View.t) (st : View.Stage) (now : Z) :
  reachable config stageId d ->
  currentRoundData d = Some r ->
  RoundData.status r = WAITING_RECEIVER_DECIDE ->
  PublicData.receiverId d = Some u ->
  View.stage v = Some st ->
  View.config st = config ->
  View.id st = stageId ->
  View.isDecidingLoading v = false ->
  View.hasConfirmedChoice v = false \/ View.selectedOption v = None ->
  let choice := default A (View.selectedOption v) in
  let call :=
    View.mkCall stageId receiver_choice
      (Payload.mk undefined None (Some choice) (View.publicId v) None
         (Some (View.getActiveTimeSeconds now v)) (Some true)) in
  View.handleTimeoutSubmit now false v = (View.setDeciding true v, [call])
  /\ forall env req,
       calledBy env req config u receiver_choice -> View.carries req call ->
       exists r1,
         currentRoundData (run env req d) = Some r1
         /\ RoundData.status r1 = SHOW_FEEDBACK
         /\ RoundData.receiverChoice r1 = val choice
         /\ RoundData.receiverTimedOut r1 = true
         /\ (RoundData.senderPayoff r1, RoundData.receiverPayoff r1)
            = match RoundData.senderChoice r with
              | null => (val 0%Q, val 0%Q)
              | _ =>
                  (val (calculatePayoffs choice (RoundData.trueState r)
                          config).1,
                   val (calculatePayoffs choice (RoundData.trueState r)
                          config).2)
              end.
Proof.
  intros Hd Hr Hs HR Hst Hcfg Hid Hload Hnot choice call.
  split.
  { subst call choice. unfold View.handleTimeoutSubmit.
    rewrite Hst. unfold View.handleReceiverChoice. rewrite Hload, Hid.
    destruct Hnot as [-> | ->]; [done|].
    by destruct (View.hasConfirmedChoice v). }
  intros env req Hc (Hsid & _ & Hp). subst call. cbn in Hsid, Hp.
  pose proof (reachable_Inv config stageId d Hd) as HI.
  destruct (receiverChoice_fields config stageId env req d u r choice HI Hc
              Hsid HR Hr Hs)
    as (r1 & Hrun & Hs1 & Hrc & Hto & _ & Hp1 & Hp2 & _);
    [by rewrite Hp|].
  rewrite Hp in Hto. cbn in Hto.
  exists r1. split; [rewrite Hrun; apply current_withRound|].
  split_and!; try done.
  rewrite Hp1, Hp2.
  destruct (RoundData.senderChoice r) as [| |c] eqn:Hsc.
  - by rewrite payoffLogic_calculatePayoffs by (by rewrite Hsc).
  - by rewrite payoffLogic_null.
  - by rewrite payoffLogic_calculatePayoffs by (by rewrite Hsc).
Qed.

Lemma X25_unclicked_receiver_chooses_witness :
  let d := runAll (opening scenarioB ++
                   [callOf scenarioB "alice" sender_signal
                      (signalPayload (val A) None) 5])
             (createSenderReceiverStagePublicData "stage1") in
  let v := View.mk (Some scenarioStage) (Some "bob") false false "" "" None
             false None None 6000 in
  let payload :=
    Payload.mk undefined None (Some A) (Some "bob") None
      (Some (View.getActiveTimeSeconds 26000 v)) (Some true) in
  let decide := callOf scenarioB "bob" receiver_choice (Some payload) 26 in
  (View.handleTimeoutSubmit 26000 false v).2
  = [View.mkCall "stage1" receiver_choice payload]
  /\ exists r1,
      currentRoundData (run decide.1 decide.2 d) = Some r1
      /\ RoundData.receiverChoice r1 = val A
      /\ RoundData.senderPayoff r1 = val 30%Q
      /\ RoundData.receiverPayoff r1 = val 20%Q.
Proof.
  intros d v payload decide.
  assert (Hd : reachable scenarioB "stage1" d)
    by (apply reachable_runAll; [apply reachable_init|repeat constructor]).
  assert (Hr : exists r, currentRoundData d = Some r
                         /\ RoundData.status r = WAITING_RECEIVER_DECIDE
                         /\ RoundData.senderChoice r = val A)
    by (vm_compute; eauto 10).
  destruct Hr as (r & Hr & Hs & Hsc).
  destruct (X25_unclicked_receiver_chooses scenarioB "stage1" d r "bob" v
              scenarioStage 26000 Hd Hr Hs eq_refl eq_refl eq_refl eq_refl
              eq_refl (or_introl eq_refl))
    as (H1 & H2).
  split; [exact (f_equal snd H1)|].
  destruct (H2 decide.1 decide.2 ltac:(repeat split) ltac:(repeat split))
    as (r1 & Hr1 & _ & Hrc & _ & Hpay).
  rewrite Hsc in Hpay. injection Hpay as Hp1 Hp2.
  exists r1. split; [exact Hr1|]. split; [exact Hrc|].
  split; [exact Hp1|exact Hp2].
Defined.
